(* ===== verification/_CoqProject ===== *)
-Q . S2P
Prelude.v
Errors.v
Retry.v
EnvConfig.v
Registry.v
ThinkTags.v
Http.v
Json.v
Stream.v
OpenAI.v
DeepSeek.v
SiliconFlow.v
Volc.v
Gemini.v
Zhipu.v
Anyscale.v
Compat.v
Cohere.v
Ollama.v
Cache.v
Results.v
Tasks.v
Routes.v
TaskRoutes.v
Processing.v
ChatLogs.v
ApiManager.v
Settings.v
Routing.v
