(* ===== verification/Prelude.v ===== *)
(** * A verification development for the QianLu LLM-provider backend

    The program (Python, [src/]) is a FastAPI backend that forwards text to
    one of many interchangeable LLM vendors and keeps the results.  Its
    parts and how they interact:

    - the provider registry ([src/src/providers/factory.py]) loads a
      metadata file, imports each handler class and maps standard names and
      aliases to classes; [get_handler] builds a handler from the [.env]
      file and the process environment, filtered by the provider's
      [env_prefix];
    - the adapters ([src/src/providers/handlers/*.py]), subclasses of
      [BaseAPIHandler] ([src/src/providers/base.py]), read their settings
      from that configuration and at every call ([get_current_param]),
      send HTTP requests under [tenacity] retry decorators and turn
      responses and failures into results or exceptions of the two error
      modules ([src/src/validation/error_handler.py],
      [src/src/utils/error_handler.py]);
    - the cache ([src/src/utils/cache.py]) keeps analysis results in an LRU
      memory store backed by JSON files; its [save_analysis_result] and
      [get_analysis_result] store and read results through the same files
      and the results table ([src/src/database/manager.py]), and the
      results routes ([src/src/api/routes/results.py]) call them, the
      table's row operations and a legacy directory of their own;
    - the task manager ([src/src/core/tasks/manager.py]) keeps tasks in a
      table and the worker ([src/src/core/tasks/worker.py]) polls it and
      runs each pending task through a provider, while the API may update
      or cancel the same task between the worker's awaits; the task
      routes ([src/src/api/routes/tasks.py], [async_tasks.py]) read and
      cancel tasks through the manager; the chat history routes
      ([src/src/api/routes/chat_history.py]) save, list and read chat logs
      as JSON files of the same file system;
    - the processing package ([src/src/core/processing]) splits long texts
      into chunks ([ChunkSplitter]), extracts the analysis, score and
      suggestions of a response ([FormatEnforcer]), cleans them
      ([PostProcessor]) and checks them against style rules
      ([StyleValidator], which calls [FormatEnforcer]);
    - the configuration manager ([src/src/config/api_manager.py]) edits
      the [.env] file and tells whether a provider is configured in it,
      resolving names through the factory; the style transfer
      ([core/processing/style_transfer.py]) asks it before it gets a
      handler from the factory;
    - the settings routes ([src/src/api/routes/settings.py]) write
      settings to [.env] through [update_dotenv_vars]
      ([src/src/utils/config.py]) and add a provider: they ask the
      factory for its metadata, write the provider's keys, render a
      handler file from a template, upsert the provider's entry in the
      metadata file the factory reads at start-up and try to restart the
      server;
    - the application ([src/backend_main.py]) includes the routers of
      every route module, each under a prefix, in a fixed order; a
      request is served by the first route whose method and path match.

    ** Files, in dependency order

    - [Prelude] (this file): strings and the Python string methods used
      ([lower], [strip], [replace], [startswith], substring [in]); the
      insertion-ordered [dict] as an association list ([dict_get],
      [dict_set], [dict_merge]); values [pyval] with [float] as an exact
      rational, an infinity or NaN; [int()] and [float()] of a string; the
      [result] type of raised exceptions with its [let?] notation; the [py]
      hint databases and shared lemmas.
    - [Errors] ([Module Exc]): the classes of both error modules and the
      library exceptions, their MRO, their constructors' signatures (an
      unknown or missing keyword raises [TypeError], as in CPython) and
      [is_retryable_exception].
    - [Retry]: [Module Sync] is [utils/retry.py]'s decorator;
      [Module Tenacity] the behaviour of [tenacity.retry] with
      [stop_after_attempt], [wait_exponential], a [retry=] predicate called
      on the retry state and [reraise=True].
    - [EnvConfig]: value coercion and prefix filtering of [get_handler]
      and [BaseAPIHandler.get_current_param].
    - [Registry]: [initialize_handlers], [_initialize_factory],
      [standardize_provider_name], both [get_handler]s and
      [get_provider_metadata] over an explicit heap holding the three
      module-level dictionaries and the class attributes that alias them;
      importing a module is an input ([World]).
    - [ThinkTags]: [OllamaReportHandler._remove_think_tags] as the scan
      [re.sub] performs.
    - [Http], [Json]: the Python operations on decoded JSON ([in], [v[k]],
      [.get], [len], iteration), HTTP outcomes, asynchronous generators as
      item lists with their ending, chat messages, payload parameters; a
      strict [json.loads] and the rendering used in concrete runs.
    - [Stream]: the two SSE line loops of the adapters. [OpenAI]: the
      payload and content extraction shared by the OpenAI-compatible ones.
    - One file per adapter, each a [Module] with the handler record, its
      constructor, [_get_headers], [_make_request] (body, [except] clauses
      and decorator), [generate_text], [stream_chat] and the model list:
      [DeepSeek], [SiliconFlow] (with the synchronous [generate] over the
      three event-loop cases), [Volc] (Volc Engine, reusing SiliconFlow's
      event loops), [Gemini] (Google Gemini, whose SDK calls are inputs:
      message conversion, generation config, the stream over the SDK's
      response, [generate] over the stream, [analyze_image]), [Zhipu]
      (with JWT signing), [Anyscale], [Compat] (Groq, Together AI and
      Perplexity AI as one family parameterised by a profile), [Cohere],
      [Ollama].
    - [Cache] ([Module Cache]): the state of [TextProcessingCache] as a
      record over a [gmap] memory store, its key order and a file system
      [gmap]; every method, and the step relation of all of them.
    - [Results]: the results table ([Module Db]) and the cache's
      [save_analysis_result] and [get_analysis_result] ([Module
      Results]), composed with [Cache].
    - [Tasks]: the task table ([Module TaskManager]), with [Task]'s
      pydantic check of its [Optional[Dict]] result and metadata in
      [row_to_task] and [create_task], the worker ([Module Worker]) with
      the environment's writes between its awaits as a function [env], and
      the system step relation ([Section System]).
    - [Routes] ([Module ResultsApi]): every route of
      [api/routes/results.py] as a function of its request, the results
      table and the file system, answering a JSON body or raising
      [HTTPException].
    - [TaskRoutes] ([Module TaskApi]): the routes of [api/routes/tasks.py]
      and [api/routes/async_tasks.py] over [TaskManager]'s table, with the
      id clean-up and the object each route holds ([task_obj]: a task,
      [None], or the coroutine the async router never awaits).
    - [ApiManager] ([Module ApiManager]): [save_settings_to_env] over the
      dictionary [dotenv_values] reads from the [.env] file; python-dotenv's
      [set_key] is exact for plain keys (no ['='], ['#'], white space or
      leading quote) and for a plain key followed by a newline, and what
      its parser reads back for any other key is an input
      ([DotenvOther]);
      [is_provider_configured] and [get_config] over [Registry]'s
      factory, and [StyleTransfer.transfer_style] with the handler's
      methods as inputs.
    - [ChatLogs] ([Module ChatLogApi]): the three chat history routes,
      the save writing a file named after the time, the model and the
      uuid, the detail reading [{id}.json], the list reading the
      directory newest first.
    - [Processing] ([Module Processing]): [split_text] with Python's
      slice and [rfind] index rules, [enforce_format] with its regular
      expressions written as the scans [re.search] performs, [process]
      with its [re.sub] passes and score clamp, [validate_response].
    - [Settings] ([Module Settings]): [update_dotenv_vars], the
      [save-all] and [add-provider] routes with [create_handler_file] and
      [update_provider_metadata], and the two read-only settings routes,
      over a state holding the [.env] dictionary, the metadata file of
      [Registry], the files by path and the factory's state.
    - [Routing] ([Module AppRoutes]): the routers of every route module
      with their prefixes and decorated paths, the table [create_app]
      builds from them, and Starlette's dispatch over it (first full
      match, [405] on a path matched under another method, the slash
      redirect, the static mount); the two route modules the repository
      lacks are section variables.

    ** What the theorems show

    - Registry and configuration: after start-up, names resolve to the
      last registrant ([standardize_after_startup]); the abstract registry
      is refined by [initialize_handlers]; calling [get_handler] first
      detaches the globals; the environment overrides the [.env] file;
      [get_current_param] returns the default or a value of the requested
      type, and the runtime key alone once present
      ([get_current_param_typed]).
    - Adapters: the number of requests each call makes (the decorators
      never retry, since [is_retryable_exception] receives a retry state),
      the exact exception each failure raises (often [TypeError] from a
      constructor given a keyword it does not take), parameter precedence,
      how each stream ends, and equivalences between the loops.  Gemini's
      stream never yields content over the SDK's synchronous response
      ([generate_sync_response_fails]) and its message conversion sends a
      system prompt twice ([convert_system_prompt_twice]); Volc's
      constructor yields an [int] timeout ([volc_init_wf]); none of the
      Groq, Together and Perplexity classes can be built from the
      factory's configuration ([construct_rejects_factory_config]); a chat
      message with a content other than a string makes Ollama's [chat]
      raise before any request ([chat_unsliceable_content]).
    - Cache: the well-formedness invariant holds in every reachable state
      ([reachable_wf], by rule induction); set/get and disk round trips;
      LRU eviction; the counts of [clear_expired]; the loss of saved
      results at a restart ([saved_result_lost_on_restart]).
    - Tasks: every pending row of a reachable table converts to [Task]
      ([reachable_pending_ok], by rule induction), though a completed task
      whose result is a JSON array is never read again
      ([list_result_unreadable]); the worker overrides a cancellation
      ([process_task_overrides_cancel]); liveness: left alone, the worker
      drains the pending tasks ([worker_drains]).
    - Results routes: a literature result saved through the route is read
      back with the server's timestamp ([save_literature_get_roundtrip]);
      saving a text analysis and deleting it restores the table and
      removes exactly its file ([save_text_then_delete_restores]); the
      legacy copy the save route writes is never where the legacy read
      looks ([save_literature_legacy_unreachable]).
    - Task routes: a created task is read back through
      [GET /api/tasks/{id}], with or without a suffix after an underscore
      ([create_then_get_status]); a cancel through the route answers
      success and the task then reads as cancelled
      ([cancel_then_get_status]); every read of the async router fails
      with [AttributeError] ([async_get_task_status_fails]).
    - Configuration: saving a provider's key makes it configured, saving
      [None] for it makes it unconfigured ([save_then_configured]); the
      style transfer calls the handler whatever the configuration check
      answers ([transfer_style_ignores_configuration]).
    - Chat history routes: the id the save route returns is never found
      by the detail route ([save_returned_id_not_found]), while the file
      stem the list route gives is ([save_then_detail_by_stem],
      [listed_ids_found]).
    - Text processing: [split_text] never returns on some texts
      ([split_text_default_stalls]), returns and loses nothing without
      overlap ([split_text_no_overlap_roundtrip]) and returns on texts
      without ['.'] ([split_text_terminates_no_period]); the score
      [enforce_format] reads is always [2.0] or [0.0]
      ([enforce_format_score_constant]), so the validator's score rules
      never fail ([validate_score_checks_dead]); [process] is one
      [\s+] pass and a [strip] ([process_single_pass]) and clamps every
      number into [0, 100] ([process_score_in_range]).
    - Settings routes: a provider added through the route is resolved by
      a factory started on the new metadata file but not by the running
      one ([add_provider_needs_restart]); on plain keys and values the
      route writes only the keys of the provider's prefix
      ([add_provider_env_scoped]) and is idempotent on [.env]
      ([add_provider_env_idempotent]); the metadata write is an upsert
      ([update_provider_metadata_upsert]); what [save-all] saves with
      plain keys and values is read back ([save_all_settings_roundtrip]) and
      its own failure detail never reaches the client
      ([save_all_settings_detail_lost]).
    - Routing: five endpoints are never reached, whatever the missing
      modules declare ([routes_unreachable]); the templates list answers
      at [/api/api/templates] ([templates_route_misplaced]); the modelled
      settings, results and task routes are the ones that serve their
      paths ([served_routes]).

    ** Bounds and fuel

    The [Tenacity] loop is bounded by [stop_after_attempt] (3 in every
    adapter). [ThinkTags.sub_think] is fuelled by the text's length, which
    is enough since each step consumes a character ([sub_think_fuel]); the
    JSON parser is fuelled by the input's length plus one for the same
    reason.  [Worker.ticks n] runs [n] rounds; [worker_drains] shows that
    the number of pending tasks is enough.  [Processing.split_text] takes
    the number of iterations of its [while] loop as fuel, [None] meaning
    the loop has not finished: [len(text) + 1] is enough whenever [start]
    grows ([split_text_no_overlap_roundtrip],
    [split_text_terminates_no_period]), and no fuel is enough for the
    texts of [split_text_default_stalls].  Integers are unbounded, as in
    Python; floats are exact, since no property depends on rounding.

    ** Modelling conventions

    Strings are ASCII, or UTF-8 bytes where the code holds other text
    (the keywords of [StyleValidator], whose [len] counts the characters,
    [Processing.len_cp]).  The [.env] file is the dictionary
    [dotenv_values] reads from it; a value is read back as [set_key] was
    given it, which python-dotenv does for a value without a backslash
    or a ['$'] ([ApiManager.plain_value]), the domain of the settings
    theorems.  The interpreter's version is an input where the code's
    behaviour depends on it ([Ollama.SliceHash]: slicing a dict raises
    [KeyError] from Python 3.12 on, [TypeError] before).  Starlette's
    [Route]s answer [HEAD] with [GET], FastAPI's [APIRoute]s only their
    declared methods.  I/O (the [.env] file, [os.environ], the metadata
    file, HTTP, the clock, the file system, the return code of a
    subprocess) is an input of the operation that performs it; a network is a function from the attempt number to
    an outcome.  Exceptions are values of [result exc A] and a [try/except]
    is a [match]; logging is not modelled.

    ** Not modelled

    The FastAPI routes other than the results, task, chat history and
    settings ones (request parsing and response building around the
    factory, the services and the files), the services packages (orchestration over
    handlers and files), [APIManager.get_provider_schema] (which imports
    the schemas of the providers routes), the utilities other than the
    cache, retry and [update_dotenv_vars] (file, logging and
    configuration helpers, mostly I/O; [ConfigManager] is built only by
    a dependency no route uses), the module [utils/helpers.py], which imports a module that does
    not exist and cannot be loaded, and the handler [002.py], which does
    not parse.  The SDK [google.generativeai] is not modelled: what its
    calls return or raise is an input of the Gemini operations, with one
    fact taken from its interface, that the streamed result of
    [generate_content] has no [__aiter__].  The manifest lists each part
    with its reason. *)

From stdpp Require Export base list strings sets.
From Stdlib Require Export String Ascii ZArith QArith Lia DecimalString.
Close Scope Q_scope.

(** [String] is loaded after the list library: [length] is the list one. *)
Abbreviation length := List.length (only parsing).

Declare Scope py_scope.
Delimit Scope py_scope with py.

(** ** Results: a Python call either returns or raises *)

Inductive result (E A : Type) : Type :=
  | Ok (a : A)
  | Err (e : E).
Arguments Ok {E A} a.
Arguments Err {E A} e.

Definition rbind {E A B} (r : result E A) (k : A -> result E B) : result E B :=
  match r with Ok a => k a | Err e => Err e end.

Notation "'let?' x ':=' c 'in' k" := (rbind c (fun x => k))
  (at level 10, x name, c at level 100, k at level 200) : py_scope.
Open Scope py_scope.

Create HintDb py discriminated.
Create Rewrite HintDb py_rw.

Lemma rbind_ok {E A B} (a : A) (k : A -> result E B) : rbind (Ok a) k = k a.
Proof. reflexivity. Qed.

Lemma rbind_err {E A B} (e : E) (k : A -> result E B) : rbind (Err e) k = Err e.
Proof. reflexivity. Qed.

Lemma rbind_Ok_inv {E A B} (r : result E A) (k : A -> result E B) b :
  rbind r k = Ok b -> exists a, r = Ok a /\ k a = Ok b.
Proof. destruct r; simpl; [eauto | discriminate]. Qed.

#[export] Hint Rewrite @rbind_ok @rbind_err : py_rw.

(** ** Python strings (ASCII model) *)

Section Strings.
Local Open Scope string_scope.

Definition ascii_lower (c : ascii) : ascii :=
  let n := nat_of_ascii c in
  if (65 <=? n)%nat && (n <=? 90)%nat then ascii_of_nat (n + 32) else c.

(** [str.lower] *)
Fixpoint py_lower (s : string) : string :=
  match s with
  | EmptyString => EmptyString
  | String c r => String (ascii_lower c) (py_lower r)
  end.

Definition ascii_upper (c : ascii) : ascii :=
  let n := nat_of_ascii c in
  if (97 <=? n)%nat && (n <=? 122)%nat then ascii_of_nat (n - 32) else c.

(** [str.upper] *)
Fixpoint py_upper (s : string) : string :=
  match s with
  | EmptyString => EmptyString
  | String c r => String (ascii_upper c) (py_upper r)
  end.

(** [str.isspace] on one character: \t \n \v \f \r, \x1c-\x1f and space. *)
Definition py_isspace (c : ascii) : bool :=
  let n := nat_of_ascii c in
  ((9 <=? n)%nat && (n <=? 13)%nat) || ((28 <=? n)%nat && (n <=? 32)%nat).

Fixpoint py_lstrip (s : string) : string :=
  match s with
  | EmptyString => EmptyString
  | String c r => if py_isspace c then py_lstrip r else s
  end.

Definition py_rstrip (s : string) : string :=
  string_of_list_ascii
    (rev (list_ascii_of_string (py_lstrip (string_of_list_ascii
            (rev (list_ascii_of_string s)))))).

(** [str.strip()] with no argument *)
Definition py_strip (s : string) : string := py_rstrip (py_lstrip s).

(** [s.startswith(p)] *)
Definition py_startswith (s p : string) : bool := prefix p s.

(** [s.endswith(p)] *)
Definition py_endswith (s p : string) : bool :=
  (String.length p <=? String.length s)%nat &&
  String.eqb (substring (String.length s - String.length p) (String.length p) s) p.

(** [sub in s] for strings *)
Fixpoint py_str_contains (sub s : string) : bool :=
  prefix sub s ||
  match s with
  | EmptyString => false
  | String _ r => py_str_contains sub r
  end.

(** [s.replace(old, new)] for a non-empty [old]: left to right,
    non-overlapping; [skip] counts the characters of a match still to drop. *)
Fixpoint replace_from (old new s : string) (skip : nat) : string :=
  match s with
  | EmptyString => EmptyString
  | String c r =>
      match skip with
      | S k => replace_from old new r k
      | O => if prefix old s
             then new ++ replace_from old new r (String.length old - 1)
             else String c (replace_from old new r 0)
      end
  end.

(** With an empty [old] Python inserts [new] around every character. *)
Fixpoint interleave (new s : string) : string :=
  match s with
  | EmptyString => new
  | String c r => new ++ String c (interleave new r)
  end.

Definition py_replace (s old new : string) : string :=
  match old with
  | EmptyString => interleave new s
  | _ => replace_from old new s 0
  end.
End Strings.

(** ** Python dictionaries: insertion-ordered association lists

    Assigning an existing key keeps its position, a new key is appended,
    as in CPython 3.7+. *)

Abbreviation pydict K V := (list (K * V)).

Section Dict.
Context {K V : Type} `{EqDecision K}.

Fixpoint dict_get (k : K) (d : pydict K V) : option V :=
  match d with
  | [] => None
  | (k', v) :: r => if decide (k = k') then Some v else dict_get k r
  end.

(** [d.get(k, default)] *)
Definition dict_get_default (k : K) (dflt : V) (d : pydict K V) : V :=
  match dict_get k d with Some v => v | None => dflt end.

(** [d[k] = v] *)
Fixpoint dict_set (k : K) (v : V) (d : pydict K V) : pydict K V :=
  match d with
  | [] => [(k, v)]
  | (k', v') :: r =>
      if decide (k = k') then (k, v) :: r else (k', v') :: dict_set k v r
  end.

(** [k in d] *)
Definition dict_mem (k : K) (d : pydict K V) : bool :=
  match dict_get k d with Some _ => true | None => false end.

(** [{**a, **b}]: the entries of [b] are assigned into a copy of [a]. *)
Definition dict_merge (a b : pydict K V) : pydict K V :=
  fold_left (fun acc kv => dict_set kv.1 kv.2 acc) b a.

Definition dict_keys (d : pydict K V) : list K := map fst d.
Definition dict_values (d : pydict K V) : list V := map snd d.

(** Every dictionary the program builds has pairwise distinct keys. *)
Definition dict_wf (d : pydict K V) : Prop := NoDup (dict_keys d).

Lemma dict_get_set_eq k v d : dict_get k (dict_set k v d) = Some v.
Proof.
  induction d as [|[k' v'] r IH]; simpl.
  - by rewrite decide_True.
  - case_decide; simpl; [by rewrite decide_True|].
    rewrite decide_False by done. exact IH.
Qed.

Lemma dict_get_set_ne k k' v d :
  k <> k' -> dict_get k' (dict_set k v d) = dict_get k' d.
Proof.
  intros Hne. induction d as [|[k0 v0] r IH]; simpl.
  - by rewrite decide_False.
  - case_decide; subst; simpl.
    + by rewrite !decide_False.
    + case_decide; [done | exact IH].
Qed.

Lemma dict_get_set k k' v d :
  dict_get k' (dict_set k v d) = if decide (k' = k) then Some v else dict_get k' d.
Proof.
  case_decide; subst; [apply dict_get_set_eq | apply dict_get_set_ne; congruence].
Qed.

Lemma dict_keys_set k v d :
  dict_keys (dict_set k v d) =
    if decide (k ∈ dict_keys d) then dict_keys d else dict_keys d ++ [k].
Proof.
  unfold dict_keys. induction d as [|[k' v'] r IH]; simpl.
  - done.
  - destruct (decide (k = k')) as [->|Hne]; simpl.
    + rewrite decide_True; [done | set_solver].
    + rewrite IH.
      destruct (decide (k ∈ map fst r)), (decide (k ∈ k' :: map fst r));
        simpl; first [done | set_solver].
Qed.

Lemma dict_set_wf k v d : dict_wf d -> dict_wf (dict_set k v d).
Proof.
  unfold dict_wf. rewrite dict_keys_set. case_decide as Hin; [done|].
  intros Hnd. apply NoDup_app. split_and!; [done| |by apply NoDup_singleton].
  set_solver.
Qed.

Lemma dict_get_notin k d : k ∉ dict_keys d -> dict_get k d = None.
Proof.
  unfold dict_keys. induction d as [|[k' v'] r IH]; simpl; [done|].
  intros Hk. rewrite decide_False by set_solver. apply IH. set_solver.
Qed.

(** [{**a, **b}]: a key of [b] takes [b]'s value. *)
Lemma dict_get_merge k a b :
  dict_wf b ->
  dict_get k (dict_merge a b) =
    match dict_get k b with Some v => Some v | None => dict_get k a end.
Proof.
  unfold dict_merge, dict_wf. revert a.
  induction b as [|[k' v'] r IH]; intros a Hb; simpl; [done|].
  inversion Hb as [|? ? Hnotin Hr]; subst.
  rewrite IH by done. rewrite dict_get_set.
  destruct (decide (k = k')) as [->|Hne]; simpl.
  - by rewrite dict_get_notin.
  - destruct (dict_get k r); done.
Qed.

Lemma dict_merge_wf a b : dict_wf a -> dict_wf (dict_merge a b).
Proof.
  unfold dict_merge. revert a.
  induction b as [|kv r IH]; intros a Ha; simpl; [done|].
  apply IH, dict_set_wf, Ha.
Qed.

Lemma dict_get_In k v d : dict_get k d = Some v -> In (k, v) d.
Proof.
  induction d as [|[k' v'] r IH]; simpl; [discriminate|].
  case_decide; [intros [= <-]; subst; by left | intros; right; auto].
Qed.
End Dict.

  (** Building a dictionary by assigning [f v] under [k] for the entries
      of a dictionary whose key passes [P]: a key's value comes from the
      source when it passes, from the starting dictionary otherwise. *)
Lemma dict_get_fold_filter {K V W} `{EqDecision K} (P : K -> bool) (f : V -> W) (l : pydict K V)
        (acc : pydict K W) k :
    dict_wf l ->
    dict_get k (fold_left (fun cfg kv => if P kv.1 then dict_set kv.1 (f kv.2) cfg else cfg) l acc) =
      if P k then match dict_get k l with Some v => Some (f v) | None => dict_get k acc end
      else dict_get k acc.
  Proof.
    unfold dict_wf, dict_keys. revert acc.
    induction l as [|[k' v'] r IH]; intros acc Hwf; simpl.
    - by destruct (P k).
    - inversion Hwf as [|? ? Hnotin Hr]; subst. rewrite IH by done.
      destruct (decide (k = k')) as [->|Hne].
      + rewrite dict_get_notin by done.
        destruct (P k'); [by rewrite dict_get_set_eq | done].
      + destruct (P k'); [rewrite dict_get_set_ne by congruence|]; done.
  Qed.

#[export] Instance dict_wf_dec {K V} `{EqDecision K} (d : pydict K V) : Decision (dict_wf d).
Proof. unfold dict_wf. apply _. Defined.

(** Closes a decidable proposition about concrete data by evaluation. *)
Ltac py_decide := match goal with |- ?P => apply (bool_decide_unpack P) end; vm_compute; exact I.

#[export] Hint Resolve dict_set_wf dict_merge_wf : py.
#[export] Hint Rewrite @dict_get_set_eq : py_rw.

(** ** Python values

    The values the program handles are those of JSON documents and of the
    flattened configuration: [None], booleans, integers, floats, strings,
    lists and string-keyed dictionaries. *)

Set Warnings "-register-all".

Inductive pyfloat : Type :=
  | FFin (q : Q)
  | FInf (neg : bool)
  | FNan.

Inductive pyval : Type :=
  | PNone
  | PBool (b : bool)
  | PInt (z : Z)
  | PFloat (f : pyfloat)
  | PStr (s : string)
  | PList (l : list pyval)
  | PDict (d : pydict string pyval).

(** [bool(v)] *)
Definition py_truthy (v : pyval) : bool :=
  match v with
  | PNone => false
  | PBool b => b
  | PInt z => negb (Z.eqb z 0)
  | PFloat (FFin q) => negb (Qeq_bool q 0)
  | PFloat _ => true
  | PStr s => negb (String.eqb s EmptyString)
  | PList l => negb (bool_decide (l = []))
  | PDict d => negb (bool_decide (d = []))
  end.

(** ** Python's [int(str)] and [float(str)]

    Both strip surrounding whitespace and take an optional sign.  Digits may
    be grouped by single underscores between digits (PEP 515).  [float]
    also takes a fraction, an exponent and the words inf, infinity, nan in
    any case.  Anything else raises [ValueError], here [None]. *)

Section Numbers.
Local Open Scope string_scope.

Definition digit_val (c : ascii) : option nat :=
  let n := nat_of_ascii c in
  if (48 <=? n)%nat && (n <=? 57)%nat then Some (n - 48)%nat else None.

(** The digits after a first digit: [digit] or [_ digit], greedily. *)
Fixpoint digits_tail (s : string) : list nat * string :=
  match s with
  | EmptyString => ([], EmptyString)
  | String c r =>
      match digit_val c with
      | Some d => let '(ds, rest) := digits_tail r in (d :: ds, rest)
      | None =>
          if Ascii.eqb c "_" then
            match r with
            | String c2 r2 =>
                match digit_val c2 with
                | Some d2 => let '(ds, rest) := digits_tail r2 in (d2 :: ds, rest)
                | None => ([], s)
                end
            | EmptyString => ([], s)
            end
          else ([], s)
      end
  end.

(** [digitpart ::= digit (["_"] digit)*] *)
Definition digitpart (s : string) : option (list nat * string) :=
  match s with
  | String c r =>
      match digit_val c with
      | Some d => let '(ds, rest) := digits_tail r in Some (d :: ds, rest)
      | None => None
      end
  | EmptyString => None
  end.

Definition digits_value (ds : list nat) : Z :=
  fold_left (fun acc d => acc * 10 + Z.of_nat d)%Z ds 0%Z.

Definition parse_sign (s : string) : bool * string :=
  match s with
  | String c r =>
      if Ascii.eqb c "-" then (true, r)
      else if Ascii.eqb c "+" then (false, r) else (false, s)
  | EmptyString => (false, s)
  end.

Definition py_int (s : string) : option Z :=
  let '(neg, t) := parse_sign (py_strip s) in
  match digitpart t with
  | Some (ds, EmptyString) =>
      Some (if neg then Z.opp (digits_value ds) else digits_value ds)
  | _ => None
  end.

(** [digitpart ["." [digitpart]] | "." digitpart] *)
Definition mantissa (s : string) : option (list nat * list nat * string) :=
  match digitpart s with
  | Some (ip, rest) =>
      match rest with
      | String c r =>
          if Ascii.eqb c "." then
            match digitpart r with
            | Some (fp, r') => Some (ip, fp, r')
            | None => Some (ip, [], r)
            end
          else Some (ip, [], rest)
      | EmptyString => Some (ip, [], rest)
      end
  | None =>
      match s with
      | String c r =>
          if Ascii.eqb c "." then
            match digitpart r with
            | Some (fp, r') => Some ([], fp, r')
            | None => None
            end
          else None
      | EmptyString => None
      end
  end.

(** [[("e" | "E") [sign] digitpart]] and nothing after it *)
Definition exponent (s : string) : option Z :=
  match s with
  | EmptyString => Some 0%Z
  | String c r =>
      if Ascii.eqb c "e" || Ascii.eqb c "E" then
        let '(neg, t) := parse_sign r in
        match digitpart t with
        | Some (ds, EmptyString) =>
            Some (if neg then Z.opp (digits_value ds) else digits_value ds)
        | _ => None
        end
      else None
  end.

(** The exact value of [m * 10^k] *)
Definition scale10 (m : Z) (k : Z) : Q :=
  if (0 <=? k)%Z then Qmake (m * 10 ^ k) 1 else Qmake m (Z.to_pos (10 ^ (- k))).

Definition py_float (s : string) : option pyfloat :=
  let '(neg, t) := parse_sign (py_strip s) in
  let w := py_lower t in
  if String.eqb w "inf" || String.eqb w "infinity" then Some (FInf neg)
  else if String.eqb w "nan" then Some FNan
  else
    match mantissa t with
    | Some (ip, fp, rest) =>
        match exponent rest with
        | Some e =>
            let m := digits_value (ip ++ fp)%list in
            let q := scale10 m (e - Z.of_nat (List.length fp))%Z in
            Some (FFin (if neg then Qopp q else q))
        | None => None
        end
    | None => None
    end.
End Numbers.

(** [str(n)] for a natural number. *)
Definition str_of_nat (n : nat) : string :=
  DecimalString.NilEmpty.string_of_uint (Nat.to_uint n).

(** ** Lemmas on prefixes and suffixes of strings *)

Section StringLemmas.
Local Open Scope string_scope.

(** [s[n:]] *)
Fixpoint str_drop (n : nat) (s : string) : string :=
  match n, s with
  | O, _ => s
  | S _, EmptyString => EmptyString
  | S n', String _ r => str_drop n' r
  end.

(** [s[:n]] *)
Definition str_take (n : nat) (s : string) : string := substring 0 n s.

Lemma str_drop_app x y : str_drop (String.length x) (x ++ y) = y.
Proof. induction x; simpl; auto. Qed.

Lemma prefix_nil s : prefix "" s = true.
Proof. by destruct s. Qed.

Lemma prefix_app_l p x y :
  (String.length p <= String.length x)%nat -> prefix p (x ++ y) = prefix p x.
Proof.
  revert x. induction p as [|a p IH]; intros x Hl; [by rewrite !prefix_nil|].
  destruct x as [|b x]; simpl in *; [lia|].
  destruct (ascii_dec a b); [apply IH; lia | done].
Qed.

Lemma prefix_app_self p y : prefix p (p ++ y) = true.
Proof.
  induction p as [|a p IH]; simpl; [apply prefix_nil|].
  destruct (ascii_dec a a); [exact IH | congruence].
Qed.

Lemma str_contains_cons sub c r :
  py_str_contains sub (String c r) = false ->
  prefix sub (String c r) = false /\ py_str_contains sub r = false.
Proof. simpl. intros H. apply orb_false_iff in H. exact H. Qed.

Lemma str_contains_false_prefix sub s :
  py_str_contains sub s = false -> prefix sub s = false.
Proof. destruct s; simpl; intros H; apply orb_false_iff in H; apply H. Qed.

Lemma py_lstrip_idem s : py_lstrip (py_lstrip s) = py_lstrip s.
Proof.
  induction s as [|c r IH]; simpl; [done|].
  destruct (py_isspace c) eqn:E; [exact IH|]. simpl. by rewrite E.
Qed.

Lemma py_strip_lstrip s : py_strip (py_lstrip s) = py_strip s.
Proof. unfold py_strip. by rewrite py_lstrip_idem. Qed.

Lemma py_lstrip_length s : (String.length (py_lstrip s) <= String.length s)%nat.
Proof. induction s as [|c r IH]; simpl; [lia|]. destruct (py_isspace c); simpl; lia. Qed.

Lemma str_drop_length n s : (String.length (str_drop n s) <= String.length s)%nat.
Proof. revert s. induction n; intros [|c r]; simpl; try lia. specialize (IHn r). lia. Qed.
Lemma str_app_cons c s t : String c s ++ t = String c (s ++ t).
Proof. reflexivity. Qed.

Lemma str_app_nil_r s : s ++ "" = s.
Proof. induction s as [|c s IH]; [done|]. by rewrite str_app_cons, IH. Qed.

Lemma str_app_assoc a b c : (a ++ b) ++ c = a ++ (b ++ c).
Proof. induction a as [|x a IH]; [done|]. by rewrite !str_app_cons, IH. Qed.
Lemma str_app_inj_l s a b : s ++ a = s ++ b -> a = b.
Proof. induction s as [|c s IH]; [done|]. rewrite !str_app_cons. intros [= H]. by apply IH. Qed.

(** A one-character needle occurs in [a ++ b] when it occurs in [a] or in [b]. *)
Lemma str_contains_char_app c a b :
  py_str_contains (String c EmptyString) (a ++ b) =
    py_str_contains (String c EmptyString) a || py_str_contains (String c EmptyString) b.
Proof.
  induction a as [|x a IH]; [done|].
  rewrite str_app_cons. cbn [py_str_contains]. rewrite IH, orb_assoc. f_equal.
  cbn [prefix]. destruct (ascii_dec c x); [by rewrite !prefix_nil | done].
Qed.
End StringLemmas.

#[export] Hint Rewrite prefix_nil str_drop_app prefix_app_self py_lstrip_idem py_strip_lstrip : py_rw.
