(* ===== verification/Errors.v ===== *)
(** * Errors: the exception classes and how they are raised

    Models [src/src/validation/error_handler.py] (the classes the adapters
    import as [ConfigurationError], [APIConnectionError], ...),
    [src/src/utils/error_handler.py] (the [GlyphMindError] family, whose
    [APIError] is the one [utils/retry.py] tests for), the builtin and
    library classes the adapters catch, Python's method resolution order
    ([isinstance]) and the binding of a constructor call to an [__init__]
    signature: a keyword the signature does not have, a parameter given
    twice or a required parameter left out raises [TypeError] instead of
    constructing the exception.  [is_retryable_exception] of
    [utils/retry.py] is defined on arbitrary Python objects, because the
    adapters pass it to [tenacity], which calls it on a retry state. *)

From S2P Require Import Prelude.

Module Exc.

(** The classes: Python builtins, [asyncio]/[aiohttp]/[json]/[tenacity]
    library classes, the classes of [validation/error_handler.py] and
    those of [utils/error_handler.py] (prefixed [U]).  The interpreter is
    taken to be CPython 3.11+, where [asyncio.TimeoutError] is the builtin
    [TimeoutError].  SQLAlchemy's [IntegrityError] is listed directly under
    [Exception]: its intermediate bases ([DatabaseError], [DBAPIError],
    ...) are caught nowhere in the program, and likewise the classes of
    [google.api_core.exceptions] sit directly under [GoogleAPIError]
    ([BadRequest], [Forbidden], [ClientError], ... are caught nowhere).
    FastAPI's [HTTPException], [OverflowError] (under [ArithmeticError])
    and [NotImplementedError] (under [RuntimeError]) complete the list. *)
Inductive cls : Type :=
  | CBaseException | CException | CTypeError | CValueError | CKeyError | CIndexError
  | CAttributeError | CRuntimeError | CJSONDecodeError
  | COSError | CConnectionError | CTimeoutError
  | CClientError | CClientConnectionError | CClientOSError
  | CClientConnectorError | CClientResponseError | CRetryError
  | CBaseText2AlpacaError | CConfigurationError | CAPIConnectionError
  | CAPIResponseError | CAPICallError | CValidationError
  | CAPIResponseFormatError | CAPITimeoutError | CAPIError
  | CGlyphMindError | CUAPIError | CUConfigError | CUValidationError
  | CProviderError | CUAPIResponseError | CIntegrityError | CHTTPException
  | CArithmeticError | COverflowError
  | CGoogleAPIError | CInvalidArgument | CPermissionDenied | CUnauthenticated
  | CResourceExhausted | CServiceUnavailable | CNotImplementedError.

#[export] Instance cls_eq_dec : EqDecision cls.
Proof. solve_decision. Defined.

Definition all_cls : list cls :=
  [CBaseException; CException; CTypeError; CValueError; CKeyError; CIndexError;
   CAttributeError; CRuntimeError; CJSONDecodeError; COSError;
   CConnectionError; CTimeoutError; CClientError; CClientConnectionError;
   CClientOSError; CClientConnectorError; CClientResponseError; CRetryError;
   CBaseText2AlpacaError; CConfigurationError; CAPIConnectionError;
   CAPIResponseError; CAPICallError; CValidationError;
   CAPIResponseFormatError; CAPITimeoutError; CAPIError; CGlyphMindError;
   CUAPIError; CUConfigError; CUValidationError; CProviderError;
   CUAPIResponseError; CIntegrityError; CHTTPException;
   CArithmeticError; COverflowError; CGoogleAPIError; CInvalidArgument;
   CPermissionDenied; CUnauthenticated; CResourceExhausted; CServiceUnavailable;
   CNotImplementedError].

(** Direct base classes, as the [class X(Base)] lines declare them. *)
Definition bases (c : cls) : list cls :=
  match c with
  | CBaseException => []
  | CException => [CBaseException]
  | CTypeError | CValueError | CAttributeError | CRuntimeError | COSError
  | CClientError | CRetryError | CBaseText2AlpacaError | CGlyphMindError => [CException]
  | CKeyError | CIndexError => [CException]
  | CIntegrityError | CHTTPException | CArithmeticError => [CException]
  | COverflowError => [CArithmeticError]
  | CNotImplementedError => [CRuntimeError]
  | CGoogleAPIError => [CException]
  | CInvalidArgument | CPermissionDenied | CUnauthenticated | CResourceExhausted
  | CServiceUnavailable => [CGoogleAPIError]
  | CJSONDecodeError => [CValueError]
  | CConnectionError | CTimeoutError => [COSError]
  | CClientConnectionError | CClientResponseError => [CClientError]
  | CClientOSError => [CClientConnectionError; COSError]
  | CClientConnectorError => [CClientOSError]
  | CConfigurationError | CAPIConnectionError | CAPIResponseError
  | CAPICallError | CValidationError | CAPIResponseFormatError
  | CAPITimeoutError | CAPIError => [CBaseText2AlpacaError]
  | CUAPIError | CUConfigError | CUValidationError | CProviderError
  | CUAPIResponseError => [CGlyphMindError]
  end.

(** [cls.__mro__] *)
Definition mro (c : cls) : list cls :=
  match c with
  | CBaseException => [CBaseException]
  | CClientOSError =>
      [CClientOSError; CClientConnectionError; CClientError; COSError;
       CException; CBaseException]
  | CClientConnectorError =>
      [CClientConnectorError; CClientOSError; CClientConnectionError;
       CClientError; COSError; CException; CBaseException]
  | CClientConnectionError => [CClientConnectionError; CClientError; CException; CBaseException]
  | CClientResponseError => [CClientResponseError; CClientError; CException; CBaseException]
  | CJSONDecodeError => [CJSONDecodeError; CValueError; CException; CBaseException]
  | COverflowError => [COverflowError; CArithmeticError; CException; CBaseException]
  | CNotImplementedError => [CNotImplementedError; CRuntimeError; CException; CBaseException]
  | CInvalidArgument | CPermissionDenied | CUnauthenticated | CResourceExhausted
  | CServiceUnavailable => [c; CGoogleAPIError; CException; CBaseException]
  | CConnectionError => [CConnectionError; COSError; CException; CBaseException]
  | CTimeoutError => [CTimeoutError; COSError; CException; CBaseException]
  | CConfigurationError | CAPIConnectionError | CAPIResponseError
  | CAPICallError | CValidationError | CAPIResponseFormatError
  | CAPITimeoutError | CAPIError =>
      [c; CBaseText2AlpacaError; CException; CBaseException]
  | CUAPIError | CUConfigError | CUValidationError | CProviderError
  | CUAPIResponseError => [c; CGlyphMindError; CException; CBaseException]
  | _ => [c; CException; CBaseException]
  end.

(** [issubclass(c, d)] *)
Definition is_subclass (c d : cls) : bool := bool_decide (d ∈ mro c).

(** The exception objects: a class and the arguments its [__init__]
    bound, by parameter name. *)
Record exc : Type := mk_exc { exc_class : cls; exc_args : pydict string pyval }.

Definition isinstance (e : exc) (cs : list cls) : bool :=
  existsb (is_subclass (exc_class e)) cs.

Lemma isinstance_single e c : isinstance e [c] = is_subclass (exc_class e) c.
Proof. unfold isinstance. simpl. by rewrite orb_false_r. Qed.

(** No class derives from the validation [APIError]. *)
Lemma is_subclass_api_error c : is_subclass c CAPIError = bool_decide (c = CAPIError).
Proof. by destruct c. Qed.

(** A Python object that may or may not be an exception. *)
Inductive pyobj : Type :=
  | OExc (e : exc)
  | ORetryState (attempt_number : nat)
  | OVal (v : pyval).

Definition obj_isinstance (o : pyobj) (cs : list cls) : bool :=
  match o with OExc e => isinstance e cs | _ => false end.

(** ** [__init__] signatures: parameter names and defaults ([None] =
    required).  [Exception] subclasses without [__init__] inherit their
    base's. *)
Local Open Scope string_scope.

Definition U_msg_code_detail : list (string * option pyval) :=
  [("message", None); ("code", Some (PInt 500)); ("detail", Some PNone)].

Definition signature (c : cls) : option (list (string * option pyval)) :=
  match c with
  | CConfigurationError =>
      Some [("message", Some (PStr "Configuration error")); ("details", Some PNone)]
  | CAPIConnectionError =>
      Some [("provider_name", Some (PStr "Unknown Provider")); ("details", Some PNone)]
  | CAPIResponseError =>
      Some [("provider_name", Some (PStr "Unknown Provider"));
            ("status_code", Some PNone); ("response_body", Some PNone);
            ("details", Some PNone)]
  | CAPICallError =>
      Some [("message", Some (PStr "API call failed"));
            ("provider_name", Some (PStr "Unknown Provider")); ("details", Some PNone)]
  | CValidationError =>
      Some [("message", Some (PStr "Validation error")); ("validation_details", Some PNone)]
  | CAPIResponseFormatError =>
      Some [("provider_name", Some (PStr "Unknown Provider")); ("details", Some PNone)]
  | CAPITimeoutError =>
      Some [("message", Some PNone); ("timeout_value", Some PNone);
            ("timeout_seconds", Some PNone); ("provider", Some PNone);
            ("provider_name", Some PNone); ("details", Some PNone)]
  | CAPIError =>
      Some [("message", Some (PStr "API error occurred"));
            ("provider_name", Some (PStr "Unknown Provider")); ("details", Some PNone)]
  | CGlyphMindError | CUConfigError | CUValidationError | CProviderError =>
      Some U_msg_code_detail
  | CUAPIError =>
      Some (app U_msg_code_detail [("provider_name", Some (PStr "Unknown"))])
  | CUAPIResponseError =>
      Some [("message", None); ("status_code", Some (PInt 500));
            ("response_body", Some PNone); ("provider", Some PNone)]
  | _ => None
  end.

(** Binding a call [C(pos, kw)] (positional [pos], keywords [kw]) to a signature: positional arguments
    fill the first parameters, keywords the rest; an extra positional, an
    unknown or repeated keyword, or a missing required parameter is a
    [TypeError]. *)
Definition bind_args (sig : list (string * option pyval))
           (pos : list pyval) (kw : pydict string pyval)
  : option (pydict string pyval) :=
  let n := List.length pos in
  let names := map fst sig in
  if bool_decide (n <= List.length sig)%nat
     && forallb (fun k => bool_decide (k ∈ drop n names)) (map fst kw)
     && bool_decide (NoDup (map fst kw))
  then
    mapM (fun '(i, (name, dflt)) =>
            match pos !! i with
            | Some v => Some (name, v)
            | None =>
                match dict_get name kw with
                | Some v => Some (name, v)
                | None => (fun v => (name, v)) <$> dflt
                end
            end) (imap pair sig)
  else None.

Definition type_error : exc := mk_exc CTypeError [].

(** [raise C(pos, kw)]: the exception actually raised. *)
Definition new_exc (c : cls) (pos : list pyval) (kw : pydict string pyval) : exc :=
  match signature c with
  | Some sig =>
      match bind_args sig pos kw with
      | Some args => mk_exc c args
      | None => type_error
      end
  | None => mk_exc c []
  end.

Definition arg (e : exc) (name : string) : pyval :=
  dict_get_default name PNone (exc_args e).

(** [a or b] *)
Definition py_or (a b : pyval) : pyval := if py_truthy a then a else b.

(** The [provider_name] attribute each [__init__] stores. *)
Definition provider_name (e : exc) : pyval :=
  match exc_class e with
  | CAPITimeoutError =>
      py_or (arg e "provider") (py_or (arg e "provider_name") (PStr "Unknown Provider"))
  | CUAPIResponseError => PNone
  | _ => arg e "provider_name"
  end.

(** [APITimeoutError.timeout_seconds = timeout_value or timeout_seconds] *)
Definition timeout_seconds (e : exc) : pyval :=
  py_or (arg e "timeout_value") (arg e "timeout_seconds").

(** [utils/retry.py: is_retryable_exception]: [isinstance(x,
    (ConnectionError, TimeoutError, APIError))] where [APIError] is the
    class of [utils/error_handler.py]. *)
Definition is_retryable_exception (o : pyobj) : bool :=
  obj_isinstance o [CConnectionError; CTimeoutError; CUAPIError].

End Exc.
