(* ===== verification/Retry.v ===== *)
(** * Retry: the two retry mechanisms around network calls

    [Sync]: the [retry] decorator of [src/src/utils/retry.py] (lines 9-58):
    up to [max_attempts] calls, sleeping [delay], [delay*backoff], ...
    between them, re-raising a non-matching exception at once and turning
    the last matching one into [utils.error_handler.APIError].

    [Tenacity]: the [@retry(stop=stop_after_attempt(n),
    wait=wait_exponential(multiplier, min, max), retry=..., reraise=True)]
    decorator every REST adapter puts on [_make_request].  [tenacity] is a
    library, not code of this repository; its loop is modelled from its
    documented behaviour: after each attempt the [retry] strategy is asked
    whether to retry; a plain function given as [retry=] is called with the
    retry state (not with the exception); [retry_if_exception_type(T)]
    retries exactly when the attempt raised an instance of [T]; when the
    stop condition holds, [reraise=True] re-raises the last exception.

    Each attempt's outcome is given by an oracle [call : nat -> outcome]
    (attempt number to outcome): the network is an input. *)

From S2P Require Import Prelude Errors.
Import Exc.

Inductive outcome (A : Type) : Type :=
  | Returned (a : A)
  | Raised (e : exc).
Arguments Returned {A} a.
Arguments Raised {A} e.

Definition outcome_result {A} (o : outcome A) : result exc A :=
  match o with Returned a => Ok a | Raised e => Err e end.

(** ** [utils/retry.py: retry] *)
Module Sync.
Section Sync.
Context {A : Type}.
(** [str(e)]: the rendering of an exception message is not modelled. *)
Variable exc_str : exc -> string.
Variable exceptions : list cls.
Variable max_attempts : nat.
Variable backoff : Q.

Local Open Scope string_scope.

Definition final_error (e : exc) : exc :=
new_exc CUAPIError []
  [("message", PStr ("Operation failed after " ++ str_of_nat max_attempts ++ " attempts"));
   ("detail", PStr (exc_str e)); ("code", PInt 500)].

Definition exhausted_error : exc :=
new_exc CUAPIError []
  [("message", PStr "Operation failed after maximum retry attempts");
   ("code", PInt 500)].

(** [for attempt in range(max_attempts)], [attempt] counting from 0 and
  [left] attempts remaining.  Returns the result, the number of calls
  made and the delays slept, in order. *)
Fixpoint retry_loop (left attempt : nat) (delay : Q) (call : nat -> outcome A)
: result exc A * nat * list Q :=
match left with
| O => (Err exhausted_error, attempt, [])
| S left' =>
    match call attempt with
    | Returned a => (Ok a, S attempt, [])
    | Raised e =>
        if isinstance e exceptions then
          if Nat.eqb attempt (max_attempts - 1) then
            (Err (final_error e), S attempt, [])
          else
            let '(r, n, sleeps) := retry_loop left' (S attempt) (Qmult delay backoff) call in
            (r, n, delay :: sleeps)
        else (Err e, S attempt, [])
    end
end.

(** [retry(exceptions, max_attempts, delay, backoff)(func)()] *)
Definition retry_call (delay : Q) (call : nat -> outcome A) : result exc A * nat * list Q :=
retry_loop max_attempts 0 delay call.

(** The delays [d, d*b, d*b*b, ...] the loop sleeps, [k] of them. *)
Fixpoint delays (d : Q) (k : nat) : list Q :=
match k with O => [] | S k' => d :: delays (Qmult d backoff) k' end.

Lemma retry_loop_exhausts (call : nat -> outcome A) (es : nat -> exc) :
(forall n, call n = Raised (es n)) ->
(forall n, isinstance (es n) exceptions = true) ->
forall left a d, left = (max_attempts - a)%nat -> (a < max_attempts)%nat ->
retry_loop left a d call =
  (Err (final_error (es (max_attempts - 1)%nat)), max_attempts,
   delays d (max_attempts - 1 - a)).
Proof.
intros Hcall Hexc left. induction left as [|l IH]; intros a d Hl Ha; [lia|].
simpl. rewrite Hcall, Hexc.
destruct (Nat.eqb_spec a (max_attempts - 1)) as [->|Hne].
- replace (max_attempts - 1 - (max_attempts - 1))%nat with O by lia.
  replace (S (max_attempts - 1)) with max_attempts by lia. reflexivity.
- rewrite IH by lia.
  replace (max_attempts - 1 - a)%nat with (S (max_attempts - 1 - S a)) by lia.
  reflexivity.
Qed.

(** a call that always raises a retryable exception is made exactly
  [max_attempts] times, sleeping [max_attempts - 1] growing delays, and
  the decorator raises [APIError] built from the last exception. *)
Theorem retry_call_exhausts (delay : Q) (call : nat -> outcome A) (es : nat -> exc) :
(forall n, call n = Raised (es n)) ->
(forall n, isinstance (es n) exceptions = true) ->
(1 <= max_attempts)%nat ->
retry_call delay call =
  (Err (final_error (es (max_attempts - 1)%nat)), max_attempts,
   delays delay (max_attempts - 1)).
Proof.
intros Hcall Hexc Hmax. unfold retry_call.
rewrite (retry_loop_exhausts call es Hcall Hexc max_attempts 0 delay) by lia.
by rewrite Nat.sub_0_r.
Qed.

(** An exception outside [exceptions] propagates unchanged after one call. *)
Lemma retry_call_not_matching (delay : Q) (call : nat -> outcome A) (e : exc) :
call 0%nat = Raised e -> isinstance e exceptions = false -> (1 <= max_attempts)%nat ->
retry_call delay call = (Err e, 1%nat, []).
Proof.
intros Hc He Hm. unfold retry_call.
destruct max_attempts as [|m]; [lia|]. simpl. by rewrite Hc, He.
Qed.

(** With [max_attempts = 0] the function is never called. *)
Lemma retry_call_zero (delay : Q) (call : nat -> outcome A) :
max_attempts = O -> retry_call delay call = (Err exhausted_error, O, []).
Proof. intros H. unfold retry_call. by rewrite H. Qed.
End Sync.
End Sync.

(** ** The [tenacity] decorator *)
Module Tenacity.

(** [retry=]: a strategy object or a plain callable. *)
Inductive retry_strategy : Type :=
  | RetryIfExceptionType (cs : list cls)
  | RetryCallable (f : pyobj -> bool).

Record config : Type := {
  stop_after_attempt : nat;
  wait_multiplier : Z; wait_min : Z; wait_max : Z;
  retry : retry_strategy;
  reraise : bool
}.

(** [wait_exponential.__call__] with [exp_base = 2]:
    [max(max(0, min), min(multiplier * 2 ** (attempt - 1), max))]. *)
Definition wait_exponential (mult minw maxw : Z) (attempt : nat) : Z :=
  Z.max (Z.max 0 minw) (Z.min (mult * 2 ^ (Z.of_nat attempt - 1)) maxw).

Definition should_retry (r : retry_strategy) {A} (attempt : nat) (o : outcome A) : bool :=
  match r with
  | RetryIfExceptionType cs =>
      match o with Raised e => isinstance e cs | Returned _ => false end
  | RetryCallable f => f (ORetryState attempt)
  end.

Definition retry_error : exc := mk_exc CRetryError [].

Section Loop.
Context {A : Type} (cfg : config) (call : nat -> outcome A).

(** One iteration per attempt; [left] bounds the attempts still allowed
    by [stop_after_attempt].  Returns the result, the number of attempts
    made and the waits slept. *)
Fixpoint loop (left attempt : nat) : result exc A * nat * list Z :=
  let o := call attempt in
  if negb (should_retry (retry cfg) attempt o) then (outcome_result o, attempt, [])
  else
    match left with
    | O | S O =>
        (if reraise cfg then
           match o with Raised e => Err e | Returned _ => Err retry_error end
         else Err retry_error, attempt, [])
    | S left' =>
        let w := wait_exponential (wait_multiplier cfg) (wait_min cfg) (wait_max cfg) attempt in
        let '(r, n, ws) := loop left' (S attempt) in
        (r, n, w :: ws)
    end.

(** Calling the decorated function: attempts are numbered from 1. *)
Definition call_with_retry : result exc A * nat * list Z :=
  loop (stop_after_attempt cfg) 1.

(** The loop makes at least one and at most [max 1 left] attempts, and
    sleeps once between two consecutive attempts. *)
Lemma loop_attempts left a :
  let '(_, n, ws) := loop left a in
  (a <= n <= a + (left - 1))%nat /\ length ws = (n - a)%nat.
Proof.
  revert a. induction left as [|l IH]; intros a; simpl.
  - destruct (should_retry _ _ _); simpl; lia.
  - destruct (should_retry _ _ _); simpl; [|lia].
    destruct l as [|l']; [simpl; lia|].
    specialize (IH (S a)). destruct (loop (S l') (S a)) as [[r n] ws].
    simpl in *. lia.
Qed.

(** When the strategy declines, the attempt's own outcome is the result. *)
Lemma loop_no_retry left a :
  should_retry (retry cfg) a (call a) = false ->
  loop left a = (outcome_result (call a), a, []).
Proof. intros H. destruct left as [|[|l]]; simpl; by rewrite H. Qed.

Lemma loop_SS l a :
  loop (S (S l)) a =
    if negb (should_retry (retry cfg) a (call a))
    then (outcome_result (call a), a, [])
    else let '(r, n, ws) := loop (S l) (S a) in
         (r, n, wait_exponential (wait_multiplier cfg) (wait_min cfg) (wait_max cfg) a :: ws).
Proof. reflexivity. Qed.

Lemma loop_all_retry (es : nat -> exc) :
  reraise cfg = true ->
  (forall n, call n = Raised (es n)) ->
  (forall n, should_retry (retry cfg) n (call n) = true) ->
  forall k a, loop (S k) a =
    (Err (es (a + k)%nat), (a + k)%nat,
     map (wait_exponential (wait_multiplier cfg) (wait_min cfg) (wait_max cfg))
         (seq a k)).
Proof.
  intros Hre Hcall Hretry k. induction k as [|k IH]; intros a.
  - simpl. rewrite Hretry. simpl. by rewrite Hre, Hcall, Nat.add_0_r.
  - rewrite loop_SS, Hretry. cbn -[loop]. rewrite IH.
    by replace (S a + k)%nat with (a + S k)%nat by lia.
Qed.
End Loop.

(** With a plain function as [retry=], tenacity asks it about the retry
    state; a function that is false on every retry state never retries. *)
Lemma callable_never_retries {A} (cfg : config) (f : pyobj -> bool) (call : nat -> outcome A) :
  retry cfg = RetryCallable f ->
  (forall n, f (ORetryState n) = false) ->
  call_with_retry cfg call = (outcome_result (call 1%nat), 1%nat, []).
Proof.
  intros Hr Hf. unfold call_with_retry. apply loop_no_retry.
  rewrite Hr. apply Hf.
Qed.

(** [wait_exponential] with [0 <= min <= max] always waits between
    [min] and [max] seconds. *)
Theorem wait_exponential_bounds mult minw maxw attempt :
  (0 <= minw <= maxw)%Z ->
  (minw <= wait_exponential mult minw maxw attempt <= maxw)%Z.
Proof. intros H. unfold wait_exponential. lia. Qed.
End Tenacity.

(** ** Witnesses *)

Section RetryWitnesses.
Local Open Scope string_scope.
Definition conn_error : exc := mk_exc CConnectionError [].

Lemma retry_call_exhausts_witness :
  Sync.retry_call (A := unit) (fun _ => "refused") [CConnectionError] 3 2 1
                  (fun _ => Raised conn_error) =
    (Err (Sync.final_error (fun _ => "refused") 3 conn_error), 3%nat,
     Sync.delays 2 1 2).
Proof.
  apply (Sync.retry_call_exhausts (fun _ => "refused") [CConnectionError] 3 2 1
           (fun _ => Raised conn_error) (fun _ => conn_error));
    [reflexivity | reflexivity | lia].
Defined.

Lemma wait_exponential_bounds_witness :
  (2 <= Tenacity.wait_exponential 1 2 10 3 <= 10)%Z.
Proof. apply Tenacity.wait_exponential_bounds. lia. Defined.
End RetryWitnesses.
