(* ===== verification/EnvConfig.v ===== *)
(** * EnvConfig: provider metadata and configuration resolution

    The metadata record of [providers_meta.json]
    ([src/src/providers/factory.py], [ProviderMetadata], lines 16-23), the
    flat configuration [get_handler] builds for a new handler instance
    ([factory.py] lines 418-447: the merge [{**dotenv_values(path),
    **os.environ}], the prefix filter and the coercion of each value) and
    [BaseAPIHandler.get_current_param] ([src/src/providers/base.py] lines
    29-98), which re-reads the [.env] file on every call.

    The [.env] file is an input: [None] when [find_dotenv] finds no file,
    otherwise the dictionary [dotenv_values] returns (a key written without
    [=] has the value [None]).  [os.environ] is a dictionary of strings. *)

From S2P Require Import Prelude.

(** ** Metadata entries

    One object of the JSON list in [providers_meta.json].  The string
    fields are [None] when the key is missing or [null]; the model takes
    them to be strings otherwise.  [aliases] keeps the JSON shapes the
    two loaders treat differently. *)
Inductive alias_item : Type :=
  | AliasStr (s : string)
  | AliasNonStr.

Inductive alias_field : Type :=
  | AliasesMissing
  | AliasesNull
  | AliasesList (l : list alias_item)
  | AliasesString (s : string)
  | AliasesOther.

Record provider_meta : Type := {
  standard_name : option string;
  display_name : option string;
  handler_module_path : option string;
  handler_class_name : option string;
  aliases : alias_field;
  env_prefix : option string
}.

(** [not x] for an optional string field: missing, [null] or [""]. *)
Definition falsy_str (o : option string) : bool :=
  match o with None => true | Some s => String.eqb s EmptyString end.

(** ** The environment *)

Abbreviation dotenv_dict := (pydict string (option string)).
Abbreviation environ := (pydict string string).

(** [{**dotenv_values(find_dotenv()), **os.environ}]: a missing [.env]
    reads as empty, and the process environment wins on a shared key. *)
Definition all_env_vars (dotenv : option dotenv_dict) (osenv : environ) : dotenv_dict :=
  dict_merge (default [] dotenv) (map (fun kv => (kv.1, Some kv.2)) osenv).

Section Coercion.
Local Open Scope string_scope.

(** The body of the loop of [get_handler] (lines 432-444): ["true"] and
    ["false"] in any case become booleans; a value containing ["."] is
    given to [float()], any other to [int()]; a [ValueError] keeps the
    string. *)
Definition process_value (value : option string) : pyval :=
  match value with
  | None => PNone
  | Some v =>
      if String.eqb (py_lower v) "true" || String.eqb (py_lower v) "false"
      then PBool (String.eqb (py_lower v) "true")
      else if py_str_contains "." v
      then match py_float v with Some f => PFloat f | None => PStr v end
      else match py_int v with Some z => PInt z | None => PStr v end
  end.
End Coercion.

(** Lines 429-446: every variable whose name starts with [env_prefix],
    under its full name, in the order of [all_env_vars]. *)
Definition prefixed_config (prefix : string) (env : dotenv_dict) : pydict string pyval :=
  fold_left (fun cfg kv =>
               if py_startswith kv.1 prefix then dict_set kv.1 (process_value kv.2) cfg
               else cfg) env [].

(** Lines 418-455: the configuration handed to the handler's constructor,
    [provider_name] included. *)
Definition resolve_config (meta : provider_meta) (std : string)
           (dotenv : option dotenv_dict) (osenv : environ) : pydict string pyval :=
  let cfg :=
    match env_prefix meta with
    | Some p => if falsy_str (Some p) then []
                else prefixed_config p (all_env_vars dotenv osenv)
    | None => []
    end in
  dict_set "provider_name"%string (PStr std) cfg.

(** ** [BaseAPIHandler.get_current_param] *)

Inductive param_type : Type := PTInt | PTFloat | PTBool | PTRaw.

Section CurrentParam.
Local Open Scope string_scope.

(** [env_values.get(key)]: [None] for a missing key and for a key whose
    value is [None]. *)
Definition env_get (k : string) (env : dotenv_dict) : option string :=
  match dict_get k env with Some (Some v) => Some v | _ => None end.

(** Lines 65-94, once the prefix and the [.env] contents are known. *)
Definition current_param_from (prefix : string) (env : dotenv_dict)
           (name : string) (ty : param_type) (dflt : pyval) : pyval :=
  let runtime := env_get (prefix ++ py_upper name) env in
  let value := match runtime with
               | Some v => Some v
               | None => env_get (prefix ++ "DEFAULT_" ++ py_upper name) env
               end in
  match value with
  | None => dflt
  | Some v =>
      match ty with
      | PTInt => match py_int v with Some z => PInt z | None => dflt end
      | PTFloat => match py_float v with Some f => PFloat f | None => dflt end
      | PTBool => PBool (existsb (String.eqb (py_lower v)) ["true"; "1"; "yes"; "y"; "on"])
      | PTRaw => PStr v
      end
  end.

(** Lines 42-98: [meta] is what [get_provider_metadata(self.provider_name)]
    returned, [dotenv] the file [find_dotenv(usecwd=True)] located. *)
Definition get_current_param (meta : option provider_meta) (dotenv : option dotenv_dict)
           (name : string) (ty : param_type) (dflt : pyval) : pyval :=
  match meta with
  | None => dflt
  | Some m =>
      match env_prefix m with
      | None => dflt
      | Some p =>
          if String.eqb p "" then dflt
          else match dotenv with
               | None => dflt
               | Some env => current_param_from p env name ty dflt
               end
      end
  end.
End CurrentParam.

(** ** Properties of the resolution *)

Lemma lift_environ_keys (osenv : environ) :
  dict_keys (map (fun kv => (kv.1, Some kv.2)) osenv) = dict_keys osenv.
Proof. unfold dict_keys. rewrite map_map. by apply map_ext. Qed.

Lemma lift_environ_get k (osenv : environ) :
  dict_get k (map (fun kv => (kv.1, Some kv.2)) osenv) = Some <$> dict_get k osenv.
Proof.
  induction osenv as [|[k' v'] r IH]; simpl; [done|].
  case_decide; [done | exact IH].
Qed.

Lemma all_env_vars_wf dotenv osenv :
  dict_wf (default [] dotenv) -> dict_wf (all_env_vars dotenv osenv).
Proof. intros H. by apply dict_merge_wf. Qed.

(** A variable of the process environment hides the [.env] entry of the
    same name; the [.env] entry is seen only when the process environment
    lacks the name. *)
Lemma all_env_vars_get dotenv osenv k :
  dict_wf osenv ->
  dict_get k (all_env_vars dotenv osenv) =
    match dict_get k osenv with
    | Some v => Some (Some v)
    | None => dict_get k (default [] dotenv)
    end.
Proof.
  intros Hwf. unfold all_env_vars. rewrite dict_get_merge.
  - rewrite lift_environ_get. by destruct (dict_get k osenv).
  - unfold dict_wf. by rewrite lift_environ_keys.
Qed.

Lemma prefixed_config_get p env k :
  dict_wf env ->
  dict_get k (prefixed_config p env) =
    if py_startswith k p then process_value <$> dict_get k env else None.
Proof.
  intros Hwf. unfold prefixed_config.
  rewrite (dict_get_fold_filter (fun k => py_startswith k p) process_value) by done.
  by destruct (py_startswith k p), (dict_get k env).
Qed.

Section ResolveConfig.
Variables (meta : provider_meta) (std : string) (dotenv : option dotenv_dict) (osenv : environ).
Variable p : string.
Hypothesis Hprefix : env_prefix meta = Some p.
Hypothesis Hnonempty : p <> EmptyString.
Hypothesis Hdotenv_wf : dict_wf (default [] dotenv).
Hypothesis Hosenv_wf : dict_wf osenv.

Lemma resolve_config_get k :
  k <> "provider_name"%string ->
  dict_get k (resolve_config meta std dotenv osenv) =
    if py_startswith k p then process_value <$> dict_get k (all_env_vars dotenv osenv)
    else None.
Proof.
  intros Hk. unfold resolve_config. rewrite Hprefix.
  assert (falsy_str (Some p) = false) as ->.
  { simpl. destruct (String.eqb_spec p EmptyString); congruence. }
  rewrite dict_get_set_ne by congruence.
  apply prefixed_config_get, all_env_vars_wf, Hdotenv_wf.
Qed.

(** C4: [get_handler] gives a handler the process environment's value of
    a prefixed variable even when the [.env] file sets it too. *)
Theorem resolve_config_environ_wins k v :
  k <> "provider_name"%string -> py_startswith k p = true ->
  dict_get k osenv = Some v ->
  dict_get k (resolve_config meta std dotenv osenv) = Some (process_value (Some v)).
Proof.
  intros Hk Hp Hv. rewrite resolve_config_get, Hp by done.
  rewrite all_env_vars_get, Hv by done. reflexivity.
Qed.

(** The [.env] value is used when the process environment lacks the name. *)
Lemma resolve_config_dotenv_used k v :
  k <> "provider_name"%string -> py_startswith k p = true ->
  dict_get k osenv = None -> dict_get k (default [] dotenv) = Some v ->
  dict_get k (resolve_config meta std dotenv osenv) = Some (process_value v).
Proof.
  intros Hk Hp Hn Hv. rewrite resolve_config_get, Hp by done.
  rewrite all_env_vars_get, Hn, Hv by done. reflexivity.
Qed.

(** Only variables carrying the provider's prefix reach its handler. *)
Lemma resolve_config_prefixed k x :
  dict_get k (resolve_config meta std dotenv osenv) = Some x ->
  k = "provider_name"%string \/ py_startswith k p = true.
Proof.
  destruct (decide (k = "provider_name"%string)) as [->|Hk]; [by left|].
  rewrite resolve_config_get by done. destruct (py_startswith k p); [by right|done].
Qed.
End ResolveConfig.

Lemma resolve_config_provider_name meta std dotenv osenv :
  dict_get "provider_name"%string (resolve_config meta std dotenv osenv) = Some (PStr std).
Proof. apply dict_get_set_eq. Qed.

(** A key outside every prefix the metadata declares (and other than
    [provider_name]) is absent from the configuration a handler receives. *)
Lemma resolve_config_absent meta std dotenv osenv k :
  dict_wf (default [] dotenv) -> k <> "provider_name"%string ->
  (forall p, env_prefix meta = Some p -> py_startswith k p = false) ->
  dict_get k (resolve_config meta std dotenv osenv) = None.
Proof.
  intros Hd Hk Hp. unfold resolve_config.
  rewrite dict_get_set_ne by congruence.
  destruct (env_prefix meta) as [p|] eqn:E; [|done].
  destruct (falsy_str (Some p)); [done|].
  rewrite prefixed_config_get by (apply all_env_vars_wf; done). by rewrite (Hp p).
Qed.

(** [get_current_param] with a usable prefix and [.env] file is
    [current_param_from]. *)
Lemma get_current_param_env m p env name ty dflt :
  env_prefix m = Some p -> p <> ""%string ->
  get_current_param (Some m) (Some env) name ty dflt = current_param_from p env name ty dflt.
Proof.
  intros Hp Hne. unfold get_current_param. rewrite Hp.
  destruct (String.eqb_spec p ""); [done|]. reflexivity.
Qed.

(** The value [get_current_param] returns has the requested type:
    [int(value)], [float(value)], a [bool] or the string itself. *)
Definition param_has_type (ty : param_type) (v : pyval) : bool :=
  match ty, v with
  | PTInt, PInt _ | PTFloat, PFloat _ | PTBool, PBool _ | PTRaw, PStr _ => true
  | _, _ => false
  end.

Lemma current_param_from_typed p env name ty dflt :
  current_param_from p env name ty dflt = dflt \/
  param_has_type ty (current_param_from p env name ty dflt) = true.
Proof.
  unfold current_param_from.
  destruct (match env_get _ env with Some v => Some v | None => _ end) as [v|]; [|by left].
  destruct ty; [destruct (py_int v)|destruct (py_float v)| |]; first [by left | by right].
Qed.

(** C5: [get_current_param] coerces by the requested type: whatever the
    metadata and the [.env] file, it returns the caller's default or a
    value of the requested type ([int], [float], [bool] or the string);
    when a key is found, a [bool] or raw parameter is always of its type;
    and once the runtime key [PREFIX_NAME] is present the result depends
    on it alone, for every type: the [DEFAULT_] key is not read, even
    when the runtime value does not convert. *)
Theorem get_current_param_typed meta dotenv name ty dflt :
  (get_current_param meta dotenv name ty dflt = dflt \/
   param_has_type ty (get_current_param meta dotenv name ty dflt) = true) /\
  (forall m p env, meta = Some m -> env_prefix m = Some p -> p <> "" -> dotenv = Some env ->
     is_Some (env_get (p ++ py_upper name) env) \/ is_Some (env_get (p ++ "DEFAULT_" ++ py_upper name) env) ->
     ty = PTBool \/ ty = PTRaw ->
     param_has_type ty (get_current_param meta dotenv name ty dflt) = true) /\
  (forall m p env env', meta = Some m -> env_prefix m = Some p -> p <> "" -> dotenv = Some env ->
     is_Some (env_get (p ++ py_upper name) env) ->
     env_get (p ++ py_upper name) env' = env_get (p ++ py_upper name) env ->
     get_current_param meta (Some env') name ty dflt = get_current_param meta dotenv name ty dflt).
Proof.
  split_and!.
  - unfold get_current_param. destruct meta as [m|]; [|by left]. destruct (env_prefix m) as [p|]; [|by left].
    destruct (String.eqb p ""); [by left|]. destruct dotenv as [env|]; [|by left].
    apply current_param_from_typed.
  - intros m p env -> Hp Hne -> Hkey Hty. rewrite (get_current_param_env m p) by done.
    unfold current_param_from.
    destruct (env_get (p ++ py_upper name) env) as [v|];
      [|destruct Hkey as [[? [=]]|[v Hv]]; rewrite ?Hv]; by destruct Hty as [->| ->].
  - intros m p env env' -> Hp Hne -> [v Hv] Hv'. rewrite !(get_current_param_env m p) by done.
    unfold current_param_from. by rewrite Hv', Hv.
Qed.

(** ** Witnesses *)

Section EnvWitnesses.
Local Open Scope string_scope.

Definition deepseek_meta : provider_meta :=
  {| standard_name := Some "deepseek_ai"; display_name := Some "DeepSeek";
     handler_module_path := Some "src.providers.handlers.deepseek_ai";
     handler_class_name := Some "DeepseekAIHandler";
     aliases := AliasesList [AliasStr "deepseek"]; env_prefix := Some "DEEPSEEK_" |}.

Lemma resolve_config_environ_wins_witness :
  dict_get "DEEPSEEK_TEMPERATURE"
    (resolve_config deepseek_meta "deepseek_ai"
       (Some [("DEEPSEEK_TEMPERATURE", Some "0.3")]) [("DEEPSEEK_TEMPERATURE", "0.9")])
  = Some (process_value (Some "0.9")).
Proof.
  apply (resolve_config_environ_wins deepseek_meta "deepseek_ai"
           (Some [("DEEPSEEK_TEMPERATURE", Some "0.3")]) [("DEEPSEEK_TEMPERATURE", "0.9")]
           "DEEPSEEK_").
  all: first [ reflexivity | discriminate | py_decide ].
Defined.

Lemma get_current_param_typed_witness :
  get_current_param (Some deepseek_meta) (Some [("DEEPSEEK_TEMPERATURE", Some "abc")])
    "temperature" PTFloat (PFloat (FFin 0.7)) =
  get_current_param (Some deepseek_meta)
    (Some [("DEEPSEEK_TEMPERATURE", Some "abc"); ("DEEPSEEK_DEFAULT_TEMPERATURE", Some "0.5")])
    "temperature" PTFloat (PFloat (FFin 0.7)).
Proof.
  destruct (get_current_param_typed (Some deepseek_meta)
    (Some [("DEEPSEEK_TEMPERATURE", Some "abc"); ("DEEPSEEK_DEFAULT_TEMPERATURE", Some "0.5")])
    "temperature" PTFloat (PFloat (FFin 0.7))) as (_ & _ & H).
  apply (H deepseek_meta "DEEPSEEK_"
           [("DEEPSEEK_TEMPERATURE", Some "abc"); ("DEEPSEEK_DEFAULT_TEMPERATURE", Some "0.5")]);
    first [reflexivity | discriminate | eexists; reflexivity].
Defined.
End EnvWitnesses.
