(* ===== verification/Registry.v ===== *)
(** * Registry: the provider factory of [src/src/providers/factory.py]

    State.  The module keeps three dictionaries in globals ([_handlers],
    [_provider_aliases], [_provider_metadata_map], lines 27-29) plus
    [_initialized] and [_project_root]; the class [APIHandlerFactory] binds
    its own attributes to the same three dictionary objects when the class
    body runs (lines 61-63).  [initialize_handlers] mutates the objects the
    globals name ([.clear()], item assignment), so the class keeps seeing
    them; [_initialize_factory] rebinds the globals to new dictionaries
    (lines 591-593), after which the class attributes and the globals name
    different objects.  The model keeps a heap of dictionary objects per
    value type and six references into it: the three globals and the three
    class attributes.

    The outside world is an interface ([World]): importing a handler class
    by module path and class name, and calling a class on a configuration
    (which may raise).  The metadata file is an input of each loader.

    Operations: [initialize_handlers] (lines 209-365),
    [_initialize_factory] (543-639), [APIHandlerFactory
    .standardize_provider_name] (65-110), [APIHandlerFactory.get_handler]
    (112-202), the module's [get_handler] (373-461), [get_provider_metadata]
    (506-525), [get_handler_for_provider] (473-491) and
    [get_all_provider_metadata] (495-504). *)

From S2P Require Import Prelude Errors EnvConfig.
Import Exc.

(** ** The world the factory runs in *)

(** A handler class, by the module path and class name it was imported by. *)
Abbreviation class_ref := (string * string)%type.

Inductive import_result : Type :=
  | ImportFailed                          (** ImportError, AttributeError or any error raised by the module *)
  | Imported (c : class_ref) (is_handler : bool).  (** [issubclass(c, BaseAPIHandler)] *)

Class World := {
  import_handler : string -> string -> import_result;
  (** [handler_class(config)] returns an instance ([true]) or raises *)
  construct_ok : class_ref -> pydict string pyval -> bool
}.

(** The metadata file as [initialize_handlers] finds it. *)
Inductive meta_entry : Type :=
  | EntryNotDict
  | EntryDict (m : provider_meta).

Inductive meta_file : Type :=
  | MetaMissing              (** [os.path.exists] is false *)
  | MetaUnreadable           (** [os.stat] or [open] raises *)
  | MetaBadJson              (** [json.load] raises [JSONDecodeError] *)
  | MetaNotList              (** the top-level JSON value is not a list *)
  | MetaList (entries : list meta_entry).

(** ** Heaps of dictionary objects *)

Abbreviation loc := nat.
Abbreviation heap V := (pydict loc (pydict string V)).

Definition hget {V} (h : heap V) (l : loc) : pydict string V := default [] (dict_get l h).
Definition hput {V} (h : heap V) (l : loc) (d : pydict string V) : heap V := dict_set l d h.

Record registry : Type := mk_registry {
  g_handlers : loc; g_aliases : loc; g_meta : loc;      (** module globals *)
  c_handlers : loc; c_aliases : loc; c_meta : loc;      (** [APIHandlerFactory] attributes *)
  h_handlers : heap class_ref;
  h_aliases : heap string;
  h_meta : heap provider_meta;
  initialized : bool;                                   (** [_initialized] *)
  root_set : bool;                                      (** [_project_root is not None] *)
  next_loc : loc                                        (** the next fresh object *)
}.

(** Import time: one empty dictionary of each kind, named by the global and
    by the class attribute. *)
Definition init_registry : registry :=
  {| g_handlers := 0; g_aliases := 0; g_meta := 0;
     c_handlers := 0; c_aliases := 0; c_meta := 0;
     h_handlers := [(0, [])]; h_aliases := [(0, [])]; h_meta := [(0, [])];
     initialized := false; root_set := false; next_loc := 1 |}.

(** The dictionaries as each name sees them. *)
Definition handlers (r : registry) := hget (h_handlers r) (g_handlers r).
Definition alias_map (r : registry) := hget (h_aliases r) (g_aliases r).
Definition meta_map (r : registry) := hget (h_meta r) (g_meta r).
Definition cls_handlers (r : registry) := hget (h_handlers r) (c_handlers r).
Definition cls_aliases (r : registry) := hget (h_aliases r) (c_aliases r).
Definition cls_meta (r : registry) := hget (h_meta r) (c_meta r).

(** Writes through the globals. *)
Definition set_handlers (r : registry) (d : pydict string class_ref) : registry :=
  {| g_handlers := g_handlers r; g_aliases := g_aliases r; g_meta := g_meta r;
     c_handlers := c_handlers r; c_aliases := c_aliases r; c_meta := c_meta r;
     h_handlers := hput (h_handlers r) (g_handlers r) d;
     h_aliases := h_aliases r; h_meta := h_meta r;
     initialized := initialized r; root_set := root_set r; next_loc := next_loc r |}.

Definition set_aliases (r : registry) (d : pydict string string) : registry :=
  {| g_handlers := g_handlers r; g_aliases := g_aliases r; g_meta := g_meta r;
     c_handlers := c_handlers r; c_aliases := c_aliases r; c_meta := c_meta r;
     h_handlers := h_handlers r;
     h_aliases := hput (h_aliases r) (g_aliases r) d; h_meta := h_meta r;
     initialized := initialized r; root_set := root_set r; next_loc := next_loc r |}.

Definition set_meta (r : registry) (d : pydict string provider_meta) : registry :=
  {| g_handlers := g_handlers r; g_aliases := g_aliases r; g_meta := g_meta r;
     c_handlers := c_handlers r; c_aliases := c_aliases r; c_meta := c_meta r;
     h_handlers := h_handlers r; h_aliases := h_aliases r;
     h_meta := hput (h_meta r) (g_meta r) d;
     initialized := initialized r; root_set := root_set r; next_loc := next_loc r |}.

Definition set_flags (r : registry) (init root : bool) : registry :=
  {| g_handlers := g_handlers r; g_aliases := g_aliases r; g_meta := g_meta r;
     c_handlers := c_handlers r; c_aliases := c_aliases r; c_meta := c_meta r;
     h_handlers := h_handlers r; h_aliases := h_aliases r; h_meta := h_meta r;
     initialized := init; root_set := root; next_loc := next_loc r |}.

(** [_handlers = {}; _provider_aliases = {}; _provider_metadata_map = m]:
    three fresh objects, the class attributes left as they were. *)
Definition rebind_globals (r : registry) (m : pydict string provider_meta) : registry :=
  let l := next_loc r in
  {| g_handlers := l; g_aliases := l; g_meta := l;
     c_handlers := c_handlers r; c_aliases := c_aliases r; c_meta := c_meta r;
     h_handlers := hput (h_handlers r) l [];
     h_aliases := hput (h_aliases r) l [];
     h_meta := hput (h_meta r) l m;
     initialized := initialized r; root_set := root_set r; next_loc := S l |}.

(** ** Name normalisation *)

Section Names.
Local Open Scope string_scope.

(** [provider.lower().replace(" ", "").replace("-", "_")] (line 87, and
    the alias registration of line 325). *)
Definition normalize_full (s : string) : string :=
  py_replace (py_replace (py_lower s) " " "") "-" "_".

(** [name.lower().replace("-", "_")] (lines 395 and 623). *)
Definition normalize_dash (s : string) : string :=
  py_replace (py_lower s) "-" "_".
End Names.

(** ** Operations *)

Definition value_error : exc := mk_exc CValueError [].
Definition runtime_error : exc := mk_exc CRuntimeError [].

(** A handler instance: its class and the configuration it was built with. *)
Record handler : Type := mk_handler { h_class : class_ref; h_config : pydict string pyval }.

Section Ops.
Context `{World}.
Local Open Scope string_scope.

(** [initialize_handlers], lines 324-329: each alias is normalised and
    assigned, the last registration winning.  An alias that is not a
    string raises [AttributeError] on [.lower()], caught per entry at
    line 337: the aliases after it are not registered. *)
Fixpoint register_aliases_last (std : string) (items : list alias_item)
         (d : pydict string string) : pydict string string :=
  match items with
  | [] => d
  | AliasNonStr :: _ => d
  | AliasStr a :: rest => register_aliases_last std rest (dict_set (normalize_full a) std d)
  end.

(** [initialize_handlers], lines 274-340: one metadata entry. *)
Definition init_entry (r : registry) (e : meta_entry) : registry :=
  match e with
  | EntryNotDict => r
  | EntryDict m =>
      if falsy_str (standard_name m) || falsy_str (handler_module_path m)
         || falsy_str (handler_class_name m) || falsy_str (env_prefix m) then r
      else
        let std := default "" (standard_name m) in
        let items := match aliases m with AliasesList l => l | _ => [] end in
        match import_handler (default "" (handler_module_path m))
                             (default "" (handler_class_name m)) with
        | Imported c true =>
            let r1 := set_handlers r (dict_set std c (handlers r)) in
            let r2 := set_meta r1 (dict_set std m (meta_map r1)) in
            set_aliases r2 (register_aliases_last std items (alias_map r2))
        | _ => r
        end
  end.

(** [initialize_handlers()], lines 209-365. *)
Definition initialize_handlers (file : meta_file) (r : registry) : registry :=
  if initialized r then r
  else
    let r0 := set_flags (set_meta (set_aliases (set_handlers r []) []) []) false true in
    match file with
    | MetaList es => set_flags (fold_left init_entry es r0) true true
    | _ => r0
    end.

(** [_initialize_factory], lines 555-583: the entries with a truthy
    [standard_name], keyed by it (a later duplicate replaces the value
    and keeps the position). *)
Definition load_meta_map (file : meta_file) : pydict string provider_meta :=
  match file with
  | MetaList es =>
      fold_left (fun acc e =>
                   match e with
                   | EntryDict m =>
                       if falsy_str (standard_name m) then acc
                       else dict_set (default "" (standard_name m)) m acc
                   | EntryNotDict => acc
                   end) es []
  | _ => []
  end.

(** [for alias in aliases] of line 622: a string iterates over its
    characters; [None] or a number raises [TypeError] (caught at line
    634, no alias registered); a non-string item stops the loop. *)
Definition factory_alias_items (a : alias_field) : list alias_item :=
  match a with
  | AliasesMissing | AliasesNull | AliasesOther => []
  | AliasesList l => l
  | AliasesString s => map (fun c => AliasStr (String c EmptyString)) (list_ascii_of_string s)
  end.

(** Lines 622-628: an alias already mapped to another provider is kept
    (the first registration wins); an alias equal to the provider's own
    name is not registered. *)
Fixpoint register_aliases_first (std : string) (items : list alias_item)
         (d : pydict string string) : pydict string string :=
  match items with
  | [] => d
  | AliasNonStr :: _ => d
  | AliasStr a :: rest =>
      let n := normalize_dash a in
      let d' := match dict_get n d with
                | Some s' => if String.eqb s' std then
                               (if String.eqb n std then d else dict_set n std d)
                             else d
                | None => if String.eqb n std then d else dict_set n std d
                end in
      register_aliases_first std rest d'
  end.

(** Lines 599-635: one provider of the loaded map. *)
Definition factory_entry (r : registry) (m : provider_meta) : registry :=
  if falsy_str (standard_name m) || falsy_str (handler_module_path m)
     || falsy_str (handler_class_name m) then r
  else
    let std := default "" (standard_name m) in
    match import_handler (default "" (handler_module_path m))
                         (default "" (handler_class_name m)) with
    | Imported c true =>
        let r1 := set_handlers r (dict_set std c (handlers r)) in
        set_aliases r1 (register_aliases_first std (factory_alias_items (aliases m))
                                               (alias_map r1))
    | _ => r
    end.

(** [_initialize_factory()], lines 543-639. *)
Definition initialize_factory (file : meta_file) (r : registry) : registry :=
  if negb (bool_decide (meta_map r = [])) then r
  else
    let r0 := set_flags r (initialized r) true in
    let loaded := load_meta_map file in
    if bool_decide (loaded = []) then r0
    else fold_left factory_entry (dict_values loaded) (rebind_globals r0 loaded).

(** [APIHandlerFactory.standardize_provider_name], lines 65-110: looks
    the name up in the class attributes. *)
Definition standardize_provider_name (file : meta_file) (r : registry) (provider : string)
  : registry * result exc string :=
  if String.eqb provider "" then (r, Err value_error)
  else
    let n := normalize_full provider in
    let r' := if initialized r then r else initialize_handlers file r in
    match dict_get n (cls_aliases r') with
    | Some s => (r', Ok s)
    | None => if dict_mem n (cls_handlers r') then (r', Ok n) else (r', Err value_error)
    end.

(** [get_provider_metadata], lines 506-525: the module global map. *)
Definition get_provider_metadata (file : meta_file) (r : registry) (name : string)
  : registry * option provider_meta :=
  let r1 := if initialized r then r else initialize_handlers file r in
  let '(r2, res) := standardize_provider_name file r1 name in
  match res with
  | Ok std => (r2, dict_get std (meta_map r2))
  | Err _ => (r2, None)
  end.

(** [get_handler_for_provider], lines 473-491. *)
Definition get_handler_for_provider (file : meta_file) (r : registry) (name : string)
  : registry * result exc class_ref :=
  let r1 := if initialized r then r else initialize_handlers file r in
  let '(r2, res) := standardize_provider_name file r1 name in
  match res with
  | Ok std => match dict_get std (handlers r2) with
              | Some c => (r2, Ok c)
              | None => (r2, Err value_error)
              end
  | Err e => (r2, Err e)
  end.

(** [get_all_provider_metadata], lines 495-504. *)
Definition get_all_provider_metadata (file : meta_file) (r : registry)
  : registry * list provider_meta :=
  let r1 := if initialized r then r else initialize_handlers file r in
  (r1, dict_values (meta_map r1)).

(** Lines 452-461 (and 193-202): [handler_class(config)] or [None]. *)
Definition instantiate (c : class_ref) (cfg : pydict string pyval) : option handler :=
  if construct_ok c cfg then Some (mk_handler c cfg) else None.

(** The module's [get_handler], lines 373-461. *)
Definition get_handler (file : meta_file) (dotenv : option dotenv_dict) (osenv : environ)
           (r : registry) (name : string) : registry * option handler :=
  let r1 := initialize_factory file r in
  if negb (root_set r1) then (r1, None)
  else
    let n := normalize_dash name in
    let std := dict_get_default n n (alias_map r1) in
    match dict_get std (handlers r1) with
    | None => (r1, None)
    | Some c =>
        match find (fun m => bool_decide (standard_name m = Some std))
                   (dict_values (meta_map r1)) with
        | None => (r1, None)
        | Some meta => (r1, instantiate c (resolve_config meta std dotenv osenv))
        end
    end.

(** [APIHandlerFactory.get_handler], lines 112-202. *)
Definition factory_get_handler (file : meta_file) (dotenv : option dotenv_dict) (osenv : environ)
           (r : registry) (name : string) : registry * result exc (option handler) :=
  let r1 := if initialized r then r else initialize_handlers file r in
  if negb (initialized r1) then (r1, Err runtime_error)
  else
    let '(r2, res) := standardize_provider_name file r1 name in
    match res with
    | Err e => (r2, Err e)
    | Ok std =>
        match dict_get std (cls_handlers r2) with
        | None => (r2, Err value_error)
        | Some c =>
            match dict_get std (cls_meta r2) with
            | None => (r2, Ok None)
            | Some meta => (r2, Ok (instantiate c (resolve_config meta std dotenv osenv)))
            end
        end
    end.
End Ops.

(** ** The abstract registry

    What [initialize_handlers] means to compute, as a pure fold over the
    metadata list: three dictionaries, with no objects and no aliasing. *)

Record abs_registry : Type := mk_abs {
  a_handlers : pydict string class_ref;
  a_aliases : pydict string string;
  a_meta : pydict string provider_meta
}.

Definition abs_empty : abs_registry := mk_abs [] [] [].

Section Abstract.
Context `{World}.
Local Open Scope string_scope.

(** The entries [init_entry] registers: name, class, metadata, aliases. *)
Definition entry_reg (e : meta_entry)
  : option (string * class_ref * provider_meta * list alias_item) :=
  match e with
  | EntryNotDict => None
  | EntryDict m =>
      if falsy_str (standard_name m) || falsy_str (handler_module_path m)
         || falsy_str (handler_class_name m) || falsy_str (env_prefix m) then None
      else
        match import_handler (default "" (handler_module_path m))
                             (default "" (handler_class_name m)) with
        | Imported c true =>
            Some (default "" (standard_name m), c, m,
                  match aliases m with AliasesList l => l | _ => [] end)
        | _ => None
        end
  end.

Definition abs_step (a : abs_registry) (e : meta_entry) : abs_registry :=
  match entry_reg e with
  | Some (std, c, m, items) =>
      mk_abs (dict_set std c (a_handlers a))
             (register_aliases_last std items (a_aliases a))
             (dict_set std m (a_meta a))
  | None => a
  end.

Definition abs_init (es : list meta_entry) : abs_registry := fold_left abs_step es abs_empty.

(** [standardize_provider_name] against an abstract registry. *)
Definition abs_standardize (a : abs_registry) (provider : string) : result exc string :=
  if String.eqb provider "" then Err value_error
  else
    let n := normalize_full provider in
    match dict_get n (a_aliases a) with
    | Some s => Ok s
    | None => if dict_mem n (a_handlers a) then Ok n else Err value_error
    end.

(** The normalised aliases an entry's list registers: those before the
    first non-string item. *)
Fixpoint alias_names (items : list alias_item) : list string :=
  match items with
  | [] => []
  | AliasNonStr :: _ => []
  | AliasStr a :: rest => normalize_full a :: alias_names rest
  end.

(** The provider of the last registered entry that claims alias [n]. *)
Definition last_alias_owner (es : list meta_entry) (n : string) : option string :=
  fold_left (fun acc e =>
               match entry_reg e with
               | Some (std, _, _, items) =>
                   if bool_decide (n ∈ alias_names items) then Some std else acc
               | None => acc
               end) es None.

(** Whether some registered entry has standard name [n]. *)
Definition registered_std (es : list meta_entry) (n : string) : bool :=
  existsb (fun e => match entry_reg e with
                    | Some (std, _, _, _) => String.eqb std n
                    | None => false
                    end) es.
End Abstract.

(** ** Coherence: class attributes and globals name the same objects *)

Definition coherent (r : registry) : Prop :=
  c_handlers r = g_handlers r /\ c_aliases r = g_aliases r /\ c_meta r = g_meta r.

Lemma hget_hput_eq {V} (h : heap V) l d : hget (hput h l d) l = d.
Proof. unfold hget, hput. by rewrite dict_get_set_eq. Qed.

Lemma coherent_cls r :
  coherent r -> cls_handlers r = handlers r /\ cls_aliases r = alias_map r /\ cls_meta r = meta_map r.
Proof. intros (H1 & H2 & H3). unfold cls_handlers, cls_aliases, cls_meta. by rewrite H1, H2, H3. Qed.

Lemma coherent_set_handlers r d : coherent r -> coherent (set_handlers r d).
Proof. done. Qed.
Lemma coherent_set_aliases r d : coherent r -> coherent (set_aliases r d).
Proof. done. Qed.
Lemma coherent_set_meta r d : coherent r -> coherent (set_meta r d).
Proof. done. Qed.
Lemma coherent_set_flags r i b : coherent r -> coherent (set_flags r i b).
Proof. done. Qed.

#[export] Hint Resolve coherent_set_handlers coherent_set_aliases coherent_set_meta
  coherent_set_flags : py.

(** The abstract view of a registry, through its globals. *)
Definition view (r : registry) : abs_registry := mk_abs (handlers r) (alias_map r) (meta_map r).

Section Views.
Variable r : registry.
Lemma handlers_set_handlers d : handlers (set_handlers r d) = d.
Proof. apply hget_hput_eq. Qed.
Lemma alias_map_set_aliases d : alias_map (set_aliases r d) = d.
Proof. apply hget_hput_eq. Qed.
Lemma meta_map_set_meta d : meta_map (set_meta r d) = d.
Proof. apply hget_hput_eq. Qed.
Lemma alias_map_set_handlers d : alias_map (set_handlers r d) = alias_map r.
Proof. done. Qed.
Lemma meta_map_set_handlers d : meta_map (set_handlers r d) = meta_map r.
Proof. done. Qed.
Lemma handlers_set_aliases d : handlers (set_aliases r d) = handlers r.
Proof. done. Qed.
Lemma meta_map_set_aliases d : meta_map (set_aliases r d) = meta_map r.
Proof. done. Qed.
Lemma handlers_set_meta d : handlers (set_meta r d) = handlers r.
Proof. done. Qed.
Lemma alias_map_set_meta d : alias_map (set_meta r d) = alias_map r.
Proof. done. Qed.
Lemma view_set_flags i b : view (set_flags r i b) = view r.
Proof. done. Qed.
End Views.

Create Rewrite HintDb reg_rw.
#[export] Hint Rewrite handlers_set_handlers alias_map_set_aliases meta_map_set_meta
  alias_map_set_handlers meta_map_set_handlers handlers_set_aliases meta_map_set_aliases
  handlers_set_meta alias_map_set_meta view_set_flags : reg_rw.


Section Refinement.
Context `{World}.

Lemma init_entry_view r e :
  view (init_entry r e) = abs_step (view r) e /\
  initialized (init_entry r e) = initialized r /\
  root_set (init_entry r e) = root_set r /\
  (coherent r -> coherent (init_entry r e)).
Proof.
  unfold init_entry, abs_step, entry_reg, view.
  destruct e as [|m]; [done|].
  destruct (_ || _); [done|].
  destruct (import_handler _ _) as [|c []]; [done| |done].
  simpl. autorewrite with reg_rw. split_and!; auto with py.
Qed.

Lemma fold_init_entry_view es r :
  view (fold_left init_entry es r) = fold_left abs_step es (view r) /\
  initialized (fold_left init_entry es r) = initialized r /\
  root_set (fold_left init_entry es r) = root_set r /\
  (coherent r -> coherent (fold_left init_entry es r)).
Proof.
  revert r. induction es as [|e es IH]; intros r; simpl; [done|].
  destruct (init_entry_view r e) as (Hv & Hi & Hr & Hc).
  destruct (IH (init_entry r e)) as (Hv' & Hi' & Hr' & Hc').
  rewrite Hv', Hv, Hi', Hi, Hr', Hr. split_and!; auto.
Qed.

(** C3: from a state where the class attributes alias the
    globals and nothing is initialised, [initialize_handlers] on a
    metadata list computes exactly the abstract registry [abs_init], sets
    both flags, and keeps the class attributes aliasing the globals. *)
Theorem initialize_handlers_refines es r :
  coherent r -> initialized r = false ->
  let r' := initialize_handlers (MetaList es) r in
  view r' = abs_init es /\ initialized r' = true /\ root_set r' = true /\ coherent r'.
Proof.
  intros Hc Hi. simpl. unfold initialize_handlers. rewrite Hi.
  set (r0 := set_flags (set_meta _ _) false true).
  destruct (fold_init_entry_view es r0) as (Hv & _ & _ & Hc').
  split_and!; [|done|done|].
  - rewrite view_set_flags, Hv. f_equal. subst r0.
    rewrite view_set_flags. unfold view. by autorewrite with reg_rw.
  - apply coherent_set_flags, Hc'. subst r0. auto with py.
Qed.
End Refinement.

(** ** Name resolution after start-up *)

Section Resolution.
Context `{World}.
Local Open Scope string_scope.

Lemma register_aliases_last_get std items d n :
  dict_get n (register_aliases_last std items d) =
    if bool_decide (n ∈ alias_names items) then Some std else dict_get n d.
Proof.
  revert d. induction items as [|[a|] rest IH]; intros d; simpl; try done.
  rewrite IH, dict_get_set.
  destruct (decide (n = normalize_full a)) as [->|Hne].
  - rewrite (bool_decide_eq_true_2 (_ ∈ _ :: _)) by set_solver.
    by case_bool_decide.
  - do 2 case_bool_decide; first [done | set_solver].
Qed.

Lemma abs_aliases_get es a n :
  dict_get n (a_aliases (fold_left abs_step es a)) =
    fold_left (fun acc e =>
                 match entry_reg e with
                 | Some (std, _, _, items) =>
                     if bool_decide (n ∈ alias_names items) then Some std else acc
                 | None => acc
                 end) es (dict_get n (a_aliases a)).
Proof.
  revert a. induction es as [|e es IH]; intros a; simpl; [done|].
  rewrite IH. f_equal. unfold abs_step.
  destruct (entry_reg e) as [[[[std c] m] items]|]; simpl; [|done].
  apply register_aliases_last_get.
Qed.

Lemma abs_handlers_mem es a n :
  dict_mem n (a_handlers (fold_left abs_step es a)) =
    registered_std es n || dict_mem n (a_handlers a).
Proof.
  revert a. induction es as [|e es IH]; intros a; simpl; [done|].
  rewrite IH. unfold abs_step, dict_mem.
  destruct (entry_reg e) as [[[[std c] m] items]|]; simpl; [|done].
  rewrite dict_get_set.
  destruct (String.eqb_spec std n) as [->|Hne].
  - rewrite decide_True by done. by rewrite orb_true_r.
  - rewrite decide_False by congruence. done.
Qed.

(** On a coherent, initialised registry the class method computes the
    abstract [standardize]. *)
Lemma standardize_coherent file r name :
  coherent r -> initialized r = true ->
  standardize_provider_name file r name = (r, abs_standardize (view r) name).
Proof.
  intros Hc Hi. destruct (coherent_cls r Hc) as (_ & Ha & Hh).
  unfold standardize_provider_name, abs_standardize. rewrite Hi.
  destruct (String.eqb name ""); [done|].
  unfold cls_handlers. destruct Hc as (Hch & _). rewrite Hch, Ha. simpl.
  destruct (dict_get _ (alias_map r)); [done|]. by destruct (dict_mem _ _).
Qed.

(** C1: after start-up ([initialize_handlers] on the metadata list), a
    non-empty provider name is normalised and resolved to the provider of
    the last registered entry that lists it as an alias; failing that, to
    itself if it is a registered standard name; and otherwise it raises
    [ValueError]: no name is ever resolved by guessing. *)
Theorem standardize_after_startup es name :
  name <> "" ->
  snd (standardize_provider_name (MetaList es)
         (initialize_handlers (MetaList es) init_registry) name) =
    let n := normalize_full name in
    match last_alias_owner es n with
    | Some s => Ok s
    | None => if registered_std es n then Ok n else Err value_error
    end.
Proof.
  intros Hname.
  destruct (initialize_handlers_refines es init_registry) as (Hv & Hi & _ & Hc);
    [done|done|].
  rewrite standardize_coherent by done. simpl. rewrite Hv.
  unfold abs_standardize. destruct (String.eqb_spec name "") as [|_]; [done|].
  unfold abs_init. rewrite abs_aliases_get. simpl.
  fold (last_alias_owner es (normalize_full name)).
  destruct (last_alias_owner es _); [done|].
  rewrite abs_handlers_mem. simpl. by rewrite orb_false_r.
Qed.
End Resolution.

(** ** Detached class attributes

    Once the globals have been rebound by [_initialize_factory], the class
    attributes still name the original, empty dictionaries, and nothing
    writes to those any more. *)

Definition detached (r : registry) : Prop :=
  c_handlers r <> g_handlers r /\ c_aliases r <> g_aliases r /\
  cls_handlers r = [] /\ cls_aliases r = [].

Lemma hget_hput_ne {V} (h : heap V) l l' d : l <> l' -> hget (hput h l d) l' = hget h l'.
Proof. intros Hne. unfold hget, hput. by rewrite dict_get_set_ne. Qed.

Section Detached.
Lemma detached_set_handlers r d : detached r -> detached (set_handlers r d).
Proof.
  intros (H1 & H2 & H3 & H4). repeat split; try done.
  unfold cls_handlers in *. simpl. rewrite hget_hput_ne; auto.
Qed.
Lemma detached_set_aliases r d : detached r -> detached (set_aliases r d).
Proof.
  intros (H1 & H2 & H3 & H4). repeat split; try done.
  unfold cls_aliases in *. simpl. rewrite hget_hput_ne; auto.
Qed.
Lemma detached_set_meta r d : detached r -> detached (set_meta r d).
Proof. done. Qed.
Lemma detached_set_flags r i b : detached r -> detached (set_flags r i b).
Proof. done. Qed.
End Detached.

#[export] Hint Resolve detached_set_handlers detached_set_aliases detached_set_meta
  detached_set_flags : py.

Section DetachedOps.
Context `{World}.

Lemma detached_init_entry r e : detached r -> detached (init_entry r e).
Proof.
  intros Hd. unfold init_entry. destruct e as [|m]; [done|].
  destruct (_ || _); [done|].
  destruct (import_handler _ _) as [|c []]; auto with py.
Qed.

Lemma detached_initialize_handlers file r :
  detached r -> detached (initialize_handlers file r).
Proof.
  intros Hd. unfold initialize_handlers. destruct (initialized r); [done|].
  assert (Hd0 : detached (set_flags (set_meta (set_aliases (set_handlers r []) []) []) false true))
    by auto with py.
  destruct file; try done.
  apply detached_set_flags. clear Hd. revert Hd0.
  generalize (set_flags (set_meta (set_aliases (set_handlers r []) []) []) false true).
  induction entries as [|e es IH]; intros r0 Hr0; simpl; [done|].
  by apply IH, detached_init_entry.
Qed.

Lemma detached_factory_entry r m : detached r -> detached (factory_entry r m).
Proof.
  intros Hd. unfold factory_entry. destruct (_ || _); [done|].
  destruct (import_handler _ _) as [|c []]; auto with py.
Qed.

Lemma detached_fold_factory_entry ms r :
  detached r -> detached (fold_left factory_entry ms r).
Proof.
  revert r. induction ms as [|m ms IH]; intros r Hr; simpl; [done|].
  by apply IH, detached_factory_entry.
Qed.

(** A detached registry answers [ValueError] to every name and stays
    detached. *)
Lemma standardize_detached file r name :
  detached r ->
  snd (standardize_provider_name file r name) = Err value_error /\
  detached (fst (standardize_provider_name file r name)).
Proof.
  intros Hd. unfold standardize_provider_name.
  destruct (String.eqb name ""); [done|].
  set (r' := if initialized r then r else initialize_handlers file r).
  assert (Hd' : detached r').
  { subst r'. destruct (initialized r); [done|]. by apply detached_initialize_handlers. }
  destruct Hd' as (H1 & H2 & H3 & H4).
  rewrite H4, H3. simpl. repeat split; done.
Qed.

Lemma get_provider_metadata_detached file r name :
  detached r ->
  snd (get_provider_metadata file r name) = None /\
  detached (fst (get_provider_metadata file r name)).
Proof.
  intros Hd. unfold get_provider_metadata.
  set (r1 := if initialized r then r else initialize_handlers file r).
  assert (Hd1 : detached r1).
  { subst r1. destruct (initialized r); [done|]. by apply detached_initialize_handlers. }
  destruct (standardize_detached file r1 name Hd1) as [Hs Hd2].
  destruct (standardize_provider_name file r1 name) as [r2 res]. simpl in *.
  by subst res.
Qed.

(** [_initialize_factory] from the import-time state, with a metadata
    file that yields at least one entry, detaches the class attributes. *)
Lemma initialize_factory_detaches file :
  load_meta_map file <> [] -> detached (initialize_factory file init_registry).
Proof.
  intros Hne. unfold initialize_factory.
  rewrite bool_decide_eq_true_2 by done. simpl negb. cbv iota.
  rewrite bool_decide_eq_false_2 by done.
  apply detached_fold_factory_entry. repeat split; done.
Qed.

(** The module-level [get_handler] from the import-time state, with a
    metadata file that yields an entry, leaves the registry detached. *)
Lemma get_handler_detaches file dotenv osenv name :
  load_meta_map file <> [] -> detached (fst (get_handler file dotenv osenv init_registry name)).
Proof.
  intros Hne. unfold get_handler.
  pose proof (initialize_factory_detaches file Hne) as Hd.
  destruct (root_set _); simpl; [|done].
  destruct (dict_get _ _); [|done]. by destruct (find _ _).
Qed.

(** C2: if the module-level [get_handler] runs before [initialize_handlers]
    (any name, any environment), every later
    [APIHandlerFactory.standardize_provider_name] raises [ValueError] and
    every later [get_provider_metadata] returns [None], for every name,
    although the providers are registered. *)
Theorem get_handler_first_breaks_standardize file dotenv osenv name :
  load_meta_map file <> [] ->
  let r1 := fst (get_handler file dotenv osenv init_registry name) in
  (forall name', snd (standardize_provider_name file r1 name') = Err value_error) /\
  (forall name', snd (get_provider_metadata file r1 name') = None).
Proof.
  intros Hne. simpl.
  pose proof (get_handler_detaches file dotenv osenv name Hne) as Hd.
  split; intros name'.
  - apply (standardize_detached file _ name' Hd).
  - apply (get_provider_metadata_detached file _ name' Hd).
Qed.

(** Detachment is permanent: the class-level operations keep it. *)
Lemma detached_forever file r name :
  detached r ->
  detached (fst (standardize_provider_name file r name)) /\
  detached (fst (get_provider_metadata file r name)).
Proof.
  intros Hd. split; [apply standardize_detached | apply get_provider_metadata_detached]; done.
Qed.
End DetachedOps.

(** ** Handler creation *)

Section Creation.
Context `{World}.

Lemma meta_map_factory_entry r m : meta_map (factory_entry r m) = meta_map r.
Proof.
  unfold factory_entry. destruct (_ || _); [done|].
  destruct (import_handler _ _) as [|c []]; done.
Qed.

Lemma meta_map_fold_factory ms r : meta_map (fold_left factory_entry ms r) = meta_map r.
Proof.
  revert r. induction ms as [|m ms IH]; intros r; simpl; [done|].
  by rewrite IH, meta_map_factory_entry.
Qed.

(** [_initialize_factory] is idempotent. *)
Lemma initialize_factory_idem file r :
  initialize_factory file (initialize_factory file r) = initialize_factory file r.
Proof.
  destruct (bool_decide (meta_map r = [])) eqn:Hm.
  2: { unfold initialize_factory. rewrite Hm. simpl. by rewrite Hm. }
  destruct (bool_decide (load_meta_map file = [])) eqn:Hl.
  - assert (E : initialize_factory file r = set_flags r (initialized r) true).
    { unfold initialize_factory. by rewrite Hm, Hl. }
    rewrite E. unfold initialize_factory.
    change (meta_map (set_flags r (initialized r) true)) with (meta_map r).
    rewrite Hm, Hl. reflexivity.
  - set (rf := fold_left factory_entry (dict_values (load_meta_map file))
                 (rebind_globals (set_flags r (initialized r) true) (load_meta_map file))).
    assert (E : initialize_factory file r = rf).
    { unfold initialize_factory. by rewrite Hm, Hl. }
    rewrite E. unfold initialize_factory at 1.
    rewrite bool_decide_eq_false_2; [done|].
    subst rf. rewrite meta_map_fold_factory. unfold meta_map. simpl.
    rewrite hget_hput_eq. by apply bool_decide_eq_false in Hl.
Qed.

Lemma get_handler_state file d o r name :
  fst (get_handler file d o r name) = initialize_factory file r.
Proof.
  unfold get_handler. destruct (root_set _); [|done].
  destruct (dict_get _ _); [|done]. by destruct (find _ _).
Qed.

(** no caching.  A call to the module's [get_handler] gives the
    same handler as if no earlier call had happened: whatever environment
    and name an earlier call saw, the later call is decided by the
    metadata and the environment at its own call. *)
Theorem get_handler_rereads_env file d1 o1 d2 o2 r n1 n2 :
  get_handler file d2 o2 (fst (get_handler file d1 o1 r n1)) n2 =
    get_handler file d2 o2 r n2.
Proof.
  rewrite get_handler_state. unfold get_handler at 1.
  rewrite initialize_factory_idem. reflexivity.
Qed.

(** The handler's configuration is [resolve_config] of the environment
    passed to this call, for the registered metadata of the provider. *)
Lemma get_handler_config file d o r name h :
  snd (get_handler file d o r name) = Some h ->
  exists meta std,
    meta ∈ dict_values (meta_map (initialize_factory file r)) /\
    standard_name meta = Some std /\
    h_config h = resolve_config meta std d o.
Proof.
  unfold get_handler. set (r1 := initialize_factory file r).
  destruct (root_set r1); [|done]. simpl.
  set (std := dict_get_default _ _ _).
  destruct (dict_get std (handlers r1)) as [c|]; [|done].
  destruct (find _ _) as [meta|] eqn:Hf; [|done].
  apply find_some in Hf as [Hin Hstd]. apply bool_decide_eq_true in Hstd.
  unfold instantiate. destruct (construct_ok _ _); [|done].
  intros [= <-]. exists meta, std. split_and!; [|done|done].
  by apply list_elem_of_In.
Qed.

(** A metadata file that cannot be used makes the class-level
    [get_handler] raise [RuntimeError] (line 135). *)
Lemma factory_get_handler_unusable_file file d o name :
  (forall es, file <> MetaList es) ->
  snd (factory_get_handler file d o init_registry name) = Err runtime_error.
Proof.
  intros Hf. unfold factory_get_handler, initialize_handlers. simpl.
  destruct file; try done. by destruct (Hf entries).
Qed.

(** A malformed, unimportable or non-conforming entry is skipped: the
    registry loaded with it inserted anywhere is the one loaded without it. *)
Lemma abs_init_skip es1 e es2 :
  entry_reg e = None -> abs_init (es1 ++ e :: es2) = abs_init (es1 ++ es2).
Proof.
  intros He. unfold abs_init. rewrite !fold_left_app. simpl.
  unfold abs_step at 2. by rewrite He.
Qed.
End Creation.

(** ** [_initialize_factory]: the first registration of an alias wins *)

Section FirstWins.
Context `{World}.
Local Open Scope string_scope.

(** Once an alias names a provider, the loop of lines 622-628 never
    makes it name another one. *)
Lemma register_aliases_first_keeps std items d n s' :
  dict_get n d = Some s' ->
  dict_get n (register_aliases_first std items d) = Some s'.
Proof.
  revert d. induction items as [|[a|] rest IH]; intros d Hn; simpl; try done.
  apply IH.
  destruct (decide (normalize_dash a = n)) as [<-|Hne].
  - rewrite Hn. destruct (String.eqb_spec s' std) as [->|]; [|done].
    case_match; [done|]. apply dict_get_set_eq.
  - destruct (dict_get (normalize_dash a) d) as [s''|];
      repeat case_match; try done; by rewrite dict_get_set_ne.
Qed.

Lemma factory_entry_keeps_alias r m n s' :
  dict_get n (alias_map r) = Some s' ->
  dict_get n (alias_map (factory_entry r m)) = Some s'.
Proof.
  intros Hn. unfold factory_entry. destruct (_ || _); [done|].
  destruct (import_handler _ _) as [|c []]; try done.
  autorewrite with reg_rw. by apply register_aliases_first_keeps.
Qed.

(** in [_initialize_factory] the first registration of an alias wins:
    once an alias names a provider, no later metadata entry remaps it
    (unlike [initialize_handlers], where the last one wins). *)
Theorem factory_alias_first_wins ms r n s' :
  dict_get n (alias_map r) = Some s' ->
  dict_get n (alias_map (fold_left factory_entry ms r)) = Some s'.
Proof.
  revert r. induction ms as [|m ms IH]; intros r Hn; simpl; [done|].
  by apply IH, factory_entry_keeps_alias.
Qed.
End FirstWins.

(** ** Witnesses

    A world where every handler module imports and every handler class
    builds, and a metadata file with two providers. *)

Section RegistryWitnesses.
Local Open Scope string_scope.

(** A world where every handler module imports and every class accepts
    its configuration. *)
Definition demo_world : World :=
  {| import_handler := fun mp cn => Imported (mp, cn) true;
     construct_ok := fun _ _ => true |}.
#[local] Existing Instance demo_world.

Definition deepseek_entry : provider_meta :=
  {| standard_name := Some "deepseek_ai"; display_name := Some "DeepSeek";
     handler_module_path := Some "src.providers.handlers.deepseek_ai";
     handler_class_name := Some "DeepseekAIHandler";
     aliases := AliasesList [AliasStr "deepseek"; AliasStr "DeepSeek-AI"];
     env_prefix := Some "DEEPSEEK_" |}.

Definition silicon_entry : provider_meta :=
  {| standard_name := Some "silicon_flow"; display_name := Some "Silicon Flow";
     handler_module_path := Some "src.providers.handlers.silicon_flow";
     handler_class_name := Some "SiliconFlowHandler";
     aliases := AliasesList [AliasStr "silicon"]; env_prefix := Some "SILICONFLOW_" |}.

Definition demo_entries : list meta_entry := [EntryDict deepseek_entry; EntryDict silicon_entry].

Lemma standardize_after_startup_witness :
  snd (standardize_provider_name (MetaList demo_entries)
         (initialize_handlers (MetaList demo_entries) init_registry) "DeepSeek-AI")
  = Ok "deepseek_ai".
Proof. rewrite standardize_after_startup by discriminate. vm_compute. reflexivity. Defined.

Lemma initialize_handlers_refines_witness :
  let r' := initialize_handlers (MetaList demo_entries) init_registry in
  view r' = abs_init demo_entries /\ initialized r' = true /\ root_set r' = true /\ coherent r'.
Proof. apply initialize_handlers_refines; [repeat split | reflexivity]. Defined.

Lemma get_handler_first_breaks_standardize_witness :
  let r1 := fst (get_handler (MetaList demo_entries) None [] init_registry "deepseek") in
  (forall name', snd (standardize_provider_name (MetaList demo_entries) r1 name') = Err value_error) /\
  (forall name', snd (get_provider_metadata (MetaList demo_entries) r1 name') = None).
Proof. apply get_handler_first_breaks_standardize. vm_compute. discriminate. Defined.

(** A later entry that also claims the alias ["silicon"]. *)
Definition claiming_entry : provider_meta :=
  {| standard_name := Some "deepseek_ai"; display_name := None;
     handler_module_path := Some "src.providers.handlers.deepseek_ai";
     handler_class_name := Some "DeepseekAIHandler";
     aliases := AliasesList [AliasStr "silicon"]; env_prefix := Some "DEEPSEEK_" |}.

Lemma factory_alias_first_wins_witness :
  dict_get "silicon"
    (alias_map (fold_left factory_entry [claiming_entry]
                 (set_aliases init_registry [("silicon", "silicon_flow")])))
  = Some "silicon_flow".
Proof. apply factory_alias_first_wins. reflexivity. Defined.
End RegistryWitnesses.
