(* ===== verification/ThinkTags.v ===== *)
(** * ThinkTags: the report handler's reasoning-block removal

    [OllamaReportHandler._remove_think_tags]
    ([src/src/providers/handlers/ollama_report_handler.py], lines 30-36):
    [re.sub(r"<think>.*?</think>\s*", "", text, flags=re.DOTALL).strip()].
    The regular expression is translated into the scan [re.sub] performs:
    at each position, a match starts with [<think>], extends lazily to the
    first [</think>] after it and then greedily over whitespace; the scan
    resumes after the match, and a position where no match starts keeps its
    character.  [\s] is [str.isspace], as in CPython's [re] for [str]
    patterns.  The scan is a fuelled [Fixpoint]; [sub_think_fuel] shows that
    the fuel [String.length s] is enough, since every step consumes at
    least one character.

    The rest of [OllamaReportHandler] ([chat], lines 71-153, a request
    and the normalisation of its response) is not modelled. *)

From S2P Require Import Prelude Errors.
Import Exc.

Section Think.
Local Open Scope string_scope.

Definition open_tag : string := "<think>".
Definition close_tag : string := "</think>".

(** [.*?</think>]: the text after the first [</think>], if any. *)
Fixpoint find_close (s : string) : option string :=
  if prefix close_tag s then Some (str_drop 8 s)
  else match s with
       | EmptyString => None
       | String _ r => find_close r
       end.

(** One [re.sub] pass with the pattern [<think>.*?</think>\s*]. *)
Fixpoint sub_think (fuel : nat) (s : string) : string :=
  match fuel with
  | O => s
  | S f =>
      match s with
      | EmptyString => EmptyString
      | String c r =>
          if prefix open_tag s then
            match find_close (str_drop 7 s) with
            | Some rest => sub_think f (py_lstrip rest)
            | None => String c (sub_think f r)
            end
          else String c (sub_think f r)
      end
  end.

Definition think_sub (s : string) : string := sub_think (String.length s) s.

(** [_remove_think_tags(text)]: a falsy argument gives [""]; a non-string
    makes [re.sub] raise [TypeError]. *)
Definition remove_think_tags (text : pyval) : result exc string :=
  if negb (py_truthy text) then Ok ""
  else match text with
       | PStr s => Ok (py_strip (think_sub s))
       | _ => Err type_error
       end.
End Think.

(** ** Scanning lemmas *)

Section ThinkLemmas.
Local Open Scope string_scope.

Lemma str_drop_length_eq n s : String.length (str_drop n s) = (String.length s - n)%nat.
Proof. revert s. induction n; intros [|c r]; simpl; auto; lia. Qed.

Lemma find_close_cons c r :
  find_close (String c r) =
    if prefix close_tag (String c r) then Some (str_drop 8 (String c r)) else find_close r.
Proof. reflexivity. Qed.

Lemma find_close_length s rest :
  find_close s = Some rest -> (String.length rest <= String.length s)%nat.
Proof.
  induction s as [|c r IH].
  - intros H. compute in H. discriminate.
  - rewrite find_close_cons. destruct (prefix close_tag (String c r)).
    + intros H. assert (rest = str_drop 8 (String c r)) as -> by congruence.
      apply str_drop_length.
    + intros H. specialize (IH H). simpl. lia.
Qed.

(** The scan [re.sub] performs terminates within the length of the text:
    any fuel at least [String.length s] gives the same result, so the fuel
    [think_sub] gives [sub_think] is enough. *)
Lemma sub_think_fuel f1 f2 s :
  (String.length s <= f1)%nat -> (String.length s <= f2)%nat ->
  sub_think f1 s = sub_think f2 s.
Proof.
  revert f2 s. induction f1 as [|f1 IH]; intros f2 s H1 H2.
  - destruct s; simpl in *; [by destruct f2 | lia].
  - destruct f2 as [|f2]; [destruct s; simpl in *; [done | lia]|].
    destruct s as [|c r]; [done|]. simpl in H1, H2. cbn [sub_think].
    destruct (prefix open_tag (String c r)) eqn:Hp.
    + destruct (find_close (str_drop 7 (String c r))) as [rest|] eqn:Hf.
      * apply find_close_length in Hf. rewrite str_drop_length_eq in Hf.
        pose proof (py_lstrip_length rest). simpl in Hf.
        apply IH; lia.
      * f_equal. apply IH; lia.
    + f_equal. apply IH; lia.
Qed.

Lemma contains_drop sub n s :
  py_str_contains sub s = false -> py_str_contains sub (str_drop n s) = false.
Proof.
  revert s. induction n; intros [|c r] H; simpl; auto.
  apply IHn. by apply str_contains_cons in H as [_ H].
Qed.

Lemma contains_lstrip sub s :
  py_str_contains sub s = false -> py_str_contains sub (py_lstrip s) = false.
Proof.
  induction s as [|c r IH]; simpl; [done|]. intros H.
  destruct (py_isspace c); [|exact H].
  apply IH. by apply orb_false_iff in H as [_ H].
Qed.

Lemma find_close_none s :
  py_str_contains close_tag s = false -> find_close s = None.
Proof.
  induction s as [|c r IH]; intros H.
  - done.
  - rewrite find_close_cons.
    apply str_contains_cons in H as [Hp Hr]. rewrite Hp. by apply IH.
Qed.

Lemma sub_think_step f c r :
  sub_think (S f) (String c r) =
    if prefix open_tag (String c r) then
      match find_close (str_drop 7 (String c r)) with
      | Some rest => sub_think f (py_lstrip rest)
      | None => String c (sub_think f r)
      end
    else String c (sub_think f r).
Proof. reflexivity. Qed.

(** A text without [<think>] passes through unchanged. *)
Lemma sub_think_no_open f s :
  py_str_contains open_tag s = false -> sub_think f s = s.
Proof.
  revert s. induction f as [|f IH]; intros [|c r] H; try done.
  rewrite sub_think_step.
  apply str_contains_cons in H as [Hp Hr]. rewrite Hp. f_equal. by apply IH.
Qed.

(** A text without [</think>] passes through unchanged. *)
Lemma sub_think_no_close f s :
  py_str_contains close_tag s = false -> sub_think f s = s.
Proof.
  revert s. induction f as [|f IH]; intros [|c r] H; try done.
  rewrite sub_think_step, find_close_none by (by apply contains_drop).
  apply str_contains_cons in H as [_ Hr].
  destruct (prefix _ _); f_equal; by apply IH.
Qed.

(** No occurrence of [</think>] can start inside a string of one to seven
    characters followed by [<]: the tag has no [<] after its first
    character. *)
Lemma prefix_cons_inv a p b t :
  prefix (String a p) (String b t) = true -> a = b /\ prefix p t = true.
Proof. cbn [prefix]. destruct (ascii_dec a b); [auto | discriminate]. Qed.

Lemma close_tag_straddle x y :
  x <> "" -> (String.length x < 8)%nat -> prefix close_tag (x ++ String "<" y) = false.
Proof.
  intros Hne Hlen. apply not_true_is_false. intros Hp. unfold close_tag in Hp.
  destruct x as [|c x]; [done|]. apply prefix_cons_inv in Hp as [_ Hp].
  do 7 (destruct x as [|? x];
        [apply prefix_cons_inv in Hp as [E _]; discriminate
        | apply prefix_cons_inv in Hp as [_ Hp]]).
  simpl in Hlen. lia.
Qed.

Lemma find_close_prefix t :
  prefix close_tag t = true -> find_close t = Some (str_drop 8 t).
Proof. destruct t as [|c r]; [discriminate|]. intros H. by rewrite find_close_cons, H. Qed.

Lemma find_close_app r a :
  py_str_contains close_tag r = false -> find_close (r ++ close_tag ++ a) = Some a.
Proof.
  induction r as [|c r IH]; intros H.
  - change ("" ++ close_tag ++ a) with (close_tag ++ a).
    rewrite (find_close_prefix (close_tag ++ a) (prefix_app_self close_tag a)).
    f_equal.
  - pose proof H as H'. apply str_contains_cons in H' as [Hp Hr].
    change (String c r ++ close_tag ++ a) with (String c (r ++ close_tag ++ a)).
    cbn [find_close].
    replace (prefix close_tag (String c (r ++ close_tag ++ a))) with false.
    + by apply IH.
    + symmetry. change (String c (r ++ close_tag ++ a)) with (String c r ++ close_tag ++ a).
      destruct (decide (8 <= String.length (String c r))%nat).
      * by rewrite prefix_app_l.
      * by apply close_tag_straddle; [|simpl in *; lia].
Qed.
End ThinkLemmas.

Section ThinkSpec.
Local Open Scope string_scope.

Lemma sub_think_open_block f r a :
  py_str_contains close_tag r = false ->
  sub_think (S f) (open_tag ++ r ++ close_tag ++ a) = sub_think f (py_lstrip a).
Proof.
  intros H.
  change (open_tag ++ r ++ close_tag ++ a) with (String "<" ("think>" ++ r ++ close_tag ++ a)).
  rewrite sub_think_step.
  change (String "<" ("think>" ++ r ++ close_tag ++ a)) with (open_tag ++ (r ++ close_tag ++ a)).
  rewrite prefix_app_self, (str_drop_app open_tag), find_close_app by done.
  reflexivity.
Qed.

(** a leading reasoning block [<think>r</think>] followed by an answer
    [a] is removed together with the whitespace after it, and the answer is
    returned stripped, provided [r] has no [</think>] and [a] has no
    [<think>]. *)
Theorem remove_think_block r a :
  py_str_contains close_tag r = false -> py_str_contains open_tag a = false ->
  remove_think_tags (PStr (open_tag ++ r ++ close_tag ++ a)) = Ok (py_strip a).
Proof.
  intros Hr Ha. unfold remove_think_tags, think_sub.
  change (open_tag ++ r ++ close_tag ++ a) with (String "<" ("think>" ++ r ++ close_tag ++ a)).
  cbn [py_truthy negb String.eqb]. cbn [String.length].
  change (String "<" ("think>" ++ r ++ close_tag ++ a)) with (open_tag ++ r ++ close_tag ++ a).
  rewrite sub_think_open_block by done.
  rewrite sub_think_no_open by (by apply contains_lstrip).
  by rewrite py_strip_lstrip.
Qed.

(** a text with no [</think>] is returned only stripped: an opening
    [<think>] without its closing tag is kept, with everything after it. *)
Theorem remove_think_unclosed s :
  s <> "" -> py_str_contains close_tag s = false ->
  remove_think_tags (PStr s) = Ok (py_strip s).
Proof.
  intros Hne Hs. unfold remove_think_tags, think_sub.
  assert (py_truthy (PStr s) = true) as ->.
  { simpl. destruct (String.eqb_spec s ""); [congruence | done]. }
  simpl negb. cbv iota. by rewrite sub_think_no_close.
Qed.

Lemma remove_think_block_witness :
  remove_think_tags (PStr "<think>internal reasoning</think>Actual answer")
    = Ok "Actual answer".
Proof.
  apply (remove_think_block "internal reasoning" "Actual answer"); reflexivity.
Defined.

Lemma remove_think_unclosed_witness :
  remove_think_tags (PStr "<think>unclosed reasoning continues forever")
    = Ok "<think>unclosed reasoning continues forever".
Proof.
  apply (remove_think_unclosed "<think>unclosed reasoning continues forever");
    [discriminate | reflexivity].
Defined.
Lemma sub_think_fuel_witness :
  sub_think 30 "<think>x</think> ok <think>" = sub_think 100 "<think>x</think> ok <think>".
Proof. apply sub_think_fuel; simpl; lia. Defined.
End ThinkSpec.
