(* ===== verification/Http.v ===== *)
(** * Http: what the protocol adapters share

    The adapters of [src/src/providers/handlers/] all do the same things
    around one HTTP client: build a JSON payload from default parameters,
    live parameters and call-site overrides; send it with [aiohttp]; turn
    the status and body into a value or an exception; and, for streaming,
    read the body line by line.  This file holds the vocabulary for that:

    - the outcome of one request ([http_outcome]): a network failure of a
      given [aiohttp]/[asyncio] class, or a response with its status and
      text; the outcome of a streaming request ([stream_resp]) adds the
      body's lines and how reading them ended;
    - [json.loads] as an interface ([Json]): the adapters' theorems hold
      for every decoder; the witnesses use a small concrete one;
    - the Python operations the adapters apply to decoded JSON ([k in v],
      [v[k]], [v.get(k)], [s += v], [v.strip()]), each raising the
      exception CPython raises on a value of the wrong type;
    - the chat messages callers pass ([chat_msg]) and the trace of an
      asynchronous generator ([gen]): the items it yields, then whether it
      returned or raised. *)

From S2P Require Import Prelude Errors.
Import Exc.

(** ** Exceptions raised by Python's own operations *)

Definition key_error : exc := mk_exc CKeyError [].
Definition attribute_error : exc := mk_exc CAttributeError [].
Definition index_error : exc := mk_exc CIndexError [].

Definition rmap {E A B} (f : A -> B) (r : result E A) : result E B :=
  match r with Ok a => Ok (f a) | Err e => Err e end.

(** ** Python operations on decoded JSON *)

Section PyOps.
Local Open Scope string_scope.

(** [k in v] for a string [k]: key of a dict, element of a list (only an
    equal string is equal to a string), substring of a string; any other
    right operand raises [TypeError]. *)
Definition py_in (k : string) (v : pyval) : result exc bool :=
  match v with
  | PDict d => Ok (dict_mem k d)
  | PList l => Ok (existsb (fun x => match x with PStr s => String.eqb s k | _ => false end) l)
  | PStr s => Ok (py_str_contains k s)
  | _ => Err type_error
  end.

(** [v[k]] for a string [k]. *)
Definition py_getitem (v : pyval) (k : string) : result exc pyval :=
  match v with
  | PDict d => match dict_get k d with Some x => Ok x | None => Err key_error end
  | _ => Err type_error
  end.

(** [v[i]] for an integer [i] (negative indices count from the end). *)
Definition py_index (v : pyval) (i : Z) : result exc pyval :=
  match v with
  | PList l =>
      let n := Z.of_nat (List.length l) in
      let j := if (i <? 0)%Z then (i + n)%Z else i in
      if ((0 <=? j) && (j <? n))%Z then
        match l !! Z.to_nat j with Some x => Ok x | None => Err index_error end
      else Err index_error
  | PDict _ => Err key_error
  | _ => Err type_error
  end.

(** [v.get(k, dflt)]: only a dict has [get]. *)
Definition py_get (v : pyval) (k : string) (dflt : pyval) : result exc pyval :=
  match v with
  | PDict d => Ok (default dflt (dict_get k d))
  | _ => Err attribute_error
  end.

(** [s + v] for a string [s]. *)
Definition py_add_str (s : string) (v : pyval) : result exc string :=
  match v with PStr t => Ok (s ++ t) | _ => Err type_error end.

(** [v.strip()] *)
Definition py_strip_val (v : pyval) : result exc string :=
  match v with PStr s => Ok (py_strip s) | _ => Err attribute_error end.

Definition is_list (v : pyval) : bool := match v with PList _ => true | _ => false end.
Definition is_dict (v : pyval) : bool := match v with PDict _ => true | _ => false end.

(** [len(v)] for the values that have one. *)
Definition py_len (v : pyval) : result exc nat :=
  match v with
  | PList l => Ok (List.length l)
  | PDict d => Ok (List.length d)
  | PStr s => Ok (String.length s)
  | _ => Err type_error
  end.
End PyOps.

(** ** [json.loads] *)

(** A decoder: [None] is a [JSONDecodeError]. *)
Class Json := { json_loads : string -> option pyval }.

Definition json_decode_error : exc := mk_exc CJSONDecodeError [].

(** ** One HTTP request *)

(** The [aiohttp]/[asyncio] exceptions a request can raise before its body
    has been read: [ClientConnectorError] (DNS, refused connection),
    [asyncio.TimeoutError] (the [ClientTimeout] budget), and any other
    [ClientError] (e.g. [ServerDisconnectedError], [ClientPayloadError]). *)
Inductive net_failure : Type :=
  | NetConnector
  | NetTimeout
  | NetClientOther.

Definition net_exc (f : net_failure) : exc :=
  match f with
  | NetConnector => mk_exc CClientConnectorError []
  | NetTimeout => mk_exc CTimeoutError []
  | NetClientOther => mk_exc CClientError []
  end.

(** The request raised, or a response came back with [response.status]
    and [await response.text()]. *)
Inductive http_outcome : Type :=
  | HFail (f : net_failure)
  | HResp (status : Z) (text : string).

(** A streaming request: the response's status and, when it is read as a
    whole, its text; the lines [response.content] yields; and how the
    iteration ended ([None]: the body ended normally). *)
Inductive stream_resp : Type :=
  | SFail (f : net_failure)
  | SResp (status : Z) (text : string) (lines : list string) (tail : option net_failure).

(** ** Asynchronous generators *)

(** What a consumer of an [async for] observes: the items, in order, and
    whether the generator then returned ([None]) or raised. *)
Record gen : Type := mk_gen { g_items : list pyval; g_exc : option exc }.

Definition gen_return (items : list pyval) : gen := mk_gen items None.
Definition gen_raise (items : list pyval) (e : exc) : gen := mk_gen items (Some e).

(** [yield v] before a generator [g]. *)
Definition gen_cons (v : pyval) (g : gen) : gen := mk_gen (v :: g_items g) (g_exc g).

(** ** Chat messages *)

(** A message as callers pass it: a plain dict, a pydantic model (whose
    [.dict()] gives its fields), or another object. *)
Inductive chat_msg : Type :=
  | MsgDict (d : pydict string pyval)
  | MsgModel (fields : pydict string pyval)
  | MsgOther.

(** A message as the streaming adapters put it in the payload
    ([deepseek_ai.py] 244-263, [ollama_local.py] 438-457): [msg.dict()]
    for a model, [role] and [content] with [""] as default for a dict. *)
Definition format_message (m : chat_msg) : pyval :=
  match m with
  | MsgModel fields => PDict fields
  | MsgDict d => PDict [("role", default (PStr "") (dict_get "role" d));
                        ("content", default (PStr "") (dict_get "content" d))]
  | MsgOther => PDict [("role", PStr ""); ("content", PStr "")]
  end.

(** ** Payload parameters *)

(** [v is None] *)
Definition is_none (v : pyval) : bool := match v with PNone => true | _ => false end.

(** [final_api_params = {...}; final_api_params.update(kwargs)] *)
Definition update_params (base kwargs : pydict string pyval) : pydict string pyval :=
  dict_merge base kwargs.

(** [for param, value in params.items(): if param in valid and value is not
    None: payload[param] = value] *)
Definition add_valid_params (valid : list string) (params payload : pydict string pyval)
  : pydict string pyval :=
  fold_left (fun p kv =>
               if bool_decide (kv.1 ∈ valid) && negb (is_none kv.2)
               then dict_set kv.1 kv.2 p else p) params payload.

(** [{**a, **b}] *)
Definition dict_splat (a b : pydict string pyval) : pydict string pyval := dict_merge a b.

(** ** Rendering values in messages *)

(** [str(v)] and [str(e)], as they appear in the messages the adapters
    format.  No property depends on the text of a message, so the
    rendering is a parameter. *)
Class Render := {
  py_str : pyval -> string;
  exc_str : exc -> string
}.

(** ** More string and iteration operations *)

Fixpoint drop_char (c : ascii) (l : list ascii) : list ascii :=
  match l with
  | x :: r => if Ascii.eqb x c then drop_char c r else l
  | [] => []
  end.

(** [s.rstrip(c)] for a one-character argument. *)
Definition py_rstrip_char (c : ascii) (s : string) : string :=
  string_of_list_ascii
    (rev (drop_char c (rev (list_ascii_of_string s)))).

(** [for x in v]: a list gives its items, a dict its keys, a string its
    characters; other values are not iterable. *)
Definition py_iter (v : pyval) : result exc (list pyval) :=
  match v with
  | PList l => Ok l
  | PDict d => Ok (map (fun kv => PStr kv.1) d)
  | PStr s => Ok (map (fun c => PStr (String c EmptyString)) (list_ascii_of_string s))
  | _ => Err type_error
  end.

(** [config.get(k, dflt)] on the flat configuration dict. *)
Definition cfg_get (config : pydict string pyval) (k : string) (dflt : pyval) : pyval :=
  default dflt (dict_get k config).

(** ** [dict.fromkeys] over hashable scalars *)

(** [a == b] between the scalars a configuration or a response carries:
    numbers compare by value across [bool], [int] and [float]; [None]
    equals only itself; strings compare by content; NaN equals nothing.
    Lists and dictionaries are unhashable and never reach a key position
    in this development. *)
Definition py_key_eqb (a b : pyval) : bool :=
  let num v := match v with
               | PBool x => Some (inject_Z (Z.b2z x))
               | PInt z => Some (inject_Z z)
               | PFloat (FFin q) => Some q
               | _ => None
               end in
  match a, b with
  | PStr x, PStr y => String.eqb x y
  | PNone, PNone => true
  | PFloat (FInf x), PFloat (FInf y) => Bool.eqb x y
  | _, _ => match num a, num b with Some x, Some y => Qeq_bool x y | _, _ => false end
  end.

(** [list(dict.fromkeys(l))]: the first occurrence of each key, in order. *)
Fixpoint fromkeys_from (seen : list pyval) (l : list pyval) : list pyval :=
  match l with
  | [] => []
  | x :: r =>
      if existsb (py_key_eqb x) seen then fromkeys_from seen r
      else x :: fromkeys_from (x :: seen) r
  end.

Definition dict_fromkeys (l : list pyval) : list pyval := fromkeys_from [] l.

Section FromKeys.
Local Open Scope string_scope.

Lemma py_key_eqb_str s v : py_key_eqb (PStr s) v = true -> v = PStr s.
Proof.
  destruct v as [| | |[]|s'| |]; simpl; try discriminate.
  by intros ->%String.eqb_eq.
Qed.

(** A string of the list stays in [dict.fromkeys] unless a key already
    seen equals it. *)
Lemma fromkeys_from_str seen l s :
  PStr s ∈ l -> (forall y, y ∈ seen -> py_key_eqb (PStr s) y = false) ->
  PStr s ∈ fromkeys_from seen l.
Proof.
  revert seen. induction l as [|x r IH]; intros seen Hin Hseen; [set_solver|].
  cbn [fromkeys_from].
  destruct (existsb (py_key_eqb x) seen) eqn:Hx.
  - apply elem_of_cons in Hin as [<-|Hr]; [|by apply IH].
    apply existsb_exists in Hx as (y & Hy & Hxy). apply list_elem_of_In in Hy.
    by rewrite Hseen in Hxy.
  - destruct (py_key_eqb (PStr s) x) eqn:Hsx.
    + apply py_key_eqb_str in Hsx as ->. set_solver.
    + apply elem_of_cons in Hin as [->|Hr]; [set_solver|].
      apply list_elem_of_further, IH; [done|]. intros y Hy%elem_of_cons.
      destruct Hy as [->|Hy]; [done | by apply Hseen].
Qed.

Lemma dict_fromkeys_str l s : PStr s ∈ l -> PStr s ∈ dict_fromkeys l.
Proof. intros H. apply fromkeys_from_str; [done | set_solver]. Qed.

Lemma dict_fromkeys_head x l : dict_fromkeys (x :: l) = x :: fromkeys_from [x] l.
Proof. reflexivity. Qed.
End FromKeys.

(** ** Lemmas on payload building *)

Section PayloadLemmas.
Local Open Scope string_scope.

(** A key of the payload after the parameter loop: the parameter's value
    when the key is a valid parameter whose value is not [None], the
    payload's own value otherwise. *)
Lemma add_valid_params_get valid params payload k :
  dict_wf params ->
  dict_get k (add_valid_params valid params payload) =
    if bool_decide (k ∈ valid) then
      match dict_get k params with
      | Some v => if is_none v then dict_get k payload else Some v
      | None => dict_get k payload
      end
    else dict_get k payload.
Proof.
  unfold add_valid_params, dict_wf, dict_keys. revert payload.
  induction params as [|[k' v'] r IH]; intros payload Hwf; simpl.
  - by case_bool_decide.
  - inversion Hwf as [|? ? Hnotin Hr]; subst. rewrite IH by done. simpl.
    destruct (decide (k = k')) as [->|Hne].
    + rewrite dict_get_notin by done.
      case_bool_decide; simpl; [|done].
      destruct (is_none v'); simpl; [done|]. by rewrite dict_get_set_eq.
    + destruct (bool_decide (k' ∈ valid) && negb (is_none v')).
      * rewrite dict_get_set_ne by congruence. done.
      * done.
Qed.
End PayloadLemmas.

(** [v * n] for an integer [n]: numbers scale, sequences repeat. *)
Definition py_mul_int (v : pyval) (n : Z) : result exc pyval :=
  match v with
  | PInt z => Ok (PInt (z * n))
  | PBool b => Ok (PInt ((if b then 1 else 0) * n))
  | PFloat (FFin q) => Ok (PFloat (FFin (q * inject_Z n)))
  | PFloat f => Ok (PFloat f)
  | PStr s => Ok (PStr (String.concat EmptyString (repeat s (Z.to_nat n))))
  | PList l => Ok (PList (List.concat (repeat l (Z.to_nat n))))
  | _ => Err type_error
  end.
