(* ===== verification/Json.v ===== *)
(** * Json: a decoder for [json.loads]

    The adapters' theorems are stated for every decoder (the [Json] class of
    [Http]); this file gives the instance used to evaluate them on concrete
    responses.  It follows CPython's [json] scanner in strict mode: the
    literals [null], [true], [false], [NaN], [Infinity] and [-Infinity];
    numbers: an optional minus, [0] or a digit string not starting with
    [0], an optional fraction (a dot and at least one digit) and an
    optional exponent ([e] or [E], a sign, at least one digit), an integer
    when it has neither fraction nor exponent; strings with the
    backslash escapes of the double quote, the backslash, the slash, [b],
    [f], [n], [r], [t] and [uXXXX], and no raw control
    character; arrays; objects, where a repeated key keeps its first
    position and takes its last value, as [dict] does; whitespace
    [ \t\n\r] around tokens; nothing but whitespace after the value.
    A [\u] escape beyond ASCII is outside the string model and is refused.

    The parser is fuelled by the input's length: each call consumes a
    character before it recurses. *)

From S2P Require Import Prelude Http.

Section Decoder.
Local Open Scope string_scope.

(** The double quote, ASCII 34. *)
Definition dq : ascii := "034".

Definition json_ws (c : ascii) : bool :=
  Ascii.eqb c " " || Ascii.eqb c "009" || Ascii.eqb c "010" || Ascii.eqb c "013".

Fixpoint skip_ws (s : string) : string :=
  match s with
  | String c r => if json_ws c then skip_ws r else s
  | EmptyString => s
  end.

Definition is_digit (c : ascii) : bool :=
  match digit_val c with Some _ => true | None => false end.

Fixpoint take_digits (s : string) : string * string :=
  match s with
  | String c r =>
      if is_digit c then let '(ds, rest) := take_digits r in (String c ds, rest) else ("", s)
  | EmptyString => ("", "")
  end.

(** The integer part: [0] or a digit string not starting with [0]. *)
Definition lex_int_part (s : string) : option (string * string) :=
  match s with
  | String c r =>
      if Ascii.eqb c "0" then Some ("0", r)
      else if is_digit c then let '(ds, rest) := take_digits r in Some (String c ds, rest)
      else None
  | EmptyString => None
  end.

(** An optional fraction: a dot without digits is left unconsumed. *)
Definition lex_frac (s : string) : string * string :=
  match s with
  | String c r =>
      if Ascii.eqb c "." then
        match take_digits r with
        | (String _ _ as ds, rest) => (String "." ds, rest)
        | _ => ("", s)
        end
      else ("", s)
  | EmptyString => ("", s)
  end.

(** An optional exponent. *)
Definition lex_exp (s : string) : string * string :=
  match s with
  | String c r =>
      if Ascii.eqb c "e" || Ascii.eqb c "E" then
        let '(sg, r1) := match r with
                         | String d r' => if Ascii.eqb d "-" || Ascii.eqb d "+"
                                          then (String d "", r') else ("", r)
                         | EmptyString => ("", r)
                         end in
        match take_digits r1 with
        | (String _ _ as ds, rest) => (String c (sg ++ ds), rest)
        | _ => ("", s)
        end
      else ("", s)
  | EmptyString => ("", s)
  end.

Definition lex_number (neg : bool) (s : string) : option (pyval * string) :=
  match lex_int_part s with
  | None => None
  | Some (ip, r1) =>
      let '(fp, r2) := lex_frac r1 in
      let '(ep, r3) := lex_exp r2 in
      let lexeme := (if neg then "-" else "") ++ ip ++ fp ++ ep in
      if String.eqb fp "" && String.eqb ep "" then
        option_map (fun z => (PInt z, r3)) (py_int lexeme)
      else option_map (fun f => (PFloat f, r3)) (py_float lexeme)
  end.

Definition hex_val (c : ascii) : option nat :=
  let n := nat_of_ascii c in
  if (48 <=? n)%nat && (n <=? 57)%nat then Some (n - 48)%nat
  else if (97 <=? n)%nat && (n <=? 102)%nat then Some (n - 87)%nat
  else if (65 <=? n)%nat && (n <=? 70)%nat then Some (n - 55)%nat
  else None.

(** The body of a string literal after its opening quote. *)
Fixpoint lex_string (s : string) : option (string * string) :=
  match s with
  | EmptyString => None
  | String c r =>
      if Ascii.eqb c dq then Some ("", r)
      else if (nat_of_ascii c <? 32)%nat then None
      else if Ascii.eqb c "\" then
        match r with
        | String e r' =>
            let k := fun ch => option_map (fun '(t, rest) => (String ch t, rest)) (lex_string r') in
            if Ascii.eqb e dq then k dq
            else if Ascii.eqb e "\" then k "\"%char
            else if Ascii.eqb e "/" then k "/"%char
            else if Ascii.eqb e "b" then k "008"%char
            else if Ascii.eqb e "f" then k "012"%char
            else if Ascii.eqb e "n" then k "010"%char
            else if Ascii.eqb e "r" then k "013"%char
            else if Ascii.eqb e "t" then k "009"%char
            else if Ascii.eqb e "u" then
              match r' with
              | String h1 (String h2 (String h3 (String h4 r''))) =>
                  match hex_val h1, hex_val h2, hex_val h3, hex_val h4 with
                  | Some a, Some b, Some c', Some d =>
                      let n := (((a * 16 + b) * 16 + c') * 16 + d)%nat in
                      if (n <? 128)%nat then
                        option_map (fun '(t, rest) => (String (ascii_of_nat n) t, rest))
                                   (lex_string r'')
                      else None
                  | _, _, _, _ => None
                  end
              | _ => None
              end
            else None
        | EmptyString => None
        end
      else option_map (fun '(t, rest) => (String c t, rest)) (lex_string r)
  end.

Fixpoint parse_value (fuel : nat) (s : string) : option (pyval * string) :=
  match fuel with
  | O => None
  | S f =>
      let s := skip_ws s in
      if prefix "null" s then Some (PNone, str_drop 4 s)
      else if prefix "true" s then Some (PBool true, str_drop 4 s)
      else if prefix "false" s then Some (PBool false, str_drop 5 s)
      else if prefix "NaN" s then Some (PFloat FNan, str_drop 3 s)
      else if prefix "Infinity" s then Some (PFloat (FInf false), str_drop 8 s)
      else if prefix "-Infinity" s then Some (PFloat (FInf true), str_drop 9 s)
      else
        match s with
        | String c r =>
            if Ascii.eqb c dq then option_map (fun '(t, rest) => (PStr t, rest)) (lex_string r)
            else if Ascii.eqb c "[" then
              match skip_ws r with
              | String "]" r' => Some (PList [], r')
              | _ => option_map (fun '(l, rest) => (PList l, rest)) (parse_elems f r)
              end
            else if Ascii.eqb c "{" then
              match skip_ws r with
              | String "}" r' => Some (PDict [], r')
              | _ => option_map (fun '(d, rest) => (PDict d, rest)) (parse_members f [] r)
              end
            else if Ascii.eqb c "-" then lex_number true r
            else lex_number false s
        | EmptyString => None
        end
  end
(** Array elements: a value, then [,] and more or [\]]. *)
with parse_elems (fuel : nat) (s : string) : option (list pyval * string) :=
  match fuel with
  | O => None
  | S f =>
      match parse_value f s with
      | Some (v, r) =>
          match skip_ws r with
          | String "," r' => option_map (fun '(l, rest) => (v :: l, rest)) (parse_elems f r')
          | String "]" r' => Some ([v], r')
          | _ => None
          end
      | None => None
      end
  end
(** Object members: a key, [:], a value, then [,] and more or [}]. *)
with parse_members (fuel : nat) (acc : pydict string pyval) (s : string)
  : option (pydict string pyval * string) :=
  match fuel with
  | O => None
  | S f =>
      match skip_ws s with
      | String c r =>
          if Ascii.eqb c dq then
            match lex_string r with
            | Some (k, r1) =>
                match skip_ws r1 with
                | String ":" r2 =>
                    match parse_value f r2 with
                    | Some (v, r3) =>
                        let acc' := dict_set k v acc in
                        match skip_ws r3 with
                        | String "," r4 => parse_members f acc' r4
                        | String "}" r4 => Some (acc', r4)
                        | _ => None
                        end
                    | None => None
                    end
                | _ => None
                end
            | None => None
            end
          else None
      | EmptyString => None
      end
  end.

Definition decode (s : string) : option pyval :=
  match parse_value (S (String.length s)) s with
  | Some (v, rest) => if String.eqb (skip_ws rest) "" then Some v else None
  | None => None
  end.
End Decoder.

#[export] Instance py_json : Json := {| json_loads := decode |}.

(** JSON text written with a backquote for each double quote, so that
    concrete documents read well in this development. *)
Definition jq (s : string) : string := py_replace s "`"%string (String dq EmptyString).

(** ** A rendering of values for concrete runs

    [str()] of the scalars the adapters' messages print; containers and
    floats print as [...], and exceptions as their class's absence of a
    message (the text of a message is never examined). *)
Definition repr_z (z : Z) : string := DecimalString.NilEmpty.string_of_int (Z.to_int z).

#[export] Instance plain_render : Render := {|
  py_str v := match v with
              | PStr s => s
              | PInt z => repr_z z
              | PBool true => "True"%string
              | PBool false => "False"%string
              | PNone => "None"%string
              | _ => "..."%string
              end;
  exc_str _ := EmptyString
|}.
