(* ===== verification/Stream.v ===== *)
(** * Stream: the server-sent-event loops of the streaming adapters

    Every streaming adapter reads [response.content] line by line.  Two
    loops occur in the code:

    - [sse_scan], the loop of the OpenAI-compatible adapters
      ([groq_api.py] 207-226, [together_ai.py] 193-208, [perplexity_ai.py]
      154-166, [anyscale_endpoints.py] 260-277, [cohere_compatible.py]
      289-306, [002.py] 374-394, [silicon_flow.py] 418-433,
      [volc_engine.py] 360-374, [zhipu_ai.py] 359-398): a stripped line
      that starts with the data prefix ([data: ] or [data:]) carries a
      payload; the payload [[DONE]] ends the loop ([break]), after an
      optional completion marker is yielded; any other payload is decoded
      and handed to the adapter's chunk handler, a payload that does not
      decode is skipped; other lines are skipped.  Empty lines are skipped
      whether the code tests [if not line] first or not, since an empty
      line does not start with the prefix.
    - [ds_sse_scan], the loop of [DeepseekAIHandler.stream_chat]
      ([deepseek_ai.py] 297-310): it skips [data: [DONE]] without leaving
      the loop, and decodes everything after the five characters [data:].

    The theorems: the scan of a concatenation is the scan of its parts
    ([sse_scan_app]); a line whose payload does not decode is skipped
    without affecting any other item ([sse_skip_corrupt]); [[DONE]] ends the
    items ([sse_done_stops]); in DeepSeek's loop [[DONE]] ends nothing
    ([ds_done_ignored]). *)

From S2P Require Import Prelude Errors Http Json.
Import Exc.

(** How a scan of the lines ended. *)
Inductive scan : Type :=
  | ScanDone (items : list pyval)              (** [[DONE]] read: [break] *)
  | ScanEnd (items : list pyval)               (** the lines ran out *)
  | ScanRaise (items : list pyval) (e : exc).  (** the chunk handler raised *)

Definition scan_prepend (ys : list pyval) (s : scan) : scan :=
  match s with
  | ScanDone xs => ScanDone (ys ++ xs)
  | ScanEnd xs => ScanEnd (ys ++ xs)
  | ScanRaise xs e => ScanRaise (ys ++ xs) e
  end.

Section Sse.
Context `{Json}.
Local Open Scope string_scope.

(** The data prefix, [data: ] or [data:]. *)
Variable data_prefix : string.
(** What is yielded on [[DONE]] before [break]: [{"status": "done"}] or
    nothing. *)
Variable on_done : list pyval.
(** What a decoded chunk yields, or the exception the adapter raises on it. *)
Variable on_chunk : pyval -> result exc (list pyval).

(** The payload of a stripped line, if it is a data line. *)
Definition sse_payload (line : string) : option string :=
  let s := py_strip line in
  if py_startswith s data_prefix
  then Some (py_strip (str_drop (String.length data_prefix) s))
  else None.

Fixpoint sse_scan (lines : list string) : scan :=
  match lines with
  | [] => ScanEnd []
  | l :: rest =>
      match sse_payload l with
      | Some d =>
          if String.eqb d "[DONE]" then ScanDone on_done
          else match json_loads d with
               | None => sse_scan rest
               | Some v =>
                   match on_chunk v with
                   | Ok ys => scan_prepend ys (sse_scan rest)
                   | Err e => ScanRaise [] e
                   end
               end
      | None => sse_scan rest
      end
  end.

(** A line the loop passes over: not a data line, or a data line whose
    payload is not [[DONE]] and does not decode. *)
Definition sse_skipped (line : string) : bool :=
  match sse_payload line with
  | None => true
  | Some d => negb (String.eqb d "[DONE]") && bool_decide (json_loads d = None)
  end.

(** The [[DONE]] line. *)
Definition sse_is_done (line : string) : bool :=
  match sse_payload line with Some d => String.eqb d "[DONE]" | None => false end.
End Sse.

(** [DeepseekAIHandler.stream_chat], lines 297-310. *)
Section DeepSeekSse.
Context `{Json}.
Local Open Scope string_scope.

Fixpoint ds_sse_scan (lines : list string) : list pyval :=
  match lines with
  | [] => []
  | l :: rest =>
      let s := py_strip l in
      if String.eqb s "" || String.eqb s "data: [DONE]" || negb (py_startswith s "data:")
      then ds_sse_scan rest
      else match json_loads (py_strip (str_drop 5 s)) with
           | Some v => v :: ds_sse_scan rest
           | None => ds_sse_scan rest
           end
  end.
End DeepSeekSse.

(** ** Properties of the loops *)

Section SseLemmas.
Context `{Json} (data_prefix : string) (on_done : list pyval)
        (on_chunk : pyval -> result exc (list pyval)).
Local Open Scope string_scope.

Lemma scan_prepend_app xs ys s : scan_prepend xs (scan_prepend ys s) = scan_prepend (xs ++ ys) s.
Proof. destruct s; simpl; by rewrite app_assoc. Qed.

Lemma scan_prepend_nil s : scan_prepend [] s = s.
Proof. by destruct s. Qed.

(** The scan of a concatenation: the first part's scan, continued by the
    second part's when the first ran out of lines. *)
Lemma sse_scan_app l1 l2 :
  sse_scan data_prefix on_done on_chunk (l1 ++ l2) =
    match sse_scan data_prefix on_done on_chunk l1 with
    | ScanEnd xs => scan_prepend xs (sse_scan data_prefix on_done on_chunk l2)
    | s => s
    end.
Proof.
  induction l1 as [|l l1 IH]; simpl; [by rewrite scan_prepend_nil|].
  destruct (sse_payload data_prefix l) as [d|]; [|done].
  destruct (String.eqb d "[DONE]"); [done|].
  destruct (json_loads d) as [v|]; [|done].
  destruct (on_chunk v) as [ys|e]; [|done].
  rewrite IH. destruct (sse_scan _ _ _ l1); simpl; try done.
  by rewrite scan_prepend_app.
Qed.

(** a corrupt line between healthy ones is dropped and nothing
    else changes: the items before and after it, and how the loop ends,
    are those of the stream without it. *)
Theorem sse_skip_corrupt l1 l l2 :
  sse_skipped data_prefix l = true ->
  sse_scan data_prefix on_done on_chunk (l1 ++ l :: l2) =
    sse_scan data_prefix on_done on_chunk (l1 ++ l2).
Proof.
  intros Hl. rewrite !sse_scan_app. destruct (sse_scan _ _ _ l1); try done.
  f_equal. simpl. unfold sse_skipped in Hl.
  destruct (sse_payload data_prefix l) as [d|]; [|done].
  apply andb_true_iff in Hl as [Hd Hj]. apply negb_true_iff in Hd.
  apply bool_decide_eq_true in Hj. by rewrite Hd, Hj.
Qed.

(** [[DONE]] ends the items: the loop yields the items of the lines before
    it and the completion marker, and reads no further line. *)
Theorem sse_done_stops l1 l l2 xs :
  sse_scan data_prefix on_done on_chunk l1 = ScanEnd xs ->
  sse_is_done data_prefix l = true ->
  sse_scan data_prefix on_done on_chunk (l1 ++ l :: l2) = ScanDone (xs ++ on_done)%list.
Proof.
  intros H1 Hl. rewrite sse_scan_app, H1. simpl. unfold sse_is_done in Hl.
  destruct (sse_payload data_prefix l) as [d|]; [|done]. by rewrite Hl.
Qed.
End SseLemmas.

Section DeepSeekSseLemmas.
Context `{Json}.
Local Open Scope string_scope.

Lemma ds_sse_scan_app l1 l2 : ds_sse_scan (l1 ++ l2) = (ds_sse_scan l1 ++ ds_sse_scan l2)%list.
Proof.
  induction l1 as [|l l1 IH]; simpl; [done|].
  destruct (_ || _ || _); [done|]. destruct (json_loads _); simpl; by rewrite IH.
Qed.

(** In DeepSeek's loop [data: [DONE]] is skipped and the loop goes on: the
    items after it are yielded as if it were absent. *)
Theorem ds_done_ignored l1 l2 :
  ds_sse_scan (l1 ++ "data: [DONE]" :: l2)%list = (ds_sse_scan l1 ++ ds_sse_scan l2)%list.
Proof. rewrite ds_sse_scan_app. reflexivity. Qed.
(** C7: DeepSeek's loop is the generic loop with the prefix [data:] and no
    completion marker on every stream that carries no [[DONE]] payload:
    the two loops differ only in how they treat [[DONE]]. *)
Theorem ds_sse_scan_generic lines :
  Forall (fun l => sse_payload "data:" l <> Some "[DONE]") lines ->
  sse_scan "data:" [] (fun v => Ok [v]) lines = ScanEnd (ds_sse_scan lines).
Proof.
  induction lines as [|l ls IH]; intros Hf; [done|].
  apply Forall_cons in Hf as [Hl Hls]. cbn [sse_scan ds_sse_scan].
  unfold sse_payload in *. change (String.length "data:") with 5%nat in *.
  destruct (py_startswith (py_strip l) "data:") eqn:Hp.
  - destruct (String.eqb_spec (py_strip l) "") as [He|_]; [by rewrite He in Hp|].
    destruct (String.eqb_spec (py_strip l) "data: [DONE]") as [He|_]; [by rewrite He in Hl|].
    cbn [orb negb]. cbv beta iota.
    destruct (String.eqb_spec (py_strip (str_drop 5 (py_strip l))) "[DONE]") as [Hd|_];
      [by rewrite Hd in Hl|].
    destruct (json_loads _); cbn [scan_prepend]; rewrite IH by done; done.
  - rewrite !orb_true_r. simpl. by apply IH.
Qed.
End DeepSeekSseLemmas.

(** ** Concrete streams *)

Section StreamWitnesses.
Local Open Scope string_scope.

Definition chunk_line (c : string) : string :=
  jq ("data: {`choices`: [{`delta`: {`content`: `" ++ c ++ "`}}]}").

Definition chunk (c : string) : pyval :=
  PDict [("choices", PList [PDict [("delta", PDict [("content", PStr c)])]])].

Definition corrupt_line : string := "data: {not valid json".

Definition pass_chunk (v : pyval) : result exc (list pyval) := Ok [v].

Lemma sse_skip_corrupt_witness :
  sse_scan "data: " [] pass_chunk ([chunk_line "A"] ++ corrupt_line :: [chunk_line "B"])
  = sse_scan "data: " [] pass_chunk ([chunk_line "A"] ++ [chunk_line "B"]).
Proof. apply sse_skip_corrupt. vm_compute. reflexivity. Defined.

Lemma sse_done_stops_witness :
  sse_scan "data: " [PDict [("status", PStr "done")]] pass_chunk
    ([chunk_line "A"; corrupt_line; chunk_line "B"] ++ "data: [DONE]" :: [chunk_line "C"])
  = ScanDone [chunk "A"; chunk "B"; PDict [("status", PStr "done")]].
Proof.
  apply (sse_done_stops _ _ _ [chunk_line "A"; corrupt_line; chunk_line "B"] _ _
           [chunk "A"; chunk "B"]); vm_compute; reflexivity.
Defined.
Lemma ds_sse_scan_generic_witness :
  sse_scan "data:" [] pass_chunk [chunk_line "A"; ""; corrupt_line; ": ping"; chunk_line "B"]
  = ScanEnd (ds_sse_scan [chunk_line "A"; ""; corrupt_line; ": ping"; chunk_line "B"]).
Proof. apply ds_sse_scan_generic. repeat constructor; vm_compute; discriminate. Defined.
End StreamWitnesses.
