(* ===== verification/OpenAI.v ===== *)
(** * OpenAI: the chat-completions wire format the REST adapters share

    Most adapters speak the OpenAI chat-completions format and contain
    the same three blocks of code, copied from file to file:

    - the payload with live parameters ([live_payload]): [temperature],
      [max_tokens] and [top_p] read through [self.get_current_param] with
      the configured values as defaults, updated with the call-site
      overrides, and copied into the payload when they are among
      [valid_params] and not [None] ([deepseek_ai.py] 167-186,
      [anyscale_endpoints.py] 160-179, and the stream variants);
    - the joined content of a response ([joined_content]): every choice's
      [message.content] appended, the result stripped when not empty
      ([deepseek_ai.py] 194-206, [anyscale_endpoints.py] 184-196);
    - the content of the first choice ([first_content]):
      [result["choices"][0]["message"]["content"].strip()]
      ([groq_api.py] 151-154, [together_ai.py] 143-146,
      [perplexity_ai.py] 104-107).

    With them come the lemmas that describe them: the precedence of a
    parameter's sources ([live_payload_param]), the content of a
    well-formed response ([joined_content_ok], [first_content_ok]) and the
    exceptions Python's operations raise on a malformed one
    ([access_classes]). *)

From S2P Require Import Prelude Errors EnvConfig Http.
Import Exc.

Section Wire.
Local Open Scope string_scope.

Definition valid_params : list string :=
  ["temperature"; "top_p"; "max_tokens"; "frequency_penalty"; "presence_penalty"; "stop"].

(** The payload for a target model, a message list and a stream flag,
    keeping the parameters named in [valid].  [defaults] is
    [self.default_api_params]; [param] is [self.get_current_param]. *)
Definition live_payload_with (valid : list string) (defaults : pydict string pyval)
           (param : string -> param_type -> pyval -> pyval)
           (target : pyval) (messages : pyval) (stream : bool)
           (kwargs : pydict string pyval) : pydict string pyval :=
  let dflt k := default PNone (dict_get k defaults) in
  let temperature := param "temperature" PTFloat (dflt "temperature") in
  let max_tokens := param "max_tokens" PTInt (dflt "max_tokens") in
  let top_p := param "top_p" PTFloat (dflt "top_p") in
  let final := update_params [("temperature", temperature); ("max_tokens", max_tokens);
                              ("top_p", top_p)] kwargs in
  add_valid_params valid final
    [("model", target); ("messages", messages); ("stream", PBool stream)].

Definition live_payload := live_payload_with valid_params.

(** [if "message" in choice and "content" in choice["message"]:
    content += choice["message"]["content"]] *)
Definition add_choice (acc : string) (choice : pyval) : result exc string :=
  let? has_msg := py_in "message" choice in
  if has_msg then
    let? msg := py_getitem choice "message" in
    let? has_content := py_in "content" msg in
    if has_content then
      let? c := py_getitem msg "content" in
      py_add_str acc c
    else Ok acc
  else Ok acc.

Fixpoint add_choices (acc : string) (choices : list pyval) : result exc string :=
  match choices with
  | [] => Ok acc
  | c :: rest => let? acc' := add_choice acc c in add_choices acc' rest
  end.

(** [if "choices" in result and isinstance(result["choices"], list) and
    len(result["choices"]) > 0:] the loop over the choices; [Some] the
    stripped content when it is not empty, [None] when the code goes on to
    raise its format error. *)
Definition joined_content (res : pyval) : result exc (option string) :=
  let? has_choices := py_in "choices" res in
  if has_choices then
    let? choices := py_getitem res "choices" in
    match choices with
    | PList l =>
        match l with
        | [] => Ok None
        | _ :: _ =>
            let? content := add_choices "" l in
            Ok (if String.eqb content "" then None else Some (py_strip content))
        end
    | _ => Ok None
    end
  else Ok None.

(** [if "choices" in result and isinstance(result["choices"], list) and
    len(result["choices"]) > 0: first_choice = result["choices"][0]; if
    "message" in first_choice and "content" in first_choice["message"]:
    return first_choice["message"]["content"].strip()]; [None] when the
    code goes on to raise its format error. *)
Definition first_content (res : pyval) : result exc (option string) :=
  let? has_choices := py_in "choices" res in
  if has_choices then
    let? choices := py_getitem res "choices" in
    match choices with
    | PList l =>
        match l with
        | [] => Ok None
        | _ :: _ =>
            let? first := py_index choices 0 in
            let? has_msg := py_in "message" first in
            if has_msg then
              let? msg := py_getitem first "message" in
              let? has_content := py_in "content" msg in
              if has_content then
                let? c := py_getitem msg "content" in
                let? s := py_strip_val c in
                Ok (Some s)
              else Ok None
            else Ok None
        end
    | _ => Ok None
    end
  else Ok None.

(** The content of one choice of a well-formed response:
    [choice["message"]["content"]], a string. *)
Definition choice_content (v : pyval) : option string :=
  match v with
  | PDict d =>
      match dict_get "message" d with
      | Some (PDict m) =>
          match dict_get "content" m with Some (PStr c) => Some c | _ => None end
      | _ => None
      end
  | _ => None
  end.

(** The three tunable parameters, with the type [get_current_param]
    coerces them to. *)
Definition tunables : list (string * param_type) :=
  [("temperature", PTFloat); ("max_tokens", PTInt); ("top_p", PTFloat)].

(** [if self.default_model and self.default_model not in known_models:
    known_models.insert(0, self.default_model)] over a list of model
    names ([together_ai.py] 72-73, [cohere_compatible.py] 76-77). *)
Definition known_with_default (dm : pyval) (known : list string) : list pyval :=
  let listed := match dm with PStr s => bool_decide (s ∈ known) | _ => false end in
  if py_truthy dm && negb listed then dm :: map PStr known else map PStr known.
End Wire.

(** ** Exceptions raised on malformed responses *)

(** The classes Python's own operations raise on malformed JSON. *)
Definition access_classes : list cls := [CTypeError; CKeyError; CIndexError; CAttributeError].

Section AccessLemmas.
Local Open Scope string_scope.

Lemma py_in_class k v e : py_in k v = Err e -> exc_class e ∈ access_classes.
Proof. destruct v; simpl; intros [= <-]; set_solver. Qed.

Lemma py_getitem_class v k e : py_getitem v k = Err e -> exc_class e ∈ access_classes.
Proof.
  destruct v; simpl; try (intros [= <-]; set_solver).
  destruct (dict_get k d); intros [= <-]; set_solver.
Qed.

Lemma py_add_str_class s v e : py_add_str s v = Err e -> exc_class e ∈ access_classes.
Proof. destruct v; simpl; intros [= <-]; set_solver. Qed.

Lemma py_index_class v i e : py_index v i = Err e -> exc_class e ∈ access_classes.
Proof.
  destruct v; simpl; try (intros [= <-]; set_solver).
  destruct (_ && _); [destruct (_ !! _)|]; intros [= <-]; set_solver.
Qed.

Lemma py_strip_val_class v e : py_strip_val v = Err e -> exc_class e ∈ access_classes.
Proof. destruct v; simpl; intros [= <-]; set_solver. Qed.
End AccessLemmas.

#[export] Hint Resolve py_in_class py_getitem_class py_add_str_class py_index_class
  py_strip_val_class : py.

(** Case analysis on a [let?] whose failure is covered by a class lemma. *)
Ltac rbind_case :=
  match goal with
  | |- context [rbind ?c _] =>
      let E := fresh "E" in
      destruct c eqn:E; simpl; [|intros [= <-]; eauto with py]
  end.

Section WireLemmas.
Local Open Scope string_scope.

Lemma add_choice_class acc c e : add_choice acc c = Err e -> exc_class e ∈ access_classes.
Proof.
  unfold add_choice. rbind_case. destruct a; [|intros [= <-]].
  rbind_case. rbind_case. destruct a0; [|done]. rbind_case. eauto with py.
Qed.

Lemma add_choices_class acc cs e : add_choices acc cs = Err e -> exc_class e ∈ access_classes.
Proof.
  revert acc. induction cs as [|c cs IH]; intros acc; simpl; [done|].
  destruct (add_choice acc c) eqn:E; simpl; [apply IH|].
  intros [= <-]. by apply (add_choice_class acc c).
Qed.

#[local] Hint Resolve add_choices_class : py.

Lemma joined_content_class res e : joined_content res = Err e -> exc_class e ∈ access_classes.
Proof.
  unfold joined_content. rbind_case. destruct a; [|done].
  rbind_case. destruct a as [| | | | |[|c cs]|]; try done.
  rbind_case. done.
Qed.

Lemma first_content_class res e : first_content res = Err e -> exc_class e ∈ access_classes.
Proof.
  unfold first_content. rbind_case. destruct a; [|done].
  rbind_case. destruct a as [| | | | |[|c cs]|]; try done.
  rbind_case. rbind_case. destruct a0; [|done].
  rbind_case. rbind_case. destruct a1; [|done]. rbind_case. rbind_case. done.
Qed.

Lemma add_choice_content acc v c :
  choice_content v = Some c -> add_choice acc v = Ok (acc ++ c).
Proof.
  destruct v as [| | | | | |d]; try discriminate. simpl.
  unfold add_choice, py_in, dict_mem. simpl.
  destruct (dict_get "message" d) as [[| | | | | |m]|]; try discriminate. simpl.
  destruct (dict_get "content" m) as [[| | | |c'| |]|]; try discriminate.
  intros [= <-]. reflexivity.
Qed.

Lemma add_choices_contents acc l cs :
  Forall2 (fun v c => choice_content v = Some c) l cs ->
  add_choices acc l = Ok (acc ++ String.concat "" cs).
Proof.
  intros Hf. revert acc. induction Hf as [|v c l cs Hv Hf IH]; intros acc; simpl.
  - by rewrite str_app_nil_r.
  - rewrite (add_choice_content acc v c Hv). simpl. rewrite IH.
    destruct cs; simpl; [by rewrite str_app_nil_r|].
    by rewrite str_app_assoc.
Qed.

Lemma py_in_dict_some k d v : dict_get k d = Some v -> py_in k (PDict d) = Ok true.
Proof. intros H. simpl. unfold dict_mem. by rewrite H. Qed.

Lemma py_getitem_dict_some k d v : dict_get k d = Some v -> py_getitem (PDict d) k = Ok v.
Proof. intros H. simpl. by rewrite H. Qed.

(** A response whose choices all carry a message content: the contents
    joined and stripped, when they are not all empty. *)
Lemma joined_content_ok d l cs :
  dict_get "choices" d = Some (PList l) -> l <> [] ->
  Forall2 (fun v c => choice_content v = Some c) l cs ->
  joined_content (PDict d) =
    Ok (if String.eqb (String.concat "" cs) "" then None
        else Some (py_strip (String.concat "" cs))).
Proof.
  intros Hd Hl Hf. unfold joined_content.
  rewrite (py_in_dict_some _ _ _ Hd), rbind_ok, (py_getitem_dict_some _ _ _ Hd), rbind_ok.
  destruct l as [|v l']; [done|]. by rewrite (add_choices_contents "" _ cs Hf), rbind_ok.
Qed.

(** A response whose first choice carries a message content: that
    content, stripped. *)
Lemma first_content_ok d v l c :
  dict_get "choices" d = Some (PList (v :: l)) -> choice_content v = Some c ->
  first_content (PDict d) = Ok (Some (py_strip c)).
Proof.
  intros Hd Hv. unfold first_content.
  rewrite (py_in_dict_some _ _ _ Hd), rbind_ok, (py_getitem_dict_some _ _ _ Hd), rbind_ok.
  simpl py_index. cbn [rbind].
  destruct v as [| | | | | |dv]; try discriminate. simpl in Hv.
  destruct (dict_get "message" dv) as [[| | | | | |m]|] eqn:Hm; try discriminate.
  rewrite (py_in_dict_some _ _ _ Hm), rbind_ok, (py_getitem_dict_some _ _ _ Hm), rbind_ok.
  destruct (dict_get "content" m) as [[| | | |c'| |]|] eqn:Hc; try discriminate.
  injection Hv as <-.
  by rewrite (py_in_dict_some _ _ _ Hc), rbind_ok, (py_getitem_dict_some _ _ _ Hc), rbind_ok.
Qed.

(** A tunable parameter in the payload: the call-site override when one is
    given, else the live value [param] returns for the configured default;
    a [None] value leaves the key out. *)
Lemma live_payload_with_param valid defaults param target msgs stream kwargs k ty :
  dict_wf kwargs -> (k, ty) ∈ tunables -> k ∈ valid ->
  dict_get k (live_payload_with valid defaults param target msgs stream kwargs) =
    let v := match dict_get k kwargs with
             | Some o => o
             | None => param k ty (default PNone (dict_get k defaults))
             end in
    if is_none v then None else Some v.
Proof.
  intros Hkw Hk Hv. unfold live_payload_with, update_params.
  rewrite add_valid_params_get by (apply dict_merge_wf; unfold dict_wf, dict_keys; simpl;
                                   repeat constructor; set_solver).
  rewrite bool_decide_eq_true_2 by done. rewrite dict_get_merge by done.
  apply list_elem_of_In in Hk. unfold tunables in Hk. simpl in Hk.
  destruct Hk as [[= <- <-]|[[= <- <-]|[[= <- <-]|[]]]]; simpl;
    destruct (dict_get _ kwargs) as [o|]; simpl; by destruct (is_none _).
Qed.

Lemma live_payload_param defaults param target msgs stream kwargs k ty :
  dict_wf kwargs -> (k, ty) ∈ tunables ->
  dict_get k (live_payload defaults param target msgs stream kwargs) =
    let v := match dict_get k kwargs with
             | Some o => o
             | None => param k ty (default PNone (dict_get k defaults))
             end in
    if is_none v then None else Some v.
Proof.
  intros Hkw Hk. apply live_payload_with_param; [done | done|].
  unfold tunables in Hk. unfold valid_params. set_solver.
Qed.
(** The list with the default model has no duplicate when the known
    names have none, contains the default model when one is set, and
    contains every known name. *)
Lemma known_with_default_spec dm known :
  NoDup known ->
  NoDup (known_with_default dm known) /\
  (py_truthy dm = true -> dm ∈ known_with_default dm known) /\
  (forall s, s ∈ known -> PStr s ∈ known_with_default dm known).
Proof.
  intros Hk. assert (NoDup (map PStr known)) as Hm.
  { apply NoDup_fmap_2; [intros ?? [= ->]; done | done]. }
  assert (forall s, s ∈ known -> PStr s ∈ map PStr known) as Hin.
  { intros s Hs. apply list_elem_of_fmap. eauto. }
  unfold known_with_default.
  destruct (py_truthy dm) eqn:Ht; cbn [andb].
  2: { split_and!. done. discriminate. done. }
  destruct dm as [| | | |s| |]; try discriminate; cbn [negb].
  (* a string: inserted unless it is a known name *)
  4:{ case_bool_decide as Hs; cbn [negb].
  - split_and!; [done | intros _; by apply Hin | done].
  - split_and!; [constructor; [|done] | intros _; set_solver
                | intros s' Hs'; apply list_elem_of_further, Hin, Hs'].
    intros Hx. apply list_elem_of_fmap in Hx as (s' & Heq & Hs'). simplify_eq. done. }
  all: split_and!; [constructor; [intros Hx; apply list_elem_of_fmap in Hx as (? & ? & ?);
                                    discriminate | done]
                     | intros _; set_solver | intros s' Hs'; apply list_elem_of_further, Hin, Hs'].
Qed.
End WireLemmas.
