(* ===== verification/DeepSeek.v ===== *)
(** * DeepSeek: the adapter of [src/src/providers/handlers/deepseek_ai.py]

    [DeepseekAIHandler] as the code has it.  The instance is a record built
    by [init] from the flat configuration the factory passes
    ([__init__], lines 18-39); [get_headers] is [_get_headers] (102-109);
    [request_once] is the body of [_make_request] (120-154) for one HTTP
    outcome, and [make_request] is that body under its [tenacity]
    decorator (111-119), whose [retry=] argument is the plain function
    [is_retryable_exception]; [extract_content] is the response handling of
    [generate_text] (194-209) and [generate_text] the whole method
    (159-219); [stream_chat] (221-333) is an asynchronous generator whose
    trace ([gen]) is computed from the streamed response; [models_url] and
    [get_available_models] are lines 45-100.

    [self.get_current_param] is a parameter [param] of the operations that
    call it; [param_from_env] instantiates it with [get_current_param] of
    [EnvConfig] so that the end-to-end statements can be made.  The HTTP
    outcome of the [i]-th attempt is [net i]: the adapter's behaviour for
    every possible network is described, and the number of attempts made is
    part of each result. *)

From S2P Require Import Prelude Errors Retry EnvConfig Registry Http Json Stream OpenAI.
Import Exc.

Module DeepSeek.

(** The instance attributes set by [__init__]. *)
Record handler : Type := mk_handler {
  provider_name : pyval;
  api_key : pyval;
  endpoint : pyval;
  default_model : pyval;
  default_api_params : pydict string pyval;
  request_timeout : pyval
}.

Section Ops.
Context `{Json} `{Render}.
Local Open Scope string_scope.

(** [__init__], lines 18-37: [BaseAPIHandler.__init__] stores the config,
    then every attribute is read with its default.  An endpoint that is
    truthy but not a string has no [endswith]: [AttributeError]. *)
Definition init (config : pydict string pyval) : result exc handler :=
  let ep := cfg_get config "DEEPSEEK_ENDPOINT" (PStr "https://api.deepseek.com/v1") in
  let? ep' :=
    if py_truthy ep then
      match ep with
      | PStr s => Ok (if py_endswith s "/" then PStr (py_rstrip_char "/" s) else ep)
      | _ => Err attribute_error
      end
    else Ok ep in
  Ok {| provider_name := cfg_get config "provider_name" (PStr "deepseek_ai");
        api_key := cfg_get config "DEEPSEEK_API_KEY" PNone;
        endpoint := ep';
        default_model := cfg_get config "DEEPSEEK_DEFAULT_MODEL" PNone;
        default_api_params :=
          [("temperature", cfg_get config "DEEPSEEK_TEMPERATURE" (PFloat (FFin (7 # 10))));
           ("top_p", cfg_get config "DEEPSEEK_TOP_P" (PFloat (FFin 1)));
           ("max_tokens", cfg_get config "DEEPSEEK_MAX_TOKENS" (PInt 2000))];
        request_timeout := cfg_get config "DEEPSEEK_REQUEST_TIMEOUT" (PInt 30) |}.

(** [get_required_config_fields], line 43. *)
Definition required_config_fields : list string := ["DEEPSEEK_API_KEY"; "DEEPSEEK_ENDPOINT"].

Definition config_error (msg : string) : exc := new_exc CConfigurationError [PStr msg] [].

(** [_get_headers], lines 102-109. *)
Definition get_headers (h : handler) : result exc (pydict string pyval) :=
  if negb (py_truthy (api_key h))
  then Err (config_error "API key (DEEPSEEK_API_KEY) is missing for DeepseekAIHandler headers.")
  else Ok [("Content-Type", PStr "application/json");
           ("Authorization", PStr ("Bearer " ++ py_str (api_key h)))].

(** The [try] body of [_make_request] (lines 125-144) for one outcome of
    the request. *)
Definition request_body (h : handler) (o : http_outcome) : result exc pyval :=
  let? _ := get_headers h in
  match o with
  | HFail f => Err (net_exc f)
  | HResp status text =>
      if negb (Z.eqb status 200) then
        let body := match json_loads text with
                    | Some v => v
                    | None => PDict [("error", PStr text)]
                    end in
        Err (new_exc CAPIResponseError []
               [("provider_name", provider_name h); ("status_code", PInt status);
                ("response_body", body); ("details", PStr ("HTTP " ++ py_str (PInt status)))])
      else
        match json_loads text with
        | Some v => Ok v
        | None =>
            Err (new_exc CAPIResponseFormatError []
                   [("message", PStr "Invalid JSON in successful response");
                    ("response_body", PDict [("raw_response", PStr text)]);
                    ("provider", provider_name h)])
        end
  end.

(** The [except] clauses of [_make_request] (lines 146-154), in order.
    The keyword arguments of the first and the third do not exist in the
    constructors' signatures. *)
Definition request_except (h : handler) (e : exc) : exc :=
  if isinstance e [CClientConnectorError] then
    new_exc CAPIConnectionError []
      [("message", PStr ("Network connection error: " ++ exc_str e));
       ("detail", PStr (exc_str e)); ("provider", provider_name h)]
  else if isinstance e [CTimeoutError] then
    new_exc CAPITimeoutError []
      [("message", PStr ("Request timed out after " ++ py_str (request_timeout h) ++ "s"));
       ("timeout_value", request_timeout h); ("provider", provider_name h)]
  else if isinstance e [CClientError] then
    new_exc CAPIError []
      [("message", PStr ("API client error: " ++ exc_str e));
       ("detail", PStr (exc_str e)); ("provider", provider_name h)]
  else e.

(** One call of the undecorated [_make_request]. *)
Definition request_once (h : handler) (o : http_outcome) : outcome pyval :=
  match request_body h o with
  | Ok v => Returned v
  | Err e => Raised (request_except h e)
  end.

(** The decorator of lines 111-119. *)
Definition retry_config : Tenacity.config :=
  {| Tenacity.stop_after_attempt := 3;
     Tenacity.wait_multiplier := 1; Tenacity.wait_min := 2; Tenacity.wait_max := 10;
     Tenacity.retry := Tenacity.RetryCallable is_retryable_exception;
     Tenacity.reraise := true |}.

(** [await self._make_request(...)]: the result, the attempts made and the
    waits between them.  The payload does not change between attempts; the
    outcome of attempt [i] is [net i]. *)
Definition make_request (h : handler) (net : nat -> http_outcome) : result exc pyval * nat * list Z :=
  Tenacity.call_with_retry retry_config (fun i => request_once h (net i)).

(** Lines 161-186 (and 228-273): the payload for a target model, a
    message list and a stream flag.  [param] is [self.get_current_param]. *)
Definition build_payload (h : handler) (param : string -> param_type -> pyval -> pyval)
           (target : pyval) (messages : pyval) (stream : bool)
           (kwargs : pydict string pyval) : pydict string pyval :=
  live_payload (default_api_params h) param target messages stream kwargs.

Definition format_error (h : handler) (res : pyval) : exc :=
  new_exc CAPIResponseFormatError []
    [("message", PStr "Unexpected response format"); ("response_body", res);
     ("provider", provider_name h)].

(** Lines 194-209: the concatenated message contents, stripped, or the
    format error. *)
Definition extract_content (h : handler) (res : pyval) : result exc string :=
  let? o := joined_content res in
  match o with Some s => Ok s | None => Err (format_error h res) end.

(** The [except] clauses of [generate_text] (lines 211-219). *)
Definition generate_except (h : handler) (e : exc) : exc :=
  if isinstance e [CAPIError] then e
  else if isinstance e [CRetryError] then
    new_exc CAPIError [PStr ("API request failed after retries: " ++ exc_str e)]
      [("detail", PStr (exc_str e)); ("provider", provider_name h)]
  else
    new_exc CAPIError []
      [("provider_name", provider_name h);
       ("message", PStr ("Unexpected internal error: " ++ exc_str e));
       ("details", PStr (exc_str e))].

(** The payload [generate_text] sends. *)
Definition generate_payload (h : handler) (param : string -> param_type -> pyval -> pyval)
           (prompt : string) (model : pyval) (kwargs : pydict string pyval)
  : pydict string pyval :=
  build_payload h param (py_or model (default_model h))
    (PList [PDict [("role", PStr "user"); ("content", PStr prompt)]]) false kwargs.

(** [generate_text(prompt, model, **kwargs)], lines 159-219: the result
    and the number of HTTP requests made; [net payload i] is the outcome of
    the [i]-th attempt to send [payload]. *)
Definition generate_text (h : handler) (param : string -> param_type -> pyval -> pyval)
           (prompt : string) (model : pyval) (kwargs : pydict string pyval)
           (net : pydict string pyval -> nat -> http_outcome) : result exc string * nat :=
  let target := py_or model (default_model h) in
  if negb (py_truthy target) then
    (Err (config_error ("No model specified and no default_model configured for "
                        ++ py_str (provider_name h) ++ ".")), 0%nat)
  else
    let '(r, n, _) := make_request h (net (generate_payload h param prompt model kwargs)) in
    let body := let? res := r in extract_content h res in
    (match body with Ok s => Ok s | Err e => Err (generate_except h e) end, n).

(** The [try] body of [stream_chat] (lines 279-310). *)
Definition stream_body (h : handler) (o : stream_resp) : gen :=
  match get_headers h with
  | Err e => gen_raise [] e
  | Ok _ =>
      match o with
      | SFail f => gen_raise [] (net_exc f)
      | SResp status text lines tail =>
          if negb (Z.eqb status 200) then
            gen_raise [] (new_exc CAPIResponseError []
                            [("provider_name", provider_name h); ("status_code", PInt status);
                             ("response_body", PDict [("error", PStr text)]);
                             ("details", PStr ("Stream chat error: HTTP " ++ py_str (PInt status)))])
          else
            match tail with
            | None => gen_return (ds_sse_scan lines)
            | Some f => gen_raise (ds_sse_scan lines) (net_exc f)
            end
      end
  end.

(** The [except] clauses of [stream_chat] (lines 311-331). *)
Definition stream_except (h : handler) (e : exc) : exc :=
  if isinstance e [CClientConnectorError] then
    new_exc CAPIConnectionError []
      [("message", PStr ("Connection error: " ++ exc_str e));
       ("provider_name", provider_name h); ("details", PStr (exc_str e))]
  else if isinstance e [CTimeoutError] then
    new_exc CAPITimeoutError []
      [("message", PStr ("Request timed out after " ++ py_str (request_timeout h) ++ "s"));
       ("provider_name", provider_name h); ("timeout_seconds", request_timeout h)]
  else if isinstance e [CException] then
    new_exc CAPIError []
      [("message", PStr ("Unexpected streaming error: " ++ exc_str e));
       ("provider_name", provider_name h); ("details", PStr (exc_str e))]
  else e.

(** The payload [stream_chat] sends. *)
Definition stream_payload (h : handler) (param : string -> param_type -> pyval -> pyval)
           (messages : list chat_msg) (model : pyval) (kwargs : pydict string pyval)
  : pydict string pyval :=
  build_payload h param (py_or model (default_model h))
    (PList (map format_message messages)) true kwargs.

(** [stream_chat(messages, model, **kwargs)], lines 221-333, as its
    consumer sees it; [server payload] is the streamed response to
    [payload]. *)
Definition stream_chat (h : handler) (param : string -> param_type -> pyval -> pyval)
           (messages : list chat_msg) (model : pyval) (kwargs : pydict string pyval)
           (server : pydict string pyval -> stream_resp) : gen :=
  let target := py_or model (default_model h) in
  if negb (py_truthy target) then
    gen_raise [] (config_error ("No model specified and no default model configured for "
                                ++ py_str (provider_name h) ++ "."))
  else
    let g := stream_body h (server (stream_payload h param messages model kwargs)) in
    match g_exc g with
    | None => g
    | Some e => gen_raise (g_items g) (stream_except h e)
    end.

(** Lines 52-58: the URL of the model list.  A non-string endpoint has no
    [replace]: [AttributeError], outside the [try]. *)
Definition models_url (h : handler) : result exc string :=
  match endpoint h with
  | PStr ep =>
      let base := py_rstrip_char "/" (py_replace ep "/v1" "") in
      Ok ((if py_endswith base "api.deepseek.com" then base else "https://api.deepseek.com")
          ++ "/v1/models")
  | _ => Err attribute_error
  end.

(** Line 82: [[str(model['id']) for model in data.get('data', []) if 'id' in model]]. *)
Fixpoint model_ids (ms : list pyval) : result exc (list string) :=
  match ms with
  | [] => Ok []
  | m :: rest =>
      let? has := py_in "id" m in
      if has then
        let? v := py_getitem m "id" in
        let? rest' := model_ids rest in
        Ok (py_str v :: rest')
      else model_ids rest
  end.

(** The [try] body of [get_available_models] (lines 63-84). *)
Definition models_body (h : handler) (o : http_outcome) : result exc (list string) :=
  let? _ := get_headers h in
  match o with
  | HFail f => Err (net_exc f)
  | HResp status text =>
      if negb (Z.eqb status 200) then
        Err (new_exc CAPIResponseError []
               [("provider_name", provider_name h); ("status_code", PInt status);
                ("response_body", PDict [("error", PStr text)]);
                ("details", PStr ("Failed to fetch models: HTTP " ++ py_str (PInt status)))])
      else
        match json_loads text with
        | None => Err json_decode_error
        | Some data =>
            let? ms := py_get data "data" (PList []) in
            let? it := py_iter ms in
            model_ids it
        end
  end.

(** [get_available_models()], lines 45-100. *)
Definition get_available_models (h : handler) (o : http_outcome) : result exc (list string) :=
  let? _ := models_url h in
  match models_body h o with
  | Ok ms => Ok ms
  | Err e =>
      if isinstance e [CClientConnectorError] then
        Err (new_exc CAPIConnectionError []
               [("message", PStr ("Connection error: " ++ exc_str e));
                ("detail", PStr (exc_str e)); ("provider", provider_name h)])
      else if isinstance e [CTimeoutError] then
        Err (new_exc CAPITimeoutError []
               [("message", PStr "Timeout fetching models"); ("timeout_value", PInt 10);
                ("provider", provider_name h)])
      else if isinstance e [CJSONDecodeError] then
        Err (new_exc CAPIResponseFormatError []
               [("message", PStr "Invalid JSON response from models endpoint");
                ("response_body", PDict [("error", PStr (exc_str e))]);
                ("provider", provider_name h)])
      else if isinstance e [CAPIError] then Err e
      else Ok []
  end.
End Ops.

(** ** Retry: the decorator never retries *)

Section Props.
Context `{Json} `{Render}.
Local Open Scope string_scope.

(** [is_retryable_exception] is false on every retry state, so the
    decorated call is made once. *)
Lemma make_request_once h net :
  make_request h net = (outcome_result (request_once h (net 1%nat)), 1%nat, []).
Proof. apply (Tenacity.callable_never_retries _ is_retryable_exception); reflexivity. Qed.

(** No model: [ConfigurationError] and no request. *)
Theorem generate_text_missing_model h param prompt model kwargs net :
  py_truthy (py_or model (default_model h)) = false ->
  snd (generate_text h param prompt model kwargs net) = 0%nat /\
  exists e, fst (generate_text h param prompt model kwargs net) = Err e /\
            exc_class e = CConfigurationError.
Proof.
  intros Ht. unfold generate_text. rewrite Ht. simpl.
  split; [done|]. eexists; split; [reflexivity|]. reflexivity.
Qed.

(** C6: With a model, exactly one request is made, whatever the network does:
    a connection error is not retried. *)
Theorem generate_text_one_attempt h param prompt model kwargs net :
  py_truthy (py_or model (default_model h)) = true ->
  snd (generate_text h param prompt model kwargs net) = 1%nat.
Proof.
  intros Ht. unfold generate_text. rewrite Ht. simpl negb. cbv iota.
  by rewrite make_request_once.
Qed.

(** ** Every failure surfaces as the generic [APIError] *)

(** The classes [_make_request]'s body can raise. *)
Definition body_classes : list cls :=
  [CConfigurationError; CClientConnectorError; CTimeoutError; CClientError;
   CAPIResponseError; CTypeError].

(** The classes the decorated [_make_request] raises. *)
Definition request_classes : list cls :=
  [CConfigurationError; CAPITimeoutError; CAPIResponseError; CTypeError].

Lemma request_body_class h o e :
  request_body h o = Err e -> exc_class e ∈ body_classes.
Proof.
  unfold request_body, get_headers. destruct (negb (py_truthy (api_key h))).
  - intros [= <-]. cbn. set_solver.
  - destruct o as [f|st text]; simpl.
    + intros [= <-]. destruct f; cbn; set_solver.
    + destruct (negb (Z.eqb st 200)).
      * intros [= <-]. cbn. set_solver.
      * destruct (json_loads text); intros [= <-]. cbn. set_solver.
Qed.

Lemma request_except_class h e :
  exc_class e ∈ body_classes -> exc_class (request_except h e) ∈ request_classes.
Proof.
  destruct e as [c args]. unfold body_classes, request_classes. simpl.
  intros Hc. repeat (apply elem_of_cons in Hc as [->|Hc]; [cbn; set_solver|]).
  set_solver.
Qed.

Lemma request_once_class h o e :
  request_once h o = Raised e -> exc_class e ∈ request_classes.
Proof.
  unfold request_once. destruct (request_body h o) as [v|e'] eqn:Hb; [done|].
  intros [= <-]. by apply request_except_class, (request_body_class h o).
Qed.

Lemma extract_content_class h res e :
  extract_content h res = Err e -> exc_class e ∈ access_classes.
Proof.
  unfold extract_content. destruct (joined_content res) as [[s|]|e'] eqn:E; simpl.
  - done.
  - intros [= <-]. cbn. set_solver.
  - intros [= <-]. by apply (joined_content_class res).
Qed.

(** The catch-all of [generate_text] turns an exception of any of these
    classes into [APIError] carrying the handler's provider name. *)
Lemma generate_except_catch_all h e :
  exc_class e ∈ (request_classes ++ access_classes)%list ->
  exc_class (generate_except h e) = CAPIError /\
  arg (generate_except h e) "provider_name" = provider_name h.
Proof.
  destruct e as [c args]. simpl. intros Hc.
  repeat (apply elem_of_cons in Hc as [->|Hc]; [split; reflexivity|]).
  set_solver.
Qed.

(** With a model, every failure of [generate_text] (connection refused,
    timeout, HTTP error status, undecodable or unexpected body, missing
    API key) is raised as the generic [APIError] of
    [validation/error_handler.py], carrying the provider name: the typed
    errors of the taxonomy never reach the caller. *)
Theorem generate_text_errors_collapse h param prompt model kwargs net e :
  py_truthy (py_or model (default_model h)) = true ->
  fst (generate_text h param prompt model kwargs net) = Err e ->
  exc_class e = CAPIError /\ arg e "provider_name" = provider_name h.
Proof.
  intros Ht. unfold generate_text. rewrite Ht, make_request_once. simpl.
  destruct (request_once h (net (generate_payload h param prompt model kwargs) 1%nat)) as [v|e0] eqn:Hr; simpl.
  - destruct (extract_content h v) as [s|e1] eqn:He; [done|].
    intros [= <-]. apply generate_except_catch_all.
    apply elem_of_app. right. by apply (extract_content_class h v).
  - intros [= <-]. apply generate_except_catch_all.
    apply elem_of_app. left. by apply (request_once_class h (net (generate_payload h param prompt model kwargs) 1%nat)).
Qed.

(** ** The successful path *)

(** A 200 response whose [choices] all carry a message content gives the
    concatenated contents, stripped, after one request. *)
Theorem generate_text_success h param prompt model kwargs net text d l cs :
  py_truthy (py_or model (default_model h)) = true ->
  py_truthy (api_key h) = true ->
  net (generate_payload h param prompt model kwargs) 1%nat = HResp 200 text ->
  json_loads text = Some (PDict d) ->
  dict_get "choices" d = Some (PList l) -> l <> [] ->
  Forall2 (fun v c => choice_content v = Some c) l cs ->
  String.concat "" cs <> "" ->
  generate_text h param prompt model kwargs net = (Ok (py_strip (String.concat "" cs)), 1%nat).
Proof.
  intros Ht Hk Hn Hj Hd Hl Hf Hc.
  unfold generate_text. rewrite Ht, make_request_once, Hn. simpl.
  unfold request_once, request_body, get_headers. rewrite Hk. simpl. rewrite Hj. simpl.
  unfold extract_content. rewrite (joined_content_ok d l cs Hd Hl Hf).
  by destruct (String.eqb_spec (String.concat "" cs) "").
Qed.

(** ** Parameter precedence in the payload *)

(** A tunable parameter in the payload: the call-site override when one is
    given, else the live value [param] returns (whose own default is the
    value the instance was configured with); a [None] value leaves the key
    out. *)
Theorem build_payload_param h param target msgs stream kwargs k ty :
  dict_wf kwargs -> (k, ty) ∈ tunables ->
  dict_get k (build_payload h param target msgs stream kwargs) =
    let v := match dict_get k kwargs with
             | Some o => o
             | None => param k ty (default PNone (dict_get k (default_api_params h)))
             end in
    if is_none v then None else Some v.
Proof. apply live_payload_param. Qed.

(** The temperature [generate_text] sends, end to end: an override wins;
    without one, the [.env] file's [PREFIX_TEMPERATURE] value as a float,
    read at the call. *)
Theorem generate_payload_live_temperature h m p env prompt model kwargs v f :
  dict_wf kwargs -> dict_get "temperature" kwargs = None ->
  env_prefix m = Some p -> p <> "" ->
  env_get (p ++ "TEMPERATURE") env = Some v -> py_float v = Some f ->
  dict_get "temperature"
    (generate_payload h (get_current_param (Some m) (Some env)) prompt model kwargs)
  = Some (PFloat f).
Proof.
  intros Hkw Hk Hp Hne Hv Hf. unfold generate_payload.
  rewrite (build_payload_param _ _ _ _ _ _ _ PTFloat Hkw) by (unfold tunables; set_solver).
  rewrite Hk, (get_current_param_env m p) by done.
  unfold current_param_from. change (py_upper "temperature") with "TEMPERATURE". by rewrite Hv, Hf.
Qed.

(** Once the factory's class attributes are detached (the module-level
    [get_handler] ran first), [get_provider_metadata] answers [None] and
    every live parameter falls back to the value the instance was
    configured with: editing [.env] no longer changes the temperature
    sent, whatever the file says. *)
Theorem generate_payload_detached_ignores_env `{World} file dotenv osenv name
        h name' env prompt model :
  load_meta_map file <> [] ->
  let r1 := fst (get_handler file dotenv osenv init_registry name) in
  let meta := snd (get_provider_metadata file r1 name') in
  dict_get "temperature" (generate_payload h (get_current_param meta env) prompt model [])
  = let v := default PNone (dict_get "temperature" (default_api_params h)) in
    if is_none v then None else Some v.
Proof.
  intros Hne r1 meta. unfold generate_payload.
  rewrite (build_payload_param _ _ _ _ _ [] _ PTFloat);
    [|constructor|unfold tunables; set_solver].
  simpl. subst meta r1.
  destruct (get_provider_metadata_detached file _ name'
              (get_handler_detaches file dotenv osenv name Hne)) as [-> _].
  reflexivity.
Qed.

(** ** Streaming *)

(** A healthy stream: the decoded data lines, in order, and then the
    generator simply returns: no completion marker is yielded, and a
    [data: [DONE]] line ends nothing ([ds_done_ignored]). *)
Theorem stream_chat_items h param msgs model kwargs server text lines :
  py_truthy (py_or model (default_model h)) = true ->
  py_truthy (api_key h) = true ->
  server (stream_payload h param msgs model kwargs) = SResp 200 text lines None ->
  stream_chat h param msgs model kwargs server = gen_return (ds_sse_scan lines).
Proof.
  intros Ht Hk Hs. unfold stream_chat. rewrite Ht, Hs. simpl.
  unfold stream_body, get_headers. rewrite Hk. reflexivity.
Qed.

(** How a failing stream ends: a refused connection raises [TypeError]
    (the handler passes [message=] to [APIConnectionError], which has no
    such parameter); a timeout, before or during the body, raises
    [APITimeoutError] after the items already read; an error status raises
    the generic [APIError]. *)
Theorem stream_chat_failures h param msgs model kwargs :
  py_truthy (py_or model (default_model h)) = true ->
  py_truthy (api_key h) = true ->
  option_map exc_class
    (g_exc (stream_chat h param msgs model kwargs (fun _ => SFail NetConnector)))
  = Some CTypeError /\
  (forall status text lines tail, status <> 200%Z ->
     option_map exc_class
       (g_exc (stream_chat h param msgs model kwargs (fun _ => SResp status text lines tail)))
     = Some CAPIError) /\
  (forall text lines,
     stream_chat h param msgs model kwargs (fun _ => SResp 200 text lines (Some NetTimeout)) =
       gen_raise (ds_sse_scan lines) (stream_except h (net_exc NetTimeout)) /\
     option_map exc_class
       (g_exc (stream_chat h param msgs model kwargs (fun _ => SResp 200 text lines (Some NetTimeout))))
     = Some CAPITimeoutError).
Proof.
  intros Ht Hk. unfold stream_chat. rewrite Ht. simpl negb. cbv iota.
  unfold stream_body, get_headers. rewrite Hk. simpl negb. cbv iota.
  split_and!.
  - reflexivity.
  - intros status text lines tail Hs.
    rewrite (proj2 (Z.eqb_neq status 200) Hs). reflexivity.
  - intros text lines. split; reflexivity.
Qed.

(** ** The model list *)

(** [get_available_models] when the server cannot be used: a refused
    connection raises [TypeError], a timeout raises [APITimeoutError], and
    an error status is swallowed into an empty list. *)
Theorem get_available_models_unreachable h ep :
  endpoint h = PStr ep -> py_truthy (api_key h) = true ->
  option_map exc_class (match get_available_models h (HFail NetConnector) with
                        | Err e => Some e | Ok _ => None end) = Some CTypeError /\
  option_map exc_class (match get_available_models h (HFail NetTimeout) with
                        | Err e => Some e | Ok _ => None end) = Some CAPITimeoutError /\
  (forall status text, status <> 200%Z -> get_available_models h (HResp status text) = Ok []).
Proof.
  intros He Hk. unfold get_available_models, models_url. rewrite He. simpl.
  unfold models_body, get_headers. rewrite Hk. simpl.
  split_and!; [reflexivity|reflexivity|].
  intros status text Hs. rewrite (proj2 (Z.eqb_neq status 200) Hs). reflexivity.
Qed.
End Props.


(** ** Concrete runs *)

Section DeepSeekWitnesses.
Local Open Scope string_scope.

(** The [.env] file of a user who configured a key and a default model. *)
Definition demo_env : dotenv_dict :=
  [("DEEPSEEK_API_KEY", Some "sk-test"); ("DEEPSEEK_DEFAULT_MODEL", Some "deepseek-chat");
   ("DEEPSEEK_TEMPERATURE", Some "0.2")].

(** The instance the factory builds from it. *)
Definition demo_handler : handler :=
  match init (resolve_config deepseek_meta "deepseek_ai" (Some demo_env) []) with
  | Ok h => h
  | Err _ => mk_handler PNone PNone PNone PNone [] PNone
  end.

(** The same user before choosing a default model. *)
Definition bare_handler : handler :=
  match init (resolve_config deepseek_meta "deepseek_ai"
                (Some [("DEEPSEEK_API_KEY", Some "sk-test")]) []) with
  | Ok h => h
  | Err _ => mk_handler PNone PNone PNone PNone [] PNone
  end.

Definition live_param := get_current_param (Some deepseek_meta) (Some demo_env).

Definition refused : pydict string pyval -> nat -> http_outcome := fun _ _ => HFail NetConnector.

Definition ok_text : string :=
  jq "{`choices`: [{`message`: {`role`: `assistant`, `content`: ` Hello `}}]}".

Lemma generate_text_missing_model_witness :
  snd (generate_text bare_handler live_param "hi" PNone [] refused) = 0%nat /\
  exists e, fst (generate_text bare_handler live_param "hi" PNone [] refused) = Err e /\
            exc_class e = CConfigurationError.
Proof. apply generate_text_missing_model. reflexivity. Defined.

Lemma generate_text_one_attempt_witness :
  snd (generate_text demo_handler live_param "hi" PNone [] refused) = 1%nat.
Proof. apply generate_text_one_attempt. reflexivity. Defined.

Lemma generate_text_errors_collapse_witness :
  exists e, fst (generate_text demo_handler live_param "hi" PNone [] refused) = Err e /\
            exc_class e = CAPIError /\ arg e "provider_name" = provider_name demo_handler.
Proof.
  eexists. split; [vm_compute; reflexivity|].
  apply (generate_text_errors_collapse demo_handler live_param "hi" PNone [] refused);
    [reflexivity | vm_compute; reflexivity].
Defined.

Lemma generate_text_success_witness :
  generate_text demo_handler live_param "hi" PNone [] (fun _ _ => HResp 200 ok_text)
  = (Ok "Hello", 1%nat).
Proof.
  apply (generate_text_success demo_handler live_param "hi" PNone [] _ ok_text
           [("choices", PList [PDict [("message", PDict [("role", PStr "assistant");
                                                          ("content", PStr " Hello ")])]])]
           [PDict [("message", PDict [("role", PStr "assistant"); ("content", PStr " Hello ")])]]
           [" Hello "]);
    first [reflexivity | vm_compute; reflexivity | discriminate | repeat constructor].
Defined.

Lemma build_payload_param_witness :
  dict_get "temperature"
    (build_payload demo_handler live_param (PStr "deepseek-chat") (PList []) false
       [("temperature", PFloat (FFin 1))])
  = Some (PFloat (FFin 1)).
Proof.
  rewrite (build_payload_param demo_handler live_param _ _ _ _ _ PTFloat).
  - reflexivity.
  - repeat constructor; set_solver.
  - unfold tunables; set_solver.
Defined.

Lemma generate_payload_live_temperature_witness :
  dict_get "temperature"
    (generate_payload demo_handler (get_current_param (Some deepseek_meta) (Some demo_env))
       "hi" PNone [])
  = Some (PFloat (FFin (2 # 10))).
Proof.
  apply (generate_payload_live_temperature demo_handler deepseek_meta "DEEPSEEK_" demo_env
           "hi" PNone [] "0.2");
    first [constructor | reflexivity | discriminate].
Defined.

(** The user edits [.env] to [0.9] after the instance was created with
    [0.2]: with detached class attributes the request still says [0.2]. *)
Lemma generate_payload_detached_ignores_env_witness :
  let r1 := fst (@get_handler demo_world (MetaList demo_entries) None [] init_registry
                   "deepseek") in
  let meta := snd (@get_provider_metadata demo_world (MetaList demo_entries) r1 "deepseek_ai") in
  dict_get "temperature"
    (generate_payload demo_handler
       (get_current_param meta (Some [("DEEPSEEK_TEMPERATURE", Some "0.9")])) "hi" PNone [])
  = Some (PFloat (FFin (2 # 10))).
Proof.
  cbv zeta. rewrite (@generate_payload_detached_ignores_env demo_world).
  - vm_compute. reflexivity.
  - vm_compute. discriminate.
Defined.

Lemma stream_chat_items_witness :
  stream_chat demo_handler live_param [] PNone []
    (fun _ => SResp 200 "" [jq "data: {`choices`: [{`delta`: {`content`: `Hi`}}]}"; "data: [DONE]"] None)
  = gen_return [PDict [("choices", PList [PDict [("delta", PDict [("content", PStr "Hi")])]])]].
Proof. rewrite (stream_chat_items _ _ _ _ _ _ ""%string [jq "data: {`choices`: [{`delta`: {`content`: `Hi`}}]}"; "data: [DONE]"]) by reflexivity. vm_compute. reflexivity. Defined.

Lemma stream_chat_failures_witness :
  option_map exc_class
    (g_exc (stream_chat demo_handler live_param [] PNone [] (fun _ => SFail NetConnector)))
  = Some CTypeError.
Proof. apply (stream_chat_failures demo_handler live_param [] PNone []); reflexivity. Defined.

Lemma get_available_models_unreachable_witness :
  get_available_models demo_handler (HResp 503 "busy") = Ok [].
Proof.
  apply (get_available_models_unreachable demo_handler "https://api.deepseek.com/v1");
    first [reflexivity | discriminate].
Defined.
End DeepSeekWitnesses.

End DeepSeek.
