(* ===== verification/SiliconFlow.v ===== *)
(** * SiliconFlow: the adapter of [src/src/providers/handlers/silicon_flow.py]

    [SiliconFlowHandler] as the code has it.  [init] is [__init__] (20-44);
    [get_headers] is [_get_headers] (94-102), which never checks the key;
    [models_body], [models_except] and [get_available_models] are lines
    52-92; [request_body], [request_except] and [request_once] are the body
    of [_make_request] (113-182), [make_request] the same under its
    [tenacity] decorator (104-112); [generate_text] is lines 184-269 and
    [generate], its synchronous wrapper, lines 271-311; [stream_body],
    [stream_except] and [stream_chat] are lines 313-458.

    The handler raises the classes of [validation/error_handler.py] and
    passes some of them keywords their constructors do not take
    ([APIConnectionError(message=...)], [APIResponseFormatError(message=...)],
    [APIError(provider=...)]): those [raise] statements raise [TypeError].
    [_make_request] wraps every exception that is not [APIError] into
    [APIError], the HTTP error status included.

    The event loop [generate] finds is a value of [event_loop]: none, an
    idle one, or the loop that is running the caller. *)

From S2P Require Import Prelude Errors Retry EnvConfig Registry Http Json Stream OpenAI DeepSeek.
Import Exc.

Module SiliconFlow.

(** The instance attributes set by [__init__]. *)
Record handler : Type := mk_handler {
  provider_name : pyval;
  api_key : pyval;
  endpoint : pyval;
  default_model : pyval;
  default_api_params : pydict string pyval;
  request_timeout : pyval
}.

(** What [asyncio.get_event_loop()] finds in the calling thread. *)
Inductive event_loop : Type :=
  | NoLoop        (** [RuntimeError]: a new loop is created *)
  | IdleLoop      (** a loop that is not running *)
  | RunningLoop.  (** the loop that is running the caller *)

Section Ops.
Context `{Json} `{Render}.
Local Open Scope string_scope.

Definition config_error (msg : string) : exc := new_exc CConfigurationError [PStr msg] [].

(** [__init__], lines 20-44: no key is required; a truthy endpoint that is
    not a string has no [endswith]. *)
Definition init (config : pydict string pyval) : result exc handler :=
  let ep := cfg_get config "SILICONFLOW_ENDPOINT" (PStr "https://api.siliconflow.com/v1") in
  let? ep' :=
    if py_truthy ep then
      match ep with
      | PStr s => Ok (if py_endswith s "/" then PStr (py_rstrip_char "/" s) else ep)
      | _ => Err attribute_error
      end
    else Ok ep in
  Ok {| provider_name := cfg_get config "provider_name" (PStr "silicon_flow");
        api_key := cfg_get config "SILICONFLOW_API_KEY" PNone;
        endpoint := ep';
        default_model := cfg_get config "SILICONFLOW_DEFAULT_MODEL" PNone;
        default_api_params :=
          [("temperature", cfg_get config "SILICONFLOW_TEMPERATURE" (PFloat (FFin (7 # 10))));
           ("top_p", cfg_get config "SILICONFLOW_TOP_P" (PFloat (FFin 1)));
           ("max_tokens", cfg_get config "SILICONFLOW_MAX_TOKENS" (PInt 2000))];
        request_timeout := cfg_get config "SILICONFLOW_REQUEST_TIMEOUT" (PInt 60) |}.

(** [get_required_config_fields], lines 46-50. *)
Definition required_config_fields : list string := ["SILICONFLOW_API_KEY"; "SILICONFLOW_ENDPOINT"].

(** [_get_headers], lines 94-102: the key is formatted whatever it is. *)
Definition get_headers (h : handler) : pydict string pyval :=
  [("Content-Type", PStr "application/json");
   ("Authorization", PStr ("Bearer " ++ py_str (api_key h)))].

(** The [try] body of [get_available_models] (lines 56-80). *)
Definition models_body (h : handler) (o : http_outcome) : result exc (list string) :=
  match o with
  | HFail f => Err (net_exc f)
  | HResp status text =>
      if negb (Z.eqb status 200) then
        Err (new_exc CAPIResponseError []
               [("message", PStr ("Failed to fetch models: HTTP " ++ py_str (PInt status)));
                ("status_code", PInt status); ("response_body", PDict [("error", PStr text)]);
                ("provider", provider_name h)])
      else
        match json_loads text with
        | None => Err json_decode_error
        | Some data =>
            let? ms := py_get data "data" (PList []) in
            let? it := py_iter ms in
            DeepSeek.model_ids it
        end
  end.

(** The [except] clauses of [get_available_models] (lines 81-91), in order. *)
Definition models_except (h : handler) (e : exc) : exc :=
  if isinstance e [CClientError] then
    new_exc CAPIConnectionError []
      [("message", PStr ("Connection error: " ++ exc_str e)); ("detail", PStr (exc_str e));
       ("provider", provider_name h)]
  else if isinstance e [CJSONDecodeError] then
    new_exc CAPIResponseFormatError []
      [("message", PStr "Invalid JSON response from models endpoint");
       ("response_body", PDict [("error", PStr (exc_str e))]); ("provider", provider_name h)]
  else if isinstance e [CException] then
    new_exc CAPIError []
      [("message", PStr ("Unexpected error getting models: " ++ exc_str e));
       ("provider", provider_name h)]
  else e.

(** [get_available_models()], lines 52-92. *)
Definition get_available_models (h : handler) (o : http_outcome) : result exc (list string) :=
  match models_body h o with
  | Ok ms => Ok ms
  | Err e => Err (models_except h e)
  end.

(** [APIResponseError(provider_name=..., status_code=..., response_body=...,
    details=...)], raised by lines 142-147 and 410-415. *)
Definition http_error (h : handler) (status : Z) (body : pyval) (details : string) : exc :=
  new_exc CAPIResponseError []
    [("provider_name", provider_name h); ("status_code", PInt status);
     ("response_body", body); ("details", PStr details)].

(** [APIError(message=f"{prefix}{e}", provider_name=..., details=str(e))],
    the wrapping of lines 178-182, 258-262, 265-269 and 452-456. *)
Definition api_error (h : handler) (prefix : string) (e : exc) : exc :=
  new_exc CAPIError []
    [("message", PStr (prefix ++ exc_str e)); ("provider_name", provider_name h);
     ("details", PStr (exc_str e))].

(** The [try] body of [_make_request] (lines 124-157) for one outcome. *)
Definition request_body (h : handler) (o : http_outcome) : result exc pyval :=
  match o with
  | HFail f => Err (net_exc f)
  | HResp status text =>
      if negb (Z.eqb status 200) then
        let body := match json_loads text with
                    | Some v => v
                    | None => PDict [("error", PStr text)]
                    end in
        Err (http_error h status body ("HTTP Error " ++ py_str (PInt status)))
      else
        match json_loads text with
        | Some v => Ok v
        | None =>
            Err (new_exc CAPIResponseFormatError []
                   [("message", PStr "Invalid JSON in successful response");
                    ("provider_name", provider_name h);
                    ("response_body", PDict [("raw_response", PStr (str_take 500 text))])])
        end
  end.

(** The [except] clauses of [_make_request] (lines 159-182), in order: the
    last one re-raises [APIError] and wraps everything else into it. *)
Definition request_except (h : handler) (e : exc) : exc :=
  if isinstance e [CClientConnectorError] then
    new_exc CAPIConnectionError []
      [("message", PStr ("Connection error: " ++ exc_str e));
       ("provider_name", provider_name h); ("details", PStr (exc_str e))]
  else if isinstance e [CTimeoutError] then
    new_exc CAPITimeoutError []
      [("message", PStr ("Request timed out after " ++ py_str (request_timeout h) ++ "s"));
       ("provider_name", provider_name h); ("timeout_seconds", request_timeout h)]
  else if isinstance e [CException] then
    if isinstance e [CAPIError] then e
    else
      api_error h "Unexpected error: " e
  else e.

(** One call of the undecorated [_make_request]: the endpoint check
    (115-116) precedes the [try]. *)
Definition request_once (h : handler) (o : http_outcome) : outcome pyval :=
  if negb (py_truthy (endpoint h)) then
    Raised (config_error ("Endpoint not configured for " ++ py_str (provider_name h)))
  else
    match request_body h o with
    | Ok v => Returned v
    | Err e => Raised (request_except h e)
    end.

(** The decorator of lines 104-112. *)
Definition retry_config : Tenacity.config :=
  {| Tenacity.stop_after_attempt := 3;
     Tenacity.wait_multiplier := 1; Tenacity.wait_min := 2; Tenacity.wait_max := 10;
     Tenacity.retry := Tenacity.RetryCallable is_retryable_exception;
     Tenacity.reraise := true |}.

Definition make_request (h : handler) (net : nat -> http_outcome) : result exc pyval * nat * list Z :=
  Tenacity.call_with_retry retry_config (fun i => request_once h (net i)).

(** [(model or self.default_model or "").strip()]: a non-string has no
    [strip]. *)
Definition target_model (h : handler) (model : pyval) : result exc string :=
  py_strip_val (py_or model (py_or (default_model h) (PStr ""))).

(** [valid_params] of lines 216 and 380, in the source's order. *)
Definition sf_valid_params : list string :=
  ["temperature"; "top_p"; "max_tokens"; "presence_penalty"; "frequency_penalty"; "stop"].

(** The payload of lines 197-219 (and 339-383 with [stream = True]):
    live parameters, overridden by [kwargs], kept when valid and not
    [None]. *)
Definition build_payload (h : handler) (param : string -> param_type -> pyval -> pyval)
           (target : string) (messages : pyval) (stream : bool)
           (kwargs : pydict string pyval) : pydict string pyval :=
  live_payload_with sf_valid_params (default_api_params h) param (PStr target) messages stream kwargs.

Definition generate_payload (h : handler) (param : string -> param_type -> pyval -> pyval)
           (target prompt : string) (kwargs : pydict string pyval) : pydict string pyval :=
  build_payload h param target (PList [PDict [("role", PStr "user"); ("content", PStr prompt)]])
    false kwargs.

(** Lines 244-248: the format error, whose [message=] makes it a
    [TypeError]. *)
Definition format_error (h : handler) (res : pyval) : exc :=
  new_exc CAPIResponseFormatError []
    [("message", PStr "Unknown success response format"); ("provider_name", provider_name h);
     ("response_body", res)].

(** The [except] clauses of [generate_text] (lines 251-269). *)
Definition generate_except (h : handler) (e : exc) : exc :=
  if isinstance e [CAPIError] then e
  else if isinstance e [CRetryError] then
    api_error h "API request failed after retries: " e
  else
    api_error h "Unexpected internal error: " e.

(** [generate_text(prompt, model, **kwargs)], lines 184-269: the result
    and the number of requests made. *)
Definition generate_text (h : handler) (param : string -> param_type -> pyval -> pyval)
           (prompt : string) (model : pyval) (kwargs : pydict string pyval)
           (net : pydict string pyval -> nat -> http_outcome) : result exc string * nat :=
  match target_model h model with
  | Err e => (Err e, 0%nat)
  | Ok target =>
      if String.eqb target "" then
        (Err (config_error ("No model specified and no default_model configured for "
                            ++ py_str (provider_name h) ++ ".")), 0%nat)
      else
        let '(r, n, _) := make_request h (net (generate_payload h param target prompt kwargs)) in
        let body :=
          let? res := r in
          let? o := first_content res in
          match o with Some s => Ok s | None => Err (format_error h res) end in
        (match body with Ok s => Ok s | Err e => Err (generate_except h e) end, n)
  end.

(** [v + 5] for the timeout of line 297: numbers add, anything else is a
    [TypeError]. *)
Definition py_add_int (v : pyval) (n : Z) : result exc pyval :=
  match v with
  | PInt z => Ok (PInt (z + n))
  | PBool b => Ok (PInt ((if b then 1 else 0) + n))
  | PFloat (FFin q) => Ok (PFloat (FFin (q + inject_Z n)))
  | PFloat f => Ok (PFloat f)
  | _ => Err type_error
  end.

(** [concurrent.futures.TimeoutError], the builtin [TimeoutError]. *)
Definition future_timeout : exc := mk_exc CTimeoutError [].

(** [generate(prompt, model, **kwargs)], lines 271-311.  Without a loop or
    with an idle one, [generate_text] is run to completion.  In the loop
    that runs the caller, the coroutine is scheduled on that loop and the
    caller blocks in [future.result(timeout=...)]: the loop cannot run the
    coroutine until the caller returns, so the wait ends in the timeout
    with no request made. *)
Definition generate (h : handler) (param : string -> param_type -> pyval -> pyval)
           (prompt : string) (model : pyval) (kwargs : pydict string pyval)
           (net : pydict string pyval -> nat -> http_outcome) (loop : event_loop)
  : result exc string * nat :=
  match loop with
  | RunningLoop => (let? _ := py_add_int (request_timeout h) 5 in Err future_timeout, 0%nat)
  | IdleLoop | NoLoop => generate_text h param prompt model kwargs net
  end.

(** The [try] body of [stream_chat] (lines 393-434): [{"status": "done"}]
    is yielded on [data:[DONE]]; a chunk that does not decode is skipped. *)
Definition stream_body (h : handler) (o : stream_resp) : gen :=
  match o with
  | SFail f => gen_raise [] (net_exc f)
  | SResp status text lines tail =>
      if negb (Z.eqb status 200) then
        gen_raise [] (http_error h status (PDict [("error", PStr text)])
                        ("Stream chat error: HTTP " ++ py_str (PInt status)))
      else
        match sse_scan "data:" [PDict [("status", PStr "done")]] (fun v => Ok [v]) lines with
        | ScanDone items => gen_return items
        | ScanEnd items =>
            match tail with
            | None => gen_return items
            | Some f => gen_raise items (net_exc f)
            end
        | ScanRaise items e => gen_raise items e
        end
  end.

(** The [except] clauses of [stream_chat] (lines 436-456), in order: no
    clause re-raises [APIError]. *)
Definition stream_except (h : handler) (e : exc) : exc :=
  if isinstance e [CTimeoutError] then
    match py_mul_int (request_timeout h) 5 with
    | Err e' => e'
    | Ok tv =>
        new_exc CAPITimeoutError []
          [("message", PStr "Stream request timed out"); ("provider_name", provider_name h);
           ("timeout_seconds", tv)]
    end
  else if isinstance e [CClientError] then
    new_exc CAPIConnectionError []
      [("message", PStr ("Connection error: " ++ exc_str e));
       ("provider_name", provider_name h); ("details", PStr (exc_str e))]
  else if isinstance e [CException] then
    api_error h "Unexpected streaming error: " e
  else e.

Definition stream_payload (h : handler) (param : string -> param_type -> pyval -> pyval)
           (target : string) (messages : list chat_msg) (kwargs : pydict string pyval)
  : pydict string pyval :=
  build_payload h param target (PList (map format_message messages)) true kwargs.

(** [stream_chat(messages, model, **kwargs)], lines 313-458, as its
    consumer sees it: a missing model or endpoint is reported in band, as
    an [{"error": ...}] item. *)
Definition stream_chat (h : handler) (param : string -> param_type -> pyval -> pyval)
           (messages : list chat_msg) (model : pyval) (kwargs : pydict string pyval)
           (server : pydict string pyval -> stream_resp) : gen :=
  match target_model h model with
  | Err e => gen_raise [] e
  | Ok target =>
      if String.eqb target "" then
        gen_return [PDict [("error", PStr ("No model specified and no default_model configured for "
                                           ++ py_str (provider_name h) ++ " streaming."))]]
      else if negb (py_truthy (endpoint h)) then
        gen_return [PDict [("error", PStr "SiliconFlow Endpoint is not configured.")]]
      else
        let g := stream_body h (server (stream_payload h param target messages kwargs)) in
        match g_exc g with
        | None => g
        | Some e => gen_raise (g_items g) (stream_except h e)
        end
  end.
End Ops.

(** ** Failures *)

Section Props.
Context `{Json} `{Render}.
Local Open Scope string_scope.

(** [is_retryable_exception] is false on every retry state: one call. *)
Lemma sf_make_request_single h net :
  make_request h net = (outcome_result (request_once h (net 1%nat)), 1%nat, []).
Proof. apply (Tenacity.callable_never_retries _ is_retryable_exception); reflexivity. Qed.

(** The wrapping [APIError] carries the handler's provider name. *)
Lemma api_error_fields h prefix e :
  exc_class (api_error h prefix e) = CAPIError /\
  arg (api_error h prefix e) "provider_name" = provider_name h.
Proof. split; reflexivity. Qed.

Lemma py_get_class v k d e : py_get v k d = Err e -> exc_class e ∈ access_classes.
Proof. destruct v; simpl; intros [= <-]; set_solver. Qed.

Lemma py_iter_class v e : py_iter v = Err e -> exc_class e ∈ access_classes.
Proof. destruct v; simpl; intros [= <-]; set_solver. Qed.

Lemma model_ids_class ms e : DeepSeek.model_ids ms = Err e -> exc_class e ∈ access_classes.
Proof.
  induction ms as [|m ms IH]; simpl; [done|].
  destruct (py_in "id" m) as [[]|e'] eqn:E; simpl; [| |intros [= <-]; eauto with py].
  - destruct (py_getitem m "id") as [v|e'] eqn:E'; simpl; [|intros [= <-]; eauto with py].
    destruct (DeepSeek.model_ids ms); simpl; [done|]. intros [= <-]. by apply IH.
  - exact IH.
Qed.

#[local] Hint Resolve py_get_class py_iter_class model_ids_class : py.

(** The classes the [try] body of [get_available_models] raises. *)
Definition models_classes : list cls :=
  [CClientConnectorError; CTimeoutError; CClientError; CTypeError; CJSONDecodeError;
   CKeyError; CIndexError; CAttributeError].

Lemma models_body_class h o e : models_body h o = Err e -> exc_class e ∈ models_classes.
Proof.
  unfold models_body. destruct o as [f|status text].
  - intros [= <-]. destruct f; set_solver.
  - destruct (negb (Z.eqb status 200)); [intros [= <-]; set_solver|].
    destruct (json_loads text) as [data|]; [|intros [= <-]; set_solver].
    assert (Hsub : access_classes ⊆ models_classes) by (unfold access_classes; set_solver).
    destruct (py_get data "data" (PList [])) as [ms|e'] eqn:E1; simpl;
      [|intros [= <-]; apply Hsub; eauto with py].
    destruct (py_iter ms) as [it|e'] eqn:E2; simpl; [|intros [= <-]; apply Hsub; eauto with py].
    intros He. apply Hsub. by apply (model_ids_class it).
Qed.

(** Each [except] clause of [get_available_models] builds its exception
    with a keyword its class does not take. *)
Lemma models_except_type_error h e :
  exc_class e ∈ models_classes -> models_except h e = type_error.
Proof.
  destruct e as [c args]. unfold models_classes. simpl. intros Hc.
  repeat (apply elem_of_cons in Hc as [->|Hc]; [reflexivity|]). set_solver.
Qed.

(** [get_available_models] either returns the model list or raises
    [TypeError]: its HTTP error, its connection and decoding errors and
    its catch-all all raise constructors with keywords ([message=],
    [detail=], [provider=]) their classes do not accept. *)
Theorem get_available_models_type_error h o :
  (exists ms, get_available_models h o = Ok ms) \/ get_available_models h o = Err type_error.
Proof.
  unfold get_available_models. destruct (models_body h o) as [ms|e] eqn:E; [left; eauto|].
  right. by rewrite (models_except_type_error h e (models_body_class h o e E)).
Qed.

(** The classes the [try] body of [_make_request] raises. *)
Definition body_classes : list cls :=
  [CClientConnectorError; CTimeoutError; CClientError; CAPIResponseError; CTypeError].

Lemma sf_request_body_class h o e : request_body h o = Err e -> exc_class e ∈ body_classes.
Proof.
  unfold request_body. destruct o as [f|status text].
  - intros [= <-]. destruct f; set_solver.
  - destruct (negb (Z.eqb status 200)); [intros [= <-]; set_solver|].
    destruct (json_loads text); intros [= <-]; set_solver.
Qed.

(** What the decorated [_make_request] raises: a configuration error,
    [TypeError] (the connection error's constructor), a timeout, or the
    [APIError] wrapping of anything else. *)
Definition raised_ok (h : handler) (e : exc) : Prop :=
  exc_class e ∈ ([CConfigurationError; CTypeError; CAPITimeoutError] ++ access_classes)%list \/
  (exc_class e = CAPIError /\ arg e "provider_name" = provider_name h).

Lemma request_once_raised h o e : request_once h o = Raised e -> raised_ok h e.
Proof.
  unfold request_once, raised_ok. destruct (negb (py_truthy (endpoint h))).
  - intros [= <-]. left. set_solver.
  - destruct (request_body h o) as [v|e0] eqn:Hb; [done|]. intros [= <-].
    pose proof (sf_request_body_class h o e0 Hb) as Hc. destruct e0 as [c args].
    unfold body_classes in Hc. simpl in Hc.
    repeat (apply elem_of_cons in Hc as [->|Hc];
            [first [left; cbn; set_solver | right; split; reflexivity]|]).
    set_solver.
Qed.

Lemma generate_except_api h e :
  raised_ok h e ->
  exc_class (generate_except h e) = CAPIError /\
  arg (generate_except h e) "provider_name" = provider_name h.
Proof.
  intros [Hc|[Hc Hp]].
  - destruct e as [c args]. unfold access_classes in Hc. simpl in Hc.
    repeat (apply elem_of_cons in Hc as [->|Hc]; [apply api_error_fields|]). set_solver.
  - unfold generate_except. rewrite isinstance_single, Hc. simpl. done.
Qed.

(** With a model, every failure of [generate_text] is the generic
    [APIError] of [validation/error_handler.py] carrying the handler's
    provider name: connection errors, timeouts, HTTP error statuses,
    malformed bodies and a missing endpoint alike. *)
Theorem generate_text_errors_api_error h param prompt model kwargs net target e :
  target_model h model = Ok target -> target <> "" ->
  fst (generate_text h param prompt model kwargs net) = Err e ->
  exc_class e = CAPIError /\ arg e "provider_name" = provider_name h.
Proof.
  intros Ht Hne. unfold generate_text. rewrite Ht.
  rewrite (proj2 (String.eqb_neq target "") Hne), sf_make_request_single. simpl.
  destruct (request_once h _) as [v|e0] eqn:Hr; simpl.
  - destruct (first_content v) as [[s|]|e1] eqn:Hf; simpl; [done| |].
    + intros [= <-]. apply generate_except_api. left. cbn. set_solver.
    + intros [= <-]. apply generate_except_api. left.
      apply elem_of_app. right. by apply (first_content_class v).
  - intros [= <-]. apply generate_except_api. by eapply request_once_raised.
Qed.

(** C8: An HTTP error status reaches the caller of [generate_text] as the
    generic [APIError] of [_make_request]'s catch-all, after one request:
    the [APIResponseError] carrying the status code and the body is only
    the text of its message. *)
Theorem generate_text_http_status_lost h param prompt model kwargs net target status text :
  target_model h model = Ok target -> target <> "" -> py_truthy (endpoint h) = true ->
  status <> 200%Z ->
  net (generate_payload h param target prompt kwargs) 1%nat = HResp status text ->
  generate_text h param prompt model kwargs net =
    (Err (api_error h "Unexpected error: "
            (http_error h status (default (PDict [("error", PStr text)]) (json_loads text))
               ("HTTP Error " ++ py_str (PInt status)))), 1%nat).
Proof.
  intros Ht Hne He Hs Hn. unfold generate_text. rewrite Ht.
  rewrite (proj2 (String.eqb_neq target "") Hne), sf_make_request_single, Hn. simpl.
  unfold request_once. rewrite He. simpl. unfold request_body.
  rewrite (proj2 (Z.eqb_neq status 200) Hs). simpl.
  by destruct (json_loads text).
Qed.
(** The marker the stream yields on [data:[DONE]]. *)
Definition done_marker : pyval := PDict [("status", PStr "done")].

(** How a failing stream ends: a refused connection raises [TypeError]
    (from [APIConnectionError(message=...)]); an HTTP error status raises
    the generic [APIError] wrapping the [APIResponseError] the comment of
    line 409 says is raised; a timeout while reading raises
    [APITimeoutError] after the items already read, with five times the
    request timeout. *)
Theorem sf_stream_chat_failures h param msgs model kwargs target :
  target_model h model = Ok target -> target <> "" -> py_truthy (endpoint h) = true ->
  g_exc (stream_chat h param msgs model kwargs (fun _ => SFail NetConnector)) = Some type_error /\
  (forall status text lines tail, status <> 200%Z ->
     stream_chat h param msgs model kwargs (fun _ => SResp status text lines tail) =
       gen_raise [] (api_error h "Unexpected streaming error: "
                       (http_error h status (PDict [("error", PStr text)])
                          ("Stream chat error: HTTP " ++ py_str (PInt status))))) /\
  (forall text lines items t,
     sse_scan "data:" [done_marker] (fun v => Ok [v]) lines = ScanEnd items ->
     request_timeout h = PInt t ->
     exists e, stream_chat h param msgs model kwargs (fun _ => SResp 200 text lines (Some NetTimeout))
                 = gen_raise items e /\
               exc_class e = CAPITimeoutError /\ timeout_seconds e = PInt (t * 5)).
Proof.
  intros Ht Hne He. unfold stream_chat. rewrite Ht.
  rewrite (proj2 (String.eqb_neq target "") Hne), He. simpl negb. cbv iota.
  split_and!.
  - reflexivity.
  - intros status text lines tail Hs. unfold stream_body.
    rewrite (proj2 (Z.eqb_neq status 200) Hs). reflexivity.
  - intros text lines items t Hl Hto. unfold stream_body. simpl negb. cbv iota.
    unfold done_marker in Hl. rewrite Hl. simpl.
    unfold stream_except. rewrite Hto. eexists. split; [reflexivity|]. split; reflexivity.
Qed.

(** Without a model the stream reports the error as its one item and
    ends normally, where [generate_text] raises [ConfigurationError]. *)
Lemma stream_chat_missing_model h param msgs model kwargs server :
  target_model h model = Ok "" ->
  stream_chat h param msgs model kwargs server =
    gen_return [PDict [("error", PStr ("No model specified and no default_model configured for "
                                       ++ py_str (provider_name h) ++ " streaming."))]].
Proof. intros Ht. unfold stream_chat. by rewrite Ht. Qed.

(** [generate] called from the loop that runs its caller never makes a
    request and fails: with the timeout of [future.result] when
    [request_timeout] is a number, with [TypeError] otherwise. *)
Lemma generate_running_loop_fails h param prompt model kwargs net :
  snd (generate h param prompt model kwargs net RunningLoop) = 0%nat /\
  exists e, fst (generate h param prompt model kwargs net RunningLoop) = Err e /\
            exc_class e ∈ [CTimeoutError; CTypeError].
Proof.
  unfold generate. split; [done|].
  destruct (py_add_int (request_timeout h) 5) as [v|e] eqn:E; simpl.
  - eexists; split; [reflexivity|]. set_solver.
  - eexists; split; [reflexivity|]. unfold py_add_int in E.
    destruct (request_timeout h) as [| | |[]| | |]; simplify_eq; set_solver.
Qed.
End Props.

(** ** Concrete runs *)

Section SiliconWitnesses.
Local Open Scope string_scope.

(** The [.env] file of a user who configured a key and a default model. *)
Definition demo_env : dotenv_dict :=
  [("SILICONFLOW_API_KEY", Some "sk-sf"); ("SILICONFLOW_DEFAULT_MODEL", Some "Qwen/Qwen2-7B")].

(** The instance the factory builds from it. *)
Definition demo_handler : handler :=
  match init (resolve_config silicon_entry "silicon_flow" (Some demo_env) []) with
  | Ok h => h
  | Err _ => mk_handler PNone PNone PNone PNone [] PNone
  end.

Definition live_param := get_current_param (Some silicon_entry) (Some demo_env).

Definition unauthorized : pydict string pyval -> nat -> http_outcome :=
  fun _ _ => HResp 401 (jq "{`error`: `bad key`}").

Lemma get_available_models_type_error_witness :
  get_available_models demo_handler (HResp 500 "down") = Err type_error.
Proof.
  destruct (get_available_models_type_error demo_handler (HResp 500 "down")) as [[ms Hms]|He].
  - vm_compute in Hms. discriminate.
  - exact He.
Defined.

Lemma generate_text_errors_api_error_witness :
  exists e, fst (generate_text demo_handler live_param "hi" PNone [] unauthorized) = Err e /\
            exc_class e = CAPIError /\ arg e "provider_name" = PStr "silicon_flow".
Proof.
  eexists. split; [vm_compute; reflexivity|].
  apply (generate_text_errors_api_error demo_handler live_param "hi" PNone [] unauthorized
           "Qwen/Qwen2-7B"); [vm_compute; reflexivity | discriminate | vm_compute; reflexivity].
Defined.

Lemma generate_text_http_status_lost_witness :
  generate_text demo_handler live_param "hi" PNone [] unauthorized =
    (Err (api_error demo_handler "Unexpected error: "
            (http_error demo_handler 401 (PDict [("error", PStr "bad key")])
               ("HTTP Error " ++ py_str (PInt 401)))), 1%nat).
Proof.
  rewrite (generate_text_http_status_lost demo_handler live_param "hi" PNone [] unauthorized
             "Qwen/Qwen2-7B" 401 (jq "{`error`: `bad key`}"));
    [| vm_compute; reflexivity | discriminate | vm_compute; reflexivity | discriminate
     | reflexivity].
  vm_compute. reflexivity.
Defined.

Lemma sf_stream_chat_failures_witness :
  g_exc (stream_chat demo_handler live_param [] PNone [] (fun _ => SFail NetConnector))
  = Some type_error.
Proof.
  apply (sf_stream_chat_failures demo_handler live_param [] PNone [] "Qwen/Qwen2-7B");
    [vm_compute; reflexivity | discriminate | vm_compute; reflexivity].
Defined.
End SiliconWitnesses.

End SiliconFlow.
