(* ===== verification/Volc.v ===== *)
(** * Volc: the adapter of [src/src/providers/handlers/volc_engine.py]

    [VolcEngineHandler] as the code has it.  [init] is [__init__] (21-61),
    with [BaseAPIHandler.__init__] (base.py 13-16) setting the provider
    name; [get_available_models] (68-85) returns the default model;
    [get_headers] is [_get_headers] (88-96); [request_body],
    [request_except] and [request_once] are the body of [_make_request]
    (108-165), [make_request] the same under its [tenacity] decorator
    (99-107); [generate_text] is lines 168-247 and [generate] lines
    250-270; [stream_body], [stream_except] and [stream_chat] are lines
    273-398.

    The handler is the SiliconFlow one with three differences that matter:
    [__init__] requires the key and the endpoint and turns the timeout
    into an [int]; [_make_request] lets every exception its [except]
    clauses do not name through, the HTTP error status included; and
    [stream_chat] raises [ConfigurationError] for a missing model where
    SiliconFlow reports it in band.  The [message=] keyword of
    [APIConnectionError] and [APIResponseFormatError] makes those
    constructors raise [TypeError]. *)

From S2P Require Import Prelude Errors Retry EnvConfig Http Json Stream OpenAI SiliconFlow.
Import Exc.

Module Volc.

(** The instance attributes set by [__init__]. *)
Record handler : Type := mk_handler {
  provider_name : pyval;
  api_key : pyval;
  endpoint : pyval;
  default_model : pyval;
  default_api_params : pydict string pyval;
  request_timeout : pyval
}.

Definition value_error : exc := mk_exc CValueError [].
Definition overflow_error : exc := mk_exc COverflowError [].

Section Ops.
Context `{Json} `{Render}.
Local Open Scope string_scope.

Definition config_error (msg : string) : exc := new_exc CConfigurationError [PStr msg] [].

(** [int(v) if not isinstance(v, int) else v], lines 42 and 44: [bool] is
    a subclass of [int]; [int()] truncates a float towards zero, raises
    [OverflowError] on an infinity and [ValueError] on NaN or a string
    that is not an integer literal, and [TypeError] on anything else. *)
Definition as_int (v : pyval) : result exc pyval :=
  match v with
  | PInt _ | PBool _ => Ok v
  | PStr s => match py_int s with Some z => Ok (PInt z) | None => Err value_error end
  | PFloat (FFin q) => Ok (PInt (Z.quot (Qnum q) (Zpos (Qden q))))
  | PFloat (FInf _) => Err overflow_error
  | PFloat FNan => Err value_error
  | PNone | PList _ | PDict _ => Err type_error
  end.

(** [__init__], lines 21-61: the timeout is converted before the key and
    the endpoint are checked; a trailing ['/'] is stripped from a string
    endpoint, and a truthy endpoint that is not a string has no
    [endswith]. *)
Definition init (config : pydict string pyval) : result exc handler :=
  let pn := cfg_get config "provider_name" (PStr "unknown") in
  let key := cfg_get config "VOLC_API_KEY" PNone in
  let ep := cfg_get config "VOLC_ENDPOINT" PNone in
  let engine_timeout := cfg_get config "VOLC_ENGINE_REQUEST_TIMEOUT" PNone in
  let? rt := if is_none engine_timeout
             then as_int (cfg_get config "VOLC_REQUEST_TIMEOUT" (PInt 60))
             else as_int engine_timeout in
  if negb (py_truthy key) then
    Err (config_error ("Provider '" ++ py_str pn ++ "' is missing required 'VOLC_API_KEY'."))
  else if negb (py_truthy ep) then
    Err (config_error ("Provider '" ++ py_str pn ++ "' is missing required 'VOLC_ENDPOINT'."))
  else
    let? ep' := match ep with
                | PStr s => Ok (if py_endswith s "/" then PStr (py_rstrip_char "/" s) else ep)
                | _ => Err attribute_error
                end in
    Ok {| provider_name := pn; api_key := key; endpoint := ep';
          default_model := cfg_get config "VOLC_DEFAULT_MODEL" PNone;
          default_api_params :=
            [("temperature", cfg_get config "VOLC_TEMPERATURE" (PFloat (FFin (7 # 10))));
             ("top_p", cfg_get config "VOLC_TOP_P" (PFloat (FFin 1)));
             ("max_tokens", cfg_get config "VOLC_MAX_TOKENS" (PInt 2000))];
          request_timeout := rt |}.

(** [get_required_config_fields], lines 63-66. *)
Definition required_config_fields : list string :=
  ["VOLC_API_KEY"; "VOLC_ENDPOINT"; "VOLC_DEFAULT_MODEL"].

(** [get_available_models()], lines 68-85: no request. *)
Definition get_available_models (h : handler) : list pyval :=
  if py_truthy (default_model h) then [default_model h] else [].

(** [_get_headers], lines 88-96. *)
Definition get_headers (h : handler) : result exc (pydict string pyval) :=
  if negb (py_truthy (api_key h)) then
    Err (config_error "API key (VOLC_API_KEY) is missing for VolcEngineHandler headers.")
  else
    Ok [("Content-Type", PStr "application/json");
        ("Authorization", PStr ("Bearer " ++ py_str (api_key h)))].

(** [APIResponseError(provider_name=..., status_code=..., response_body=...,
    details=...)], raised by lines 128-133 and 352-357. *)
Definition http_error (h : handler) (status : Z) (body : pyval) (details : string) : exc :=
  new_exc CAPIResponseError []
    [("provider_name", provider_name h); ("status_code", PInt status);
     ("response_body", body); ("details", PStr details)].

(** [APIError(message=f"{prefix}{e}", provider_name=..., details=str(e))],
    lines 161-165, 243-247 and 392-396. *)
Definition api_error (h : handler) (prefix : string) (e : exc) : exc :=
  new_exc CAPIError []
    [("message", PStr (prefix ++ exc_str e)); ("provider_name", provider_name h);
     ("details", PStr (exc_str e))].

(** The [try] body of [_make_request] (lines 111-143) for one outcome:
    the headers are built as the request is made. *)
Definition request_body (h : handler) (o : http_outcome) : result exc pyval :=
  let? _ := get_headers h in
  match o with
  | HFail f => Err (net_exc f)
  | HResp status text =>
      if negb (Z.eqb status 200) then
        let body := match json_loads text with
                    | Some v => v
                    | None => PDict [("error", PStr text)]
                    end in
        Err (http_error h status body ("HTTP Error " ++ py_str (PInt status)))
      else
        match json_loads text with
        | Some v => Ok v
        | None =>
            Err (new_exc CAPIResponseFormatError []
                   [("message", PStr "Invalid JSON in response");
                    ("provider_name", provider_name h);
                    ("response_body", PDict [("raw_response", PStr text)])])
        end
  end.

(** The [except] clauses of [_make_request] (lines 145-165), in order;
    anything else propagates unchanged. *)
Definition request_except (h : handler) (e : exc) : exc :=
  if isinstance e [CClientConnectorError] then
    new_exc CAPIConnectionError []
      [("message", PStr ("Network connection error: " ++ exc_str e));
       ("provider_name", provider_name h); ("details", PStr (exc_str e))]
  else if isinstance e [CTimeoutError] then
    new_exc CAPITimeoutError []
      [("message", PStr ("Request timed out after " ++ py_str (request_timeout h) ++ "s"));
       ("provider_name", provider_name h); ("timeout_seconds", request_timeout h)]
  else if isinstance e [CClientError] then
    api_error h "API client error: " e
  else e.

(** One call of the undecorated [_make_request]. *)
Definition request_once (h : handler) (o : http_outcome) : outcome pyval :=
  match request_body h o with
  | Ok v => Returned v
  | Err e => Raised (request_except h e)
  end.

(** The decorator of lines 99-107. *)
Definition retry_config : Tenacity.config :=
  {| Tenacity.stop_after_attempt := 3;
     Tenacity.wait_multiplier := 1; Tenacity.wait_min := 2; Tenacity.wait_max := 10;
     Tenacity.retry := Tenacity.RetryCallable is_retryable_exception;
     Tenacity.reraise := true |}.

Definition make_request (h : handler) (net : nat -> http_outcome) : result exc pyval * nat * list Z :=
  Tenacity.call_with_retry retry_config (fun i => request_once h (net i)).

(** [(model or self.default_model or "").strip()] *)
Definition target_model (h : handler) (model : pyval) : result exc string :=
  py_strip_val (py_or model (py_or (default_model h) (PStr ""))).

(** [valid_params] of lines 195 and 329. *)
Definition volc_valid_params : list string := ["temperature"; "top_p"; "max_tokens"; "stop"].

(** The payload of lines 175-198 (and 287-332 with [stream = True]). *)
Definition build_payload (h : handler) (param : string -> param_type -> pyval -> pyval)
           (target : string) (messages : pyval) (stream : bool)
           (kwargs : pydict string pyval) : pydict string pyval :=
  live_payload_with volc_valid_params (default_api_params h) param (PStr target) messages
    stream kwargs.

Definition generate_payload (h : handler) (param : string -> param_type -> pyval -> pyval)
           (target prompt : string) (kwargs : pydict string pyval) : pydict string pyval :=
  build_payload h param target (PList [PDict [("role", PStr "user"); ("content", PStr prompt)]])
    false kwargs.

(** Lines 222-229: the format error, whose [message=] makes it a
    [TypeError]. *)
Definition format_error (h : handler) (res : pyval) : exc :=
  new_exc CAPIResponseFormatError []
    [("message", PStr "Unknown success response format"); ("provider_name", provider_name h);
     ("response_body", res)].

(** The [except] clauses of [generate_text] (lines 231-247). *)
Definition generate_except (h : handler) (e : exc) : exc :=
  if isinstance e [CAPIError] then e
  else if isinstance e [CRetryError] then
    api_error h "API request failed after retries: " e
  else
    api_error h "Unexpected internal error: " e.

(** [generate_text(prompt, model, **kwargs)], lines 168-247: the result
    and the number of requests made.  The content is the joined content
    of every choice, as in DeepSeek. *)
Definition generate_text (h : handler) (param : string -> param_type -> pyval -> pyval)
           (prompt : string) (model : pyval) (kwargs : pydict string pyval)
           (net : pydict string pyval -> nat -> http_outcome) : result exc string * nat :=
  match target_model h model with
  | Err e => (Err e, 0%nat)
  | Ok target =>
      if String.eqb target "" then
        (Err (config_error ("No model specified and no default_model configured for "
                            ++ py_str (provider_name h) ++ ".")), 0%nat)
      else
        let '(r, n, _) := make_request h (net (generate_payload h param target prompt kwargs)) in
        let body :=
          let? res := r in
          let? o := joined_content res in
          match o with Some s => Ok s | None => Err (format_error h res) end in
        (match body with Ok s => Ok s | Err e => Err (generate_except h e) end, n)
  end.

(** [generate(prompt, model, **kwargs)], lines 250-270, over the event
    loop [asyncio.get_event_loop()] finds, as in SiliconFlow. *)
Definition generate (h : handler) (param : string -> param_type -> pyval -> pyval)
           (prompt : string) (model : pyval) (kwargs : pydict string pyval)
           (net : pydict string pyval -> nat -> http_outcome) (loop : SiliconFlow.event_loop)
  : result exc string * nat :=
  match loop with
  | SiliconFlow.RunningLoop =>
      (let? _ := SiliconFlow.py_add_int (request_timeout h) 5 in Err SiliconFlow.future_timeout,
       0%nat)
  | SiliconFlow.IdleLoop | SiliconFlow.NoLoop => generate_text h param prompt model kwargs net
  end.
(** The [try] body of [stream_chat] (lines 341-374): the headers, the
    status check, then the SSE loop: [{"status": "done"}] on
    [data:[DONE]], a chunk that does not decode skipped. *)
Definition stream_body (h : handler) (o : stream_resp) : gen :=
  match get_headers h with
  | Err e => gen_raise [] e
  | Ok _ =>
      match o with
      | SFail f => gen_raise [] (net_exc f)
      | SResp status text lines tail =>
          if negb (Z.eqb status 200) then
            gen_raise [] (http_error h status (PDict [("error", PStr text)])
                            ("Stream chat error: HTTP " ++ py_str (PInt status)))
          else
            match sse_scan "data:" [PDict [("status", PStr "done")]] (fun v => Ok [v]) lines with
            | ScanDone items => gen_return items
            | ScanEnd items =>
                match tail with
                | None => gen_return items
                | Some f => gen_raise items (net_exc f)
                end
            | ScanRaise items e => gen_raise items e
            end
      end
  end.

(** The [except] clauses of [stream_chat] (lines 376-396), in order: the
    last one wraps everything else, the HTTP error status included. *)
Definition stream_except (h : handler) (e : exc) : exc :=
  if isinstance e [CTimeoutError] then
    new_exc CAPITimeoutError []
      [("message", PStr ("Stream request timed out after " ++ py_str (request_timeout h) ++ "s"));
       ("provider_name", provider_name h); ("timeout_seconds", request_timeout h)]
  else if isinstance e [CClientError] then
    new_exc CAPIConnectionError []
      [("message", PStr ("Connection error: " ++ exc_str e));
       ("provider_name", provider_name h); ("details", PStr (exc_str e))]
  else if isinstance e [CException] then
    api_error h "Unexpected streaming error: " e
  else e.

Definition stream_payload (h : handler) (param : string -> param_type -> pyval -> pyval)
           (target : string) (messages : list chat_msg) (kwargs : pydict string pyval)
  : pydict string pyval :=
  build_payload h param target (PList (map format_message messages)) true kwargs.

(** [stream_chat(messages, model, **kwargs)], lines 273-398, as its
    consumer sees it: the missing model and the missing endpoint raise
    before the first item. *)
Definition stream_chat (h : handler) (param : string -> param_type -> pyval -> pyval)
           (messages : list chat_msg) (model : pyval) (kwargs : pydict string pyval)
           (server : pydict string pyval -> stream_resp) : gen :=
  match target_model h model with
  | Err e => gen_raise [] e
  | Ok target =>
      if String.eqb target "" then
        gen_raise [] (config_error ("No model specified and no default_model configured for "
                                    ++ py_str (provider_name h) ++ " streaming."))
      else if negb (py_truthy (endpoint h)) then
        gen_raise [] (config_error ("Endpoint not configured for " ++ py_str (provider_name h)))
      else
        let g := stream_body h (server (stream_payload h param target messages kwargs)) in
        match g_exc g with
        | None => g
        | Some e => gen_raise (g_items g) (stream_except h e)
        end
  end.
End Ops.

(** ** Failures *)

Section Props.
Context `{Json} `{Render}.
Local Open Scope string_scope.

(** [is_retryable_exception] is false on every retry state: one call. *)
Lemma volc_make_request_single h net :
  make_request h net = (outcome_result (request_once h (net 1%nat)), 1%nat, []).
Proof. apply (Tenacity.callable_never_retries _ is_retryable_exception); reflexivity. Qed.

Lemma volc_api_error_fields h prefix e :
  exc_class (api_error h prefix e) = CAPIError /\
  arg (api_error h prefix e) "provider_name" = provider_name h.
Proof. split; reflexivity. Qed.

(** The body of [_make_request] never raises the validation [APIError]. *)
Lemma request_body_not_api h o e : request_body h o = Err e -> exc_class e <> CAPIError.
Proof.
  unfold request_body, get_headers. destruct (negb (py_truthy (api_key h))).
  - intros [= <-]. discriminate.
  - rewrite rbind_ok. destruct o as [f|status text]; [intros [= <-]; by destruct f|].
    destruct (negb (Z.eqb status 200)); [intros [= <-]; discriminate|].
    destruct (json_loads text); intros [= <-]; discriminate.
Qed.

(** What [_make_request] raises is the validation [APIError] of the
    handler only when it is one. *)
Definition own_or_other (h : handler) (e : exc) : Prop :=
  exc_class e <> CAPIError \/ arg e "provider_name" = provider_name h.

Lemma request_once_own h o e : request_once h o = Raised e -> own_or_other h e.
Proof.
  unfold request_once, own_or_other. destruct (request_body h o) as [v|e0] eqn:Hb; [done|].
  intros [= <-]. pose proof (request_body_not_api h o e0 Hb) as Hn.
  unfold request_except.
  destruct (isinstance e0 [CClientConnectorError]); [left; discriminate|].
  destruct (isinstance e0 [CTimeoutError]); [left; discriminate|].
  destruct (isinstance e0 [CClientError]); [right; reflexivity|]. by left.
Qed.

(** Every exception [generate_text]'s [except] clauses let out is the
    validation [APIError] with the handler's provider name. *)
Lemma volc_generate_except_api h e :
  own_or_other h e ->
  exc_class (generate_except h e) = CAPIError /\
  arg (generate_except h e) "provider_name" = provider_name h.
Proof.
  unfold generate_except, own_or_other. rewrite isinstance_single, is_subclass_api_error.
  destruct (decide (exc_class e = CAPIError)) as [He|He].
  - rewrite bool_decide_eq_true_2 by done. intros [|Hp]; [done|]. done.
  - rewrite bool_decide_eq_false_2 by done. intros _.
    destruct (isinstance e [CRetryError]); apply volc_api_error_fields.
Qed.

(** With a model, every failure of [generate_text] is the validation
    [APIError] carrying the handler's provider name, after exactly one
    request: a refused connection (whose [APIConnectionError(message=...)]
    raises [TypeError]), a timeout, an HTTP error status, an undecodable
    or malformed body and a missing key alike. *)
Theorem volc_generate_text_errors_api_error h param prompt model kwargs net target e :
  target_model h model = Ok target -> target <> "" ->
  fst (generate_text h param prompt model kwargs net) = Err e ->
  exc_class e = CAPIError /\ arg e "provider_name" = provider_name h /\
  snd (generate_text h param prompt model kwargs net) = 1%nat.
Proof.
  intros Ht Hne. unfold generate_text. rewrite Ht.
  rewrite (proj2 (String.eqb_neq target "") Hne), volc_make_request_single. simpl.
  destruct (request_once h _) as [v|e0] eqn:Hr; simpl.
  - destruct (joined_content v) as [[s|]|e1] eqn:Hj; simpl; [done| |].
    + intros [= <-]. split_and!; [apply volc_generate_except_api..|done]; left; discriminate.
    + intros [= <-]. apply joined_content_class in Hj.
      assert (exc_class e1 <> CAPIError) as Hn.
      { intros Hc. rewrite Hc in Hj. unfold access_classes in Hj. set_solver. }
      split_and!; [apply volc_generate_except_api..|done]; by left.
  - intros [= <-]. pose proof (request_once_own h _ e0 Hr).
    split_and!; [apply volc_generate_except_api..|done]; done.
Qed.
(** The marker the stream yields on [data:[DONE]]. *)
Definition volc_done : pyval := PDict [("status", PStr "done")].

(** How [stream_chat] fails.  Without a model it raises
    [ConfigurationError] before its first item (SiliconFlow reports the
    same case as an item).  With a model, a key and an endpoint: a
    refused connection raises [TypeError] (from
    [APIConnectionError(message=...)]); an HTTP error status raises the
    generic [APIError] of the catch-all wrapping the [APIResponseError];
    a timeout while reading raises [APITimeoutError] with the handler's
    timeout after the items already read. *)
Theorem volc_stream_chat_failures h param msgs model kwargs target :
  target_model h model = Ok target ->
  (target = "" -> forall server,
     stream_chat h param msgs model kwargs server =
       gen_raise [] (config_error ("No model specified and no default_model configured for "
                                   ++ py_str (provider_name h) ++ " streaming."))) /\
  (target <> "" -> py_truthy (api_key h) = true -> py_truthy (endpoint h) = true ->
   g_exc (stream_chat h param msgs model kwargs (fun _ => SFail NetConnector)) = Some type_error /\
   (forall status text lines tail, status <> 200%Z ->
      stream_chat h param msgs model kwargs (fun _ => SResp status text lines tail) =
        gen_raise [] (api_error h "Unexpected streaming error: "
                        (http_error h status (PDict [("error", PStr text)])
                           ("Stream chat error: HTTP " ++ py_str (PInt status))))) /\
   (forall text lines items,
      sse_scan "data:" [volc_done] (fun v => Ok [v]) lines = ScanEnd items ->
      exists e, stream_chat h param msgs model kwargs (fun _ => SResp 200 text lines (Some NetTimeout))
                  = gen_raise items e /\
                exc_class e = CAPITimeoutError /\ timeout_seconds e = request_timeout h)).
Proof.
  intros Ht. unfold stream_chat. rewrite Ht. split.
  - intros -> server. reflexivity.
  - intros Hne Hk He. rewrite (proj2 (String.eqb_neq target "") Hne), He. simpl negb. cbv iota.
    unfold stream_body, get_headers. rewrite Hk. simpl negb. cbv iota.
    split_and!.
    + reflexivity.
    + intros status text lines tail Hs. by rewrite (proj2 (Z.eqb_neq status 200) Hs).
    + intros text lines items Hl. simpl negb. cbv iota. unfold volc_done in Hl. rewrite Hl.
      eexists. split; [reflexivity|]. by split.
Qed.

(** [bool] or [int] *)
Definition is_int (v : pyval) : bool := match v with PInt _ | PBool _ => true | _ => false end.

Lemma as_int_is_int v w : as_int v = Ok w -> is_int w = true.
Proof.
  destruct v as [| | |[]| | |]; simpl; try discriminate; try (intros [= <-]; reflexivity).
  destruct (py_int s); [intros [= <-]; reflexivity | discriminate].
Qed.

(** C9: What a constructed handler holds: an [int] timeout, a truthy key and
    a string endpoint, as the methods that format them assume. *)
Theorem volc_init_wf config h :
  init config = Ok h ->
  is_int (request_timeout h) = true /\ py_truthy (api_key h) = true /\
  exists s, endpoint h = PStr s.
Proof.
  unfold init. destruct (if is_none _ then _ else _) as [rt|e] eqn:Hrt; [|discriminate].
  rewrite rbind_ok.
  destruct (py_truthy (cfg_get config "VOLC_API_KEY" PNone)) eqn:Hk; [|discriminate].
  destruct (py_truthy (cfg_get config "VOLC_ENDPOINT" PNone)); [|discriminate]. simpl.
  destruct (cfg_get config "VOLC_ENDPOINT" PNone); try discriminate. simpl.
  intros [= <-]. cbn. split_and!; [|done|destruct (py_endswith s "/"); eauto].
  destruct (is_none _) in Hrt; by eapply as_int_is_int.
Qed.

(** The timeout is converted before the key is checked: a configuration
    without a key but with a malformed timeout raises [ValueError], not
    [ConfigurationError]. *)
Example init_timeout_before_key :
  init [("VOLC_ENGINE_REQUEST_TIMEOUT", PStr "30s")] = Err value_error.
Proof. reflexivity. Qed.
End Props.

(** ** Concrete runs *)

Section VolcWitnesses.
Local Open Scope string_scope.

(** The configuration [get_handler] builds for a user who set a key, an
    endpoint with a trailing slash, a default model and a string timeout. *)
Definition demo_config : pydict string pyval :=
  [("provider_name", PStr "volc_engine"); ("VOLC_API_KEY", PStr "ak-volc");
   ("VOLC_ENDPOINT", PStr "https://ark.cn-beijing.volces.com/api/v3/chat/completions/");
   ("VOLC_DEFAULT_MODEL", PStr "doubao-pro"); ("VOLC_ENGINE_REQUEST_TIMEOUT", PStr "30")].

Definition demo_handler : handler :=
  match init demo_config with
  | Ok h => h
  | Err _ => mk_handler PNone PNone PNone PNone [] PNone
  end.

(** [get_current_param] with no [.env] entry: the configured default. *)
Definition no_env_param (name : string) (t : param_type) (dflt : pyval) : pyval := dflt.

Definition unauthorized : pydict string pyval -> nat -> http_outcome :=
  fun _ _ => HResp 401 (jq "{`error`: `bad key`}").

Lemma volc_generate_text_errors_api_error_witness :
  exists e, fst (generate_text demo_handler no_env_param "hi" PNone [] unauthorized) = Err e /\
            exc_class e = CAPIError /\ arg e "provider_name" = PStr "volc_engine" /\
            snd (generate_text demo_handler no_env_param "hi" PNone [] unauthorized) = 1%nat.
Proof.
  eexists. split; [vm_compute; reflexivity|].
  apply (volc_generate_text_errors_api_error demo_handler no_env_param "hi" PNone [] unauthorized
           "doubao-pro"); [vm_compute; reflexivity | discriminate | vm_compute; reflexivity].
Defined.

Lemma volc_stream_chat_failures_witness :
  g_exc (stream_chat demo_handler no_env_param [] PNone [] (fun _ => SFail NetConnector))
  = Some type_error.
Proof.
  apply (volc_stream_chat_failures demo_handler no_env_param [] PNone [] "doubao-pro");
    [vm_compute; reflexivity | discriminate | vm_compute; reflexivity..].
Defined.

Lemma volc_init_wf_witness :
  is_int (request_timeout demo_handler) = true /\ py_truthy (api_key demo_handler) = true /\
  exists s, endpoint demo_handler = PStr s.
Proof. apply (volc_init_wf demo_config). vm_compute. reflexivity. Defined.
End VolcWitnesses.
End Volc.
