(* ===== verification/Gemini.v ===== *)
(** * Gemini: the adapter of [src/src/providers/handlers/google_gemini.py]

    [GoogleGeminiHandler] talks to the [google.generativeai] SDK instead of
    HTTP.  What the SDK does is an input of each operation:
    [genai.configure] may raise, [genai.list_models()] returns model
    descriptions or raises, and [generate_content] returns a response or
    raises.  [init] is [__init__] (29-70); [get_available_models] is lines
    80-135 with its decorator; [generate] lines 137-169;
    [convert_to_gemini_messages] is [_convert_to_gemini_messages]
    (172-215); [create_generation_config] lines 217-231; [stream_chat]
    lines 234-393; [analyze_image] lines 396-530.

    [generate_content(..., stream=True)] returns a
    [GenerateContentResponse], which has [__iter__] and no [__aiter__]
    (the SDK's [AsyncGenerateContentResponse], returned by
    [generate_content_async], has [__aiter__]).  [sdk_response] records
    which of the two a call returned, and [async for] over the first
    raises [TypeError] before any chunk.

    [stream_chat] is an asynchronous generator function under a
    [tenacity.retry] decorator: tenacity wraps it as a plain function,
    whose call returns the generator without running it, so nothing is
    ever retried and the model is the generator alone.

    The constructors of [validation/error_handler.py] do not take the
    keywords [detail=] and [provider=] the handler passes in most of its
    [except] clauses: those [raise] statements raise [TypeError]. *)

From S2P Require Import Prelude Errors Retry EnvConfig Http Json OpenAI.
Import Exc.

Module Gemini.
Local Open Scope string_scope.

(** The instance attributes set by [__init__]. *)
Record handler : Type := mk_handler {
  provider_name : pyval;
  api_key : pyval;
  endpoint : pyval;
  default_model : pyval;
  project_id : pyval;
  default_api_params : pydict string pyval;
  request_timeout : pyval
}.

(** A model [genai.list_models()] describes: [name] and
    [supported_generation_methods]. *)
Record model_info : Type := mk_model_info { mi_name : string; mi_methods : list string }.

(** A chunk of a streamed response: whether [chunk.parts] is non-empty,
    the name of [chunk.prompt_feedback.block_reason] when it is set, and
    what [chunk.text] returns or raises. *)
Record chunk : Type := mk_chunk {
  c_has_parts : bool;
  c_block_reason : option string;
  c_text : result exc string
}.

(** What [generate_content(..., stream=True)] returned: the synchronous
    response the SDK returns, or an asynchronous one; each holds the
    chunks its iteration gives and how the iteration ends. *)
Inductive sdk_response : Type :=
  | SyncResponse (chunks : list chunk) (tail : option exc)
  | AsyncResponse (chunks : list chunk) (tail : option exc).

(** The response of a non-streamed [generate_content]: [response.text]
    and the block reason. *)
Record image_response : Type := mk_image_response {
  ir_text : result exc string;
  ir_block_reason : option string
}.

Section Ops.
Context `{Render}.

Definition config_error (msg : string) : exc := new_exc CConfigurationError [PStr msg] [].

(** [__init__], lines 29-70: the key is required; [genai.configure]
    raising is reported as a configuration error. *)
Definition init (config : pydict string pyval) (configure : option exc) : result exc handler :=
  let pn := cfg_get config "provider_name" (PStr "google_gemini") in
  let key := cfg_get config "GOOGLE_API_KEY" PNone in
  if negb (py_truthy key) then
    Err (config_error ("Provider '" ++ py_str pn ++ "' is missing required 'GOOGLE_API_KEY'."))
  else
    match configure with
    | Some e =>
        if isinstance e [CException] then
          Err (config_error ("Failed to configure Google Gemini SDK for '" ++ py_str pn
                             ++ "' with provided API Key: " ++ exc_str e))
        else Err e
    | None =>
        Ok {| provider_name := pn; api_key := key;
              endpoint := cfg_get config "GOOGLE_ENDPOINT" PNone;
              default_model := cfg_get config "GOOGLE_DEFAULT_MODEL" PNone;
              project_id := cfg_get config "GOOGLE_PROJECT_ID" PNone;
              default_api_params :=
                [("temperature", cfg_get config "GOOGLE_TEMPERATURE" (PFloat (FFin (7 # 10))));
                 ("top_p", cfg_get config "GOOGLE_TOP_P" (PFloat (FFin 1)));
                 ("top_k", cfg_get config "GOOGLE_TOP_K" (PInt 40));
                 ("max_tokens", cfg_get config "GOOGLE_MAX_TOKENS" (PInt 2048))];
              request_timeout := cfg_get config "GOOGLE_REQUEST_TIMEOUT" (PInt 120) |}
    end.

(** [get_required_config_fields], lines 72-78. *)
Definition required_config_fields : list string := ["GOOGLE_API_KEY"].

(** [s.split(sep, 1)[-1]]: what follows the first [sep], or [s]. *)
Fixpoint after_first (sep s : string) : option string :=
  if prefix sep s then Some (str_drop (String.length sep) s)
  else match s with
       | EmptyString => None
       | String _ r => after_first sep r
       end.

Definition split_last (sep s : string) : string := default s (after_first sep s).

(** [list_sync_models], lines 102-108. *)
Definition list_sync_models (models : list model_info) : list string :=
  map (fun m => split_last "models/" (mi_name m))
      (filter (fun m => bool_decide ("generateContent" ∈ mi_methods m)) models).

(** The [except] clauses of [get_available_models] (lines 115-134):
    every one passes [detail=] and [provider=]. *)
Definition models_except (h : handler) (e : exc) : exc :=
  let kw msg := [("message", PStr msg); ("detail", PStr (exc_str e));
                 ("provider", provider_name h)] in
  if isinstance e [CPermissionDenied] then new_exc CAPIError [] (kw "API Permission Denied")
  else if isinstance e [CUnauthenticated] then
    new_exc CConfigurationError [] (kw "API Authentication Failed")
  else if isinstance e [CGoogleAPIError] then
    if isinstance e [CServiceUnavailable] then
      new_exc CAPIConnectionError [] (kw "Google API Service Unavailable")
    else if isinstance e [CResourceExhausted] then
      new_exc CAPIResponseError []
        [("message", PStr "Google API Resource Exhausted (Quota?)"); ("status_code", PInt 429);
         ("response_body", PDict [("error", PStr (exc_str e))]); ("provider", provider_name h)]
    else new_exc CAPIError [] (kw ("Google API error fetching models: " ++ exc_str e))
  else if isinstance e [CException] then
    new_exc CAPIError [] (kw ("Failed to fetch models: " ++ exc_str e))
  else e.

(** One call of the undecorated [get_available_models]. *)
Definition models_once (h : handler) (listing : result exc (list model_info)) : outcome (list string) :=
  match listing with
  | Ok ms => Returned (list_sync_models ms)
  | Err e => Raised (models_except h e)
  end.

(** The decorator of lines 80-91. *)
Definition models_retry : Tenacity.config :=
  {| Tenacity.stop_after_attempt := 3;
     Tenacity.wait_multiplier := 1; Tenacity.wait_min := 2; Tenacity.wait_max := 10;
     Tenacity.retry := Tenacity.RetryCallable is_retryable_exception;
     Tenacity.reraise := true |}.

Definition get_available_models (h : handler) (listing : nat -> result exc (list model_info))
  : result exc (list string) * nat * list Z :=
  Tenacity.call_with_retry models_retry (fun i => models_once h (listing i)).

(** ** [_convert_to_gemini_messages], lines 172-215 *)

(** ["\n"], the newline character. *)
Definition nl : string := String "010"%char EmptyString.

(** [sep.join(parts)]: every part must be a string. *)
Fixpoint py_join (sep : string) (parts : list pyval) : result exc string :=
  match parts with
  | [] => Ok ""
  | [PStr s] => Ok s
  | PStr s :: rest => let? r := py_join sep rest in Ok (s ++ sep ++ r)
  | _ :: _ => Err type_error
  end.

(** The loop's variables: [gemini_messages] as (role, content) pairs,
    [current_user_content] and [system_prompt]. *)
Record conv : Type := mk_conv {
  cv_out : list (string * pyval);
  cv_user : list pyval;
  cv_system : pyval
}.

(** [any(m['role'] == 'user' for m in gemini_messages)] *)
Definition has_user (g : list (string * pyval)) : bool := existsb (fun m => String.eqb m.1 "user") g.

(** The joined user turn, with the system prompt in front when it is set
    and no user turn has been emitted yet (lines 188-190 and 199-201). *)
Definition user_turn (st : conv) : result exc (string * bool) :=
  let? full := py_join nl (cv_user st) in
  if py_truthy (cv_system st) && negb (has_user (cv_out st))
  then Ok (py_str (cv_system st) ++ nl ++ nl ++ full, true)
  else Ok (full, false).

(** One message of the loop (lines 178-196). *)
Definition convert_step (st : conv) (msg : pyval) : result exc conv :=
  let? role := py_getitem msg "role" in
  let? content := py_getitem msg "content" in
  match role with
  | PStr r =>
      if String.eqb r "system" then Ok (mk_conv (cv_out st) (cv_user st) content)
      else if String.eqb r "user" then Ok (mk_conv (cv_out st) (cv_user st ++ [content])%list (cv_system st))
      else if String.eqb r "assistant" then
        let? st' := match cv_user st with
                    | [] => Ok st
                    | _ :: _ =>
                        let? turn := user_turn st in
                        let '(full, used) := turn in
                        Ok (mk_conv (cv_out st ++ [("user", PStr full)])%list []
                                    (if used then PNone else cv_system st))
                    end in
        Ok (mk_conv (cv_out st' ++ [("model", content)])%list (cv_user st') (cv_system st'))
      else Ok st
  | _ => Ok st
  end.

Fixpoint convert_loop (st : conv) (msgs : list pyval) : result exc conv :=
  match msgs with
  | [] => Ok st
  | m :: rest => let? st' := convert_step st m in convert_loop st' rest
  end.

(** Lines 198-207: the last user turn, whose system prompt is not
    cleared, then the system prompt as a first user message when the
    list does not start with one. *)
Definition convert_finish (st : conv) : result exc (list (string * pyval)) :=
  let? g := match cv_user st with
            | [] => Ok (cv_out st)
            | _ :: _ => let? turn := user_turn st in Ok (cv_out st ++ [("user", PStr turn.1)])%list
            end in
  match g with
  | m :: _ =>
      if negb (String.eqb m.1 "user") && py_truthy (cv_system st)
      then Ok (("user", cv_system st) :: g) else Ok g
  | [] => if py_truthy (cv_system st) then Ok [("user", cv_system st)] else Ok []
  end.

Definition convert_to_gemini_messages (messages : list pyval) : result exc (list (string * pyval)) :=
  let? st := convert_loop (mk_conv [] [] PNone) messages in
  convert_finish st.

(** [_create_generation_config(params)], lines 217-231: the keyword
    arguments given to [GenerationConfig]. *)
Definition create_generation_config (params : pydict string pyval) : pydict string pyval :=
  let get k := default PNone (dict_get k params) in
  let stop := match get "stop" with PStr s => PList [PStr s] | v => v end in
  let filtered := filter (fun kv => negb (is_none kv.2))
                    [("temperature", get "temperature"); ("top_p", get "top_p");
                     ("top_k", get "top_k"); ("max_output_tokens", get "max_tokens");
                     ("stop_sequences", stop)] in
  match dict_get "stop_sequences" filtered with
  | Some v => if is_list v then filtered
              else dict_set "stop_sequences" (PList [PStr (py_str v)]) filtered
  | None => filtered
  end.

(** [final_api_params], lines 258-272 and 427-440: the live parameters,
    then the keyword arguments that do not name one of them. *)
Definition final_api_params (h : handler) (param : string -> param_type -> pyval -> pyval)
           (kwargs : pydict string pyval) : pydict string pyval :=
  let dflt k := default PNone (dict_get k (default_api_params h)) in
  let base := [("temperature", param "temperature" PTFloat (dflt "temperature"));
               ("max_tokens", param "max_tokens" PTInt (dflt "max_tokens"));
               ("top_p", param "top_p" PTFloat (dflt "top_p"));
               ("top_k", param "top_k" PTInt (dflt "top_k"));
               ("stop", param "stop" PTRaw PNone)] in
  dict_merge base (filter (fun kv => negb (dict_mem kv.1 base)) kwargs).
(** ** [stream_chat], lines 234-393 *)

Definition role_chunk : pyval :=
  PDict [("choices", PList [PDict [("index", PInt 0); ("delta", PDict [("role", PStr "assistant")])]])].

Definition content_chunk (t : string) : pyval :=
  PDict [("choices", PList [PDict [("index", PInt 0); ("delta", PDict [("content", PStr t)]);
                                   ("finish_reason", PNone)]])].

Definition finish_chunk : pyval :=
  PDict [("choices", PList [PDict [("index", PInt 0); ("delta", PDict []);
                                   ("finish_reason", PStr "stop")]])].

Definition done_chunk : pyval := PDict [("status", PStr "done")].

Definition error_item (h : handler) (msg : string) : pyval :=
  PDict [("error", PStr msg); ("provider", provider_name h)].

Definition error_detail_item (h : handler) (msg : string) (e : exc) : pyval :=
  PDict [("error", PStr msg); ("detail", PStr (exc_str e)); ("provider", provider_name h)].

(** What one chunk of the loop does (lines 320-358): yield and go on,
    yield and [break], or raise out of the loop. *)
Inductive chunk_step : Type :=
  | CNext (ys : list pyval)
  | CBreak (ys : list pyval)
  | CRaise (e : exc).

Definition process_chunk (h : handler) (c : chunk) : chunk_step :=
  if negb (c_has_parts c) then
    match c_block_reason c with
    | Some r => CBreak [error_item h ("Content blocked by API during streaming. Reason: " ++ r)]
    | None => CNext []
    end
  else
    match c_text c with
    | Ok t => CNext (if String.eqb t "" then [] else [content_chunk t])
    | Err e =>
        if isinstance e [CValueError] then
          CBreak [error_item h ("Content blocked by API during streaming (ValueError). Reason: "
                                ++ default "SafetySettings/Unknown" (c_block_reason c))]
        else if isinstance e [CException] then
          CBreak [error_item h ("Internal error processing stream chunk: "
                                ++ str_take 100 (exc_str e) ++ "...")]
        else CRaise e
    end.

(** The [async for] loop over the chunks: the items and, when the loop
    did not end normally or by [break], the exception that left it. *)
Fixpoint process_chunks (h : handler) (cs : list chunk) (tail : option exc)
  : list pyval * option exc :=
  match cs with
  | [] => ([], tail)
  | c :: rest =>
      match process_chunk h c with
      | CNext ys => let '(zs, r) := process_chunks h rest tail in ((ys ++ zs)%list, r)
      | CBreak ys => (ys, None)
      | CRaise e => ([], Some e)
      end
  end.

(** [async for chunk in response_stream]: a synchronous response has no
    [__aiter__]. *)
Definition aiter_response (h : handler) (r : sdk_response) : list pyval * option exc :=
  match r with
  | SyncResponse _ _ => ([], Some type_error)
  | AsyncResponse cs tail => process_chunks h cs tail
  end.

(** [sdk_model_name], lines 286-289: [startswith] needs a string. *)
Definition sdk_model_name (target : pyval) : result exc string :=
  match target with
  | PStr t => Ok (if py_startswith t "models/" then t else "models/" ++ t)
  | _ => Err attribute_error
  end.

(** The [try] body of lines 284-364. *)
Definition stream_try (h : handler) (target : pyval) (gm : list (string * pyval))
           (cfg : pydict string pyval)
           (sdk : string -> list (string * pyval) -> pydict string pyval -> result exc sdk_response)
  : list pyval * option exc :=
  match sdk_model_name target with
  | Err e => ([], Some e)
  | Ok name =>
      match sdk name gm cfg with
      | Err e => ([], Some e)
      | Ok resp =>
          let '(ys, r) := aiter_response h resp in
          match r with
          | None => (role_chunk :: ys ++ [finish_chunk; done_chunk]%list, None)
          | Some e => (role_chunk :: ys, Some e)
          end
      end
  end.

(** The [except] clauses of lines 367-391, in order: each yields one
    error item.  [e.last_attempt] is read only on tenacity's [RetryError],
    which nothing in the [try] raises; the model renders the exception
    itself there. *)
Definition stream_except (h : handler) (e : exc) : option pyval :=
  if isinstance e [CInvalidArgument] then
    Some (error_detail_item h ("Invalid Argument: " ++ exc_str e) e)
  else if isinstance e [CPermissionDenied] then Some (error_detail_item h "API Permission Denied" e)
  else if isinstance e [CUnauthenticated] then Some (error_detail_item h "API Authentication Failed" e)
  else if isinstance e [CResourceExhausted] then
    Some (PDict [("error", PStr "API Resource Exhausted (Quota?) (Code: 429)");
                 ("detail", PStr (exc_str e)); ("status_code", PInt 429);
                 ("provider", provider_name h)])
  else if isinstance e [CServiceUnavailable] then Some (error_detail_item h "API Service Unavailable" e)
  else if isinstance e [CGoogleAPIError] then
    Some (error_detail_item h ("Google API Error: " ++ exc_str e) e)
  else if isinstance e [CRetryError] then
    Some (error_detail_item h ("API request failed after retries: " ++ str_take 100 (exc_str e)
                               ++ "...") e)
  else if isinstance e [CException] then
    Some (error_item h ("Unexpected internal error during streaming: " ++ str_take 100 (exc_str e)
                        ++ "..."))
  else None.

(** [stream_chat(messages, model, **kwargs)] as its consumer sees it; the
    SDK call is [sdk model_name gemini_messages generation_config]. *)
Definition stream_chat (h : handler) (param : string -> param_type -> pyval -> pyval)
           (messages : list pyval) (model : pyval) (kwargs : pydict string pyval)
           (sdk : string -> list (string * pyval) -> pydict string pyval -> result exc sdk_response)
  : gen :=
  let target := py_or model (default_model h) in
  if negb (py_truthy target) then
    gen_raise [] (config_error ("Provider '" ++ py_str (provider_name h)
                                ++ "' has no model specified and no default model configured"))
  else
    let cfg := create_generation_config (final_api_params h param kwargs) in
    match convert_to_gemini_messages messages with
    | Err e => gen_raise [] e
    | Ok gm =>
        let starts_user := match gm with m :: _ => String.eqb m.1 "user" | [] => false end in
        if negb starts_user then
          gen_return [error_item h "Invalid message sequence: Must start with user role."]
        else
          let '(ys, r) := stream_try h target gm cfg sdk in
          match r with
          | None => gen_return ys
          | Some e =>
              match stream_except h e with
              | Some item => gen_return (ys ++ [item])%list
              | None => gen_raise ys e
              end
          end
    end.
(** ** [generate], lines 137-169 *)

(** A chat message as a dict, as [generate] builds it (line 145). *)
Definition msg_dict (role content : string) : pyval :=
  PDict [("role", PStr role); ("content", PStr content)].

(** One chunk of the loop of lines 150-162: [Ok (stop, acc)]. *)
Definition generate_chunk (h : handler) (acc : string) (c : pyval) : result exc (bool * string) :=
  let? has_choices := py_in "choices" c in
  let? choices_set := if has_choices then rmap py_truthy (py_getitem c "choices") else Ok false in
  if choices_set then
    let? choices := py_getitem c "choices" in
    let? first := py_index choices 0 in
    let? delta := py_get first "delta" (PDict []) in
    let? content := py_get delta "content" PNone in
    if py_truthy content then let? acc' := py_add_str acc content in Ok (false, acc')
    else Ok (false, acc)
  else
    let? has_error := py_in "error" c in
    if has_error then
      let? err := py_getitem c "error" in
      let? detail := py_get c "detail" err in
      Err (new_exc CAPIResponseError []
             [("message", PStr ("Error generating text: " ++ py_str detail));
              ("response_body", c); ("provider", provider_name h)])
    else
      let? status := py_get c "status" PNone in
      Ok (match status with PStr st => String.eqb st "done" | _ => false end, acc).

Fixpoint generate_loop (h : handler) (acc : string) (items : list pyval) (ending : option exc)
  : result exc string :=
  match items with
  | [] => match ending with None => Ok acc | Some e => Err e end
  | c :: rest =>
      let? step := generate_chunk h acc c in
      if step.1 then Ok step.2 else generate_loop h step.2 rest ending
  end.

(** The [except] clauses of [generate] (lines 164-169). *)
Definition generate_except (h : handler) (e : exc) : exc :=
  if isinstance e [CAPIError] then e
  else if isinstance e [CException] then
    new_exc CAPIError []
      [("message", PStr ("Unexpected error generating text: " ++ exc_str e));
       ("provider", provider_name h)]
  else e.

Definition generate (h : handler) (param : string -> param_type -> pyval -> pyval)
           (prompt : string) (model : pyval) (kwargs : pydict string pyval)
           (sdk : string -> list (string * pyval) -> pydict string pyval -> result exc sdk_response)
  : result exc string :=
  let g := stream_chat h param [msg_dict "user" prompt] model kwargs sdk in
  match generate_loop h "" (g_items g) (g_exc g) with
  | Ok s => Ok (py_strip s)
  | Err e => Err (generate_except h e)
  end.

(** ** [analyze_image], lines 396-530 *)

Definition bytes_of (l : list nat) : string := string_of_list_ascii (map ascii_of_nat l).

(** The signature checks of lines 449-457, on the bytes as a string. *)
Definition detect_mime (data : string) : string :=
  if py_startswith data (bytes_of [137; 80; 78; 71; 13; 10; 26; 10]) then "image/png"
  else if py_startswith data (bytes_of [255; 216; 255]) then "image/jpeg"
  else if py_startswith data "GIF87a" || py_startswith data "GIF89a" then "image/gif"
  else if py_startswith data "RIFF" && String.eqb (substring 8 4 data) "WEBP" then "image/webp"
  else "image/jpeg".

(** The vision check of line 420, which only logs, but whose [in] needs
    a container. *)
Definition vision_check (target : pyval) : result exc unit :=
  let? a := py_in "vision" target in
  if a then Ok tt else
  let? b := py_in "gemini-1.5-pro" target in
  if b then Ok tt else
  let? _ := py_in "gemini-pro-vision" target in Ok tt.

(** The [try] body of lines 445-503; the SDK call is
    [sdk model_name [prompt, image_part] generation_config]. *)
Definition image_body (h : handler) (target : pyval) (data prompt : string)
           (cfg : pydict string pyval)
           (sdk : string -> list pyval -> pydict string pyval -> result exc image_response)
  : result exc string :=
  let image_part := PDict [("mime_type", PStr (detect_mime data)); ("data", PStr data)] in
  let? name := sdk_model_name target in
  let? resp := sdk name [PStr prompt; image_part] cfg in
  match ir_text resp with
  | Ok t => Ok (if String.eqb t "" then "" else py_strip t)
  | Err e =>
      if isinstance e [CValueError] then
        let br := default "Unknown" (ir_block_reason resp) in
        Err (new_exc CAPIResponseError []
               [("message", PStr ("Content blocked by API. Reason: " ++ br));
                ("response_body", PDict [("error", PStr (exc_str e)); ("block_reason", PStr br)]);
                ("provider", provider_name h)])
      else Err e
  end.

(** The [except] clauses of lines 506-530, in order. *)
Definition image_except (h : handler) (e : exc) : exc :=
  let kw msg := [("message", PStr msg); ("detail", PStr (exc_str e));
                 ("provider", provider_name h)] in
  if isinstance e [CInvalidArgument] then new_exc CAPIError [] (kw ("Invalid Argument: " ++ exc_str e))
  else if isinstance e [CPermissionDenied] then new_exc CAPIError [] (kw "API Permission Denied")
  else if isinstance e [CUnauthenticated] then
    new_exc CConfigurationError [] (kw "API Authentication Failed")
  else if isinstance e [CResourceExhausted] then
    new_exc CAPIResponseError []
      [("message", PStr "API Resource Exhausted (Quota?)"); ("status_code", PInt 429);
       ("response_body", PDict [("error", PStr (exc_str e))]); ("provider", provider_name h)]
  else if isinstance e [CServiceUnavailable] then
    new_exc CAPIConnectionError [] (kw "Google API Service Unavailable")
  else if isinstance e [CGoogleAPIError] then
    new_exc CAPIError [] (kw ("Google API Error: " ++ exc_str e))
  else if isinstance e [CRetryError] then
    new_exc CAPIError [PStr ("API request failed after retries: " ++ str_take 100 (exc_str e) ++ "...")]
      [("detail", PStr (exc_str e)); ("provider", provider_name h)]
  else if isinstance e [CException] then
    new_exc CAPIError []
      [("message", PStr ("Unexpected internal error during image analysis: "
                         ++ str_take 100 (exc_str e) ++ "..."));
       ("provider", provider_name h)]
  else e.

(** One call of the undecorated [analyze_image]. *)
Definition image_once (h : handler) (param : string -> param_type -> pyval -> pyval)
           (data prompt : string) (model : pyval) (kwargs : pydict string pyval)
           (sdk : string -> list pyval -> pydict string pyval -> result exc image_response)
  : outcome string :=
  let target := py_or model (default_model h) in
  if negb (py_truthy target) then
    Raised (config_error ("Provider '" ++ py_str (provider_name h)
                          ++ "' has no model specified for image analysis"))
  else
    match vision_check target with
    | Err e => Raised e
    | Ok _ =>
        let cfg := create_generation_config (final_api_params h param kwargs) in
        match image_body h target data prompt cfg sdk with
        | Ok s => Returned s
        | Err e => Raised (image_except h e)
        end
    end.

(** The decorator of lines 396-406. *)
Definition image_retry : Tenacity.config :=
  {| Tenacity.stop_after_attempt := 3;
     Tenacity.wait_multiplier := 1; Tenacity.wait_min := 2; Tenacity.wait_max := 10;
     Tenacity.retry := Tenacity.RetryIfExceptionType [CServiceUnavailable; CResourceExhausted];
     Tenacity.reraise := true |}.

Definition analyze_image (h : handler) (param : string -> param_type -> pyval -> pyval)
           (data prompt : string) (model : pyval) (kwargs : pydict string pyval)
           (sdk : nat -> string -> list pyval -> pydict string pyval -> result exc image_response)
  : result exc string * nat * list Z :=
  Tenacity.call_with_retry image_retry (fun i => image_once h param data prompt model kwargs (sdk i)).
End Ops.

(** ** Properties *)

Section Props.
Context `{Render}.

(** Every class but [BaseException] derives from [Exception]. *)
Lemma isinstance_exception e : exc_class e <> CBaseException -> isinstance e [CException] = true.
Proof. destruct e as [c args]. rewrite isinstance_single. by destruct c. Qed.

(** Each [except] clause of [analyze_image] raises [TypeError]: none of
    the constructors it calls takes [detail=] or [provider=]. *)
Lemma image_except_type_error h e : exc_class e <> CBaseException -> image_except h e = type_error.
Proof. destruct e as [c args]. simpl. intros Hc. destruct c; [done|..]; reflexivity. Qed.

(** So does each [except] clause of [get_available_models]. *)
Lemma gemini_models_except_type_error h e : exc_class e <> CBaseException -> models_except h e = type_error.
Proof. destruct e as [c args]. simpl. intros Hc. destruct c; [done|..]; reflexivity. Qed.

(** A system prompt followed by an assistant turn and then a user turn
    is sent twice: [_convert_to_gemini_messages] puts it in front of the
    user turn, whose system prompt it does not clear (line 201), and then
    inserts it again as a first user message because the list starts
    with the model's turn (line 204). *)
Theorem convert_system_prompt_twice sys a u :
  sys <> "" ->
  convert_to_gemini_messages [msg_dict "system" sys; msg_dict "assistant" a; msg_dict "user" u] =
    Ok [("user", PStr sys); ("model", PStr a); ("user", PStr (py_str (PStr sys) ++ nl ++ nl ++ u))].
Proof.
  intros Hs. unfold convert_to_gemini_messages. cbn.
  destruct sys as [|c r]; [done|]. reflexivity.
Qed.
Lemma convert_single_user prompt :
  convert_to_gemini_messages [msg_dict "user" prompt] = Ok [("user", PStr prompt)].
Proof. reflexivity. Qed.

(** An SDK call that returned the SDK's own, synchronous, response. *)
Definition sync_call (r : result exc sdk_response) : bool :=
  match r with Ok (SyncResponse _ _) => true | _ => false end.

(** The item the stream ends with when [async for] meets a synchronous
    response. *)
Definition no_aiter_item (h : handler) : pyval :=
  error_item h ("Unexpected internal error during streaming: " ++ str_take 100 (exc_str type_error)
                ++ "...").

(** C10: With a model and an SDK that answers as the SDK does, with a
    [GenerateContentResponse], [stream_chat] on the message [generate]
    builds yields the role chunk and then an internal-error item, never
    any content, and [generate] fails with [TypeError]: the error item
    makes it raise [APIResponseError(message=...)], a [TypeError], which
    its catch-all replaces by [APIError(provider=...)], another one. *)
Theorem generate_sync_response_fails h param prompt model kwargs sdk t :
  py_or model (default_model h) = PStr t -> t <> "" ->
  (forall name gm cfg, sync_call (sdk name gm cfg) = true) ->
  stream_chat h param [msg_dict "user" prompt] model kwargs sdk
    = gen_return [role_chunk; no_aiter_item h] /\
  generate h param prompt model kwargs sdk = Err type_error.
Proof.
  intros Ht Hne Hsdk.
  assert (stream_chat h param [msg_dict "user" prompt] model kwargs sdk
          = gen_return [role_chunk; no_aiter_item h]) as Hs.
  { unfold stream_chat. rewrite Ht. replace (py_truthy (PStr t)) with true by (by destruct t).
    rewrite convert_single_user. cbv zeta iota beta. cbn [negb fst String.eqb Ascii.eqb Bool.eqb].
    unfold stream_try. destruct (sdk_model_name (PStr t)) as [name|e] eqn:Hn; [|discriminate].
    specialize (Hsdk name [("user", PStr prompt)] (create_generation_config
                  (final_api_params h param kwargs))).
    destruct (sdk _ _ _) as [[cs tl|cs tl]|e]; try discriminate. reflexivity. }
  split; [exact Hs|]. unfold generate. rewrite Hs. reflexivity.
Qed.

Lemma vision_check_str t : vision_check (PStr t) = Ok tt.
Proof.
  unfold vision_check. simpl. destruct (py_str_contains "vision" t); [done|]. simpl.
  by destruct (py_str_contains "gemini-1.5-pro" t).
Qed.

(** [analyze_image] calls the SDK once: its decorator retries on
    [ServiceUnavailable] and [ResourceExhausted], which its own [except]
    clauses have already turned into [TypeError].  With a model, every
    failure is that [TypeError], whatever the SDK raises (an [Exception])
    and whatever the response holds. *)
Theorem analyze_image_type_error h param data prompt model kwargs sdk t :
  py_or model (default_model h) = PStr t -> t <> "" ->
  (forall name parts cfg e, sdk 1%nat name parts cfg = Err e -> exc_class e <> CBaseException) ->
  (forall name parts cfg r e, sdk 1%nat name parts cfg = Ok r -> ir_text r = Err e ->
                              exc_class e <> CBaseException) ->
  snd (fst (analyze_image h param data prompt model kwargs sdk)) = 1%nat /\
  (forall e, fst (fst (analyze_image h param data prompt model kwargs sdk)) = Err e ->
             e = type_error).
Proof.
  intros Ht Hne Hraise Htext.
  assert (exists s, image_once h param data prompt model kwargs (sdk 1%nat) = Returned s \/
                    image_once h param data prompt model kwargs (sdk 1%nat) = Raised type_error)
    as [s Ho].
  { unfold image_once. rewrite Ht. replace (py_truthy (PStr t)) with true by (by destruct t).
    rewrite vision_check_str. cbv iota beta zeta.
    destruct (image_body _ _ _ _ _ _) as [s|e] eqn:Hb; [exists s; by left|].
    exists ""; right. f_equal. apply image_except_type_error.
    unfold image_body in Hb. cbn in Hb.
    destruct (sdk _ _ _ _) as [resp|e0] eqn:Hs; cbn in Hb; [|simplify_eq; eauto].
    destruct (ir_text resp) as [x|e1] eqn:Hx; [discriminate|].
    destruct (is_subclass (exc_class e1) CValueError); cbn in Hb; simplify_eq; [discriminate|eauto]. }
  unfold analyze_image, Tenacity.call_with_retry.
  rewrite Tenacity.loop_no_retry by (destruct Ho as [-> | ->]; reflexivity).
  destruct Ho as [-> | ->]; split; try done; cbn; intros e [= <-]; done.
Qed.
End Props.

(** ** Concrete runs *)

Section GeminiWitnesses.

Definition demo_handler : handler :=
  match init [("GOOGLE_API_KEY", PStr "AIza-demo"); ("GOOGLE_DEFAULT_MODEL", PStr "gemini-1.5-pro")]
             None with
  | Ok h => h
  | Err _ => mk_handler PNone PNone PNone PNone PNone [] PNone
  end.

Definition no_env_param (name : string) (t : param_type) (dflt : pyval) : pyval := dflt.

(** The SDK answering with its synchronous response of two chunks. *)
Definition sync_sdk (name : string) (gm : list (string * pyval)) (cfg : pydict string pyval)
  : result exc sdk_response :=
  Ok (SyncResponse [mk_chunk true None (Ok "Hello"); mk_chunk true None (Ok " world")] None).

Definition unavailable_sdk (i : nat) (name : string) (parts : list pyval) (cfg : pydict string pyval)
  : result exc image_response := Err (mk_exc CServiceUnavailable []).

Lemma convert_system_prompt_twice_witness :
  convert_to_gemini_messages
    [msg_dict "system" "Be brief."; msg_dict "assistant" "Hi."; msg_dict "user" "Summarise."] =
    Ok [("user", PStr "Be brief."); ("model", PStr "Hi.");
        ("user", PStr (py_str (PStr "Be brief.") ++ nl ++ nl ++ "Summarise."))].
Proof. apply convert_system_prompt_twice. discriminate. Defined.

Lemma generate_sync_response_fails_witness :
  stream_chat demo_handler no_env_param [msg_dict "user" "hi"] PNone [] sync_sdk
    = gen_return [role_chunk; no_aiter_item demo_handler] /\
  generate demo_handler no_env_param "hi" PNone [] sync_sdk = Err type_error.
Proof.
  apply (generate_sync_response_fails demo_handler no_env_param "hi" PNone [] sync_sdk
           "gemini-1.5-pro"); [reflexivity | discriminate | reflexivity].
Defined.

Lemma analyze_image_type_error_witness :
  snd (fst (analyze_image demo_handler no_env_param "GIF89a" "Describe." PNone [] unavailable_sdk))
    = 1%nat /\
  (forall e, fst (fst (analyze_image demo_handler no_env_param "GIF89a" "Describe." PNone []
                         unavailable_sdk)) = Err e -> e = type_error).
Proof.
  apply (analyze_image_type_error demo_handler no_env_param "GIF89a" "Describe." PNone []
           unavailable_sdk "gemini-1.5-pro"); [reflexivity | discriminate | ..].
  - intros name parts cfg e [= <-]. discriminate.
  - intros name parts cfg r e Hr. discriminate.
Defined.
End GeminiWitnesses.
End Gemini.
