(* ===== verification/Zhipu.v ===== *)
(** * Zhipu: the adapter of [src/src/providers/handlers/zhipu_ai.py]

    [ZhipuAIHandler] as the code has it.  [init] is [__init__] (21-51);
    [jwt_token] is [_generate_jwt_token] (57-89) and [get_headers]
    [_get_headers] (92-97); [get_available_models] is lines 99-105;
    [request_body], [request_except], [request_once] and [make_request] are
    [_make_request] with its decorator (107-179); [generate_text] is
    181-261 with its parameter fix-ups [clamp_params] (201-206) and its
    response handling [extract] (214-244); [stream_chat] is 277-419.

    The file imports [ConfigError], [APIError] and [APIResponseError] from
    [utils/error_handler.py] ([CUConfigError], [CUAPIError],
    [CUAPIResponseError]) and the three other classes, which that module
    re-exports, from [validation/error_handler.py].  Most of its [raise]
    statements pass keywords ([details=], [provider_name=]) the
    [utils] constructors do not take, and so raise [TypeError].

    The clock ([int(time.time())]) and [jwt.encode] are parameters of the
    operations that sign a token. *)

From S2P Require Import Prelude Errors Retry EnvConfig Http Json Stream OpenAI.
Import Exc.

Module Zhipu.

(** The instance attributes set by [__init__]. *)
Record handler : Type := mk_handler {
  provider_name : pyval;
  api_key : pyval;
  endpoint : pyval;
  default_model : pyval;
  default_api_params : pydict string pyval;
  request_timeout : pyval
}.

(** [s.split(c)] for a one-character separator. *)
Fixpoint split_char (c : ascii) (s : string) : list string :=
  match s with
  | EmptyString => [EmptyString]
  | String x r =>
      if Ascii.eqb x c then EmptyString :: split_char c r
      else match split_char c r with
           | [] => [String x EmptyString]
           | w :: ws => String x w :: ws
           end
  end.

(** A number as Python's comparisons with a float see it; anything else
    raises [TypeError]. *)
Definition py_number (v : pyval) : result exc pyfloat :=
  match v with
  | PInt z => Ok (FFin (inject_Z z))
  | PBool b => Ok (FFin (if b then 1 else 0))
  | PFloat f => Ok f
  | _ => Err type_error
  end.

(** [a < b] on floats: [nan] compares false, the infinities bound the
    rationals. *)
Definition float_lt (a b : pyfloat) : bool :=
  match a, b with
  | FNan, _ | _, FNan => false
  | FInf true, FInf true => false
  | FInf true, _ => true
  | _, FInf true => false
  | FInf false, _ => false
  | FFin _, FInf false => true
  | FFin x, FFin y => negb (Qle_bool y x)
  end.

(** [a <= b] *)
Definition float_le (a b : pyfloat) : bool :=
  match a, b with
  | FNan, _ | _, FNan => false
  | _, _ => negb (float_lt b a)
  end.

(** [{k: v for k, v in d.items() if v is not None}] *)
Definition drop_none (d : pydict string pyval) : pydict string pyval :=
  filter (fun kv => negb (is_none kv.2)) d.

Section Ops.
Context `{Json} `{Render}.
(** [jwt.encode(payload, secret, algorithm='HS256')] and [int(time.time())]. *)
Context (jwt_encode : pydict string pyval -> string -> string) (now : Z).
Local Open Scope string_scope.

Definition uconfig_error (msg : string) : exc := new_exc CUConfigError [PStr msg] [].

(** [__init__], lines 21-51: the key is read from a nested [credentials]
    dict, the other settings under lowercase keys. *)
Definition init (config : pydict string pyval) : result exc handler :=
  let pn := cfg_get config "provider_name" (PStr "zhipu_ai") in
  let? key := py_get (cfg_get config "credentials" (PDict [])) "api_key" PNone in
  let ep := cfg_get config "endpoint" (PStr "https://open.bigmodel.cn/api/paas/v4") in
  if negb (py_truthy key) then
    Err (uconfig_error ("Provider '" ++ py_str pn ++ "' is missing required 'api_key' in 'credentials'."))
  else if negb (py_truthy ep) then
    Err (uconfig_error ("Provider '" ++ py_str pn ++ "' is missing required 'endpoint'."))
  else
    match ep with
    | PStr s =>
        Ok {| provider_name := pn; api_key := key;
              endpoint := if py_endswith s "/" then PStr (py_rstrip_char "/" s) else ep;
              default_model := cfg_get config "default_model" PNone;
              default_api_params :=
                [("temperature", cfg_get config "temperature" (PFloat (FFin (7 # 10))));
                 ("top_p", cfg_get config "top_p" (PFloat (FFin (9 # 10))));
                 ("max_tokens", cfg_get config "max_tokens" (PInt 2000))];
              request_timeout := cfg_get config "request_timeout" (PInt 60) |}
    | _ => Err attribute_error
    end.

(** [get_required_config_fields], lines 53-55. *)
Definition required_config_fields : list string := ["credentials"; "endpoint"].

(** The inner [try] of [_generate_jwt_token] (lines 63-82): the key must
    be [ID.Secret]. *)
Definition sign (key : pyval) : result exc string :=
  match key with
  | PStr s =>
      match split_char "." s with
      | [id_part; secret_part] =>
          Ok (jwt_encode [("api_key", PStr id_part); ("exp", PInt (now + 3600));
                          ("timestamp", PInt now)] secret_part)
      | _ => Err (uconfig_error "Invalid Zhipu API Key format. Expected 'ID.Secret'.")
      end
  | _ => Err attribute_error
  end.

(** [_generate_jwt_token], lines 57-89: every failure of the signing,
    the key format error included, becomes [APIError]. *)
Definition jwt_token (h : handler) : result exc string :=
  if negb (py_truthy (api_key h)) then Err (uconfig_error "Cannot generate JWT token without API key.")
  else
    match sign (api_key h) with
    | Ok t => Ok t
    | Err e =>
        Err (new_exc CUAPIError [PStr ("JWT token generation failed: " ++ exc_str e)]
               [("detail", PStr (exc_str e))])
    end.

(** [_get_headers], lines 92-97. *)
Definition get_headers (h : handler) : result exc (pydict string pyval) :=
  let? t := jwt_token h in
  Ok [("Content-Type", PStr "application/json"); ("Authorization", PStr ("Bearer " ++ t))].

(** [get_available_models], lines 99-105: a fixed list, with the default
    model appended when it is not in it. *)
Definition get_available_models (h : handler) : list pyval :=
  let predefined := [PStr "glm-4"; PStr "glm-3-turbo"] in
  let listed := match default_model h with
                | PStr s => bool_decide (s ∈ ["glm-4"; "glm-3-turbo"])
                | _ => false
                end in
  if py_truthy (default_model h) && negb listed then (predefined ++ [default_model h])%list
  else predefined.

(** The [try] body of [_make_request] (lines 124-156) for one outcome. *)
Definition request_body (h : handler) (o : http_outcome) : result exc pyval :=
  let? _ := get_headers h in
  match o with
  | HFail f => Err (net_exc f)
  | HResp status text =>
      if negb (Z.eqb status 200) then
        let body := match json_loads text with
                    | Some v => v
                    | None => PDict [("error", PStr text)]
                    end in
        Err (new_exc CUAPIResponseError []
               [("provider_name", provider_name h); ("status_code", PInt status);
                ("response_body", body); ("details", PStr ("HTTP Error " ++ py_str (PInt status)))])
      else
        match json_loads text with
        | Some v => Ok v
        | None =>
            Err (new_exc CAPIResponseFormatError []
                   [("message", PStr "Invalid JSON in response"); ("provider_name", provider_name h);
                    ("response_body", PDict [("error", PStr (exc_str json_decode_error))])])
        end
  end.

(** The [except] clauses of [_make_request] (lines 157-179), in order;
    [APIError] is the class of [utils/error_handler.py]. *)
Definition request_except (h : handler) (e : exc) : exc :=
  if isinstance e [CClientConnectorError] then
    new_exc CAPIConnectionError []
      [("message", PStr ("Network connection error: " ++ exc_str e));
       ("provider_name", provider_name h); ("details", PStr (exc_str e))]
  else if isinstance e [CTimeoutError] then
    new_exc CAPITimeoutError []
      [("message", PStr ("Request timed out after " ++ py_str (request_timeout h) ++ "s"));
       ("provider_name", provider_name h); ("timeout_seconds", request_timeout h)]
  else if isinstance e [CException] then
    if isinstance e [CUAPIError] then e
    else
      new_exc CUAPIError []
        [("message", PStr ("Unexpected error: " ++ exc_str e));
         ("provider_name", provider_name h); ("details", PStr (exc_str e))]
  else e.

(** One call of the undecorated [_make_request]: the endpoint check
    (117-118) precedes the [try]. *)
Definition request_once (h : handler) (o : http_outcome) : outcome pyval :=
  if negb (py_truthy (endpoint h)) then
    Raised (uconfig_error ("Endpoint not configured for " ++ py_str (provider_name h)))
  else
    match request_body h o with
    | Ok v => Returned v
    | Err e => Raised (request_except h e)
    end.

(** The decorator of lines 107-115. *)
Definition retry_config : Tenacity.config :=
  {| Tenacity.stop_after_attempt := 3;
     Tenacity.wait_multiplier := 1; Tenacity.wait_min := 2; Tenacity.wait_max := 10;
     Tenacity.retry := Tenacity.RetryCallable is_retryable_exception;
     Tenacity.reraise := true |}.

Definition make_request (h : handler) (net : nat -> http_outcome) : result exc pyval * nat * list Z :=
  Tenacity.call_with_retry retry_config (fun i => request_once h (net i)).
(** [(model or self.default_model or "").strip()] *)
Definition target_model (h : handler) (model : pyval) : result exc string :=
  py_strip_val (py_or model (py_or (default_model h) (PStr ""))).

(** [final_api_params = self.default_api_params.copy(); final_api_params.update(kwargs)] *)
Definition final_params (h : handler) (kwargs : pydict string pyval) : pydict string pyval :=
  update_params (default_api_params h) kwargs.

Definition param_of (final : pydict string pyval) (k : string) : pyval :=
  default PNone (dict_get k final).

(** The payload of lines 187-199: the prompt under the key [prompt]. *)
Definition generate_payload (h : handler) (target prompt : string) (kwargs : pydict string pyval)
  : pydict string pyval :=
  let final := final_params h kwargs in
  drop_none [("model", PStr target);
             ("prompt", PList [PDict [("role", PStr "user"); ("content", PStr prompt)]]);
             ("stream", PBool false); ("temperature", param_of final "temperature");
             ("top_p", param_of final "top_p"); ("max_tokens", param_of final "max_tokens")].

(** Lines 201-206: a temperature outside (0, 1] becomes 0.95 and a
    [top_p] of at least 1 becomes 0.99; comparing a value that is not a
    number raises [TypeError]. *)
Definition clamp_params (p : pydict string pyval) : result exc (pydict string pyval) :=
  let? p1 :=
    match dict_get "temperature" p with
    | Some t =>
        let? x := py_number t in
        if float_lt (FFin 0) x && float_le x (FFin 1) then Ok p
        else Ok (dict_set "temperature" (PFloat (FFin (95 # 100))) p)
    | None => Ok p
    end in
  match dict_get "top_p" p1 with
  | Some v =>
      let? x := py_number v in
      if float_le (FFin 1) x then Ok (dict_set "top_p" (PFloat (FFin (99 # 100))) p1) else Ok p1
  | None => Ok p1
  end.

(** [message = choice.get("message", choice.get("delta"))] for one
    choice; the default is evaluated first. *)
Definition message_of (choice : pyval) : result exc pyval :=
  let? d := py_get choice "delta" PNone in
  py_get choice "message" d.

(** Lines 217-218: the loop only assigns [message], so after it
    [message] is the last choice's. *)
Fixpoint loop_message (m : option pyval) (choices : list pyval) : result exc (option pyval) :=
  match choices with
  | [] => Ok m
  | c :: rest => let? v := message_of c in loop_message (Some v) rest
  end.

(** Lines 219-227: [Some] the stripped content when it is not empty. *)
Definition message_content (m : option pyval) : result exc (option string) :=
  match m with
  | Some (PDict d) =>
      if dict_mem "content" d then
        let? c := py_getitem (PDict d) "content" in
        let? s := py_add_str "" c in
        Ok (if String.eqb s "" then None else Some (py_strip s))
      else Ok None
  | _ => Ok None
  end.

(** The response handling of lines 214-244. *)
Definition extract (h : handler) (res : pyval) : result exc string :=
  let? has_choices := py_in "choices" res in
  let? found :=
    if has_choices then
      let? cs := py_getitem res "choices" in
      match cs with
      | PList (c :: rest) => let? m := loop_message None (c :: rest) in message_content m
      | _ => Ok None
      end
    else Ok None in
  match found with
  | Some s => Ok s
  | None =>
      let? has_error := py_in "error" res in
      if has_error then
        let? ev := py_getitem res "error" in
        let? msg := match ev with
                    | PDict d => Ok (default (PStr (py_str ev)) (dict_get "message" d))
                    | _ => Err attribute_error
                    end in
        Err (new_exc CUAPIResponseError []
               [("message", msg); ("provider_name", provider_name h); ("response_body", res)])
      else
        Err (new_exc CAPIResponseFormatError []
               [("message", PStr "Unknown response format"); ("provider_name", provider_name h);
                ("response_body", res)])
  end.

(** The [except] clauses of [generate_text] (lines 246-261), in order. *)
Definition generate_except (h : handler) (e : exc) : exc :=
  if isinstance e [CRetryError] then
    new_exc CUAPIError []
      [("message", PStr ("API request failed after retries: " ++ exc_str e));
       ("provider_name", provider_name h); ("details", PStr (exc_str e))]
  else if isinstance e [CUAPIError] then e
  else
    new_exc CUAPIError []
      [("message", PStr ("Unexpected internal error: " ++ exc_str e));
       ("provider_name", provider_name h); ("details", PStr (exc_str e))].

(** [generate_text(prompt, model, **kwargs)], lines 181-261 (and
    [generate], 263-275, which awaits it): the result and the number of
    requests made. *)
Definition generate_text (h : handler) (prompt : string) (model : pyval)
           (kwargs : pydict string pyval)
           (net : pydict string pyval -> nat -> http_outcome) : result exc string * nat :=
  match target_model h model with
  | Err e => (Err e, 0%nat)
  | Ok target =>
      if String.eqb target "" then
        (Err (uconfig_error ("No model specified and no default model configured for "
                             ++ py_str (provider_name h))), 0%nat)
      else
        match clamp_params (generate_payload h target prompt kwargs) with
        | Err e => (Err e, 0%nat)
        | Ok payload =>
            let '(r, n, _) := make_request h (net payload) in
            let body := let? res := r in extract h res in
            (match body with Ok s => Ok s | Err e => Err (generate_except h e) end, n)
        end
  end.
(** The payload of lines 293-332. *)
Definition stream_payload (h : handler) (target : string) (messages : list chat_msg)
           (kwargs : pydict string pyval) : pydict string pyval :=
  let final := final_params h kwargs in
  drop_none [("model", PStr target); ("messages", PList (map format_message messages));
             ("stream", PBool true); ("temperature", param_of final "temperature");
             ("top_p", param_of final "top_p"); ("max_tokens", param_of final "max_tokens");
             ("request_id", param_of final "request_id"); ("incremental", PBool true)].

(** Lines 377-390 for a decoded chunk: an [error] key raises (the
    [APIError] of [utils] does not take [details=], so [TypeError]); a
    chunk whose first choice has a [delta] is passed on. *)
Definition chunk_items (h : handler) (data : pyval) : result exc (list pyval) :=
  let? has_error := py_in "error" data in
  if has_error then
    let? ev := py_getitem data "error" in
    Err (new_exc CUAPIError []
           [("message", PStr ("Streaming error: " ++ py_str ev));
            ("provider_name", provider_name h); ("details", PStr (py_str ev))])
  else
    let? has_choices := py_in "choices" data in
    if has_choices then
      let? cs := py_getitem data "choices" in
      let? n := py_len cs in
      if Nat.ltb 0 n then
        match cs with
        | PStr _ => Ok []
        | _ =>
            let? c := py_index cs 0 in
            let? has_delta := py_in "delta" c in
            Ok (if has_delta then [data] else [])
        end
      else Ok []
    else Ok [].

(** A line that is not JSON is passed on as content (lines 392-395). *)
Definition content_chunk (d : string) : pyval :=
  PDict [("choices", PList [PDict [("delta", PDict [("content", PStr d)])]])].

(** The loop of lines 359-395: [data: [DONE]] ends it, with no marker. *)
Fixpoint zhipu_scan (h : handler) (lines : list string) : scan :=
  match lines with
  | [] => ScanEnd []
  | l :: rest =>
      let s := py_strip l in
      if String.eqb s "" || negb (py_startswith s "data: ") then zhipu_scan h rest
      else
        let d := py_strip (str_drop 6 s) in
        if String.eqb d "[DONE]" then ScanDone []
        else match json_loads d with
             | None =>
                 if String.eqb d "" then zhipu_scan h rest
                 else scan_prepend [content_chunk d] (zhipu_scan h rest)
             | Some v =>
                 match chunk_items h v with
                 | Ok ys => scan_prepend ys (zhipu_scan h rest)
                 | Err e => ScanRaise [] e
                 end
             end
  end.

(** The [try] body of [stream_chat] after its first [yield] (lines
    341-395). *)
Definition stream_body (h : handler) (o : stream_resp) : gen :=
  match get_headers h with
  | Err e => gen_raise [] e
  | Ok _ =>
      match o with
      | SFail f => gen_raise [] (net_exc f)
      | SResp status text lines tail =>
          if negb (Z.eqb status 200) then
            gen_raise [] (new_exc CUAPIResponseError []
                            [("provider_name", provider_name h); ("status_code", PInt status);
                             ("response_body", PDict [("error", PStr text)]);
                             ("details", PStr ("Stream chat error: HTTP " ++ py_str (PInt status)))])
          else
            match zhipu_scan h lines with
            | ScanDone items => gen_return items
            | ScanEnd items =>
                match tail with
                | None => gen_return items
                | Some f => gen_raise items (net_exc f)
                end
            | ScanRaise items e => gen_raise items e
            end
      end
  end.

(** The [except] clauses of [stream_chat] (lines 397-419), in order. *)
Definition stream_except (h : handler) (e : exc) : exc :=
  if isinstance e [CClientConnectorError] then
    new_exc CAPIConnectionError []
      [("message", PStr ("Connection error: " ++ exc_str e));
       ("provider_name", provider_name h); ("details", PStr (exc_str e))]
  else if isinstance e [CTimeoutError] then
    new_exc CAPITimeoutError []
      [("message", PStr "Stream request timed out"); ("provider_name", provider_name h);
       ("timeout_seconds", request_timeout h)]
  else if isinstance e [CException] then
    if isinstance e [CUAPIError] then e
    else
      new_exc CUAPIError []
        [("message", PStr ("Unexpected streaming error: " ++ exc_str e));
         ("provider_name", provider_name h); ("details", PStr (exc_str e))]
  else e.

(** The role chunk yielded first (line 339). *)
Definition role_chunk : pyval :=
  PDict [("choices", PList [PDict [("delta", PDict [("role", PStr "assistant")])]])].

(** [stream_chat(messages, model, **kwargs)], lines 277-419, as its
    consumer sees it. *)
Definition stream_chat (h : handler) (messages : list chat_msg) (model : pyval)
           (kwargs : pydict string pyval) (server : pydict string pyval -> stream_resp) : gen :=
  match target_model h model with
  | Err e => gen_raise [] e
  | Ok target =>
      if String.eqb target "" then
        gen_raise [] (uconfig_error ("No model specified and no default model configured for "
                                     ++ py_str (provider_name h)))
      else
        let g := stream_body h (server (stream_payload h target messages kwargs)) in
        gen_cons role_chunk
          (match g_exc g with
           | None => g
           | Some e => gen_raise (g_items g) (stream_except h e)
           end)
  end.
End Ops.

(** ** Properties *)

Section Props.
Context `{Json} `{Render} (jwt_encode : pydict string pyval -> string -> string) (now : Z).
Local Open Scope string_scope.

Lemma is_subclass_uapi_error c : is_subclass c CUAPIError = bool_decide (c = CUAPIError).
Proof. by destruct c. Qed.

(** The factory's configuration has no [credentials]: unless the
    metadata's [env_prefix] is a prefix of the string [credentials], the
    constructor raises [ConfigError] on every configuration the factory
    builds, so the provider can never be instantiated through it. *)
Theorem zhipu_init_rejects_factory_config meta std dotenv osenv :
  dict_wf (default [] dotenv) ->
  (forall p, env_prefix meta = Some p -> py_startswith "credentials" p = false) ->
  exists e, init (resolve_config meta std dotenv osenv) = Err e /\ exc_class e = CUConfigError.
Proof.
  intros Hd Hp. unfold init, cfg_get.
  rewrite (resolve_config_absent meta std dotenv osenv "credentials") by done.
  eexists. split; reflexivity.
Qed.

Lemma zhipu_make_request_single h net :
  make_request jwt_encode now h net = (outcome_result (request_once jwt_encode now h (net 1%nat)), 1%nat, []).
Proof. apply (Tenacity.callable_never_retries _ is_retryable_exception); reflexivity. Qed.

Lemma clamp_params_err p e : clamp_params p = Err e -> e = type_error.
Proof.
  assert (Hn : forall v e, py_number v = Err e -> e = type_error)
    by (intros [] ?; simpl; congruence).
  unfold clamp_params, rbind. intros Hc. repeat case_match; simplify_eq; eauto.
Qed.

(** Both wrappings of [generate_text]'s [except] clauses raise
    [TypeError]; only [utils]' [APIError] passes through. *)
Lemma generate_except_not_uapi h e :
  exc_class e <> CUAPIError -> generate_except h e = type_error.
Proof.
  intros Hc. unfold generate_except. destruct (isinstance e [CRetryError]); [reflexivity|].
  rewrite isinstance_single, is_subclass_uapi_error, bool_decide_eq_false_2 by done.
  reflexivity.
Qed.

(** With a signed token, [_make_request] raises [ConfigError] (no
    endpoint), [APITimeoutError] or [TypeError]. *)
Lemma request_once_raised_class h o t e :
  jwt_token jwt_encode now h = Ok t -> request_once jwt_encode now h o = Raised e ->
  exc_class e ∈ [CUConfigError; CAPITimeoutError; CTypeError].
Proof.
  intros Ht. unfold request_once. destruct (negb (py_truthy (endpoint h))).
  { intros [= <-]. set_solver. }
  unfold request_body, get_headers. rewrite Ht. simpl.
  destruct o as [f|status text].
  - intros [= <-]. destruct f; cbn; set_solver.
  - destruct (negb (Z.eqb status 200)); [intros [= <-]; cbn; set_solver|].
    destruct (json_loads text); [done|]. intros [= <-]. cbn. set_solver.
Qed.

Lemma message_of_class c e : message_of c = Err e -> exc_class e ∈ access_classes.
Proof. destruct c; simpl; intros [= <-]; set_solver. Qed.

Lemma loop_message_class m cs e : loop_message m cs = Err e -> exc_class e ∈ access_classes.
Proof.
  revert m. induction cs as [|c cs IH]; intros m; simpl; [done|].
  destruct (message_of c) eqn:E; simpl; [apply IH|]. intros [= <-]. by eapply message_of_class.
Qed.

#[local] Hint Resolve message_of_class loop_message_class : py.

Lemma message_content_class m e : message_content m = Err e -> exc_class e ∈ access_classes.
Proof.
  unfold message_content, rbind. intros Hm. repeat case_match; simplify_eq; eauto with py.
Qed.

#[local] Hint Resolve message_content_class : py.

(** The classes [extract] raises: Python's own on a malformed body, and
    the [TypeError] of its two [raise] statements. *)
Lemma extract_class h res e : extract h res = Err e -> exc_class e ∈ access_classes.
Proof.
  unfold extract, rbind. intros Hx.
  repeat case_match; simplify_eq.
  all: first [ solve [eauto with py]
             | (match goal with |- exc_class ?x ∈ _ =>
                  (assert (x = type_error) as -> by reflexivity); apply list_elem_of_here end)
             | (unfold access_classes; cbn; set_solver) ].
Qed.

(** Once the model is resolved and the token signed, every failure of
    [generate_text] (a parameter that is not a number, a missing endpoint,
    a refused connection, a timeout, an HTTP error status, an error or
    unexpected body) raises [TypeError]: each path ends in a constructor
    called with a keyword it does not take. *)
Theorem zhipu_generate_text_type_error h prompt model kwargs net target t e :
  jwt_token jwt_encode now h = Ok t ->
  target_model h model = Ok target -> target <> "" ->
  fst (generate_text jwt_encode now h prompt model kwargs net) = Err e -> e = type_error.
Proof.
  intros Ht Hm Hne. unfold generate_text. rewrite Hm, (proj2 (String.eqb_neq target "") Hne).
  destruct (clamp_params _) as [p|e0] eqn:Hc; cbv beta iota;
    [|intros [= <-]; by eapply clamp_params_err].
  rewrite zhipu_make_request_single. simpl.
  destruct (request_once jwt_encode now h (net p 1%nat)) as [v|e0] eqn:Hr; simpl.
  - destruct (extract h v) as [s|e1] eqn:Hx; [done|]. intros [= <-].
    apply generate_except_not_uapi. apply extract_class in Hx. intros Heq. rewrite Heq in Hx.
    revert Hx. apply (bool_decide_unpack _). reflexivity.
  - intros [= <-]. apply generate_except_not_uapi.
    pose proof (request_once_raised_class h _ t e0 Ht Hr) as Hcl. intros Heq. rewrite Heq in Hcl.
    revert Hcl. apply (bool_decide_unpack _). reflexivity.
Qed.
Lemma loop_message_last m l dm :
  Forall (fun c => exists dc, c = PDict dc) l ->
  loop_message m (l ++ [PDict dm])%list =
    Ok (Some (default (default PNone (dict_get "delta" dm)) (dict_get "message" dm))).
Proof.
  intros Hl. revert m. induction Hl as [|c l [dc ->] _ IH]; intros m; [reflexivity|].
  simpl. apply IH.
Qed.

(** [generate_text] returns the content of the last choice only: the loop
    over the choices only assigns [message], and the test that adds its
    content to the answer is after the loop.  The contents of the other
    choices are dropped. *)
Theorem zhipu_generate_text_last_choice h prompt model kwargs net target t p text d l dm mm s :
  jwt_token jwt_encode now h = Ok t -> py_truthy (endpoint h) = true ->
  target_model h model = Ok target -> target <> "" ->
  clamp_params (generate_payload h target prompt kwargs) = Ok p ->
  net p 1%nat = HResp 200 text -> json_loads text = Some (PDict d) ->
  dict_get "choices" d = Some (PList (l ++ [PDict dm])%list) ->
  Forall (fun c => exists dc, c = PDict dc) l ->
  dict_get "message" dm = Some (PDict mm) -> dict_get "content" mm = Some (PStr s) -> s <> "" ->
  generate_text jwt_encode now h prompt model kwargs net = (Ok (py_strip s), 1%nat).
Proof.
  intros Ht He Hm Hne Hc Hn Hj Hd Hl Hdm Hmm Hs.
  unfold generate_text. rewrite Hm, (proj2 (String.eqb_neq target "") Hne), Hc.
  cbv beta iota. rewrite zhipu_make_request_single, Hn.
  unfold request_once. rewrite He. cbn [negb].
  unfold request_body, get_headers. rewrite Ht. cbn [rbind Z.eqb negb Pos.eqb]. rewrite Hj.
  cbn [outcome_result rbind fst snd].
  unfold extract. rewrite (py_in_dict_some _ _ _ Hd), rbind_ok, (py_getitem_dict_some _ _ _ Hd), rbind_ok.
  destruct (l ++ [PDict dm])%list as [|c rest] eqn:El; [by destruct l|].
  rewrite <-El, (loop_message_last None l dm Hl), rbind_ok, Hdm.
  cbn [default from_option id]. unfold message_content, dict_mem. cbv beta iota. rewrite Hmm. cbn [rbind py_getitem py_add_str]. rewrite ?Hmm. cbn [rbind py_add_str].
  change ("" ++ s) with s. destruct (String.eqb_spec s "") as [->|_]; [done|reflexivity].
Qed.
End Props.

(** ** Concrete runs *)

Section ZhipuWitnesses.
Local Open Scope string_scope.

(** A signer standing for [jwt.encode]. *)
Definition demo_jwt (payload : pydict string pyval) (secret : string) : string := "tok-" ++ secret.

(** The metadata entry a registry would give the provider. *)
Definition zhipu_meta : provider_meta :=
  {| standard_name := Some "zhipu_ai"; display_name := Some "Zhipu AI";
     handler_module_path := Some "src.providers.handlers.zhipu_ai";
     handler_class_name := Some "ZhipuAIHandler";
     aliases := AliasesList [AliasStr "zhipu"]; env_prefix := Some "ZHIPU_" |}.

(** A handler built directly, with the nested configuration the
    constructor expects. *)
Definition demo_handler : handler :=
  match init (H0 := plain_render)
          [("credentials", PDict [("api_key", PStr "id.secret")]); ("default_model", PStr "glm-4")] with
  | Ok h => h
  | Err _ => mk_handler PNone PNone PNone PNone [] PNone
  end.

Definition unauthorized : pydict string pyval -> nat -> http_outcome :=
  fun _ _ => HResp 401 (jq "{`error`: {`message`: `bad token`}}").

Definition two_choices : pydict string pyval -> nat -> http_outcome :=
  fun _ _ => HResp 200 (jq "{`choices`: [{`message`: {`content`: `first`}}, {`message`: {`content`: `second`}}]}").

Lemma zhipu_init_rejects_factory_config_witness :
  exists e, init (H0 := plain_render)
              (resolve_config zhipu_meta "zhipu_ai" (Some [("ZHIPU_API_KEY", Some "id.secret")]) [])
            = Err e /\ exc_class e = CUConfigError.
Proof.
  apply zhipu_init_rejects_factory_config.
  - simpl. repeat constructor; set_solver.
  - intros p [= <-]. reflexivity.
Defined.

Lemma zhipu_generate_text_type_error_witness :
  exists e, fst (generate_text demo_jwt 0 demo_handler "hi" PNone [] unauthorized) = Err e /\
            e = type_error.
Proof.
  eexists. split; [vm_compute; reflexivity|].
  apply (zhipu_generate_text_type_error demo_jwt 0 demo_handler "hi" PNone [] unauthorized
           "glm-4" "tok-secret");
    [vm_compute; reflexivity | vm_compute; reflexivity | discriminate | vm_compute; reflexivity].
Defined.

Lemma zhipu_generate_text_last_choice_witness :
  generate_text demo_jwt 0 demo_handler "hi" PNone [] two_choices = (Ok "second", 1%nat).
Proof.
  apply (zhipu_generate_text_last_choice demo_jwt 0 demo_handler "hi" PNone [] two_choices "glm-4"
           "tok-secret" (generate_payload demo_handler "glm-4" "hi" [])
           (jq "{`choices`: [{`message`: {`content`: `first`}}, {`message`: {`content`: `second`}}]}")
           [("choices", PList [PDict [("message", PDict [("content", PStr "first")])];
                               PDict [("message", PDict [("content", PStr "second")])]])]
           [PDict [("message", PDict [("content", PStr "first")])]]
           [("message", PDict [("content", PStr "second")])] [("content", PStr "second")] "second");
    first [vm_compute; reflexivity | discriminate | repeat econstructor].
Defined.
End ZhipuWitnesses.

End Zhipu.
