(* ===== verification/Anyscale.v ===== *)
(** * Anyscale: the adapter of [src/src/providers/handlers/anyscale_endpoints.py]

    [AnyscaleEndpointsHandler] raises the classes of
    [validation/error_handler.py] but, unlike DeepSeek, passes them
    [message=] and [provider=] almost everywhere: [APIResponseError],
    [APIConnectionError], [APIResponseFormatError] and [APIError] accept
    neither, so each such [raise] raises [TypeError].  The model follows
    the file: [init] is [__init__] (18-43); [models_body] and
    [get_available_models] are lines 60-94; [get_headers] is [_get_headers]
    (96-103); [request_body], [request_except] and [make_request] are
    [_make_request] with its decorator (105-148); [generate_text] is
    159-209; [stream_chat] is 211-289.  The live parameters and the joined
    content are the shared blocks of [OpenAI]. *)

From S2P Require Import Prelude Errors Retry EnvConfig Http Json Stream OpenAI.
Import Exc.

Module Anyscale.

Record handler : Type := mk_handler {
  provider_name : pyval;
  api_key : pyval;
  endpoint : pyval;
  default_model : pyval;
  default_api_params : pydict string pyval;
  request_timeout : pyval;
  chat_endpoint : string;
  models_endpoint : string
}.

Section Ops.
Context `{Json} `{Render}.
Local Open Scope string_scope.

Definition config_error (msg : string) : exc := new_exc CConfigurationError [PStr msg] [].

(** [__init__], lines 18-43. *)
Definition init (config : pydict string pyval) : result exc handler :=
  let pn := cfg_get config "provider_name" (PStr "anyscale_endpoints") in
  let key := cfg_get config "ANYSCALE_API_KEY" PNone in
  let ep := cfg_get config "ANYSCALE_ENDPOINT" (PStr "https://api.endpoints.anyscale.com/v1") in
  if negb (py_truthy key) then
    Err (config_error ("Provider '" ++ py_str pn ++ "' is missing required 'ANYSCALE_API_KEY' configuration."))
  else if negb (py_truthy ep) then
    Err (config_error ("Provider '" ++ py_str pn ++ "' is missing required 'ANYSCALE_ENDPOINT' configuration."))
  else
    match ep with
    | PStr s =>
        let base := if py_endswith s "/" then s else s ++ "/" in
        Ok {| provider_name := pn; api_key := key; endpoint := ep;
              default_model := cfg_get config "ANYSCALE_DEFAULT_MODEL"
                                 (PStr "mistralai/Mixtral-8x7B-Instruct-v0.1");
              default_api_params :=
                [("temperature", cfg_get config "ANYSCALE_TEMPERATURE" (PFloat (FFin (7 # 10))));
                 ("top_p", cfg_get config "ANYSCALE_TOP_P" (PFloat (FFin 1)));
                 ("max_tokens", cfg_get config "ANYSCALE_MAX_TOKENS" (PInt 2048))];
              request_timeout := cfg_get config "ANYSCALE_REQUEST_TIMEOUT" (PInt 60);
              chat_endpoint := base ++ "chat/completions";
              models_endpoint := base ++ "models" |}
    | _ => Err attribute_error
    end.

(** [get_required_config_fields], lines 47-49. *)
Definition required_config_fields : list string := ["ANYSCALE_API_KEY"; "ANYSCALE_ENDPOINT"].

(** [_get_headers], lines 96-103. *)
Definition get_headers (h : handler) : result exc (pydict string pyval) :=
  if negb (py_truthy (api_key h))
  then Err (config_error ("API key (ANYSCALE_API_KEY) is missing for " ++ py_str (provider_name h)
                          ++ " headers."))
  else Ok [("Content-Type", PStr "application/json");
           ("Authorization", PStr ("Bearer " ++ py_str (api_key h)))].

(** [APIResponseError(message=..., status_code=..., response_body=...,
    provider=...)], lines 75, 132 and 258. *)
Definition response_error (h : handler) (msg : string) (status : Z) (body : pyval) : exc :=
  new_exc CAPIResponseError []
    [("message", PStr msg); ("status_code", PInt status); ("response_body", body);
     ("provider", provider_name h)].

(** [try: response_json = json.loads(text) except JSONDecodeError:
    response_json = {"error": text}] *)
Definition error_body (text : string) : pyval :=
  match json_loads text with Some v => v | None => PDict [("error", PStr text)] end.

(** Line 78: [[str(model['id']) for model in data.get('data', []) if
    isinstance(model, dict) and 'id' in model]]. *)
Fixpoint model_ids (ms : list pyval) : list string :=
  match ms with
  | [] => []
  | PDict d :: rest =>
      match dict_get "id" d with
      | Some v => py_str v :: model_ids rest
      | None => model_ids rest
      end
  | _ :: rest => model_ids rest
  end.

(** The [try] body of [get_available_models] (lines 66-80).  The response
    is taken to declare [application/json], so [await response.json()] is
    [json.loads] of the text. *)
Definition models_body (h : handler) (o : http_outcome) : result exc (list string) :=
  let? _ := get_headers h in
  match o with
  | HFail f => Err (net_exc f)
  | HResp status text =>
      if negb (Z.eqb status 200) then
        Err (response_error h ("Failed to fetch models: HTTP " ++ py_str (PInt status)) status
                            (error_body text))
      else
        match json_loads text with
        | None => Err json_decode_error
        | Some data =>
            let? ms := py_get data "data" (PList []) in
            let? it := py_iter ms in
            Ok (model_ids it)
        end
  end.

(** The [except] clauses of [get_available_models] (lines 81-94). *)
Definition models_except (h : handler) (text : string) (e : exc) : exc :=
  if isinstance e [CClientConnectorError] then
    new_exc CAPIConnectionError []
      [("message", PStr ("Connection error: " ++ exc_str e)); ("detail", PStr (exc_str e));
       ("provider", provider_name h)]
  else if isinstance e [CTimeoutError] then
    new_exc CAPITimeoutError []
      [("message", PStr "Timeout fetching models"); ("timeout_value", PInt 15);
       ("provider", provider_name h)]
  else if isinstance e [CJSONDecodeError] then
    new_exc CAPIResponseFormatError []
      [("message", PStr "Invalid JSON response from models endpoint");
       ("response_body", PDict [("raw_response", PStr text)]); ("provider", provider_name h)]
  else if isinstance e [CAPIError] then e
  else
    new_exc CAPIError []
      [("message", PStr ("Unexpected error getting models: " ++ exc_str e));
       ("provider", provider_name h)].

(** One call of [get_available_models] (lines 60-94). *)
Definition models_once (h : handler) (o : http_outcome) : outcome (list string) :=
  if String.eqb (models_endpoint h) "" then
    Returned (if py_truthy (default_model h) then [py_str (default_model h)] else [])
  else
    match models_body h o with
    | Ok ms => Returned ms
    | Err e =>
        let text := match o with HResp _ s => s | HFail _ => "" end in
        Raised (models_except h text e)
    end.

(** The decorators of lines 51-59 and 105-113. *)
Definition retry_config : Tenacity.config :=
  {| Tenacity.stop_after_attempt := 3;
     Tenacity.wait_multiplier := 1; Tenacity.wait_min := 2; Tenacity.wait_max := 10;
     Tenacity.retry := Tenacity.RetryCallable is_retryable_exception;
     Tenacity.reraise := true |}.

Definition get_available_models (h : handler) (net : nat -> http_outcome)
  : result exc (list string) * nat * list Z :=
  Tenacity.call_with_retry retry_config (fun i => models_once h (net i)).

(** The [try] body of [_make_request] (lines 119-138). *)
Definition request_body (h : handler) (o : http_outcome) : result exc pyval :=
  let? _ := get_headers h in
  match o with
  | HFail f => Err (net_exc f)
  | HResp status text =>
      if negb (Z.eqb status 200) then
        Err (response_error h ("HTTP " ++ py_str (PInt status)) status (error_body text))
      else
        match json_loads text with
        | Some v => Ok v
        | None =>
            Err (new_exc CAPIResponseFormatError []
                   [("message", PStr "Invalid JSON in successful response");
                    ("response_body", PDict [("raw_response", PStr text)]);
                    ("provider", provider_name h)])
        end
  end.

(** The [except] clauses of [_make_request] (lines 140-148). *)
Definition request_except (h : handler) (e : exc) : exc :=
  if isinstance e [CClientConnectorError] then
    new_exc CAPIConnectionError []
      [("message", PStr ("Network connection error: " ++ exc_str e));
       ("detail", PStr (exc_str e)); ("provider", provider_name h)]
  else if isinstance e [CTimeoutError] then
    new_exc CAPITimeoutError []
      [("message", PStr ("Request timed out after " ++ py_str (request_timeout h) ++ "s"));
       ("timeout_value", request_timeout h); ("provider", provider_name h)]
  else if isinstance e [CClientError] then
    new_exc CAPIError []
      [("message", PStr ("API client error: " ++ exc_str e));
       ("detail", PStr (exc_str e)); ("provider", provider_name h)]
  else e.

(** One call of the undecorated [_make_request] (lines 114-148). *)
Definition request_once (h : handler) (o : http_outcome) : outcome pyval :=
  if String.eqb (chat_endpoint h) "" then
    Raised (config_error ("Chat endpoint not configured for " ++ py_str (provider_name h)))
  else
    match request_body h o with
    | Ok v => Returned v
    | Err e => Raised (request_except h e)
    end.

Definition make_request (h : handler) (net : nat -> http_outcome) : result exc pyval * nat * list Z :=
  Tenacity.call_with_retry retry_config (fun i => request_once h (net i)).

(** [(model or self.default_model or "").strip()]: a non-string has no
    [strip]. *)
Definition target_model (h : handler) (model : pyval) : result exc string :=
  py_strip_val (py_or model (py_or (default_model h) (PStr ""))).

(** The [except] clauses of [generate_text] (lines 201-209): the last two
    pass [provider=] to [APIError]. *)
Definition generate_except (h : handler) (e : exc) : exc :=
  if isinstance e [CAPIError] then e
  else if isinstance e [CRetryError] then
    new_exc CAPIError [PStr ("API request failed after retries: " ++ exc_str e)]
      [("detail", PStr (exc_str e)); ("provider", provider_name h)]
  else
    new_exc CAPIError [PStr ("Unexpected internal error: " ++ exc_str e)]
      [("provider", provider_name h)].

(** The payload of lines 158-179 (and 221-240 with [stream = True]). *)
Definition build_payload (h : handler) (param : string -> param_type -> pyval -> pyval)
           (target : string) (messages : pyval) (stream : bool)
           (kwargs : pydict string pyval) : pydict string pyval :=
  live_payload (default_api_params h) param (PStr target) messages stream kwargs.

(** The payload of [generate_text] (lines 158-179). *)
Definition generate_payload (h : handler) (param : string -> param_type -> pyval -> pyval)
           (target prompt : string) (kwargs : pydict string pyval) : pydict string pyval :=
  build_payload h param target (PList [PDict [("role", PStr "user"); ("content", PStr prompt)]])
    false kwargs.

(** [generate_text(prompt, model, **kwargs)], lines 153-209: the result
    and the number of requests made. *)
Definition generate_text (h : handler) (param : string -> param_type -> pyval -> pyval)
           (prompt : string) (model : pyval) (kwargs : pydict string pyval)
           (net : pydict string pyval -> nat -> http_outcome) : result exc string * nat :=
  match target_model h model with
  | Err e => (Err e, 0%nat)
  | Ok target =>
      if String.eqb target "" then
        (Err (config_error ("No model specified and no default model configured for "
                            ++ py_str (provider_name h))), 0%nat)
      else
        let '(r, n, _) := make_request h (net (generate_payload h param target prompt kwargs)) in
        let body :=
          let? res := r in
          let? o := joined_content res in
          match o with
          | Some s => Ok s
          | None =>
              Err (new_exc CAPIResponseFormatError []
                     [("message", PStr "Unexpected response format"); ("response_body", res);
                      ("provider", provider_name h)])
          end in
        (match body with Ok s => Ok s | Err e => Err (generate_except h e) end, n)
  end.

(** The [try] body of [stream_chat] (lines 247-276): [{"status": "done"}]
    is yielded on [[DONE]]. *)
Definition stream_body (h : handler) (o : stream_resp) : gen :=
  match get_headers h with
  | Err e => gen_raise [] e
  | Ok _ =>
      match o with
      | SFail f => gen_raise [] (net_exc f)
      | SResp status text lines tail =>
          if negb (Z.eqb status 200) then
            gen_raise [] (response_error h ("HTTP " ++ py_str (PInt status)) status
                                         (PDict [("error", PStr text)]))
          else
            match sse_scan "data: " [PDict [("status", PStr "done")]] (fun v => Ok [v]) lines with
            | ScanDone items => gen_return items
            | ScanEnd items =>
                match tail with
                | None => gen_return items
                | Some f => gen_raise items (net_exc f)
                end
            | ScanRaise items e => gen_raise items e
            end
      end
  end.

(** The [except] clauses of [stream_chat] (lines 277-288). *)
Definition stream_except (h : handler) (e : exc) : exc :=
  if isinstance e [CClientConnectorError] then
    new_exc CAPIConnectionError []
      [("message", PStr ("Network error during streaming: " ++ exc_str e));
       ("detail", PStr (exc_str e)); ("provider", provider_name h)]
  else if isinstance e [CTimeoutError] then
    match py_mul_int (request_timeout h) 5 with
    | Err e' => e'
    | Ok tv =>
        new_exc CAPITimeoutError []
          [("message", PStr "Stream request timed out"); ("timeout_value", tv);
           ("provider", provider_name h)]
    end
  else if isinstance e [CAPIError] then e
  else
    new_exc CAPIError [PStr ("Unexpected streaming error: " ++ exc_str e)]
      [("provider", provider_name h)].

(** [stream_chat(messages, model, **kwargs)], lines 211-289; the
    messages are put in the payload as they are given. *)
Definition stream_chat (h : handler) (param : string -> param_type -> pyval -> pyval)
           (messages : pyval) (model : pyval) (kwargs : pydict string pyval)
           (server : pydict string pyval -> stream_resp) : gen :=
  match target_model h model with
  | Err e => gen_raise [] e
  | Ok target =>
      if String.eqb target "" then
        gen_raise [] (config_error ("No model specified and no default model configured for "
                                    ++ py_str (provider_name h)))
      else if String.eqb (chat_endpoint h) "" then
        gen_return [PDict [("error", PStr ("Chat endpoint not configured for "
                                           ++ py_str (provider_name h)))]]
      else
        let g := stream_body h (server (build_payload h param target messages true kwargs)) in
        match g_exc g with
        | None => g
        | Some e => gen_raise (g_items g) (stream_except h e)
        end
  end.
End Ops.

Section Props.
Context `{Json} `{Render}.
Local Open Scope string_scope.

Lemma make_request_single h net :
  make_request h net = (outcome_result (request_once h (net 1%nat)), 1%nat, []).
Proof. apply (Tenacity.callable_never_retries _ is_retryable_exception); reflexivity. Qed.

Lemma models_once_single h net :
  get_available_models h net = (outcome_result (models_once h (net 1%nat)), 1%nat, []).
Proof. apply (Tenacity.callable_never_retries _ is_retryable_exception); reflexivity. Qed.

(** Nothing [_make_request] raises is the validation [APIError]. *)
Lemma request_once_not_api_error h o e :
  request_once h o = Raised e -> exc_class e <> CAPIError.
Proof.
  unfold request_once. destruct (String.eqb _ _).
  { intros [= <-]. discriminate. }
  destruct (request_body h o) as [v|e'] eqn:Hb; [discriminate|]. intros [= <-].
  revert Hb. unfold request_body, get_headers.
  destruct (negb (py_truthy (api_key h))); [intros [= <-]; discriminate|].
  destruct o as [[]|status text]; simpl; try (intros [= <-]; discriminate).
  destruct (negb (Z.eqb status 200)); [intros [= <-]; discriminate|].
  destruct (json_loads text); intros [= <-]; discriminate.
Qed.

Lemma generate_except_type_error h e :
  exc_class e <> CAPIError -> exc_class (generate_except h e) = CTypeError.
Proof.
  intros He. unfold generate_except.
  rewrite isinstance_single, is_subclass_api_error, bool_decide_eq_false_2 by done.
  by destruct (isinstance e [CRetryError]).
Qed.

Lemma joined_or_format_not_api_error h res e :
  (let? o := joined_content res in
   match o with
   | Some s => Ok s
   | None =>
       Err (new_exc CAPIResponseFormatError []
              [("message", PStr "Unexpected response format"); ("response_body", res);
               ("provider", provider_name h)])
   end) = Err e -> exc_class e <> CAPIError.
Proof.
  destruct (joined_content res) as [[s|]|e'] eqn:E; simpl.
  - done.
  - intros [= <-]. discriminate.
  - intros [= <-]. apply (joined_content_class res) in E. intros Hc. rewrite Hc in E.
    unfold access_classes in E. set_solver.
Qed.

(** Every failure of [generate_text] with a model raises [TypeError]: the
    format error and both fallbacks of its [except] clauses pass keyword
    arguments the validation classes do not have. *)
Theorem generate_text_failures_type_error h param prompt model kwargs net target e :
  target_model h model = Ok target -> target <> "" ->
  fst (generate_text h param prompt model kwargs net) = Err e ->
  exc_class e = CTypeError.
Proof.
  intros Ht Hne. unfold generate_text. rewrite Ht.
  destruct (String.eqb_spec target ""); [done|]. rewrite make_request_single. simpl.
  destruct (request_once h _) as [v|e0] eqn:Hr; simpl.
  - destruct (let? o := joined_content v in _) as [s|e1] eqn:Hb; [done|].
    intros [= <-]. apply generate_except_type_error.
    by apply (joined_or_format_not_api_error h v).
  - intros [= <-]. apply generate_except_type_error.
    by apply (request_once_not_api_error h (net (generate_payload h param target prompt kwargs) 1%nat) e0).
Qed.

Definition done_marker : pyval := PDict [("status", PStr "done")].

(** A stream that reaches [data: [DONE]] yields the chunks before it and
    then the completion marker [{"status": "done"}], and ends there. *)
Theorem stream_chat_done h param msgs model kwargs server target text l1 l2 tail xs :
  target_model h model = Ok target -> target <> "" -> chat_endpoint h <> "" ->
  py_truthy (api_key h) = true ->
  server (build_payload h param target msgs true kwargs)
    = SResp 200 text (l1 ++ "data: [DONE]" :: l2) tail ->
  sse_scan "data: " [done_marker] (fun v => Ok [v]) l1 = ScanEnd xs ->
  stream_chat h param msgs model kwargs server = gen_return (xs ++ [done_marker]).
Proof.
  intros Ht Hne Hc Hk Hs H1. unfold stream_chat. rewrite Ht.
  destruct (String.eqb_spec target ""); [done|].
  destruct (String.eqb_spec (chat_endpoint h) ""); [done|].
  rewrite Hs. unfold stream_body, get_headers. rewrite Hk. simpl.
  unfold done_marker in *. rewrite sse_scan_app, H1. reflexivity.
Qed.

(** A refused connection and an error status both end the stream with
    [TypeError], before any item. *)
Theorem stream_chat_errors_type_error h param msgs model kwargs target :
  target_model h model = Ok target -> target <> "" -> chat_endpoint h <> "" ->
  py_truthy (api_key h) = true ->
  stream_chat h param msgs model kwargs (fun _ => SFail NetConnector) =
    gen_raise [] (stream_except h (net_exc NetConnector)) /\
  exc_class (stream_except h (net_exc NetConnector)) = CTypeError /\
  (forall status text lines tail, status <> 200%Z ->
     exists e, stream_chat h param msgs model kwargs (fun _ => SResp status text lines tail)
               = gen_raise [] e /\ exc_class e = CTypeError).
Proof.
  intros Ht Hne Hc Hk. unfold stream_chat. rewrite Ht.
  destruct (String.eqb_spec target ""); [done|].
  destruct (String.eqb_spec (chat_endpoint h) ""); [done|].
  unfold stream_body, get_headers. rewrite Hk. simpl.
  split_and!; [reflexivity|reflexivity|].
  intros status text lines tail Hs. rewrite (proj2 (Z.eqb_neq status 200) Hs). simpl.
  eexists. split; reflexivity.
Qed.

(** [get_available_models] makes one attempt; a refused connection and an
    error status raise [TypeError]. *)
Theorem get_available_models_failures h net :
  models_endpoint h <> "" -> py_truthy (api_key h) = true ->
  snd (fst (get_available_models h net)) = 1%nat /\
  (net 1%nat = HFail NetConnector ->
     exists e, fst (fst (get_available_models h net)) = Err e /\ exc_class e = CTypeError) /\
  (forall status text, net 1%nat = HResp status text -> status <> 200%Z ->
     exists e, fst (fst (get_available_models h net)) = Err e /\ exc_class e = CTypeError).
Proof.
  intros Hm Hk. rewrite models_once_single. simpl.
  unfold models_once. destruct (String.eqb_spec (models_endpoint h) ""); [done|].
  unfold models_body, get_headers. rewrite Hk. simpl.
  split_and!; [done| |].
  - intros ->. eexists. split; reflexivity.
  - intros status text -> Hs. rewrite (proj2 (Z.eqb_neq status 200) Hs). simpl.
    eexists. split; reflexivity.
Qed.
End Props.

(** ** Concrete runs *)

Section AnyscaleWitnesses.
Local Open Scope string_scope.

Definition anyscale_meta : provider_meta :=
  {| standard_name := Some "anyscale_endpoints"; display_name := Some "Anyscale Endpoints";
     handler_module_path := Some "src.providers.handlers.anyscale_endpoints";
     handler_class_name := Some "AnyscaleEndpointsHandler";
     aliases := AliasesList [AliasStr "anyscale"]; env_prefix := Some "ANYSCALE_" |}.

Definition demo_env : dotenv_dict := [("ANYSCALE_API_KEY", Some "esecret_test")].

Definition demo_handler : handler :=
  match init (resolve_config anyscale_meta "anyscale_endpoints" (Some demo_env) []) with
  | Ok h => h
  | Err _ => mk_handler PNone PNone PNone PNone [] PNone "" ""
  end.

Definition live_param := get_current_param (Some anyscale_meta) (Some demo_env).

Lemma generate_text_failures_type_error_witness :
  exists e, fst (generate_text demo_handler live_param "hi" PNone []
                   (fun _ _ => HResp 429 "rate limited")) = Err e /\
            exc_class e = CTypeError.
Proof.
  eexists. split; [vm_compute; reflexivity|].
  apply (generate_text_failures_type_error demo_handler live_param "hi" PNone []
           (fun _ _ => HResp 429 "rate limited") "mistralai/Mixtral-8x7B-Instruct-v0.1");
    [reflexivity | discriminate | vm_compute; reflexivity].
Defined.

Definition demo_lines : list string :=
  [jq "data: {`choices`: [{`delta`: {`content`: `Hi`}}]}"; "data: {oops";
   "data: [DONE]"; jq "data: {`late`: 1}"].

Lemma stream_chat_done_witness :
  stream_chat demo_handler live_param (PList []) PNone []
    (fun _ => SResp 200 "" demo_lines None)
  = gen_return ([PDict [("choices", PList [PDict [("delta", PDict [("content", PStr "Hi")])]])]]
                ++ [done_marker])%list.
Proof.
  apply (stream_chat_done demo_handler live_param (PList []) PNone [] _
           "mistralai/Mixtral-8x7B-Instruct-v0.1" ""
           [jq "data: {`choices`: [{`delta`: {`content`: `Hi`}}]}"; "data: {oops"]
           [jq "data: {`late`: 1}"] None);
    first [reflexivity | discriminate | vm_compute; reflexivity].
Defined.

Lemma stream_chat_errors_type_error_witness :
  exc_class (stream_except demo_handler (net_exc NetConnector)) = CTypeError.
Proof.
  destruct (stream_chat_errors_type_error demo_handler live_param (PList []) PNone []
              "mistralai/Mixtral-8x7B-Instruct-v0.1") as (_ & H & _);
    first [exact H | reflexivity | discriminate].
Defined.

Lemma get_available_models_failures_witness :
  snd (fst (get_available_models demo_handler (fun _ => HFail NetConnector))) = 1%nat.
Proof.
  destruct (get_available_models_failures demo_handler (fun _ => HFail NetConnector))
    as (H & _); first [exact H | discriminate | reflexivity].
Defined.
End AnyscaleWitnesses.
End Anyscale.
