(* ===== verification/Compat.v ===== *)
(** * Compat: the Groq, Together AI and Perplexity AI adapters

    [groq_api.py], [together_ai.py] and [perplexity_ai.py] are one program
    written three times: the same [__init__], [_make_request], [generate]
    and [stream_chat], differing in constants, in the exceptions their
    [_make_request] retries, and in whether the target model is stripped.
    Unlike the other adapters they raise the classes of
    [utils/error_handler.py] ([ConfigError], [APIError],
    [APIResponseError]), whose constructors take the message positionally,
    so their [raise] statements raise what they name.

    [Module Family] is the shared code, parameterised by a [profile] of the
    constants; [Groq], [Together] and [Perplexity] give each file's profile
    and the operations that only one of them has: Groq's and Together's
    [get_available_models], and the abstract-class check that makes
    [PerplexityAiHandler] impossible to instantiate.

    They read their configuration under lowercase keys ([api_key],
    [endpoint], ...), while the factory hands a handler only the
    environment variables under its metadata's [env_prefix]
    ([EnvConfig.resolve_config]); [construct_rejects_factory_config]
    shows that constructing Groq's or Together's handler then raises
    [ConfigError], and Perplexity's [TypeError]. *)

From S2P Require Import Prelude Errors Retry EnvConfig Http Json Stream OpenAI.
Import Exc.

(** The instance attributes [__init__] sets; [models_endpoint] is [None]
    for Perplexity. *)
Record handler : Type := mk_handler {
  provider_name : pyval;
  api_key : pyval;
  endpoint : pyval;
  default_model : pyval;
  default_api_params : pydict string pyval;
  chat_endpoint : string;
  models_endpoint : option string
}.

(** The constants the three files differ by. *)
Record profile : Type := mk_profile {
  default_name : string;             (** [config.get('provider_name', ...)] *)
  default_endpoint : string;         (** [config.get('endpoint', ...)] *)
  default_model_name : string;       (** [config.get('default_model', ...)] *)
  default_temperature : pyval;
  default_top_p : pyval;
  default_max_tokens : pyval;
  lists_models : bool;               (** [models_endpoint] is set *)
  label : string;                    (** the provider's name in messages *)
  retry_classes : list cls;          (** [retry_if_exception_type] of [_make_request] *)
  strips_model : bool                (** [(model or default or "").strip()] *)
}.

Module Family.
Section Family.
Context `{Json} `{Render}.
Local Open Scope string_scope.
Variable pr : profile.

(** [ConfigError(msg)], [APIError(msg)] and [APIResponseError(msg)] of
    [utils/error_handler.py]. *)
Definition uconfig_error (msg : string) : exc := new_exc CUConfigError [PStr msg] [].
Definition uapi_error (msg : string) : exc := new_exc CUAPIError [PStr msg] [].
Definition uresponse_error (msg : string) : exc := new_exc CUAPIResponseError [PStr msg] [].

(** [__init__] ([groq_api.py] 17-44). *)
Definition init (config : pydict string pyval) : result exc handler :=
  let pn := cfg_get config "provider_name" (PStr (default_name pr)) in
  let key := cfg_get config "api_key" PNone in
  let ep := cfg_get config "endpoint" (PStr (default_endpoint pr)) in
  if negb (py_truthy key) then
    Err (uconfig_error ("Provider '" ++ py_str pn ++ "' is missing required 'api_key' configuration."))
  else if negb (py_truthy ep) then
    Err (uconfig_error ("Provider '" ++ py_str pn ++ "' is missing required 'endpoint' configuration."))
  else
    match ep with
    | PStr s =>
        let base := if py_endswith s "/" then s else s ++ "/" in
        Ok {| provider_name := pn; api_key := key; endpoint := ep;
              default_model := cfg_get config "default_model" (PStr (default_model_name pr));
              default_api_params :=
                [("temperature", cfg_get config "temperature" (default_temperature pr));
                 ("top_p", cfg_get config "top_p" (default_top_p pr));
                 ("max_tokens", cfg_get config "max_tokens" (default_max_tokens pr))];
              chat_endpoint := base ++ "chat/completions";
              models_endpoint := if lists_models pr then Some (base ++ "models") else None |}
    | _ => Err attribute_error
    end.

(** The undecorated [_make_request] ([groq_api.py] 94-117): an error
    status raises [APIResponseError], a [ClientError] is re-raised as
    [APIError], an undecodable body as [APIResponseError]; anything else,
    the [asyncio] timeout included, passes through. *)
Definition request_once (o : http_outcome) : outcome pyval :=
  match o with
  | HFail f =>
      let e := net_exc f in
      Raised (if isinstance e [CClientError] then uapi_error (exc_str e) else e)
  | HResp status text =>
      if negb (Z.eqb status 200) then
        Raised (uresponse_error ("HTTP " ++ py_str (PInt status) ++ ": " ++ text))
      else
        match json_loads text with
        | Some v => Returned v
        | None => Raised (uresponse_error ("Invalid JSON response: " ++ exc_str json_decode_error))
        end
  end.

(** The decorator of [_make_request] ([groq_api.py] 88-93). *)
Definition request_retry : Tenacity.config :=
  {| Tenacity.stop_after_attempt := 3;
     Tenacity.wait_multiplier := 1; Tenacity.wait_min := 2; Tenacity.wait_max := 10;
     Tenacity.retry := Tenacity.RetryIfExceptionType (retry_classes pr);
     Tenacity.reraise := true |}.

(** [await self._make_request(...)]: the attempt [i] meets [net i]. *)
Definition make_request (net : nat -> http_outcome) : result exc pyval * nat * list Z :=
  Tenacity.call_with_retry request_retry (fun i => request_once (net i)).

(** [(model or self.default_model or "").strip()] (Groq, Together), or
    [model or self.default_model] (Perplexity). *)
Definition target_model (h : handler) (model : pyval) : result exc pyval :=
  if strips_model pr then
    let? t := py_strip_val (py_or model (py_or (default_model h) (PStr ""))) in Ok (PStr t)
  else Ok (py_or model (default_model h)).

Definition missing_model : exc :=
  uconfig_error ("No model specified and no default model configured for " ++ label pr).

(** [{"model": target, "messages": messages, "stream": stream,
    **final_api_params}] with [final_api_params] the defaults updated by
    the keyword arguments: a keyword argument named [model] or [stream]
    replaces the entry before it. *)
Definition payload (h : handler) (target messages : pyval) (stream : bool)
           (kwargs : pydict string pyval) : pydict string pyval :=
  dict_splat [("model", target); ("messages", messages); ("stream", PBool stream)]
    (update_params (default_api_params h) kwargs).

Definition generate_payload (h : handler) (target : pyval) (prompt : string)
           (kwargs : pydict string pyval) : pydict string pyval :=
  payload h target (PList [PDict [("role", PStr "user"); ("content", PStr prompt)]]) false kwargs.

(** The one [except RetryError] clause of [generate]. *)
Definition generate_except (e : exc) : exc :=
  if isinstance e [CRetryError] then uapi_error ("API request failed after retries: " ++ exc_str e)
  else e.

(** [generate(prompt, model, **kwargs)] ([groq_api.py] 119-161): the
    result, the number of requests and the waits slept between them. *)
Definition generate (h : handler) (prompt : string) (model : pyval) (kwargs : pydict string pyval)
           (net : pydict string pyval -> nat -> http_outcome) : result exc string * nat * list Z :=
  match target_model h model with
  | Err e => (Err e, 0%nat, [])
  | Ok t =>
      if negb (py_truthy t) then (Err missing_model, 0%nat, [])
      else
        let '(r, n, ws) := make_request (net (generate_payload h t prompt kwargs)) in
        let body :=
          let? res := r in
          let? o := first_content res in
          match o with
          | Some s => Ok s
          | None => Err (uresponse_error ("Unexpected response format from " ++ label pr))
          end in
        (match body with Ok s => Ok s | Err e => Err (generate_except e) end, n, ws)
  end.

(** [{"choices": [{"delta": {"role": "assistant"}}]}], yielded first. *)
Definition role_chunk : pyval :=
  PDict [("choices", PList [PDict [("delta", PDict [("role", PStr "assistant")])]])].

Definition error_item (msg : string) : pyval := PDict [("error", PStr msg)].

(** The items after the role chunk ([groq_api.py] 194-230): every
    exception ends the stream with [{"error": str(e)}]. *)
Definition stream_body (o : stream_resp) : list pyval :=
  match o with
  | SFail f => [error_item (exc_str (net_exc f))]
  | SResp status _ lines tail =>
      if negb (Z.eqb status 200) then [error_item ("API error: HTTP " ++ py_str (PInt status))]
      else
        match sse_scan "data: " [] (fun v => Ok [v]) lines with
        | ScanDone items => items
        | ScanEnd items =>
            match tail with
            | None => items
            | Some f => items ++ [error_item (exc_str (net_exc f))]
            end
        | ScanRaise items e => items ++ [error_item (exc_str e)]
        end
  end%list.

(** [stream_chat(messages, model, **kwargs)] ([groq_api.py] 163-230). *)
Definition stream_chat (h : handler) (messages model : pyval) (kwargs : pydict string pyval)
           (server : pydict string pyval -> stream_resp) : gen :=
  match target_model h model with
  | Err e => gen_raise [] e
  | Ok t =>
      if negb (py_truthy t) then gen_raise [] missing_model
      else gen_return (role_chunk :: stream_body (server (payload h t messages true kwargs)))
  end.
End Family.

(** [ABCMeta.__call__]: a class that leaves one of [BaseAPIHandler]'s
    abstract methods ([base.py] 100-118) unimplemented raises [TypeError]
    before [__init__] runs. *)
Definition base_abstract : list string :=
  ["get_required_config_fields"; "get_available_models"; "generate"].

Definition abc_new {A} (methods : list string) (init : pydict string pyval -> result exc A)
           (config : pydict string pyval) : result exc A :=
  if forallb (fun m => bool_decide (m ∈ methods)) base_abstract then init config
  else Err type_error.
End Family.

(** ** Lemmas on the family *)

Module FamilyLemmas.
Import Family.
Section FamilyLemmas.
Context `{Json} `{Render}.
Local Open Scope string_scope.
Variable pr : profile.

Lemma uresponse_error_class msg : exc_class (uresponse_error msg) = CUAPIResponseError.
Proof. reflexivity. Qed.

Lemma uapi_error_class msg : exc_class (uapi_error msg) = CUAPIError.
Proof. reflexivity. Qed.

Lemma uconfig_error_class msg : exc_class (uconfig_error msg) = CUConfigError.
Proof. reflexivity. Qed.

(** A request that raises the same exception on every attempt: three
    attempts two seconds apart when the profile retries it, one otherwise;
    with [reraise=True] the exception itself is raised, never
    [RetryError]. *)
Lemma make_request_const net e :
  (forall i, request_once (net i) = Raised e) ->
  make_request pr net =
    if isinstance e (retry_classes pr) then (Err e, 3%nat, [2; 2]%Z) else (Err e, 1%nat, []).
Proof.
  intros He. unfold make_request, Tenacity.call_with_retry.
  change (Tenacity.stop_after_attempt (request_retry pr)) with 3%nat.
  destruct (isinstance e (retry_classes pr)) eqn:Hi.
  - rewrite (Tenacity.loop_all_retry (request_retry pr) _ (fun _ => e)); try done.
    intros n. by rewrite He.
  - rewrite Tenacity.loop_no_retry; [by rewrite He|]. simpl. by rewrite He.
Qed.

(** [generate] after the model check is the request's outcome handed
    through [first_content] and the [except RetryError] clause. *)
Lemma generate_request h prompt model kwargs net t :
  target_model pr h model = Ok t -> py_truthy t = true ->
  generate pr h prompt model kwargs net =
    let '(r, n, ws) := make_request pr (net (generate_payload h t prompt kwargs)) in
    (match (let? res := r in
            let? o := first_content res in
            match o with
            | Some s => Ok s
            | None => Err (uresponse_error ("Unexpected response format from " ++ label pr))
            end) with
     | Ok s => Ok s
     | Err e => Err (generate_except e)
     end, n, ws).
Proof. intros Ht Htr. unfold generate. by rewrite Ht, Htr. Qed.

(** When every request raises [e], [generate] raises [e] after the
    attempts [make_request_const] counts. *)
Lemma generate_const_raise h prompt model kwargs net t e :
  target_model pr h model = Ok t -> py_truthy t = true ->
  (forall i, request_once (net (generate_payload h t prompt kwargs) i) = Raised e) ->
  isinstance e [CRetryError] = false ->
  generate pr h prompt model kwargs net =
    if isinstance e (retry_classes pr) then (Err e, 3%nat, [2; 2]%Z) else (Err e, 1%nat, []).
Proof.
  intros Ht Htr Hr Hn. rewrite (generate_request h prompt model kwargs net t Ht Htr).
  rewrite (make_request_const _ e Hr).
  destruct (isinstance e (retry_classes pr)); cbn; unfold generate_except; by rewrite Hn.
Qed.

(** Once the model is resolved the stream never raises: it yields the role
    chunk and then the body's items, failures included. *)
Lemma stream_chat_resolved h msgs model kwargs server t :
  target_model pr h model = Ok t -> py_truthy t = true ->
  stream_chat pr h msgs model kwargs server =
    gen_return (role_chunk :: stream_body (server (payload h t msgs true kwargs))).
Proof. intros Ht Htr. unfold stream_chat. by rewrite Ht, Htr. Qed.

(** An error status on every attempt. *)
Lemma generate_status_error h prompt model kwargs net t status text :
  target_model pr h model = Ok t -> py_truthy t = true -> status <> 200%Z ->
  (forall p i, net p i = HResp status text) ->
  let e := uresponse_error ("HTTP " ++ py_str (PInt status) ++ ": " ++ text) in
  generate pr h prompt model kwargs net =
    if isinstance e (retry_classes pr) then (Err e, 3%nat, [2; 2]%Z) else (Err e, 1%nat, []).
Proof.
  intros Ht Htr Hs Hn e. apply (generate_const_raise h prompt model kwargs net t e Ht Htr);
    [|reflexivity].
  intros i. rewrite Hn. simpl. by rewrite (proj2 (Z.eqb_neq status 200) Hs).
Qed.

(** A 200 whose body does not decode, on every attempt. *)
Lemma generate_malformed h prompt model kwargs net t text :
  target_model pr h model = Ok t -> py_truthy t = true -> json_loads text = None ->
  (forall p i, net p i = HResp 200 text) ->
  let e := uresponse_error ("Invalid JSON response: " ++ exc_str json_decode_error) in
  generate pr h prompt model kwargs net =
    if isinstance e (retry_classes pr) then (Err e, 3%nat, [2; 2]%Z) else (Err e, 1%nat, []).
Proof.
  intros Ht Htr Hj Hn e. apply (generate_const_raise h prompt model kwargs net t e Ht Htr);
    [|reflexivity].
  intros i. rewrite Hn. simpl. by rewrite Hj.
Qed.

(** The factory's configuration has no [api_key]: unless the metadata's
    [env_prefix] is a prefix of the string [api_key], the shared
    [__init__] of the family raises [ConfigError]. *)
Lemma init_rejects_factory_config meta std dotenv osenv :
  dict_wf (default [] dotenv) ->
  (forall p, env_prefix meta = Some p -> py_startswith "api_key" p = false) ->
  exists e, init pr (resolve_config meta std dotenv osenv) = Err e /\ exc_class e = CUConfigError.
Proof.
  intros Hd Hp. unfold init, cfg_get.
  rewrite (resolve_config_absent meta std dotenv osenv "api_key") by done.
  eexists. split; [reflexivity | apply uconfig_error_class].
Qed.
End FamilyLemmas.
End FamilyLemmas.

(** ** [groq_api.py] *)

Module Groq.
Import Family.
Local Open Scope string_scope.

(** The constants of [GroqApiHandler]: lines 20-27, 91, 126 and 128. *)
Definition consts : profile :=
  {| default_name := "groq_api"; default_endpoint := "https://api.groq.com/openai/v1";
     default_model_name := "llama3-8b-8192";
     default_temperature := PFloat (FFin (7 # 10)); default_top_p := PFloat (FFin 1);
     default_max_tokens := PInt 2048; lists_models := true; label := "Groq";
     retry_classes := [CUAPIError; CUAPIResponseError]; strips_model := true |}.

(** The methods the class body defines. *)
Definition methods : list string :=
  ["__init__"; "get_required_config_fields"; "get_available_models"; "_make_request";
   "generate"; "stream_chat"].

Definition required_config_fields : list string := ["api_key"].

(** Line 77: [[model['id'] for model in data.get('data', []) if
    isinstance(model, dict) and 'id' in model]]. *)
Fixpoint model_ids (ms : list pyval) : list pyval :=
  match ms with
  | [] => []
  | PDict d :: rest =>
      match dict_get "id" d with
      | Some v => v :: model_ids rest
      | None => model_ids rest
      end
  | _ :: rest => model_ids rest
  end.

(** The decorator of [get_available_models] (lines 50-55). *)
Definition models_retry : Tenacity.config :=
  {| Tenacity.stop_after_attempt := 3;
     Tenacity.wait_multiplier := 1; Tenacity.wait_min := 2; Tenacity.wait_max := 10;
     Tenacity.retry := Tenacity.RetryIfExceptionType [CUAPIError];
     Tenacity.reraise := true |}.

Section Ops.
Context `{Json} `{Render}.

Definition construct (config : pydict string pyval) : result exc handler :=
  abc_new methods (init consts) config.

(** [[self.default_model] if self.default_model else []] *)
Definition models_fallback (h : handler) : list pyval :=
  if py_truthy (default_model h) then [default_model h] else [].

(** One call of the undecorated [get_available_models] (lines 56-86):
    the [APIError] of an error status is raised inside the [try] and
    caught by [except Exception], the one of a [ClientError] is raised by
    the [except] clause and escapes. *)
Definition models_once (h : handler) (o : http_outcome) : outcome (list pyval) :=
  match o with
  | HFail f =>
      let e := net_exc f in
      if isinstance e [CClientError] then Raised (uapi_error ("Connection error: " ++ exc_str e))
      else Returned (models_fallback h)
  | HResp status text =>
      if negb (Z.eqb status 200) then Returned (models_fallback h)
      else
        match json_loads text with
        | None => Returned (models_fallback h)
        | Some data =>
            match (let? ms := py_get data "data" (PList []) in py_iter ms) with
            | Ok it => Returned (model_ids it)
            | Err _ => Returned (models_fallback h)
            end
        end
  end.

Definition get_available_models (h : handler) (net : nat -> http_outcome)
  : result exc (list pyval) * nat * list Z :=
  Tenacity.call_with_retry models_retry (fun i => models_once h (net i)).

Definition generate := Family.generate consts.
Definition stream_chat := Family.stream_chat consts.
Definition init := Family.init consts.
Definition make_request := Family.make_request consts.
End Ops.

Section Props.
Context `{Json} `{Render}.
Import FamilyLemmas.

(** [generate] retries every [APIResponseError]: an error status, a
    client error such as 401 included, and a 200 whose body is not JSON
    are each requested three times, two seconds apart, before the
    [APIResponseError] of the last attempt is raised. *)
Theorem generate_response_errors_retried h prompt model kwargs net t :
  target_model consts h model = Ok t -> py_truthy t = true ->
  (forall status text, status <> 200%Z -> (forall p i, net p i = HResp status text) ->
     generate h prompt model kwargs net =
       (Err (uresponse_error ("HTTP " ++ py_str (PInt status) ++ ": " ++ text)), 3%nat, [2; 2]%Z)) /\
  (forall text, json_loads text = None -> (forall p i, net p i = HResp 200 text) ->
     generate h prompt model kwargs net =
       (Err (uresponse_error ("Invalid JSON response: " ++ exc_str json_decode_error)), 3%nat, [2; 2]%Z)).
Proof.
  intros Ht Htr. split.
  - intros status text Hs Hn. unfold generate.
    by rewrite (generate_status_error consts h prompt model kwargs net t status text).
  - intros text Hj Hn. unfold generate.
    by rewrite (generate_malformed consts h prompt model kwargs net t text).
Qed.

(** A refused connection is retried and raised as [APIError(str(e))]
    after three attempts; a timeout is neither retried nor wrapped: the
    [asyncio] [TimeoutError] itself is raised after one attempt. *)
Theorem generate_network_failures h prompt model kwargs t :
  target_model consts h model = Ok t -> py_truthy t = true ->
  generate h prompt model kwargs (fun _ _ => HFail NetConnector) =
    (Err (uapi_error (exc_str (net_exc NetConnector))), 3%nat, [2; 2]%Z) /\
  generate h prompt model kwargs (fun _ _ => HFail NetTimeout) =
    (Err (net_exc NetTimeout), 1%nat, []).
Proof.
  intros Ht Htr. unfold generate. split.
  - rewrite (generate_const_raise consts h prompt model kwargs _ t
               (uapi_error (exc_str (net_exc NetConnector))) Ht Htr); done.
  - rewrite (generate_const_raise consts h prompt model kwargs _ t (net_exc NetTimeout) Ht Htr);
      done.
Qed.

(** The stream never raises once the model is resolved: it starts with
    the role chunk, and a refused connection or an error status ends it
    with an [{"error": ...}] item and no completion marker. *)
Theorem stream_chat_errors_in_band h msgs model kwargs t :
  target_model consts h model = Ok t -> py_truthy t = true ->
  (forall server, g_exc (stream_chat h msgs model kwargs server) = None /\
                  head (g_items (stream_chat h msgs model kwargs server)) = Some role_chunk) /\
  (forall f, stream_chat h msgs model kwargs (fun _ => SFail f) =
               gen_return [role_chunk; error_item (exc_str (net_exc f))]) /\
  (forall status text lines tail, status <> 200%Z ->
     stream_chat h msgs model kwargs (fun _ => SResp status text lines tail) =
       gen_return [role_chunk; error_item ("API error: HTTP " ++ py_str (PInt status))]).
Proof.
  intros Ht Htr. unfold stream_chat.
  split_and!; [intros server | intros f | intros status text lines tail Hs];
    rewrite (stream_chat_resolved consts h msgs model kwargs _ t Ht Htr); try done.
  simpl. by rewrite (proj2 (Z.eqb_neq status 200) Hs).
Qed.

(** [data: [DONE]] ends the stream with the chunks before it: no
    [{"status": "done"}] marker follows them. *)
Theorem stream_chat_done_no_marker h msgs model kwargs server t text l1 l2 tail xs :
  target_model consts h model = Ok t -> py_truthy t = true ->
  server (payload h t msgs true kwargs) = SResp 200 text (l1 ++ "data: [DONE]" :: l2) tail ->
  sse_scan "data: " [] (fun v => Ok [v]) l1 = ScanEnd xs ->
  stream_chat h msgs model kwargs server = gen_return (role_chunk :: xs).
Proof.
  intros Ht Htr Hs H1. unfold stream_chat.
  rewrite (stream_chat_resolved consts h msgs model kwargs server t Ht Htr), Hs. simpl.
  rewrite sse_scan_app, H1. simpl. by rewrite app_nil_r.
Qed.

(** [get_available_models] makes three attempts when the connection is
    refused every time and then raises [APIError]; an error status gives
    the default model after one attempt. *)
Theorem groq_models_failures h :
  get_available_models h (fun _ => HFail NetConnector) =
    (Err (uapi_error ("Connection error: " ++ exc_str (net_exc NetConnector))), 3%nat, [2; 2]%Z) /\
  (forall status text, status <> 200%Z ->
     get_available_models h (fun _ => HResp status text) = (Ok (models_fallback h), 1%nat, [])).
Proof.
  split.
  - unfold get_available_models, Tenacity.call_with_retry.
    change (Tenacity.stop_after_attempt models_retry) with 3%nat.
    rewrite (Tenacity.loop_all_retry models_retry _
               (fun _ => uapi_error ("Connection error: " ++ exc_str (net_exc NetConnector))));
      done.
  - intros status text Hs. unfold get_available_models, Tenacity.call_with_retry.
    rewrite Tenacity.loop_no_retry; simpl; by rewrite (proj2 (Z.eqb_neq status 200) Hs).
Qed.
End Props.
End Groq.

(** ** [together_ai.py] *)

Module Together.
Import Family.
Local Open Scope string_scope.

(** The constants of [TogetherAiHandler]: lines 19-26, 90 and 159-161. *)
Definition consts : profile :=
  {| default_name := "together_ai"; default_endpoint := "https://api.together.xyz/v1";
     default_model_name := "mistralai/Mixtral-8x7B-Instruct-v0.1";
     default_temperature := PFloat (FFin (7 # 10)); default_top_p := PFloat (FFin (7 # 10));
     default_max_tokens := PInt 512; lists_models := true; label := "Together AI";
     retry_classes := [CUAPIError; CUAPIResponseError]; strips_model := true |}.

Definition methods : list string :=
  ["__init__"; "get_required_config_fields"; "get_available_models"; "_make_request";
   "generate"; "stream_chat"].

Definition required_config_fields : list string := ["api_key"].

(** Lines 64-71. *)
Definition known_models : list string :=
  ["mistralai/Mixtral-8x7B-Instruct-v0.1"; "mistralai/Mistral-7B-Instruct-v0.2";
   "NousResearch/Nous-Hermes-2-Mixtral-8x7B-DPO"; "togethercomputer/llama-2-7b-chat";
   "togethercomputer/CodeLlama-34b-Instruct"; "Qwen/Qwen1.5-72B-Chat"].

(** [get_available_models] (lines 47-85) makes no request: the curated
    list, with the default model inserted first when it is not one of
    them.  Nothing in the [try] can raise, so the decorator never
    retries. *)
Definition get_available_models (h : handler) : list pyval :=
  known_with_default (default_model h) known_models.

Section Ops.
Context `{Json} `{Render}.
Definition construct (config : pydict string pyval) : result exc handler :=
  abc_new methods (init consts) config.
Definition generate := Family.generate consts.
Definition stream_chat := Family.stream_chat consts.
Definition init := Family.init consts.
Definition make_request := Family.make_request consts.
End Ops.

(** The model list has no duplicate and contains the default model
    whenever one is configured. *)
Theorem get_available_models_lists_default h :
  NoDup (get_available_models h) /\
  (py_truthy (default_model h) = true -> default_model h ∈ get_available_models h).
Proof.
  destruct (known_with_default_spec (default_model h) known_models) as (Hn & Hd & _);
    [unfold known_models; repeat constructor; set_solver | by split].
Qed.
End Together.

(** ** [perplexity_ai.py] *)

Module Perplexity.
Import Family.
Local Open Scope string_scope.

(** The constants of [PerplexityAiHandler]: lines 19-26, 38-41, 51, 82 and
    84. *)
Definition consts : profile :=
  {| default_name := "perplexity_ai"; default_endpoint := "https://api.perplexity.ai";
     default_model_name := "llama-3-sonar-large-32k-online";
     default_temperature := PFloat (FFin (7 # 10)); default_top_p := PFloat (FFin 1);
     default_max_tokens := PInt 2048; lists_models := false; label := "Perplexity AI";
     retry_classes := [CUAPIError]; strips_model := false |}.

(** The class body defines no [get_available_models]. *)
Definition methods : list string :=
  ["__init__"; "get_required_config_fields"; "_make_request"; "generate"; "stream_chat"].

Definition required_config_fields : list string := ["api_key"].

Section Ops.
Context `{Json} `{Render}.
Definition construct (config : pydict string pyval) : result exc handler :=
  abc_new methods (init consts) config.
Definition generate := Family.generate consts.
Definition stream_chat := Family.stream_chat consts.
Definition init := Family.init consts.
Definition make_request := Family.make_request consts.
End Ops.

(** [PerplexityAiHandler] leaves [get_available_models] abstract: every
    attempt to create one raises [TypeError], whatever the configuration. *)
Theorem construct_type_error `{Json} `{Render} config : construct config = Err type_error.
Proof. reflexivity. Qed.

Section Props.
Context `{Json} `{Render}.
Import FamilyLemmas.

(** Perplexity retries only [APIError]: an error status or an
    undecodable 200 body is requested once and its [APIResponseError]
    raised at once. *)
Theorem generate_response_errors_once h prompt model kwargs net t :
  target_model consts h model = Ok t -> py_truthy t = true ->
  (forall status text, status <> 200%Z -> (forall p i, net p i = HResp status text) ->
     generate h prompt model kwargs net =
       (Err (uresponse_error ("HTTP " ++ py_str (PInt status) ++ ": " ++ text)), 1%nat, [])) /\
  (forall text, json_loads text = None -> (forall p i, net p i = HResp 200 text) ->
     generate h prompt model kwargs net =
       (Err (uresponse_error ("Invalid JSON response: " ++ exc_str json_decode_error)), 1%nat, [])).
Proof.
  intros Ht Htr. split.
  - intros status text Hs Hn. unfold generate.
    by rewrite (generate_status_error consts h prompt model kwargs net t status text).
  - intros text Hj Hn. unfold generate.
    by rewrite (generate_malformed consts h prompt model kwargs net t text).
Qed.
End Props.
End Perplexity.

(** ** What the factory gets from the three classes *)

Section FactoryConstruct.
Context `{Json} `{Render}.

(** C11: The factory calls [handler_class(config=...)] with the
    configuration of [resolve_config], which has no [api_key] unless the
    metadata's [env_prefix] is a prefix of the string [api_key]: Groq's and
    Together's constructors then raise [ConfigError] in [__init__], and
    Perplexity's raises [TypeError] before [__init__] runs, its class
    being abstract. *)
Theorem construct_rejects_factory_config meta std dotenv osenv :
  dict_wf (default [] dotenv) ->
  (forall p, env_prefix meta = Some p -> py_startswith "api_key" p = false) ->
  (exists e, Groq.construct (resolve_config meta std dotenv osenv) = Err e /\ exc_class e = CUConfigError) /\
  (exists e, Together.construct (resolve_config meta std dotenv osenv) = Err e /\
             exc_class e = CUConfigError) /\
  Perplexity.construct (resolve_config meta std dotenv osenv) = Err type_error.
Proof.
  intros Hd Hp. split_and!; [| |apply Perplexity.construct_type_error].
  - change (Groq.construct (resolve_config meta std dotenv osenv)) with
      (Family.init Groq.consts (resolve_config meta std dotenv osenv)).
    by apply FamilyLemmas.init_rejects_factory_config.
  - change (Together.construct (resolve_config meta std dotenv osenv)) with
      (Family.init Together.consts (resolve_config meta std dotenv osenv)).
    by apply FamilyLemmas.init_rejects_factory_config.
Qed.
End FactoryConstruct.

(** ** Concrete runs *)

Module CompatWitnesses.
Import Family FamilyLemmas.
Local Open Scope string_scope.

Definition groq_meta : provider_meta :=
  {| standard_name := Some "groq_api"; display_name := Some "Groq";
     handler_module_path := Some "src.providers.handlers.groq_api";
     handler_class_name := Some "GroqApiHandler";
     aliases := AliasesList [AliasStr "groq"]; env_prefix := Some "GROQ_" |}.

(** A [.env] file that does configure Groq, under its prefix. *)
Definition groq_env : dotenv_dict := [("GROQ_API_KEY", Some "gsk_test")].

Definition no_handler : handler := mk_handler PNone PNone PNone PNone [] "" None.

Definition groq_handler : handler :=
  match init Groq.consts [("api_key", PStr "gsk_test")] with Ok h => h | Err _ => no_handler end.

Definition together_handler : handler :=
  match init Together.consts [("api_key", PStr "tk"); ("default_model", PStr "meta-llama/Llama-3-70b")]
  with Ok h => h | Err _ => no_handler end.

Definition perplexity_handler : handler :=
  match init Perplexity.consts [("api_key", PStr "pplx")] with Ok h => h | Err _ => no_handler end.

Definition groq_target : pyval := PStr "llama3-8b-8192".

Lemma construct_rejects_factory_config_witness :
  (exists e, Groq.construct (resolve_config groq_meta "groq_api" (Some groq_env) []) = Err e /\
             exc_class e = CUConfigError) /\
  (exists e, Together.construct (resolve_config groq_meta "groq_api" (Some groq_env) []) = Err e /\
             exc_class e = CUConfigError) /\
  Perplexity.construct (resolve_config groq_meta "groq_api" (Some groq_env) []) = Err type_error.
Proof.
  apply construct_rejects_factory_config; [py_decide | intros p [= <-]; reflexivity].
Defined.

Lemma generate_response_errors_retried_witness :
  Groq.generate groq_handler "hi" PNone [] (fun _ _ => HResp 401 "invalid api key") =
    (Err (uresponse_error ("HTTP " ++ py_str (PInt 401) ++ ": " ++ "invalid api key")),
     3%nat, [2; 2]%Z).
Proof.
  apply (proj1 (Groq.generate_response_errors_retried groq_handler "hi" PNone []
                  (fun _ _ => HResp 401 "invalid api key") groq_target
                  ltac:(reflexivity) ltac:(reflexivity)));
    [discriminate | reflexivity].
Defined.

Lemma generate_network_failures_witness :
  Groq.generate groq_handler "hi" PNone [] (fun _ _ => HFail NetTimeout) =
    (Err (net_exc NetTimeout), 1%nat, []).
Proof.
  apply (proj2 (Groq.generate_network_failures groq_handler "hi" PNone [] groq_target
                  ltac:(reflexivity) ltac:(reflexivity))).
Defined.

Lemma stream_chat_errors_in_band_witness :
  Groq.stream_chat groq_handler (PList []) PNone [] (fun _ => SResp 503 "busy" [] None) =
    gen_return [role_chunk; error_item ("API error: HTTP " ++ py_str (PInt 503))].
Proof.
  apply (proj2 (proj2 (Groq.stream_chat_errors_in_band groq_handler (PList []) PNone [] groq_target
                         ltac:(reflexivity) ltac:(reflexivity)))).
  discriminate.
Defined.

Lemma stream_chat_done_no_marker_witness :
  Groq.stream_chat groq_handler (PList []) PNone []
    (fun _ => SResp 200 "" ([chunk_line "A"; corrupt_line] ++ "data: [DONE]" :: [chunk_line "B"]) None) =
    gen_return [role_chunk; chunk "A"].
Proof.
  apply (Groq.stream_chat_done_no_marker groq_handler (PList []) PNone [] _ groq_target ""
           [chunk_line "A"; corrupt_line] [chunk_line "B"] None [chunk "A"]);
    first [reflexivity | vm_compute; reflexivity].
Defined.

Lemma groq_models_failures_witness :
  Groq.get_available_models groq_handler (fun _ => HResp 500 "down") =
    (Ok [groq_target], 1%nat, []).
Proof. apply (proj2 (Groq.groq_models_failures groq_handler)). discriminate. Defined.

Lemma get_available_models_lists_default_witness :
  PStr "meta-llama/Llama-3-70b" ∈ Together.get_available_models together_handler.
Proof. apply (proj2 (Together.get_available_models_lists_default together_handler)). reflexivity. Defined.

Lemma generate_response_errors_once_witness :
  Perplexity.generate perplexity_handler "hi" PNone [] (fun _ _ => HResp 200 "not json") =
    (Err (uresponse_error ("Invalid JSON response: " ++ exc_str json_decode_error)), 1%nat, []).
Proof.
  apply (proj2 (Perplexity.generate_response_errors_once perplexity_handler "hi" PNone []
                  (fun _ _ => HResp 200 "not json") (PStr "llama-3-sonar-large-32k-online")
                  ltac:(reflexivity) ltac:(reflexivity)) "not json");
    [vm_compute; reflexivity | reflexivity].
Defined.
End CompatWitnesses.
