(* ===== verification/Cohere.v ===== *)
(** * Cohere: the adapter of [src/src/providers/handlers/cohere_compatible.py]

    [CohereCompatibleHandler] speaks the OpenAI format through Cohere's
    compatibility endpoint.  Its request, [generate_text] and [stream_chat]
    follow Anyscale's code (the validation exception classes called with
    [message=] and [provider=], hence [TypeError]), with three
    differences the model keeps: the constructor checks nothing and strips
    the trailing slashes of the endpoint; the parameter [k] is accepted in
    the payload; and [get_available_models] never raises: it merges the
    names the [/models] endpoint lists into a curated list and falls back
    to that list on every failure.

    [init] is [__init__] (19-42); [get_headers] is [_get_headers]
    (48-56); [models_once] and [get_available_models] are lines 58-117;
    [request_body], [request_except], [request_once] and [make_request]
    are [_make_request] with its decorator (119-167); [generate_text] is
    177-234; [stream_chat] is 236-320. *)

From S2P Require Import Prelude Errors Retry EnvConfig Http Json Stream OpenAI Anyscale.
Import Exc.

Module Cohere.

Record handler : Type := mk_handler {
  provider_name : pyval;
  api_key : pyval;
  endpoint : pyval;
  default_model : pyval;
  request_timeout : pyval;
  default_api_params : pydict string pyval
}.

Section Ops.
Context `{Json} `{Render}.
Local Open Scope string_scope.

(** [ConfigError] is the validation [ConfigurationError] here (line 13). *)
Definition config_error (msg : string) : exc := new_exc CConfigurationError [PStr msg] [].

(** [__init__], lines 19-42: nothing is checked; [endpoint.rstrip('/')]
    when it ends with a slash. *)
Definition init (config : pydict string pyval) : result exc handler :=
  let ep := cfg_get config "COHERE_ENDPOINT" (PStr "https://api.cohere.ai/v1") in
  let? ep' :=
    if py_truthy ep then
      match ep with
      | PStr s => Ok (PStr (if py_endswith s "/" then py_rstrip_char "/"%char s else s))
      | _ => Err attribute_error
      end
    else Ok ep in
  Ok {| provider_name := cfg_get config "provider_name" (PStr "cohere_compatible");
        api_key := cfg_get config "COHERE_API_KEY" PNone;
        endpoint := ep';
        default_model := cfg_get config "COHERE_DEFAULT_MODEL" (PStr "command-r-plus");
        request_timeout := cfg_get config "COHERE_REQUEST_TIMEOUT" (PInt 60);
        default_api_params :=
          [("temperature", cfg_get config "COHERE_TEMPERATURE" (PFloat (FFin (3 # 10))));
           ("top_p", cfg_get config "COHERE_TOP_P" (PFloat (FFin (75 # 100))));
           ("max_tokens", cfg_get config "COHERE_MAX_TOKENS" (PInt 2048))] |}.

(** [get_required_config_fields], lines 44-46. *)
Definition required_config_fields : list string := ["COHERE_API_KEY"; "COHERE_ENDPOINT"].

(** [_get_headers], lines 48-56. *)
Definition get_headers (h : handler) : result exc (pydict string pyval) :=
  if negb (py_truthy (api_key h))
  then Err (config_error ("API key (COHERE_API_KEY) is missing for " ++ py_str (provider_name h)
                          ++ " headers."))
  else Ok [("Content-Type", PStr "application/json");
           ("Authorization", PStr ("Bearer " ++ py_str (api_key h)))].

(** Lines 70-75. *)
Definition known_models : list string := ["command-r-plus"; "command-r"; "command"; "command-light"].

(** One call of the undecorated [get_available_models] (lines 67-117):
    every failure, an unusable key included, falls back to the curated
    list. *)
Definition models_once (h : handler) (o : http_outcome) : list pyval :=
  let known := known_with_default (default_model h) known_models in
  if negb (py_truthy (endpoint h)) then known
  else
    match get_headers h, o with
    | Ok _, HResp 200 text =>
        match json_loads text with
        | Some data =>
            match (let? ms := py_get data "data" (PList []) in py_iter ms) with
            | Ok it =>
                match map PStr (Anyscale.model_ids it) with
                | [] => known
                | api => dict_fromkeys (known ++ api)
                end
            | Err _ => known
            end
        | None => known
        end
    | _, _ => known
    end.

(** The decorators of lines 58-66 and 119-127. *)
Definition retry_config : Tenacity.config :=
  {| Tenacity.stop_after_attempt := 3;
     Tenacity.wait_multiplier := 1; Tenacity.wait_min := 2; Tenacity.wait_max := 10;
     Tenacity.retry := Tenacity.RetryCallable is_retryable_exception;
     Tenacity.reraise := true |}.

Definition get_available_models (h : handler) (net : nat -> http_outcome)
  : result exc (list pyval) * nat * list Z :=
  Tenacity.call_with_retry retry_config (fun i => Returned (models_once h (net i))).

(** [APIResponseError(message=..., status_code=..., response_body=...,
    provider=...)], lines 151 and 287. *)
Definition response_error (h : handler) (msg : string) (status : Z) (body : pyval) : exc :=
  new_exc CAPIResponseError []
    [("message", PStr msg); ("status_code", PInt status); ("response_body", body);
     ("provider", provider_name h)].

(** The [try] body of [_make_request] (lines 137-157). *)
Definition request_body (h : handler) (o : http_outcome) : result exc pyval :=
  let? _ := get_headers h in
  match o with
  | HFail f => Err (net_exc f)
  | HResp status text =>
      if negb (Z.eqb status 200) then
        Err (response_error h ("HTTP " ++ py_str (PInt status)) status (Anyscale.error_body text))
      else
        match json_loads text with
        | Some v => Ok v
        | None =>
            Err (new_exc CAPIResponseFormatError []
                   [("message", PStr "Invalid JSON in successful response");
                    ("response_body", PDict [("raw_response", PStr text)]);
                    ("provider", provider_name h)])
        end
  end.

(** The [except] clauses of [_make_request] (lines 159-167). *)
Definition request_except (h : handler) (e : exc) : exc :=
  if isinstance e [CClientConnectorError] then
    new_exc CAPIConnectionError []
      [("message", PStr ("Network connection error: " ++ exc_str e));
       ("detail", PStr (exc_str e)); ("provider", provider_name h)]
  else if isinstance e [CTimeoutError] then
    new_exc CAPITimeoutError []
      [("message", PStr ("Request timed out after " ++ py_str (request_timeout h) ++ "s"));
       ("timeout_value", request_timeout h); ("provider", provider_name h)]
  else if isinstance e [CClientError] then
    new_exc CAPIError []
      [("message", PStr ("API client error: " ++ exc_str e));
       ("detail", PStr (exc_str e)); ("provider", provider_name h)]
  else e.

(** One call of the undecorated [_make_request] (lines 128-167). *)
Definition request_once (h : handler) (o : http_outcome) : outcome pyval :=
  if negb (py_truthy (endpoint h)) then
    Raised (config_error ("Endpoint not configured for " ++ py_str (provider_name h)))
  else
    match request_body h o with
    | Ok v => Returned v
    | Err e => Raised (request_except h e)
    end.

Definition make_request (h : handler) (net : nat -> http_outcome) : result exc pyval * nat * list Z :=
  Tenacity.call_with_retry retry_config (fun i => request_once h (net i)).

(** Line 200. *)
Definition valid_params : list string :=
  ["temperature"; "top_p"; "max_tokens"; "frequency_penalty"; "presence_penalty"; "stop"; "k"].

Definition target_model (h : handler) (model : pyval) : result exc string :=
  py_strip_val (py_or model (py_or (default_model h) (PStr ""))).

(** The payloads of lines 182-203 and 246-265. *)
Definition build_payload (h : handler) (param : string -> param_type -> pyval -> pyval)
           (target : string) (messages : pyval) (stream : bool)
           (kwargs : pydict string pyval) : pydict string pyval :=
  live_payload_with valid_params (default_api_params h) param (PStr target) messages stream kwargs.

Definition generate_payload (h : handler) (param : string -> param_type -> pyval -> pyval)
           (target prompt : string) (kwargs : pydict string pyval) : pydict string pyval :=
  build_payload h param target (PList [PDict [("role", PStr "user"); ("content", PStr prompt)]])
    false kwargs.

(** The [except] clauses of [generate_text] (lines 226-234). *)
Definition generate_except (h : handler) (e : exc) : exc :=
  if isinstance e [CAPIError] then e
  else if isinstance e [CRetryError] then
    new_exc CAPIError [PStr ("API request failed after retries: " ++ exc_str e)]
      [("detail", PStr (exc_str e)); ("provider", provider_name h)]
  else
    new_exc CAPIError [PStr ("Unexpected internal error: " ++ exc_str e)]
      [("provider", provider_name h)].

(** [generate_text(prompt, model, **kwargs)], lines 177-234; [generate]
    (169-175) calls it. *)
Definition generate_text (h : handler) (param : string -> param_type -> pyval -> pyval)
           (prompt : string) (model : pyval) (kwargs : pydict string pyval)
           (net : pydict string pyval -> nat -> http_outcome) : result exc string * nat :=
  match target_model h model with
  | Err e => (Err e, 0%nat)
  | Ok target =>
      if String.eqb target "" then
        (Err (config_error ("No model specified and no default model configured for "
                            ++ py_str (provider_name h))), 0%nat)
      else
        let '(r, n, _) := make_request h (net (generate_payload h param target prompt kwargs)) in
        let body :=
          let? res := r in
          let? o := joined_content res in
          match o with
          | Some s => Ok s
          | None =>
              Err (new_exc CAPIResponseFormatError []
                     [("message", PStr "Unexpected response format"); ("response_body", res);
                      ("provider", provider_name h)])
          end in
        (match body with Ok s => Ok s | Err e => Err (generate_except h e) end, n)
  end.

(** The [try] body of [stream_chat] (lines 273-306). *)
Definition stream_body (h : handler) (o : stream_resp) : gen :=
  match get_headers h with
  | Err e => gen_raise [] e
  | Ok _ =>
      match o with
      | SFail f => gen_raise [] (net_exc f)
      | SResp status text lines tail =>
          if negb (Z.eqb status 200) then
            gen_raise [] (response_error h ("HTTP " ++ py_str (PInt status)) status
                                         (PDict [("error", PStr text)]))
          else
            match sse_scan "data: " [PDict [("status", PStr "done")]] (fun v => Ok [v]) lines with
            | ScanDone items => gen_return items
            | ScanEnd items =>
                match tail with
                | None => gen_return items
                | Some f => gen_raise items (net_exc f)
                end
            | ScanRaise items e => gen_raise items e
            end
      end
  end.

(** The [except] clauses of [stream_chat] (lines 307-318). *)
Definition stream_except (h : handler) (e : exc) : exc :=
  if isinstance e [CClientConnectorError] then
    new_exc CAPIConnectionError []
      [("message", PStr ("Network error during streaming: " ++ exc_str e));
       ("detail", PStr (exc_str e)); ("provider", provider_name h)]
  else if isinstance e [CTimeoutError] then
    match py_mul_int (request_timeout h) 5 with
    | Err e' => e'
    | Ok tv =>
        new_exc CAPITimeoutError []
          [("message", PStr "Stream request timed out"); ("timeout_value", tv);
           ("provider", provider_name h)]
    end
  else if isinstance e [CAPIError] then e
  else
    new_exc CAPIError [PStr ("Unexpected streaming error: " ++ exc_str e)]
      [("provider", provider_name h)].

(** [stream_chat(messages, model, **kwargs)], lines 236-320. *)
Definition stream_chat (h : handler) (param : string -> param_type -> pyval -> pyval)
           (messages : pyval) (model : pyval) (kwargs : pydict string pyval)
           (server : pydict string pyval -> stream_resp) : gen :=
  match target_model h model with
  | Err e => gen_raise [] e
  | Ok target =>
      if String.eqb target "" then
        gen_raise [] (config_error ("No model specified and no default model configured for "
                                    ++ py_str (provider_name h)))
      else if negb (py_truthy (endpoint h)) then
        gen_return [PDict [("error", PStr ("Endpoint not configured for "
                                           ++ py_str (provider_name h)))]]
      else
        let g := stream_body h (server (build_payload h param target messages true kwargs)) in
        match g_exc g with
        | None => g
        | Some e => gen_raise (g_items g) (stream_except h e)
        end
  end.
End Ops.

Section Props.
Context `{Json} `{Render}.
Local Open Scope string_scope.

(** [models_once] gives the curated list or its merge with the listed
    names. *)
Lemma models_once_cases h o :
  let known := known_with_default (default_model h) known_models in
  models_once h o = known \/ exists api, models_once h o = dict_fromkeys (known ++ api).
Proof.
  intros known. unfold models_once. fold known.
  destruct (negb (py_truthy (endpoint h))); [by left|].
  destruct (get_headers h), o as [|status text]; try by left.
  repeat (match goal with |- context [match ?x with _ => _ end] => destruct x end;
          try by left); right; eauto.
Qed.

(** A known name differs from a default model that is not one of them. *)
Lemma str_not_key_default dm s :
  s ∈ known_models ->
  (match dm with PStr s' => bool_decide (s' ∈ known_models) | _ => false end) = false ->
  py_key_eqb (PStr s) dm = false.
Proof.
  intros Hs Hd. destruct dm as [| | |[]|s'| |]; try done.
  apply bool_decide_eq_false in Hd. simpl. apply String.eqb_neq. congruence.
Qed.

(** Every entry of the curated list survives the merge. *)
Lemma known_in_fromkeys dm api x :
  x ∈ known_with_default dm known_models ->
  x ∈ dict_fromkeys (known_with_default dm known_models ++ api).
Proof.
  unfold known_with_default.
  destruct (py_truthy dm && negb _) eqn:E.
  - apply andb_true_iff in E as [_ Hl%negb_true_iff].
    rewrite <-app_comm_cons, dict_fromkeys_head. intros [->|Hx]%elem_of_cons; [set_solver|].
    apply list_elem_of_fmap in Hx as (s & -> & Hs). apply list_elem_of_further.
    apply fromkeys_from_str; [set_solver|]. intros y [->|[]%elem_of_nil]%elem_of_cons.
    by apply str_not_key_default.
  - intros Hx. apply list_elem_of_fmap in Hx as (s & -> & Hs).
    apply dict_fromkeys_str. apply elem_of_app. left. apply list_elem_of_fmap. eauto.
Qed.

Lemma get_available_models_once h net :
  get_available_models h net = (Ok (models_once h (net 1%nat)), 1%nat, []).
Proof.
  unfold get_available_models.
  apply (Tenacity.callable_never_retries _ is_retryable_exception
           (fun i => Returned (models_once h (net i)))); reflexivity.
Qed.

(** [get_available_models] never raises and makes one request: its list
    contains every curated name and the configured default model, whatever
    the [/models] endpoint answers or fails with. *)
Theorem get_available_models_recovers h net :
  let l := models_once h (net 1%nat) in
  get_available_models h net = (Ok l, 1%nat, []) /\
  (forall s, s ∈ known_models -> PStr s ∈ l) /\
  (py_truthy (default_model h) = true -> default_model h ∈ l).
Proof.
  intros l. rewrite get_available_models_once. split; [done|].
  destruct (known_with_default_spec (default_model h) known_models) as (_ & Hd & Hk);
    [unfold known_models; repeat constructor; set_solver|].
  unfold l. destruct (models_once_cases h (net 1%nat)) as [->|[api ->]]; [done|].
  split; [intros s Hs | intros Ht]; apply known_in_fromkeys; auto.
Qed.

(** A stream that times out after some lines raises, after the chunks
    already read, a real [APITimeoutError] whose [timeout_value] is five
    times the request timeout: its keyword arguments fit the constructor,
    unlike the other [raise] statements of the adapter. *)
Theorem stream_chat_timeout_typed h param msgs model kwargs server target text lines xs z :
  target_model h model = Ok target -> target <> "" -> py_truthy (endpoint h) = true ->
  py_truthy (api_key h) = true -> request_timeout h = PInt z ->
  server (build_payload h param target msgs true kwargs) = SResp 200 text lines (Some NetTimeout) ->
  sse_scan "data: " [PDict [("status", PStr "done")]] (fun v => Ok [v]) lines = ScanEnd xs ->
  exists e, stream_chat h param msgs model kwargs server = gen_raise xs e /\
            exc_class e = CAPITimeoutError /\ arg e "timeout_value" = PInt (z * 5).
Proof.
  intros Ht Hne He Hk Hz Hs Hl. unfold stream_chat. rewrite Ht.
  destruct (String.eqb_spec target ""); [done|]. rewrite He, Hs. cbn [negb].
  unfold stream_body, get_headers. rewrite Hk, Hl. cbn. unfold stream_except. rewrite Hz.
  eexists. split_and!; reflexivity.
Qed.
End Props.

(** ** Concrete runs *)

Section CohereWitnesses.
Local Open Scope string_scope.

Definition cohere_handler : handler :=
  match init [("COHERE_API_KEY", PStr "co-test"); ("COHERE_ENDPOINT", PStr "https://api.cohere.ai/v1/")]
  with Ok h => h | Err _ => mk_handler PNone PNone PNone PNone PNone [] end.

Definition models_reply : http_outcome :=
  HResp 200 (jq "{`data`: [{`id`: `command-r`}, {`id`: `c4ai-aya`}, `junk`]}").

Lemma get_available_models_recovers_witness :
  PStr "command-light" ∈ models_once cohere_handler models_reply /\
  PStr "command-r-plus" ∈ models_once cohere_handler models_reply.
Proof.
  destruct (get_available_models_recovers cohere_handler (fun _ => models_reply))
    as (_ & Hk & Hd).
  split; [apply Hk; unfold known_models; set_solver | apply Hd; reflexivity].
Defined.

Lemma stream_chat_timeout_typed_witness :
  exists e, stream_chat cohere_handler (get_current_param None None) (PList []) PNone []
              (fun _ => SResp 200 "" [chunk_line "A"] (Some NetTimeout)) = gen_raise [chunk "A"] e /\
            exc_class e = CAPITimeoutError /\ arg e "timeout_value" = PInt (60 * 5).
Proof.
  apply (stream_chat_timeout_typed cohere_handler (get_current_param None None) (PList []) PNone []
           _ "command-r-plus" "" [chunk_line "A"] [chunk "A"] 60);
    first [reflexivity | discriminate | vm_compute; reflexivity].
Defined.
End CohereWitnesses.
End Cohere.
