(* ===== verification/Ollama.v ===== *)
(** * Ollama: the local-daemon adapter of [src/src/providers/handlers/ollama_local.py]

    [OllamaLocalHandler] talks to an Ollama daemon in its own wire format:
    [/api/generate] with [{"model", "prompt", "stream", "options"}],
    [/api/chat] with [{"model", "messages", "stream", "options"}], and a
    stream of JSON lines ending with [{"done": true}] instead of SSE.

    The model follows the file: [init] is [__init__] (21-65), reading the
    process environment [os.environ] (an input [osenv]); [request_body],
    [request_except] and [make_request] are [_make_request] with its
    decorator (145-226); [get_available_models] (71-106),
    [check_service_status] (108-143) and [test_connection] (228-315) call
    it; [options_of] is the parameter loop shared by [generate_text]
    (317-396) and [chat] (653-762); [filter_messages] is
    [_filter_messages] (573-651); [stream_chat] (414-571) reads the lines
    with [ndjson_scan].  [get_current_param] (764-795) overrides the base
    class's but is never called by the file.

    Strings keep the code's messages byte for byte (UTF-8). *)

From S2P Require Import Prelude Errors Retry EnvConfig Http Json.
Import Exc.

Module Ollama.

Record handler : Type := mk_handler {
  provider_name : pyval;
  endpoint : string;
  default_model : pyval;
  default_api_params : pydict string pyval;
  request_timeout : pyval
}.

Inductive method : Type := GET | POST.

(** Whether [slice] objects are hashable (Python 3.12 and later): then
    [d[:50]] on a dict looks the slice up and raises [KeyError]; before,
    it raises [TypeError].  The interpreter is an input of the model. *)
Class SliceHash : Type := slices_hashable : bool.

(** The values [len] accepts, and those [v[:n]] slices. *)
Definition sized (v : pyval) : bool :=
  match v with PStr _ | PList _ | PDict _ => true | _ => false end.
Definition sliceable (v : pyval) : bool :=
  match v with PStr _ | PList _ => true | _ => false end.

(** What [v[:n]] raises on a value it cannot slice. *)
Definition slice_error `{SliceHash} (v : pyval) : exc :=
  match v with PDict _ => if slices_hashable then key_error else type_error | _ => type_error end.

Section Ops.
Context `{Json} `{Render} {slice_hash : SliceHash}.
Local Open Scope string_scope.

(** [if s: try: float(s) ... except ValueError: ...] on
    [os.environ.get(k)]: the parsed value, if any. *)
Definition env_float (osenv : environ) (k : string) : option pyval :=
  match dict_get k osenv with
  | Some s => if String.eqb s "" then None else option_map PFloat (py_float s)
  | None => None
  end.

Definition env_int (osenv : environ) (k : string) : option pyval :=
  match dict_get k osenv with
  | Some s => if String.eqb s "" then None else option_map PInt (py_int s)
  | None => None
  end.

Definition env_override (v : option pyval) (name : string) (params : pydict string pyval)
  : pydict string pyval :=
  match v with Some x => dict_set name x params | None => params end.

(** [__init__], lines 21-65. *)
Definition init (config : pydict string pyval) (osenv : environ) : result exc handler :=
  let ep0 := cfg_get config "endpoint" (PStr "") in
  let ep := if py_truthy ep0 then ep0 else PStr "http://localhost:11434" in
  let params :=
    env_override (env_float osenv "OLLAMA_TOP_P") "top_p"
      (env_override (env_int osenv "OLLAMA_MAX_TOKENS") "max_tokens"
         (env_override (env_float osenv "OLLAMA_TEMPERATURE") "temperature"
            [("temperature", PFloat (FFin (7 # 10))); ("top_p", PFloat (FFin 1));
             ("max_tokens", PInt 16000)])) in
  match ep with
  | PStr s =>
      Ok {| provider_name := cfg_get config "provider_name" (PStr "ollama_local");
            endpoint := if py_endswith s "/" then py_rstrip_char "/"%char s else s;
            default_model := cfg_get config "default_model" (PStr "deepseek-r1:8b");
            default_api_params := params;
            request_timeout := cfg_get config "request_timeout" (PInt 60) |}
  | _ => Err attribute_error
  end.

(** [get_required_config_fields], lines 67-69. *)
Definition required_config_fields : list string := [].

(** The [try] body of [_make_request] (lines 166-190).  The daemon's
    [Content-Length] is taken to be the length of the body. *)
Definition request_body (h : handler) (path : string) (m : method) (o : http_outcome)
  : result exc pyval :=
  match o with
  | HFail f => Err (net_exc f)
  | HResp status text =>
      if negb (Z.eqb status 200) then
        Err (new_exc CAPIResponseError []
               [("provider_name", provider_name h); ("status_code", PInt status);
                ("response_body", PDict [("error", PStr text)]);
                ("details", PStr ("HTTP " ++ py_str (PInt status)))])
      else if String.eqb text "" && (match m with GET => true | POST => false end)
              && String.eqb path "/api/tags" then
        Ok (PDict [("models", PList [])])
      else
        match json_loads text with
        | Some v => Ok v
        | None => Err json_decode_error
        end
  end.

(** The [except] clauses of [_make_request] (lines 191-226).  The
    [APIResponseError] of an error status is raised inside the [try], so
    the last clause turns it into [APIError]. *)
Definition request_except (h : handler) (e : exc) : exc :=
  if isinstance e [CClientConnectorError] then
    new_exc CAPIConnectionError []
      [("message", PStr ("连接失败: " ++ exc_str e)); ("provider_name", provider_name h);
       ("details", PStr (exc_str e))]
  else if isinstance e [CClientResponseError] then
    new_exc CAPIResponseError []
      [("message", PStr ("响应错误: " ++ exc_str e)); ("provider_name", provider_name h);
       ("status_code", arg e "status"); ("response_body", PDict [("error", PStr (exc_str e))])]
  else if isinstance e [CTimeoutError] then
    new_exc CAPITimeoutError []
      [("message", PStr "请求超时"); ("provider_name", provider_name h);
       ("timeout_seconds", PFloat (FFin 1800))]
  else if isinstance e [CJSONDecodeError] then
    new_exc CAPIResponseFormatError []
      [("message", PStr ("无效的JSON响应: " ++ exc_str e)); ("provider_name", provider_name h);
       ("response_body", PDict [("error", PStr (exc_str e))])]
  else
    new_exc CAPIError []
      [("message", PStr ("API请求失败: " ++ exc_str e)); ("provider_name", provider_name h);
       ("details", PStr (exc_str e))].

Definition request_once (h : handler) (path : string) (m : method) (o : http_outcome)
  : outcome pyval :=
  match request_body h path m o with
  | Ok v => Returned v
  | Err e => Raised (request_except h e)
  end.

(** The decorator of lines 145-153. *)
Definition retry_config : Tenacity.config :=
  {| Tenacity.stop_after_attempt := 3;
     Tenacity.wait_multiplier := 1; Tenacity.wait_min := 2; Tenacity.wait_max := 10;
     Tenacity.retry := Tenacity.RetryCallable is_retryable_exception;
     Tenacity.reraise := true |}.

Definition make_request (h : handler) (path : string) (m : method) (net : nat -> http_outcome)
  : result exc pyval :=
  fst (fst (Tenacity.call_with_retry retry_config (fun i => request_once h path m (net i)))).

(** The loop of lines 87-99 over [response.get("models", [])]. *)
Fixpoint model_entries (h : handler) (ms : list pyval) : result exc (list pyval) :=
  match ms with
  | [] => Ok []
  | m :: rest =>
      let? name := py_get m "name" PNone in
      if py_truthy name then
        let? tl := model_entries h rest in
        Ok (PDict [("id", name); ("name", name); ("provider", provider_name h)] :: tl)
      else model_entries h rest
  end.

(** [get_available_models], lines 71-106: any exception gives [[]]. *)
Definition get_available_models (h : handler) (net : nat -> http_outcome) : list pyval :=
  let body :=
    let? r := make_request h "/api/tags" GET net in
    match r with
    | PDict d =>
        match dict_get "models" d with
        | Some ms => let? it := py_iter ms in model_entries h it
        | None => Ok []
        end
    | _ => Ok []
    end in
  match body with Ok l => l | Err _ => [] end.

(** [check_service_status], lines 108-143: [_make_request("/api/version",
    {})] with the default method [POST]. *)
Definition check_service_status (h : handler) (net : nat -> http_outcome) : pydict string pyval :=
  match make_request h "/api/version" POST net with
  | Ok _ =>
      [("status", PStr "available"); ("message", PStr "Ollama服务正常运行");
       ("endpoint", PStr (endpoint h))]
  | Err e =>
      let msg := exc_str e in
      let suggestion :=
        if py_str_contains "refused" (py_lower msg)
        then "请检查Ollama服务是否已启动，或确认配置的端点是否正确"
        else if py_str_contains "timeout" (py_lower msg)
        then "连接超时，请确认Ollama服务是否在运行，或网络是否正常"
        else "" in
      [("status", PStr "unavailable");
       ("message", PStr ("无法连接到Ollama服务: " ++ msg ++ ". " ++ suggestion));
       ("endpoint", PStr (endpoint h))]
  end.

(** [ConfigurationError(msg)] *)
Definition config_error (msg : string) : exc := new_exc CConfigurationError [PStr msg] [].

(** [(model or self.default_model or "").strip()] *)
Definition target_model (h : handler) (model : pyval) : result exc string :=
  py_strip_val (py_or model (py_or (default_model h) (PStr ""))).

(** [final_params] of [generate_text] (lines 324-345) and [chat]
    (671-692): the defaults, [OLLAMA_TEMPERATURE] over [temperature],
    [OLLAMA_MAX_TOKENS] as [num_predict], then the keyword arguments. *)
Definition final_params (h : handler) (osenv : environ) (kwargs : pydict string pyval)
  : pydict string pyval :=
  update_params
    (env_override (env_int osenv "OLLAMA_MAX_TOKENS") "num_predict"
       (env_override (env_float osenv "OLLAMA_TEMPERATURE") "temperature"
          (default_api_params h)))
    kwargs.

(** Lines 356-364. *)
Definition valid_options : list string :=
  ["num_keep"; "seed"; "num_predict"; "top_k"; "top_p"; "tfs_z"; "typical_p";
   "repeat_last_n"; "temperature"; "repeat_penalty"; "presence_penalty";
   "frequency_penalty"; "mirostat"; "mirostat_tau"; "mirostat_eta"; "penalize_newline";
   "stop"; "numa"; "num_ctx"; "num_batch"; "num_gpu"; "main_gpu"; "low_vram"; "f16_kv";
   "vocab_only"; "use_mmap"; "use_mlock"; "num_thread"].

(** The loop of lines 365-371: [max_tokens] is renamed [num_predict] when
    [num_predict] is not among the parameters, and the valid, non-[None]
    parameters are copied into [options]. *)
Definition options_of (final : pydict string pyval) : pydict string pyval :=
  fold_left (fun opts kv =>
               let param := if String.eqb kv.1 "max_tokens" && negb (dict_mem "num_predict" final)
                            then "num_predict" else kv.1 in
               if bool_decide (param ∈ valid_options) && negb (is_none kv.2)
               then dict_set param kv.2 opts else opts) final [].

Definition generate_payload (h : handler) (target prompt : string) (osenv : environ)
           (kwargs : pydict string pyval) : pydict string pyval :=
  [("model", PStr target); ("prompt", PStr prompt); ("stream", PBool false);
   ("options", PDict (options_of (final_params h osenv kwargs)))].

(** The [except RetryError] clause of lines 394-396. *)
Definition generate_except (h : handler) (e : exc) : exc :=
  if isinstance e [CRetryError] then
    new_exc CAPIConnectionError [provider_name h]
      [("details", PStr ("API request failed after retries: " ++ exc_str e))]
  else e.

(** [generate_text(prompt, model, **kwargs)], lines 317-396; [generate]
    (398-412) calls it. *)
Definition generate_text (h : handler) (prompt : string) (model : pyval)
           (kwargs : pydict string pyval) (osenv : environ)
           (net : pydict string pyval -> nat -> http_outcome) : result exc string :=
  let? target := target_model h model in
  if String.eqb target "" then
    Err (config_error ("No model specified and no default_model configured for "
                       ++ py_str (provider_name h) ++ "."))
  else
    let body :=
      let? res := make_request h "/api/generate" POST
                    (net (generate_payload h target prompt osenv kwargs)) in
      let? has_response := py_in "response" res in
      if has_response then
        let? r := py_getitem res "response" in py_strip_val r
      else
        let? has_error := py_in "error" res in
        if has_error then
          let? msg := py_getitem res "error" in
          Err (new_exc CAPIResponseError [provider_name h] [("details", msg)])
        else
          Err (new_exc CAPIResponseError [provider_name h]
                 [("details", PStr ("Unknown response format from Ollama. Preview: "
                                    ++ py_str res ++ "..."))]) in
    match body with Ok s => Ok s | Err e => Err (generate_except h e) end.

(** [str.lower()] on a value. *)
Definition py_lower_val (v : pyval) : result exc string :=
  match v with PStr s => Ok (py_lower s) | _ => Err attribute_error end.

Definition chat_roles : list string := ["system"; "user"; "assistant"].

(** One message of [_filter_messages] (lines 585-646).  A dict is read
    with [get] (a non-string role raises [AttributeError], outside any
    [try]).  A model's attributes are read inside a [try] whose failures
    skip the message: a non-string role, and a content that the debug
    line's [content[:30]] cannot slice; an empty role or content is
    skipped as well.  Other objects have neither and are skipped.  A kept
    message is logged with [len(content) if content else 0], evaluated
    eagerly outside the [try]: a true content without a length raises
    [TypeError]. *)
Definition filter_one (m : chat_msg) : result exc (option pyval) :=
  let keep role content :=
    if bool_decide (role ∈ chat_roles) then
      if py_truthy content && negb (sized content) then Err type_error
      else Ok (Some (PDict [("role", PStr role); ("content", content)]))
    else Ok None in
  match m with
  | MsgDict d =>
      let? role := py_lower_val (default (PStr "") (dict_get "role" d)) in
      keep role (default (PStr "") (dict_get "content" d))
  | MsgModel fields =>
      match py_lower_val (default (PStr "") (dict_get "role" fields)) with
      | Err _ => Ok None
      | Ok role =>
          let content := default (PStr "") (dict_get "content" fields) in
          if String.eqb role "" || negb (py_truthy content) || negb (sliceable content) then Ok None
          else keep role content
      end
  | MsgOther => Ok None
  end.

Fixpoint filter_messages (ms : list chat_msg) : result exc (list pyval) :=
  match ms with
  | [] => Ok []
  | m :: rest =>
      let? o := filter_one m in
      let? tl := filter_messages rest in
      Ok (match o with Some v => v :: tl | None => tl end)
  end.

(** The preview loop of lines 704-708, before the [try]:
    [msg.get("content", "")[:50] + ("..." if ... else "")] needs a string
    content: a list is sliced but cannot be added to a [str], and the
    slice of anything else raises ([slice_error]). *)
Fixpoint preview_messages `{SliceHash} (msgs : list pyval) : result exc unit :=
  match msgs with
  | [] => Ok tt
  | m :: rest =>
      let? c := py_get m "content" (PStr "") in
      match c with
      | PStr _ => preview_messages rest
      | PList _ => Err type_error
      | _ => Err (slice_error c)
      end
  end.

(** [chat(messages, model, **kwargs)], lines 653-762: every exception of
    the [try] becomes [APIConnectionError(provider_name, details=str(e))]. *)
Definition chat_payload (target : string) (msgs : list pyval) (opts : pydict string pyval)
  : pydict string pyval :=
  [("model", PStr target); ("messages", PList msgs); ("stream", PBool false);
   ("options", PDict opts)].

Definition chat (h : handler) (messages : list chat_msg) (model : pyval)
           (kwargs : pydict string pyval) (osenv : environ)
           (net : pydict string pyval -> nat -> http_outcome) : result exc pyval :=
  let? target := target_model h model in
  if String.eqb target "" then
    Err (config_error ("No model specified and no default model configured for "
                       ++ py_str (provider_name h) ++ "."))
  else
    let final := final_params h osenv kwargs in
    let? filtered := filter_messages messages in
    let msgs := match filtered with [] => [PDict [("role", PStr "user"); ("content", PStr "Hello")]]
                                  | _ => filtered end in
    let? _ := preview_messages msgs in
    let body :=
      let? res := make_request h "/api/chat" POST (net (chat_payload target msgs (options_of final))) in
      let? has_msg := py_in "message" res in
      let? ok := if has_msg then (let? m := py_getitem res "message" in py_in "content" m)
                 else Ok false in
      if ok then
        let? m := py_getitem res "message" in
        let? c := py_getitem m "content" in
        Ok (PDict [("role", PStr "assistant"); ("content", c); ("model", PStr target);
                   ("provider", provider_name h);
                   ("usage", PDict [("prompt_tokens", PInt 0); ("completion_tokens", PInt 0);
                                    ("total_tokens", PInt 0)])])
      else Err (new_exc CAPIResponseError [provider_name h]
                  [("details", PStr "Unexpected response format")]) in
    match body with
    | Ok v => Ok v
    | Err e => Err (new_exc CAPIConnectionError [provider_name h] [("details", PStr (exc_str e))])
    end.

(** ** [stream_chat] *)

Definition role_chunk : pyval :=
  PDict [("choices", PList [PDict [("delta", PDict [("role", PStr "assistant")])]])].

Definition content_chunk (c : pyval) : pyval :=
  PDict [("choices", PList [PDict [("delta", PDict [("content", c)])]])].

(** [{"done": True}] *)
Definition done_item : pyval := PDict [("done", PBool true)].

(** The first non-empty string value of an unexpected object (lines
    549-554). *)
Definition first_str_value (d : pydict string pyval) : list pyval :=
  match find (fun kv => match kv.2 with PStr s => negb (String.eqb s "") | _ => false end) d with
  | Some (_, v) => [content_chunk v]
  | None => []
  end.

(** One line of the daemon's stream (lines 505-561): what it yields, or
    the exception an access to the decoded value raises. *)
Definition ndjson_line (line : string) : result exc (list pyval) :=
  let s := py_strip line in
  if String.eqb s "" then Ok []
  else
    match json_loads s with
    | None => Ok [content_chunk (PStr s)]
    | Some data =>
        let? has_error := py_in "error" data in
        if has_error then
          let? ev := py_getitem data "error" in Ok [PDict [("error", ev)]]
        else
          let? has_msg := py_in "message" data in
          let? has_content :=
            if has_msg then (let? m := py_getitem data "message" in py_in "content" m) else Ok false in
          if has_content then
            let? m := py_getitem data "message" in
            let? c := py_getitem m "content" in
            Ok [content_chunk c]
          else
            let? has_done := py_in "done" data in
            let? is_done :=
              if has_done then (let? d := py_getitem data "done" in Ok (py_truthy d)) else Ok false in
            if is_done then Ok [done_item]
            else
              match data with
              | PDict d => Ok (if existsb (fun kv => py_truthy kv.2) d then first_str_value d else [])
              | _ => Ok []
              end
    end.

(** The loop over the lines: the items, and the exception that ended it. *)
Fixpoint ndjson_scan (lines : list string) : list pyval * option exc :=
  match lines with
  | [] => ([], None)
  | l :: rest =>
      match ndjson_line l with
      | Err e => ([], Some e)
      | Ok ys => let '(zs, oe) := ndjson_scan rest in ((ys ++ zs)%list, oe)
      end
  end.

(** The [try]/[except aiohttp.ClientError]/[finally] of lines 478-571: a
    [ClientError] becomes an error item; every exit, a propagating
    exception included, yields [{"done": True}] last. *)
Definition stream_end (items : list pyval) (oe : option exc) : gen :=
  match oe with
  | None => gen_return (items ++ [done_item])
  | Some e =>
      if isinstance e [CClientError]
      then gen_return (items ++ [PDict [("error", PStr ("Ollama API连接错误: " ++ exc_str e))];
                                 done_item])
      else gen_raise (items ++ [done_item]) e
  end%list.

Definition stream_body (o : stream_resp) : gen :=
  match o with
  | SFail f => stream_end [role_chunk] (Some (net_exc f))
  | SResp status _ lines tail =>
      if negb (Z.eqb status 200) then
        stream_end [role_chunk; PDict [("error", PStr ("Ollama API错误: HTTP " ++ py_str (PInt status)))]]
                   None
      else
        let '(items, oe) := ndjson_scan lines in
        let oe' := match oe with Some e => Some e | None => option_map net_exc tail end in
        stream_end (role_chunk :: items) oe'
  end.

(** The payload of lines 431-471. *)
Definition stream_payload (h : handler) (target : string) (msgs : list pyval)
           (kwargs : pydict string pyval) : pydict string pyval :=
  let dflt k v := default v (dict_get k (default_api_params h)) in
  let temperature := default (dflt "temperature" (PFloat (FFin (7 # 10)))) (dict_get "temperature" kwargs) in
  let max_tokens := default (dflt "max_tokens" (PInt 16000)) (dict_get "max_tokens" kwargs) in
  [("model", PStr target); ("messages", PList msgs); ("stream", PBool true);
   ("options", PDict [("temperature", temperature); ("max_tokens", max_tokens)])].

(** [stream_chat(messages, model, **kwargs)], lines 414-571: the
    messages are formatted as dicts, then filtered; both happen before the
    first item. *)
Definition stream_chat (h : handler) (messages : list chat_msg) (model : pyval)
           (kwargs : pydict string pyval) (server : pydict string pyval -> stream_resp) : gen :=
  match target_model h model with
  | Err e => gen_raise [] e
  | Ok target =>
      if String.eqb target "" then
        gen_raise [] (config_error ("No model specified and no default_model configured for "
                                    ++ py_str (provider_name h) ++ "."))
      else
        let formatted := map (fun m => match format_message m with
                                      | PDict d => MsgDict d
                                      | _ => MsgOther
                                      end) messages in
        match filter_messages formatted with
        | Err e => gen_raise [] e
        | Ok msgs => stream_body (server (stream_payload h target msgs kwargs))
        end
  end.

(** ** [test_connection] *)

Definition status_dict (status msg : string) (extra : pydict string pyval) : pydict string pyval :=
  [("status", PStr status); ("message", PStr msg)] ++ extra.

(** [test_connection(model)], lines 228-315: [base] is the outcome of
    [GET {endpoint}/] with a 5-second budget; [net] serves
    [/api/show]. *)
Definition test_connection (h : handler) (model : pyval) (base : http_outcome)
           (net : nat -> http_outcome) : pydict string pyval :=
  let base_err :=
    match base with
    | HFail f =>
        let e := net_exc f in
        Some (if isinstance e [CClientConnectorError] then
                status_dict "error" ("无法连接到 Ollama 地址: " ++ endpoint h ++ " (" ++ exc_str e ++ ")")
                  [("error_details", PStr (exc_str e))]
              else if isinstance e [CTimeoutError] then
                status_dict "error" "连接 Ollama 服务超时 (5.0s)" [("error_details", PStr "Timeout")]
              else
                status_dict "error" ("测试连接时发生意外错误: " ++ exc_str e)
                  [("error_details", PStr (exc_str e))])
    | HResp status text =>
        if negb (Z.eqb status 200) && negb (Z.eqb status 404) then
          Some (status_dict "error" ("无法访问 Ollama 服务 (状态码: " ++ py_str (PInt status) ++ ")")
                  [("error_details", PStr (str_take 200 text))])
        else None
    end in
  match base_err with
  | Some d => d
  | None =>
      if py_truthy model then
        let m := py_str model in
        match make_request h "/api/show" POST net with
        | Ok info =>
            if py_truthy info then
              status_dict "success" ("成功连接到 Ollama 并找到模型 '" ++ m ++ "'")
                [("response", PStr ("成功连接到 Ollama 并找到模型 '" ++ m ++ "'"))]
            else
              status_dict "warning" ("连接成功，但检查模型 '" ++ m ++ "' 时收到空响应")
                [("error_details", PStr "Empty response from /api/show")]
        | Err e =>
            if isinstance e [CAPIResponseError] then
              if py_key_eqb (arg e "status_code") (PInt 404) then
                status_dict "error" ("Ollama 服务连接成功，但模型 '" ++ m ++ "' 未找到")
                  [("error_details", PStr (exc_str e))]
              else
                status_dict "error" ("检查模型 '" ++ m ++ "' 时出错")
                  [("error_details", PStr (exc_str e))]
            else
              status_dict "error" ("检查模型 '" ++ m ++ "' 时发生错误")
                [("error_details", PStr (exc_str e))]
        end
      else
        status_dict "success" "Ollama 服务可访问。" [("response", PStr "Ollama 服务可访问。")]
  end%list.
End Ops.

Section Props.
Context `{Json} `{Render} {slice_hash : SliceHash}.
Local Open Scope string_scope.

Lemma ollama_request_single h path m net :
  make_request h path m net = outcome_result (request_once h path m (net 1%nat)).
Proof.
  unfold make_request.
  by rewrite (Tenacity.callable_never_retries _ is_retryable_exception
                (fun i => request_once h path m (net i))).
Qed.

Lemma env_override_wf v k d : dict_wf d -> dict_wf (env_override v k d).
Proof. destruct v; simpl; [apply dict_set_wf|done]. Qed.

Lemma final_params_wf h osenv kwargs :
  dict_wf (default_api_params h) -> dict_wf (final_params h osenv kwargs).
Proof. intros Hd. apply dict_merge_wf, env_override_wf, env_override_wf, Hd. Qed.

(** With [num_predict] among the parameters no key is renamed: the loop
    copies the valid parameters. *)
Lemma options_of_num_predict final :
  dict_mem "num_predict" final = true ->
  options_of final = add_valid_params valid_options final [].
Proof.
  intros Hn. unfold options_of, add_valid_params. rewrite Hn. clear Hn.
  generalize (@nil (string * pyval)). induction final as [|kv r IH]; intros acc; [done|].
  simpl. rewrite andb_false_r. apply IH.
Qed.

(** When [OLLAMA_MAX_TOKENS] holds an integer [n], the options sent carry
    [num_predict = n] and no [max_tokens], so a [max_tokens] keyword
    argument of the call is dropped, although the comment of line 344
    says keyword arguments override the environment. *)
Theorem options_env_max_tokens_wins h osenv kwargs n :
  dict_wf (default_api_params h) -> dict_wf kwargs ->
  env_int osenv "OLLAMA_MAX_TOKENS" = Some (PInt n) ->
  dict_get "num_predict" kwargs = None ->
  let opts := options_of (final_params h osenv kwargs) in
  dict_get "num_predict" opts = Some (PInt n) /\ dict_get "max_tokens" opts = None.
Proof.
  intros Hd Hk He Hn opts.
  assert (dict_get "num_predict" (final_params h osenv kwargs) = Some (PInt n)) as Hf.
  { unfold final_params, update_params. rewrite dict_get_merge, Hn, He by done.
    apply dict_get_set_eq. }
  unfold opts. rewrite options_of_num_predict by (unfold dict_mem; by rewrite Hf).
  rewrite !add_valid_params_get by (by apply final_params_wf).
  rewrite Hf. split; reflexivity.
Qed.

Lemma stream_end_items r items oe :
  exists ys, g_items (stream_end (r :: items) oe) = r :: ys ++ [done_item].
Proof.
  destruct oe as [e|]; unfold stream_end; [destruct (isinstance e [CClientError])|].
  - exists (items ++ [PDict [("error", PStr ("Ollama API连接错误: " ++ exc_str e))]])%list.
    simpl. by rewrite <-app_assoc.
  - by exists items.
  - by exists items.
Qed.

Lemma stream_body_items o : exists ys, g_items (stream_body o) = role_chunk :: ys ++ [done_item].
Proof.
  destruct o as [f|status text lines tail]; unfold stream_body; [apply stream_end_items|].
  destruct (negb (Z.eqb status 200)); [apply stream_end_items|].
  destruct (ndjson_scan lines). apply stream_end_items.
Qed.

(** A stream either raises before its first item (no model, or a message
    whose role is not a string) or yields the role chunk first and
    [{"done": True}] last, whatever the daemon does: the [finally] clause
    runs on every exit, a propagating exception included. *)
Theorem stream_chat_ends_with_done h msgs model kwargs server :
  g_items (stream_chat h msgs model kwargs server) = [] \/
  exists ys, g_items (stream_chat h msgs model kwargs server) = role_chunk :: ys ++ [done_item].
Proof.
  unfold stream_chat. destruct (target_model h model); [|by left].
  destruct (String.eqb _ ""); [by left|]. destruct (filter_messages _); [|by left].
  right. apply stream_body_items.
Qed.

Lemma ndjson_scan_app l1 l2 :
  ndjson_scan (l1 ++ l2) =
    let '(xs, oe) := ndjson_scan l1 in
    match oe with
    | None => let '(ys, oe2) := ndjson_scan l2 in ((xs ++ ys)%list, oe2)
    | Some e => (xs, Some e)
    end.
Proof.
  induction l1 as [|l l1 IH]; simpl; [by destruct (ndjson_scan l2)|].
  destruct (ndjson_line l) as [ys|e]; [|done]. rewrite IH.
  destruct (ndjson_scan l1) as [xs [e|]]; [done|]. destruct (ndjson_scan l2).
  by rewrite app_assoc.
Qed.

(** A line that is not JSON is not skipped: its stripped text is yielded
    as content, between the chunks of the lines around it. *)
Theorem ndjson_corrupt_line_as_content l1 l l2 xs :
  ndjson_scan l1 = (xs, None) -> py_strip l <> "" -> json_loads (py_strip l) = None ->
  ndjson_scan (l1 ++ l :: l2) =
    let '(ys, oe) := ndjson_scan l2 in ((xs ++ content_chunk (PStr (py_strip l)) :: ys)%list, oe).
Proof.
  intros H1 Hne Hj. rewrite ndjson_scan_app, H1. simpl. unfold ndjson_line.
  rewrite (proj2 (String.eqb_neq _ _) Hne), Hj. by destruct (ndjson_scan l2).
Qed.

(** Every failure of [chat] after the model check, the message filter and
    the preview loop is raised as [APIConnectionError], a timeout or an
    error status included. *)
Theorem chat_errors_connection h msgs model kwargs osenv net target filtered e :
  target_model h model = Ok target -> target <> "" -> filter_messages msgs = Ok filtered ->
  preview_messages filtered = Ok tt ->
  chat h msgs model kwargs osenv net = Err e -> exc_class e = CAPIConnectionError.
Proof.
  intros Ht Hne Hf Hp. unfold chat. rewrite Ht. cbn [rbind].
  rewrite (proj2 (String.eqb_neq _ _) Hne), Hf. cbn [rbind].
  assert (preview_messages match filtered with
                           | [] => [PDict [("role", PStr "user"); ("content", PStr "Hello")]]
                           | _ => filtered end = Ok tt) as -> by (by destruct filtered).
  cbn [rbind].
  match goal with |- context [match ?b with Ok _ => _ | Err _ => _ end] => destruct b end;
    [discriminate | intros [= <-]; reflexivity].
Qed.

(** C12: A dict message whose content is not a string makes [chat] raise
    before any request, and unwrapped, not as [APIConnectionError]: a
    true content without a length ([len] in the filter's log line), a
    [None], zero or [False] content (sliced by the preview loop), a list
    (added to a [str]) raise [TypeError]; a dict raises what its slicing
    raises, [KeyError] on Python 3.12 and later, [TypeError] before. *)
Theorem chat_unsliceable_content h c rest fr model kwargs osenv net target :
  target_model h model = Ok target -> target <> "" -> filter_messages rest = Ok fr ->
  (forall s, c <> PStr s) ->
  chat h (MsgDict [("role", PStr "user"); ("content", c)] :: rest) model kwargs osenv net
  = Err (match c with PList _ => type_error | _ => slice_error c end).
Proof.
  intros Ht Hne Hf Hs. unfold chat. rewrite Ht. cbn [rbind].
  rewrite (proj2 (String.eqb_neq _ _) Hne). cbn [filter_messages].
  assert (filter_one (MsgDict [("role", PStr "user"); ("content", c)]) =
          if py_truthy c && negb (sized c) then Err type_error
          else Ok (Some (PDict [("role", PStr "user"); ("content", c)]))) as -> by reflexivity.
  destruct (py_truthy c && negb (sized c)) eqn:Hc; cbn [rbind].
  - destruct c; cbn [sized negb] in Hc; rewrite ?andb_false_r in Hc;
      first [reflexivity | discriminate | exfalso; naive_solver].
  - rewrite Hf. cbn [rbind preview_messages].
    assert (py_get (PDict [("role", PStr "user"); ("content", c)]) "content" (PStr "") = Ok c)
      as -> by reflexivity.
    destruct c; cbn [rbind]; first [reflexivity | exfalso; naive_solver].
Qed.

(** [_make_request] never lets [APIResponseError] out: with the daemon
    answering 404 for the model, [test_connection] reports the generic
    error instead of the model-not-found message of lines 288-293. *)
Theorem test_connection_404_generic h model text :
  py_truthy model = true ->
  exists d, test_connection h model (HResp 200 "") (fun _ => HResp 404 text) =
              status_dict "error" ("检查模型 '" ++ py_str model ++ "' 时发生错误") d.
Proof.
  intros Hm. unfold test_connection. rewrite ollama_request_single. simpl. rewrite Hm.
  eexists. reflexivity.
Qed.
End Props.

Section OllamaWitnesses.
Local Open Scope string_scope.
(** A Python 3.12 interpreter. *)
#[local] Instance python312 : SliceHash := true.

Definition ollama_handler : handler :=
  match init [] [] with
  | Ok h => h
  | Err _ => mk_handler PNone "" PNone [] PNone
  end.

Definition user_hi : chat_msg := MsgDict [("role", PStr "user"); ("content", PStr "hi")].

Lemma options_env_max_tokens_wins_witness :
  let opts := options_of (final_params ollama_handler [("OLLAMA_MAX_TOKENS", "512")]
                                       [("max_tokens", PInt 100)]) in
  dict_get "num_predict" opts = Some (PInt 512) /\ dict_get "max_tokens" opts = None.
Proof.
  apply options_env_max_tokens_wins; first [apply (bool_decide_unpack _); vm_compute; reflexivity | vm_compute; reflexivity].
Defined.

Lemma ndjson_corrupt_line_as_content_witness :
  ndjson_scan ([jq "{`message`: {`content`: `a`}}"] ++ "oops" :: [jq "{`done`: true}"]) =
    ([content_chunk (PStr "a"); content_chunk (PStr "oops"); done_item], None).
Proof.
  rewrite (ndjson_corrupt_line_as_content _ _ _ [content_chunk (PStr "a")]);
    first [vm_compute; reflexivity | vm_compute; discriminate].
Defined.

Lemma chat_errors_connection_witness :
  exists e, chat ollama_handler [user_hi] PNone [] [] (fun _ _ => HResp 500 "boom") = Err e /\
            exc_class e = CAPIConnectionError.
Proof.
  destruct (chat ollama_handler [user_hi] PNone [] [] (fun _ _ => HResp 500 "boom"))
    as [v|e] eqn:Hc; [vm_compute in Hc; discriminate|].
  exists e. split; [reflexivity|].
  apply (chat_errors_connection ollama_handler [user_hi] PNone [] [] (fun _ _ => HResp 500 "boom")
           "deepseek-r1:8b" [PDict [("role", PStr "user"); ("content", PStr "hi")]] e);
    first [exact Hc | vm_compute; reflexivity | vm_compute; discriminate].
Defined.

Lemma chat_unsliceable_content_witness :
  chat ollama_handler [MsgDict [("role", PStr "user"); ("content", PDict [("type", PStr "text")])]]
       PNone [] [] (fun _ _ => HResp 200 "{}") = Err key_error.
Proof.
  refine (eq_trans (chat_unsliceable_content ollama_handler (PDict [("type", PStr "text")]) [] [] PNone
                      [] [] (fun _ _ => HResp 200 "{}") "deepseek-r1:8b" _ _ _ _) _);
    first [reflexivity | discriminate | vm_compute; discriminate].
Defined.

Lemma test_connection_404_generic_witness :
  exists d, test_connection ollama_handler (PStr "llama3") (HResp 200 "") (fun _ => HResp 404 "no model") =
              status_dict "error" ("检查模型 '" ++ py_str (PStr "llama3") ++ "' 时发生错误") d.
Proof. apply test_connection_404_generic. reflexivity. Defined.
End OllamaWitnesses.
End Ollama.
