(* ===== verification/Cache.v ===== *)
(** * Cache: [TextProcessingCache] of [src/src/utils/cache.py]

    The cache keeps an in-memory LRU store (the dict [_cache] and the list
    [_keys], most recently used last) in front of a directory of JSON files,
    one per key.  The directory is shared: the module-level instances point
    at the directories [save_analysis_result] writes to (see [Results]).
    The model therefore threads two pieces of state through every
    operation: the instance's own record [cache] and the file system [fs],
    a [gmap] from a path to a file.

    - [add_to_memory] is [_add_to_memory_cache] (134-147), [remove_item] is
      [_remove_item] (149-164), [save_to_disk] and [load_by_key] are
      [_save_to_disk_by_key] and [_load_from_disk_by_key] (170-227),
      [load_from_disk] is [_load_from_disk] (229-282) and [init] the
      constructor (32-58); [get], [set], [clear], [clear_expired] and
      [get_stats] are the public methods (73-377).
    - The key is an input: [_create_key] hashes [json.dumps(args)] with
      SHA-256, which is outside the model; a hex digest has no [/].
    - [time.time()] is the argument [now : Q]; [datetime.fromisoformat(...)
      .timestamp()] is the section variable [fromiso]; the byte size
      [json.dump] writes is the section variable [dump_size].
    - A file holds the value [json.dump] wrote ([Some v]) or text that does
      not decode ([None]), its modification time and its size.  Writes and
      removals are taken to succeed; the lock is not modelled (every
      method holds it throughout). *)

From stdpp Require Import gmap.
From S2P Require Import Prelude Errors Http.
Import Exc.

Record dfile : Type := mk_dfile {
  dcontent : option pyval;
  dmtime : Q;
  dsize : Z
}.

Abbreviation fsys := (gmap string dfile).

(** A cache entry: the dict stored in [_cache]. *)
Abbreviation item := (pydict string pyval).

Record cache : Type := mk_cache {
  mem : gmap string item;
  keys : list string;
  maxsize : Z;
  ttl : Z;
  cache_dir : string
}.

Definition value_error : exc := mk_exc CValueError [].

Module Cache.
Section Ops.
Context (fromiso : string -> option Q) (dump_size : pyval -> Z).
Local Open Scope string_scope.

(** [self.cache_dir / f"{key}.json"] *)
Definition path_of (dir key : string) : string := dir ++ "/" ++ key ++ ".json".

(** The stem of a path that [cache_dir.glob("*.json")] yields. *)
Definition json_stem (dir path : string) : option string :=
  if py_startswith path (dir ++ "/") then
    let name := str_drop (String.length dir + 1) path in
    if py_endswith name ".json" && negb (py_str_contains "/" name)
    then Some (str_take (String.length name - 5) name) else None
  else None.

(** [cache_dir.glob("*.json")]: the paths, their stems and their files, in
    the directory's order. *)
Definition glob (fs : fsys) (dir : string) : list (string * string * dfile) :=
  omap (fun pf => (fun stem => (pf.1, stem, pf.2)) <$> json_stem dir pf.1) (map_to_list fs).

(** [current_time - t > self.ttl] on a float timestamp. *)
Definition float_expired (now : Q) (ttl : Z) (t : pyfloat) : bool :=
  match t with
  | FFin q => negb (Qle_bool (now - q) (inject_Z ttl))
  | FInf neg => neg
  | FNan => false
  end.

(** [current_time - v > self.ttl] on any value: numbers (a [bool] is an
    [int]) compare, anything else raises [TypeError]. *)
Definition age_expired (now : Q) (ttl : Z) (v : pyval) : result exc bool :=
  match v with
  | PInt z => Ok (float_expired now ttl (FFin (inject_Z z)))
  | PBool b => Ok (float_expired now ttl (FFin (if b then 1 else 0)))
  | PFloat f => Ok (float_expired now ttl f)
  | _ => Err type_error
  end.

(** [list.remove(x)]: the first occurrence, [ValueError] when absent. *)
Fixpoint list_remove (k : string) (l : list string) : result exc (list string) :=
  match l with
  | [] => Err value_error
  | x :: r => if String.eqb x k then Ok r else let? r' := list_remove k r in Ok (x :: r')
  end.

Definition set_mem (c : cache) (m : gmap string item) (ks : list string) : cache :=
  {| mem := m; keys := ks; maxsize := maxsize c; ttl := ttl c; cache_dir := cache_dir c |}.

(** [_add_to_memory_cache], lines 134-147. *)
Definition add_to_memory (key : string) (v : item) (c : cache) : result exc cache :=
  if decide (is_Some (mem c !! key)) then
    let? ks := list_remove key (keys c) in
    Ok (set_mem c (<[key := v]> (mem c)) (ks ++ [key]))
  else if bool_decide (maxsize c <= Z.of_nat (size (mem c)))%Z then
    match keys c with
    | [] => Err index_error
    | oldest :: rest =>
        if decide (is_Some (mem c !! oldest))
        then Ok (set_mem c (<[key := v]> (delete oldest (mem c))) (rest ++ [key]))
        else Err key_error
    end
  else Ok (set_mem c (<[key := v]> (mem c)) (keys c ++ [key])).

(** [if key in self._cache: del ...; if key in self._keys: self._keys.remove(key)]
    (lines 152-155 and 319-322). *)
Definition forget (key : string) (c : cache) : cache :=
  let ks := if bool_decide (key ∈ keys c)
            then match list_remove key (keys c) with Ok r => r | Err _ => keys c end
            else keys c in
  set_mem c (delete key (mem c)) ks.

(** [_remove_item], lines 149-164. *)
Definition remove_item (key : string) (c : cache) (fs : fsys) : cache * fsys :=
  (forget key c, delete (path_of (cache_dir c) key) fs).

(** [_save_to_disk_by_key], lines 170-179. *)
Definition save_to_disk (key : string) (v : pyval) (c : cache) (fs : fsys) (now : Q) : fsys :=
  <[path_of (cache_dir c) key := mk_dfile (Some v) now (dump_size v)]> fs.

(** The timestamp handling of lines 192-205 and 249-262: a number as a
    float, an ISO string parsed, anything else [None]. *)
Definition disk_timestamp (d : item) : option pyfloat :=
  match dict_get "timestamp" d with
  | Some (PInt z) => Some (FFin (inject_Z z))
  | Some (PBool b) => Some (FFin (if b then 1 else 0))
  | Some (PFloat f) => Some f
  | Some (PStr s) => FFin <$> fromiso (py_replace s "Z" "+00:00")
  | _ => None
  end.

(** The checks shared by both loaders on one file: the entry to keep, or
    whether the file is to be removed as expired. *)
Inductive disk_verdict : Type := Keep (d : item) | Expired | Skip.

Definition disk_check (now : Q) (ttl : Z) (f : dfile) : disk_verdict :=
  match dcontent f with
  | Some (PDict d) =>
      match disk_timestamp d with
      | Some t => if float_expired now ttl t then Expired else Keep d
      | None => Skip
      end
  | _ => Skip
  end.

(** [_load_from_disk_by_key], lines 181-227. *)
Definition load_by_key (key : string) (c : cache) (fs : fsys) (now : Q) : option item * fsys :=
  let p := path_of (cache_dir c) key in
  match fs !! p with
  | None => (None, fs)
  | Some f =>
      match disk_check now (ttl c) f with
      | Keep d => (Some d, fs)
      | Expired => (None, delete p fs)
      | Skip => (None, fs)
      end
  end.

(** [get], lines 73-109, on the key [_create_key] computes from the arguments.  A
    memory hit whose timestamp is not a number raises [TypeError]. *)
Definition get (key : string) (c : cache) (fs : fsys) (now : Q)
  : result exc (option item * cache * fsys) :=
  match mem c !! key with
  | Some it =>
      let? expired := match dict_get "timestamp" it with
                      | Some ts => age_expired now (ttl c) ts
                      | None => Ok false
                      end in
      if expired then let '(c', fs') := remove_item key c fs in Ok (None, c', fs')
      else
        let? ks := list_remove key (keys c) in
        Ok (Some it, set_mem c (mem c) (ks ++ [key]), fs)
  | None =>
      let '(o, fs') := load_by_key key c fs now in
      match o with
      | Some d =>
          if py_truthy (PDict d) then
            let? c' := add_to_memory key d c in Ok (Some d, c', fs')
          else Ok (None, c, fs')
      | None => Ok (None, c, fs')
      end
  end.

(** [set], lines 111-132: a value that is not a dict is
    ignored; otherwise its [timestamp] is set to the current time. *)
Definition set (value : pyval) (key : string) (c : cache) (fs : fsys) (now : Q)
  : result exc (cache * fsys) :=
  match value with
  | PDict d =>
      let v := dict_set "timestamp" (PFloat (FFin now)) d in
      let? c' := add_to_memory key v c in
      Ok (c', save_to_disk key (PDict v) c fs now)
  | _ => Ok (c, fs)
  end.

(** [json_files.sort(key=mtime, reverse=True)]: newest first; the sort is
    stable, so files of equal time keep the directory's order. *)
Fixpoint insert_desc {A} (mt : A -> Q) (x : A) (l : list A) : list A :=
  match l with
  | [] => [x]
  | y :: r => if negb (Qle_bool (mt x) (mt y)) then x :: y :: r else y :: insert_desc mt x r
  end.

Definition sort_desc {A} (mt : A -> Q) (l : list A) : list A :=
  fold_left (fun acc x => insert_desc mt x acc) l [].

(** One iteration of the loop of lines 242-279; the [try] around it
    swallows every exception of [_add_to_memory_cache]. *)
Definition load_one (now : Q) (cf : cache * fsys) (e : string * string * dfile) : cache * fsys :=
  let '(c, fs) := cf in
  let '(path, stem, f) := e in
  match disk_check now (ttl c) f with
  | Keep d => match add_to_memory stem d c with Ok c' => (c', fs) | Err _ => (c, fs) end
  | Expired => (c, delete path fs)
  | Skip => (c, fs)
  end.

(** [_load_from_disk], lines 229-282: the [maxsize] newest files. *)
Definition load_from_disk (c : cache) (fs : fsys) (now : Q) : cache * fsys :=
  let files := sort_desc (fun e => dmtime e.2) (glob fs (cache_dir c)) in
  fold_left (load_one now) (take (Z.to_nat (maxsize c)) files) (c, fs).

(** [TextProcessingCache(maxsize, cache_dir, ttl)], lines 32-58. *)
Definition init (msize : Z) (dir : string) (ttl : Z) (fs : fsys) (now : Q) : cache * fsys :=
  load_from_disk {| mem := ∅; keys := []; maxsize := Z.max 10 msize; ttl := ttl;
                    cache_dir := dir |} fs now.

(** [clear()], lines 284-300. *)
Definition clear (c : cache) (fs : fsys) : cache * fsys :=
  (set_mem c ∅ [], foldr (fun e acc => delete e.1.1 acc) fs (glob fs (cache_dir c))).

(** The scan of lines 312-315: the expired keys of the memory store, in
    its order; a timestamp that is not a number raises [TypeError], and
    nothing around it catches it. *)
Fixpoint expired_keys (now : Q) (ttl : Z) (l : list (string * item)) : result exc (list string) :=
  match l with
  | [] => Ok []
  | (k, it) :: r =>
      let? e := match dict_get "timestamp" it with
                | Some ts => age_expired now ttl ts
                | None => Ok false
                end in
      let? ks := expired_keys now ttl r in
      Ok (if e then k :: ks else ks)
  end.

(** Lines 318-323: each expired key leaves the store and is counted. *)
Definition drop_key (ck : cache * Z) (key : string) : cache * Z :=
  let '(c, n) := ck in (forget key c, (n + 1)%Z).

(** Lines 328-341 on one file: a file that is expired, does not decode, or
    whose check raises is removed and counted. *)
Definition file_expired (now : Q) (ttl : Z) (f : dfile) : bool :=
  match dcontent f with
  | None => true
  | Some v =>
      let r := let? has := py_in "timestamp" v in
               if has then let? ts := py_getitem v "timestamp" in age_expired now ttl ts
               else Ok false in
      match r with Ok b => b | Err _ => true end
  end.

Definition sweep_file (now : Q) (ttl : Z) (acc : fsys * Z) (e : string * string * dfile) : fsys * Z :=
  let '(fs, n) := acc in
  if file_expired now ttl e.2 then (delete e.1.1 fs, (n + 1)%Z) else (fs, n).

(** [clear_expired()], lines 302-346: the number of entries removed, memory
    and disk counted separately. *)
Definition clear_expired (c : cache) (fs : fsys) (now : Q) : result exc (Z * cache * fsys) :=
  let? ks := expired_keys now (ttl c) (map_to_list (mem c)) in
  let '(c', n) := fold_left drop_key ks (c, 0%Z) in
  let '(fs', n') := fold_left (sweep_file now (ttl c)) (glob fs (cache_dir c)) (fs, n) in
  Ok (n', c', fs').

(** [get_stats()], lines 348-377. *)
Definition get_stats (c : cache) (fs : fsys) : pydict string pyval :=
  let files := glob fs (cache_dir c) in
  let dsize := foldr (fun e acc => (dsize e.2 + acc)%Z) 0%Z files in
  let n := Z.of_nat (size (mem c)) in
  [("memory_items", PInt n); ("memory_capacity", PInt (maxsize c));
   ("memory_usage", if bool_decide (0 < maxsize c)%Z
                    then PFloat (FFin (inject_Z n / inject_Z (maxsize c))) else PInt 0);
   ("disk_items", PInt (Z.of_nat (length files))); ("disk_size_bytes", PInt dsize);
   ("disk_size_mb", if bool_decide (0 < dsize)%Z
                    then PFloat (FFin (inject_Z dsize / inject_Z (1024 * 1024))) else PInt 0);
   ("ttl_seconds", PInt (ttl c)); ("cache_dir", PStr (cache_dir c))].

(** The invariant of the memory store: [_keys] lists each key of [_cache]
    once, the store holds at most [maxsize] entries, and [maxsize] is at
    least 10 ([max(10, maxsize)] in the constructor). *)
Definition wf (c : cache) : Prop :=
  NoDup (keys c) /\ dom (mem c) = (list_to_set (keys c) : gset string) /\
  (Z.of_nat (length (keys c)) <= maxsize c)%Z /\ (10 <= maxsize c)%Z.

(** The calls a program makes on one instance, and the changes other code
    ([save_analysis_result], a user) makes to the directory in between.
    A call that raises changes nothing: each raise comes before the first
    mutation. *)
Inductive step : cache * fsys -> cache * fsys -> Prop :=
  | step_get key now o c fs c' fs' :
      get key c fs now = Ok (o, c', fs') -> step (c, fs) (c', fs')
  | step_set v key now c fs c' fs' :
      set v key c fs now = Ok (c', fs') -> step (c, fs) (c', fs')
  | step_clear c fs : step (c, fs) (clear c fs)
  | step_clear_expired now n c fs c' fs' :
      clear_expired c fs now = Ok (n, c', fs') -> step (c, fs) (c', fs')
  | step_external c fs fs' : step (c, fs) (c, fs').
End Ops.

#[export] Instance wf_dec c : Decision (wf c).
Proof. unfold wf. apply _. Defined.

Section Props.
Context (fromiso : string -> option Q) (dump_size : pyval -> Z).

Lemma list_remove_Ok k l r :
  list_remove k l = Ok r -> exists l1 l2, l = l1 ++ k :: l2 /\ r = l1 ++ l2 /\ k ∉ l1.
Proof.
  revert r. induction l as [|x l IH]; intros r; simpl; [discriminate|].
  destruct (String.eqb_spec x k) as [->|Hne].
  - intros [= <-]. exists [], l. split_and!; [done|done|set_solver].
  - destruct (list_remove k l) as [r'|e] eqn:E; simpl; [|discriminate].
    intros [= <-]. destruct (IH r' eq_refl) as (l1 & l2 & -> & -> & Hn).
    exists (x :: l1), l2. split_and!; [done|done|set_solver].
Qed.

Lemma list_remove_in k l : k ∈ l -> exists r, list_remove k l = Ok r.
Proof.
  induction l as [|x l IH]; simpl; [set_solver|].
  intros Hin. destruct (String.eqb_spec x k); [by eexists|].
  destruct IH as [r ->]; [set_solver|]. by eexists.
Qed.

Lemma wf_length c : wf c -> length (keys c) = size (mem c).
Proof.
  intros (Hnd & Hdom & _). rewrite <-size_dom, Hdom, size_list_to_set; done.
Qed.

Lemma wf_set_mem c m ks :
  NoDup ks -> dom m = (list_to_set ks : gset string) ->
  (Z.of_nat (length ks) <= maxsize c)%Z -> (10 <= maxsize c)%Z -> wf (set_mem c m ks).
Proof. intros. by repeat split. Qed.

(** [_add_to_memory_cache] never raises on a well-formed store, keeps it
    well formed and stores the entry. *)
Lemma add_to_memory_wf key v c :
  wf c -> exists c', add_to_memory key v c = Ok c' /\ wf c' /\ mem c' !! key = Some v /\
                     maxsize c' = maxsize c /\ ttl c' = ttl c /\ cache_dir c' = cache_dir c.
Proof.
  intros Hwf. pose proof (wf_length c Hwf) as Hlen.
  destruct Hwf as (Hnd & Hdom & Hsz & H10). unfold add_to_memory.
  case_decide as Hk.
  - assert (key ∈ keys c) as Hin.
    { apply (elem_of_list_to_set (C:=gset string)). rewrite <-Hdom. by apply elem_of_dom. }
    destruct (list_remove_in _ _ Hin) as [r Hr]. rewrite Hr. simpl.
    destruct (list_remove_Ok _ _ _ Hr) as (l1 & l2 & Hl & -> & _).
    eexists. split; [done|]. rewrite Hl in Hnd, Hsz, Hdom.
    split_and!; [apply wf_set_mem|..]; simpl; try done.
    + apply NoDup_app in Hnd as (H1 & H2 & H3). apply NoDup_cons in H3 as [H4 H5].
      apply NoDup_app. split_and!; [|set_solver|].
      * apply NoDup_app. split_and!; [done|set_solver|done].
      * apply NoDup_singleton.
    + rewrite dom_insert_L, Hdom. rewrite !list_to_set_app_L. simpl. set_solver.
    + rewrite !length_app in *. simpl in *. lia.
    + by rewrite lookup_insert_eq.
  - case_bool_decide as Hfull.
    + destruct (keys c) as [|oldest rest] eqn:Ek; simpl in Hlen; [lia|].
      case_decide as Ho; [|exfalso; apply Ho, elem_of_dom; rewrite Hdom; set_solver].
      eexists. split; [done|].
      assert (key ∉ oldest :: rest) as Hkn.
      { intros Hin. apply Hk, elem_of_dom. rewrite Hdom. by apply elem_of_list_to_set. }
      apply NoDup_cons in Hnd as [Hor Hnd].
      split_and!; [apply wf_set_mem|..]; simpl; try done.
      * apply NoDup_app. split_and!; [done|set_solver|apply NoDup_singleton].
      * rewrite dom_insert_L, dom_delete_L, Hdom, list_to_set_app_L. simpl. set_solver.
      * rewrite length_app. simpl in *. lia.
      * by rewrite lookup_insert_eq.
    + assert (key ∉ keys c) as Hkn.
      { intros Hin. apply Hk, elem_of_dom. rewrite Hdom. by apply elem_of_list_to_set. }
      eexists. split; [done|].
      split_and!; [apply wf_set_mem|..]; simpl; try done.
      * apply NoDup_app. split_and!; [done|set_solver|apply NoDup_singleton].
      * rewrite dom_insert_L, Hdom, list_to_set_app_L. simpl. set_solver.
      * rewrite length_app. simpl. lia.
      * by rewrite lookup_insert_eq.
Qed.

Lemma forget_wf key c : wf c -> wf (forget key c).
Proof.
  intros (Hnd & Hdom & Hsz & H10). unfold forget. case_bool_decide as Hin.
  - destruct (list_remove_in _ _ Hin) as [r Hr]. rewrite Hr.
    destruct (list_remove_Ok _ _ _ Hr) as (l1 & l2 & Hl & -> & _). rewrite Hl in Hnd, Hdom, Hsz.
    apply NoDup_app in Hnd as (H1 & H2 & H3). apply NoDup_cons in H3 as [H4 H5].
    apply wf_set_mem; simpl; try done.
    + apply NoDup_app. split_and!; [done|set_solver|done].
    + rewrite dom_delete_L, Hdom, !list_to_set_app_L. simpl. set_solver.
    + rewrite !length_app in *. simpl in *. lia.
  - apply wf_set_mem; simpl; try done.
    rewrite dom_delete_L, Hdom. set_solver.
Qed.

Lemma forget_fields key c :
  maxsize (forget key c) = maxsize c /\ ttl (forget key c) = ttl c /\
  cache_dir (forget key c) = cache_dir c.
Proof. done. Qed.

(** Moving a key of the store to the most-recently-used end. *)
Lemma touch_wf key c ks :
  wf c -> list_remove key (keys c) = Ok ks -> wf (set_mem c (mem c) (ks ++ [key])).
Proof.
  intros (Hnd & Hdom & Hsz & H10) Hr.
  destruct (list_remove_Ok _ _ _ Hr) as (l1 & l2 & Hl & -> & _). rewrite Hl in Hnd, Hdom, Hsz.
  apply NoDup_app in Hnd as (H1 & H2 & H3). apply NoDup_cons in H3 as [H4 H5].
  apply wf_set_mem; simpl; try done.
  - apply NoDup_app. split_and!; [|set_solver|apply NoDup_singleton].
    apply NoDup_app. split_and!; [done|set_solver|done].
  - rewrite Hdom, !list_to_set_app_L. simpl. set_solver.
  - rewrite !length_app in *. simpl in *. lia.
Qed.

Lemma get_wf key c fs now o c' fs' :
  wf c -> get fromiso key c fs now = Ok (o, c', fs') -> wf c'.
Proof.
  intros Hwf. unfold get. destruct (mem c !! key) as [it|].
  - destruct (match dict_get "timestamp" it with Some ts => _ | None => _ end) as [[]|]; simpl;
      [|destruct (list_remove key (keys c)) eqn:Hr; simpl|]; try discriminate.
    + intros [= _ <- _]. by apply forget_wf.
    + intros [= _ <- _]. by apply touch_wf.
  - destruct (load_by_key fromiso key c fs now) as [[d|] fs1]; [|by intros [= _ <- _]].
    destruct (py_truthy (PDict d)); [|by intros [= _ <- _]].
    destruct (add_to_memory_wf key d c Hwf) as (c1 & -> & Hwf1 & _). by intros [= _ <- _].
Qed.

Lemma set_wf v key c fs now c' fs' :
  wf c -> set dump_size v key c fs now = Ok (c', fs') -> wf c'.
Proof.
  intros Hwf. unfold set. destruct v; try by intros [= <- _].
  destruct (add_to_memory_wf key (dict_set "timestamp" (PFloat (FFin now)) d) c Hwf)
    as (c1 & -> & Hwf1 & _). by intros [= <- _].
Qed.

Lemma load_one_wf now cf e : wf cf.1 -> wf (load_one fromiso now cf e).1.
Proof.
  destruct cf as [c fs], e as [[path stem] f]. simpl. intros Hwf.
  destruct (disk_check fromiso now (ttl c) f) as [d| |]; simpl; try done.
  destruct (add_to_memory_wf stem d c Hwf) as (c1 & -> & Hwf1 & _). done.
Qed.

Lemma load_from_disk_wf c fs now : wf c -> wf (load_from_disk fromiso c fs now).1.
Proof.
  unfold load_from_disk. generalize (take (Z.to_nat (maxsize c)) (sort_desc (fun e => dmtime e.2) (glob fs (cache_dir c)))).
  intros l. revert c fs. induction l as [|e l IH]; intros c fs Hwf; cbn [fold_left]; [done|].
  pose proof (load_one_wf now (c, fs) e Hwf) as Hw.
  destruct (load_one fromiso now (c, fs) e) as [c1 fs1]. apply IH, Hw.
Qed.

Lemma init_wf msize dir t fs now : wf (init fromiso msize dir t fs now).1.
Proof.
  apply load_from_disk_wf. split_and!; simpl; [constructor|by rewrite dom_empty_L|lia|lia].
Qed.

Lemma clear_wf c fs : wf c -> wf (clear c fs).1.
Proof.
  intros (_ & _ & _ & H10). apply wf_set_mem; simpl; [constructor|by rewrite dom_empty_L|lia|done].
Qed.

Lemma fold_drop_key_wf ks c n : wf c -> wf (fold_left drop_key ks (c, n)).1.
Proof.
  revert c n. induction ks as [|k ks IH]; intros c n Hwf; cbn [fold_left]; [done|].
  apply IH, forget_wf, Hwf.
Qed.

Lemma clear_expired_wf c fs now n c' fs' :
  wf c -> clear_expired c fs now = Ok (n, c', fs') -> wf c'.
Proof.
  intros Hwf. unfold clear_expired.
  destruct (expired_keys now (ttl c) (map_to_list (mem c))) as [ks|]; [|discriminate]. cbn [rbind].
  pose proof (fold_drop_key_wf ks c 0 Hwf) as Hw.
  destruct (fold_left drop_key ks (c, 0%Z)) as [c1 n1].
  destruct (fold_left _ _ (fs, n1)). by intros [= _ <- _].
Qed.

Lemma step_wf s s' : step fromiso dump_size s s' -> wf s.1 -> wf s'.1.
Proof.
  destruct 1; simpl; intros Hwf;
    [eapply get_wf|eapply set_wf|eapply (clear_wf _ fs)|eapply clear_expired_wf|]; eauto.
Qed.

(** C13: The memory store of an instance never holds more than [maxsize]
    entries, and [_keys] lists exactly its keys, once each, in every state
    a program reaches from the constructor. *)
Theorem reachable_wf msize dir t fs0 now s :
  rtc (step fromiso dump_size) (init fromiso msize dir t fs0 now) s ->
  wf s.1 /\ (Z.of_nat (size (mem s.1)) <= maxsize s.1)%Z.
Proof.
  intros Hr. assert (wf s.1) as Hwf.
  { generalize (init_wf msize dir t fs0 now).
    induction Hr as [|x y z Hxy _ IH]; [done|]. intros Hx. apply IH, (step_wf x); done. }
  split; [done|]. rewrite <-wf_length by done. apply Hwf.
Qed.

Lemma add_to_memory_det key v c c' :
  wf c -> add_to_memory key v c = Ok c' ->
  wf c' /\ mem c' !! key = Some v /\ maxsize c' = maxsize c /\ ttl c' = ttl c /\
  cache_dir c' = cache_dir c.
Proof.
  intros Hwf E. destruct (add_to_memory_wf key v c Hwf) as (c1 & E1 & H). congruence.
Qed.

Lemma wf_in_keys c key : wf c -> is_Some (mem c !! key) -> key ∈ keys c.
Proof.
  intros (_ & Hdom & _) Hk. apply (elem_of_list_to_set (C:=gset string)).
  rewrite <-Hdom. by apply elem_of_dom.
Qed.

Lemma float_expired_fresh now t ttl :
  (now - t <= inject_Z ttl)%Q -> float_expired now ttl (FFin t) = false.
Proof. intros H. simpl. by rewrite (proj2 (Qle_bool_iff _ _) H). Qed.

Lemma float_expired_old now t ttl :
  (inject_Z ttl < now - t)%Q -> float_expired now ttl (FFin t) = true.
Proof.
  intros H. simpl. destruct (Qle_bool _ _) eqn:E; [|done].
  apply Qle_bool_iff in E. exfalso. by apply (Qlt_not_le _ _ H).
Qed.

Lemma dict_set_truthy k v d : py_truthy (PDict (dict_set k v d)) = true.
Proof. destruct d as [|[k' v'] d]; simpl; [done|]. by case_decide. Qed.

(** A memory hit within the lifetime returns the entry and moves its key to
    the most-recently-used end. *)
Lemma get_hit key c fs now it :
  wf c -> mem c !! key = Some it ->
  match dict_get "timestamp" it with Some ts => age_expired now (ttl c) ts | None => Ok false end
    = Ok false ->
  exists ks, list_remove key (keys c) = Ok ks /\
             get fromiso key c fs now = Ok (Some it, set_mem c (mem c) (ks ++ [key]), fs).
Proof.
  intros Hwf Hk Hts. destruct (list_remove_in key (keys c)) as [ks Hks].
  { apply wf_in_keys; by rewrite ?Hk. }
  exists ks. split; [done|]. unfold get. rewrite Hk, Hts. cbn [rbind]. by rewrite Hks.
Qed.

(** C16: Round trip through memory: what [set] stores, a [get] within [ttl]
    seconds returns, timestamp included. *)
Theorem set_get_roundtrip d key c fs now now' c' fs' :
  wf c -> set dump_size (PDict d) key c fs now = Ok (c', fs') ->
  (now' - now <= inject_Z (ttl c))%Q ->
  exists c'', get fromiso key c' fs' now' =
              Ok (Some (dict_set "timestamp" (PFloat (FFin now)) d), c'', fs').
Proof.
  intros Hwf Hset Hfresh. unfold set in Hset.
  destruct (add_to_memory key _ c) as [c1|] eqn:E; [|discriminate]. injection Hset as <- _.
  destruct (add_to_memory_det _ _ _ _ Hwf E) as (Hwf1 & Hk & _ & Httl & _).
  edestruct (get_hit key c1 fs' now') as (ks & _ & ->); [done|done| |by eexists].
  rewrite dict_get_set_eq. simpl. rewrite Httl. by rewrite (proj2 (Qle_bool_iff _ _) Hfresh).
Qed.

Lemma dict_get_truthy k v (d : item) : dict_get k d = Some v -> py_truthy (PDict d) = true.
Proof. by destruct d. Qed.

(** Loading an entry from the directory on a memory miss. *)
Lemma get_from_disk key c fs now d :
  wf c -> mem c !! key = None -> load_by_key fromiso key c fs now = (Some d, fs) ->
  py_truthy (PDict d) = true ->
  exists c', get fromiso key c fs now = Ok (Some d, c', fs) /\ wf c' /\ mem c' !! key = Some d.
Proof.
  intros Hwf Hk Hl Ht. destruct (add_to_memory_wf key d c Hwf) as (c' & E & Hwf' & Hk' & _).
  exists c'. unfold get. rewrite Hk, Hl, Ht. cbn [rbind]. by rewrite E.
Qed.

(** Round trip through the directory: an entry one instance saved, another
    instance on the same directory (a restarted process) finds on a memory
    miss within [ttl] seconds, and takes into its memory. *)
Theorem disk_roundtrip d key c c0 fs now now' :
  wf c -> mem c !! key = None -> cache_dir c0 = cache_dir c ->
  (now' - now <= inject_Z (ttl c))%Q ->
  let v := dict_set "timestamp" (PFloat (FFin now)) d in
  let fs' := save_to_disk dump_size key (PDict v) c0 fs now in
  exists c', get fromiso key c fs' now' = Ok (Some v, c', fs') /\ mem c' !! key = Some v.
Proof.
  intros Hwf Hk Hdir Hfresh v fs'.
  edestruct (get_from_disk key c fs' now' v) as (c' & -> & _ & Hk'); [done|done| |by apply dict_set_truthy|by eexists].
  unfold load_by_key, fs', save_to_disk. rewrite Hdir, lookup_insert_eq.
  unfold disk_check, disk_timestamp. cbn [dcontent]. unfold v. rewrite dict_get_set_eq.
  cbv beta iota. by rewrite float_expired_fresh.
Qed.

(** [set] of a new key on a full store evicts exactly the least recently
    used entry, the head of [_keys]. *)
Theorem set_evicts_lru d key c fs now c' fs' oldest rest :
  wf c -> mem c !! key = None -> Z.of_nat (size (mem c)) = maxsize c -> keys c = oldest :: rest ->
  set dump_size (PDict d) key c fs now = Ok (c', fs') ->
  keys c' = rest ++ [key] /\
  mem c' = <[key := dict_set "timestamp" (PFloat (FFin now)) d]> (delete oldest (mem c)).
Proof.
  intros Hwf Hk Hfull Hks. unfold set, add_to_memory. rewrite Hk.
  rewrite decide_False by (intros [? ?]; discriminate).
  rewrite bool_decide_true by lia. rewrite Hks.
  rewrite decide_True by (apply elem_of_dom; destruct Hwf as (_ & -> & _); rewrite Hks; set_solver).
  by intros [= <- _].
Qed.

(** C15: An entry whose file carries an ISO-8601 string timestamp (the format
    [save_analysis_result] writes) is accepted from disk, but the next
    [get] of it finds the string in memory and raises [TypeError] on
    [current_time - item["timestamp"]]. *)
Theorem iso_timestamp_breaks_get key c fs now now' f d s t :
  wf c -> mem c !! key = None -> fs !! path_of (cache_dir c) key = Some f ->
  dcontent f = Some (PDict d) -> dict_get "timestamp" d = Some (PStr s) ->
  fromiso (py_replace s "Z" "+00:00") = Some t -> (now - t <= inject_Z (ttl c))%Q ->
  exists c', get fromiso key c fs now = Ok (Some d, c', fs) /\
             get fromiso key c' fs now' = Err type_error.
Proof.
  intros Hwf Hk Hf Hc Hts Hiso Hfresh.
  edestruct (get_from_disk key c fs now d) as (c' & -> & _ & Hk'); [done|done| |by eapply dict_get_truthy|].
  - unfold load_by_key. rewrite Hf. unfold disk_check, disk_timestamp. rewrite Hc, Hts, Hiso.
    cbn [fmap option_fmap option_map]. by rewrite float_expired_fresh.
  - exists c'. split; [done|]. unfold get. by rewrite Hk', Hts.
Qed.

Lemma fold_drop_key_count ks cn : (fold_left drop_key ks cn).2 = (cn.2 + Z.of_nat (length ks))%Z.
Proof.
  revert cn. induction ks as [|k ks IH]; intros [c n]; cbn [fold_left]; [simpl; lia|].
  rewrite IH. simpl. lia.
Qed.

Lemma fold_sweep_count now t l fs n :
  (fold_left (sweep_file now t) l (fs, n)).2 =
  (n + Z.of_nat (length (filter (fun e => file_expired now t e.2 = true) l)))%Z.
Proof.
  revert fs n. induction l as [|e l IH]; intros fs n; cbn [fold_left]; [simpl; lia|].
  rewrite filter_cons. unfold sweep_file at 2.
  destruct (file_expired now t e.2); rewrite IH; simpl; lia.
Qed.

(** [clear_expired] returns the number of expired memory entries plus the
    number of files it removed: an entry held both in memory and on disk
    (every entry [set] stores) is counted twice. *)
Theorem clear_expired_count c fs now n c' fs' ks :
  expired_keys now (ttl c) (map_to_list (mem c)) = Ok ks ->
  clear_expired c fs now = Ok (n, c', fs') ->
  n = (Z.of_nat (length ks) +
       Z.of_nat (length (filter (fun e => file_expired now (ttl c) e.2 = true)
                                (glob fs (cache_dir c)))))%Z.
Proof.
  intros Hks. unfold clear_expired. rewrite Hks. cbn [rbind].
  pose proof (fold_drop_key_count ks (c, 0%Z)) as Hn.
  destruct (fold_left drop_key ks (c, 0%Z)) as [c1 n1]. simpl in Hn. subst n1.
  pose proof (fold_sweep_count now (ttl c) (glob fs (cache_dir c)) fs (Z.of_nat (length ks))) as Hm.
  destruct (fold_left _ _ _) as [fs1 m]. intros [= <- _ _]. simpl in Hm. lia.
Qed.

Lemma add_to_memory_fields key v c c' :
  add_to_memory key v c = Ok c' ->
  maxsize c' = maxsize c /\ ttl c' = ttl c /\ cache_dir c' = cache_dir c.
Proof.
  unfold add_to_memory. repeat case_match; cbn [rbind]; intros; simplify_eq/=; try by split_and!.
  destruct (list_remove key (keys c)); simplify_eq/=; by split_and!.
Qed.

Lemma insert_desc_perm {A} (mt : A -> Q) x l : insert_desc mt x l ≡ₚ x :: l.
Proof.
  induction l as [|y l IH]; simpl; [done|].
  destruct (negb _); [done|]. rewrite IH. apply perm_swap.
Qed.

(** The sort only reorders the files. *)
Lemma sort_desc_perm {A} (mt : A -> Q) l : sort_desc mt l ≡ₚ l.
Proof.
  unfold sort_desc. rewrite <-(app_nil_r l) at 2. generalize (@nil A) as acc.
  induction l as [|x l IH]; intros acc; simpl; [done|].
  rewrite IH, insert_desc_perm. by rewrite <-Permutation_middle.
Qed.

Lemma glob_lookup fs dir e : e ∈ glob fs dir -> fs !! e.1.1 = Some e.2.
Proof.
  unfold glob. intros (pf & Hin & Hs)%list_elem_of_omap.
  destruct (json_stem dir pf.1); simplify_eq/=. by apply elem_of_map_to_list; destruct pf.
Qed.

Lemma load_one_ttl now cf e : ttl (load_one fromiso now cf e).1 = ttl cf.1.
Proof.
  destruct cf as [c fs], e as [[path stem] f]. simpl.
  destruct (disk_check fromiso now (ttl c) f); simpl; try done.
  destruct (add_to_memory stem d c) eqn:E; simpl; [|done].
  by apply add_to_memory_fields in E as (_ & -> & _).
Qed.

(** The loader only removes files. *)
Lemma fold_load_one_absent now l cf p :
  cf.2 !! p = None -> (fold_left (load_one fromiso now) l cf).2 !! p = None.
Proof.
  revert cf. induction l as [|[[path stem] f] l IH]; intros [c fs] Hp; cbn [fold_left]; [done|].
  apply IH. simpl. destruct (disk_check fromiso now (ttl c) f); simpl; try done.
  - by destruct (add_to_memory stem d c).
  - by rewrite lookup_delete_None; right.
Qed.

Lemma fold_load_one_expired now l cf e :
  e ∈ l -> disk_check fromiso now (ttl cf.1) e.2 = Expired ->
  (fold_left (load_one fromiso now) l cf).2 !! e.1.1 = None.
Proof.
  revert cf. induction l as [|e' l IH]; intros cf Hin Hexp; [set_solver|]. cbn [fold_left].
  apply elem_of_cons in Hin as [Heq|Hin]; [subst e'|].
  - apply fold_load_one_absent. destruct cf as [c fs], e as [[path stem] f]. simpl in *.
    rewrite Hexp. simpl. apply lookup_delete_eq.
  - apply IH; [done|]. by rewrite load_one_ttl.
Qed.

(** [_load_from_disk] removes every expired file among the [maxsize]
    newest of the directory, whoever wrote it. *)
Theorem load_from_disk_removes_expired c fs now e :
  e ∈ take (Z.to_nat (maxsize c)) (sort_desc (fun e => dmtime e.2) (glob fs (cache_dir c))) ->
  disk_check fromiso now (ttl c) e.2 = Expired ->
  (load_from_disk fromiso c fs now).2 !! e.1.1 = None.
Proof. intros Hin Hexp. by apply fold_load_one_expired. Qed.
End Props.
Section CacheWitnesses.
Local Open Scope string_scope.

(** [datetime.fromisoformat(s).timestamp()] on the one date the examples
    use, and a fixed file size. *)
Definition demo_iso (s : string) : option Q :=
  if String.eqb s "2025-01-01T00:00:00+00:00" then Some (inject_Z 1735689600) else None.
Definition demo_size (v : pyval) : Z := 64.

Definition demo_cache : cache := (init demo_iso 100 "cache" 86400 ∅ 0).1.

Definition demo_entry : pydict string pyval := [("result", PStr "ok")].

Definition demo_after_set : cache * fsys :=
  match set demo_size (PDict demo_entry) "k1" demo_cache ∅ 0 with
  | Ok s => s
  | Err _ => (demo_cache, ∅)
  end.

(** A store of ten entries [k0] ... [k9], [k0] least recently used. *)
Definition full_keys : list string := ["k0"; "k1"; "k2"; "k3"; "k4"; "k5"; "k6"; "k7"; "k8"; "k9"].
Definition full_cache : cache :=
  {| mem := list_to_map ((fun k => (k, demo_entry)) <$> full_keys); keys := full_keys;
     maxsize := 10; ttl := 86400; cache_dir := "cache" |}.

Definition iso_file : dfile :=
  mk_dfile (Some (PDict [("timestamp", PStr "2025-01-01T00:00:00Z"); ("result", PStr "ok")]))
           (inject_Z 1735689600) 64.

Lemma reachable_wf_witness :
  wf (init demo_iso 100 "cache" 86400 ∅ 0).1 /\
  (Z.of_nat (size (mem (init demo_iso 100 "cache" 86400 ∅ 0).1)) <=
   maxsize (init demo_iso 100 "cache" 86400 ∅ 0).1)%Z.
Proof. apply (reachable_wf demo_iso demo_size 100 "cache" 86400 ∅ 0). apply rtc_refl. Defined.

Lemma set_get_roundtrip_witness :
  exists c'', get demo_iso "k1" demo_after_set.1 demo_after_set.2 (inject_Z 3600) =
              Ok (Some (dict_set "timestamp" (PFloat (FFin 0)) demo_entry), c'', demo_after_set.2).
Proof.
  apply (set_get_roundtrip demo_iso demo_size demo_entry "k1" demo_cache ∅ 0);
    first [apply (bool_decide_unpack _); vm_compute; reflexivity | vm_compute; reflexivity
          | vm_compute; discriminate].
Defined.

Lemma disk_roundtrip_witness :
  exists c', get demo_iso "k1" demo_cache
               (save_to_disk demo_size "k1" (PDict (dict_set "timestamp" (PFloat (FFin 0)) demo_entry))
                  demo_cache ∅ 0) (inject_Z 3600) =
             Ok (Some (dict_set "timestamp" (PFloat (FFin 0)) demo_entry), c',
                 save_to_disk demo_size "k1" (PDict (dict_set "timestamp" (PFloat (FFin 0)) demo_entry))
                   demo_cache ∅ 0) /\
             mem c' !! "k1" = Some (dict_set "timestamp" (PFloat (FFin 0)) demo_entry).
Proof.
  apply (disk_roundtrip demo_iso demo_size demo_entry "k1" demo_cache demo_cache ∅ 0 (inject_Z 3600));
    first [apply (bool_decide_unpack _); vm_compute; reflexivity | vm_compute; reflexivity
          | vm_compute; discriminate].
Defined.

Lemma set_evicts_lru_witness :
  exists c' fs', set demo_size (PDict demo_entry) "new" full_cache ∅ 5 = Ok (c', fs') /\
    keys c' = (["k1"; "k2"; "k3"; "k4"; "k5"; "k6"; "k7"; "k8"; "k9"] ++ ["new"])%list /\
    mem c' = <["new" := dict_set "timestamp" (PFloat (FFin 5)) demo_entry]> (delete "k0" (mem full_cache)).
Proof.
  destruct (set demo_size (PDict demo_entry) "new" full_cache ∅ 5) as [[c' fs']|] eqn:E;
    [|vm_compute in E; discriminate].
  exists c', fs'. split; [done|].
  apply (set_evicts_lru demo_iso demo_size demo_entry "new" full_cache ∅ 5 c' fs' "k0"
           ["k1"; "k2"; "k3"; "k4"; "k5"; "k6"; "k7"; "k8"; "k9"]);
    first [exact E | apply (bool_decide_unpack _); vm_compute; reflexivity | vm_compute; reflexivity].
Defined.

Lemma iso_timestamp_breaks_get_witness :
  exists c', get demo_iso "k1" demo_cache {[path_of "cache" "k1" := iso_file]} (inject_Z 1735693200) =
               Ok (Some [("timestamp", PStr "2025-01-01T00:00:00Z"); ("result", PStr "ok")], c',
                   {[path_of "cache" "k1" := iso_file]}) /\
             get demo_iso "k1" c' {[path_of "cache" "k1" := iso_file]} (inject_Z 1735693260) = Err type_error.
Proof.
  apply (iso_timestamp_breaks_get demo_iso "k1" demo_cache {[path_of "cache" "k1" := iso_file]}
           (inject_Z 1735693200) (inject_Z 1735693260) iso_file
           [("timestamp", PStr "2025-01-01T00:00:00Z"); ("result", PStr "ok")]
           "2025-01-01T00:00:00Z" (inject_Z 1735689600));
    first [apply (bool_decide_unpack _); vm_compute; reflexivity | vm_compute; reflexivity
          | vm_compute; discriminate].
Defined.

Lemma clear_expired_count_witness :
  match clear_expired demo_after_set.1 demo_after_set.2 (inject_Z 100000) with
  | Ok (n, _, _) => n = 2%Z
  | Err _ => False
  end.
Proof.
  destruct (clear_expired demo_after_set.1 demo_after_set.2 (inject_Z 100000))
    as [[[n c'] fs']|] eqn:E; [|vm_compute in E; discriminate].
  rewrite (clear_expired_count demo_after_set.1 demo_after_set.2 (inject_Z 100000) n c' fs' ["k1"]
             ltac:(vm_compute; reflexivity) E).
  vm_compute. reflexivity.
Defined.

Definition old_file : dfile := mk_dfile (Some (PDict [("timestamp", PInt 0)])) 0 64.

Lemma load_from_disk_removes_expired_witness :
  (load_from_disk demo_iso demo_cache {[path_of "cache" "k1" := old_file]} (inject_Z 100000)).2
    !! path_of "cache" "k1" = None.
Proof.
  apply (load_from_disk_removes_expired demo_iso demo_cache {[path_of "cache" "k1" := old_file]}
           (inject_Z 100000) (path_of "cache" "k1", "k1", old_file));
    vm_compute; [apply list_elem_of_here | reflexivity].
Defined.
End CacheWitnesses.
End Cache.
