(* ===== verification/Results.v ===== *)
(** * Results: saved analysis results, their table and their files

    [save_analysis_result] (cache.py 434-519) writes a result as
    [<dir>/<result_id>.json] under the directory [get_cache_dir] gives its
    module type (578-594) and records it in the [results] table through
    [add_result_record] (database/manager.py 87-109); [get_analysis_result]
    (522-575) finds the row and reads the file back.  The other row
    operations of [manager.py] (lookup, deletion, renaming, listing) are
    here too.

    The directories are those of the module-level caches created when
    [cache.py] is imported (379-394), so the file system [fsys] of [Cache]
    is shared: [import_caches] runs their constructors, which remove
    every file older than a day among the hundred newest of each
    directory, saved results included.

    Time is an input [now : Q]; [isoformat] renders it as
    [datetime.now(timezone.utc).isoformat()] does, [fromiso] parses it back
    (section variables of [Cache] and here), [strftime] is
    [strftime('%Y%m%d_%H%M%S')] and [sha256] the hex digest.  The session
    object [db] is always truthy and the file writes succeed; the caller's
    dict gets its [timestamp] key as a side effect, which the model does not
    return.  [str(v)[:100]] keeps 100 bytes of the rendering, which is 100
    characters on ASCII text. *)

From stdpp Require Import gmap.
From S2P Require Import Prelude Errors Http Json Cache.
Import Exc.

(** A row of the [results] table, [Result] of manager.py 38-56. *)
Record row : Type := mk_row {
  r_id : string;
  r_name : string;
  r_type : string;
  r_time : Q;
  r_source : pyval;
  r_model : pyval;
  r_path : string
}.

Abbreviation table := (list row).

Definition integrity_error : exc := mk_exc CIntegrityError [].

Module Db.
Local Open Scope string_scope.

(** [add_result_record(db, **kwargs)], manager.py 87-109: the required
    fields, then the insert, which the unique index on [result_id]
    refuses for an existing id. *)
Definition add_result_record (db : table) (r : row) : result exc table :=
  if String.eqb (r_id r) "" || String.eqb (r_type r) "" || String.eqb (r_path r) ""
  then Err value_error
  else if existsb (fun x => String.eqb (r_id x) (r_id r)) db then Err integrity_error
  else Ok (db ++ [r])%list.

(** [get_result_by_result_id], 125-138, and the query of
    [get_analysis_result]. *)
Definition get_result_by_result_id (db : table) (rid : string) : option row :=
  find (fun x => String.eqb (r_id x) rid) db.

(** [delete_result_record], 140-158. *)
Definition delete_result_record (db : table) (rid : string) : bool * table :=
  match get_result_by_result_id db rid with
  | Some _ => (true, filter (fun x => negb (String.eqb (r_id x) rid)) db)
  | None => (false, db)
  end.

(** [update_result_name], 160-183. *)
Definition update_result_name (db : table) (rid new_name : string) : bool * table :=
  if String.eqb rid "" || String.eqb new_name "" then (false, db)
  else
    match get_result_by_result_id db rid with
    | Some _ =>
        (true, map (fun x => if String.eqb (r_id x) rid
                             then {| r_id := r_id x; r_name := new_name; r_type := r_type x;
                                     r_time := r_time x; r_source := r_source x;
                                     r_model := r_model x; r_path := r_path x |}
                             else x) db)
    | None => (false, db)
    end.

(** [list_results(db, limit, offset)], 111-121: newest first.  SQL leaves
    the order of equal timestamps open; the model keeps insertion order. *)
Definition list_results (db : table) (limit offset : nat) : list row :=
  take limit (drop offset (Cache.sort_desc r_time db)).
End Db.

Module Results.
Section Ops.
Context `{Render} (fromiso : string -> option Q) (isoformat : Q -> string)
        (strftime : Q -> string) (sha256 : string -> string) (dump_size : pyval -> Z).
Local Open Scope string_scope.

(** [get_cache_dir(module_type)], 578-594, relative to the project root. *)
Definition get_cache_dir (module_type : string) : option string :=
  if String.eqb module_type "text" then Some ".cache/text_analysis"
  else if String.eqb module_type "literature" then Some "data/output/datasets"
  else if String.eqb module_type "style" then Some ".cache/style_transfer"
  else None.

(** The string [generate_result_id] hashes (396-429): the module type, the
    timestamp, and the first 100 characters of [text], [result] and
    [content] when present and not [None]. *)
Definition result_id_base (module_type : string) (d : pydict string pyval) (local_now : string)
  : string :=
  let piece k b :=
    match dict_get k d with
    | Some v => if is_none v then b else b ++ "_" ++ str_take 100 (py_str v)
    | None => b
    end in
  piece "content" (piece "result" (piece "text"
    (module_type ++ "_" ++ py_str (default (PStr local_now) (dict_get "timestamp" d))))).

Definition generate_result_id (module_type : string) (d : pydict string pyval) (local_now : string)
  : string := sha256 (result_id_base module_type d local_now).

(** [str.capitalize()] *)
Definition py_capitalize (s : string) : string :=
  match s with
  | EmptyString => EmptyString
  | String c r => String (ascii_upper c) (py_lower r)
  end.

(** The row of lines 481-505. *)
Definition result_row (module_type rid path : string) (d : pydict string pyval) (t : Q) : row :=
  let get k := default PNone (dict_get k d) in
  let provided := get "name" in
  let name := if py_truthy provided && negb (String.eqb (py_strip (py_str provided)) "")
              then py_strip (py_str provided)
              else py_capitalize module_type ++ " - " ++ strftime t in
  {| r_id := rid; r_name := name; r_type := module_type; r_time := t;
     r_source := py_or (get "source_info") (py_or (get "text_summary") (get "original_filename"));
     r_model := if py_truthy (get "provider")
                then PStr (py_str (get "provider") ++ "/" ++
                           py_str (default (PStr "N/A") (dict_get "model" d)))
                else PNone;
     r_path := path |}.

(** [save_analysis_result(module_type, result_data, db)], 434-519: the id,
    the new table and the new file system.  A failure of the insert is
    logged and the id returned all the same. *)
Definition save_analysis_result (module_type : string) (data : pyval) (db : table) (fs : fsys)
           (now : Q) : option string * table * fsys :=
  match data with
  | PDict d0 =>
      if String.eqb module_type "" then (None, db, fs)
      else
        let d := dict_set "timestamp" (PStr (isoformat now)) d0 in
        let rid := generate_result_id module_type d (isoformat now) in
        if String.eqb rid "" then (None, db, fs)
        else
          match get_cache_dir module_type with
          | None => (None, db, fs)
          | Some dir =>
              let path := Cache.path_of dir rid in
              let fs' := <[path := mk_dfile (Some (PDict d)) now (dump_size (PDict d))]> fs in
              let db' := match fromiso (isoformat now) with
                         | Some t =>
                             match Db.add_result_record db (result_row module_type rid path d t) with
                             | Ok db' => db'
                             | Err _ => db
                             end
                         | None => db
                         end in
              (Some rid, db', fs')
          end
  | _ => (None, db, fs)
  end.

(** [get_analysis_result(result_id, db)], 522-575: the decoded file of the
    row, [None] when the row, its path or its file is missing or the file
    does not decode. *)
Definition get_analysis_result (rid : string) (db : table) (fs : fsys) : option pyval :=
  if String.eqb rid "" then None
  else
    match Db.get_result_by_result_id db rid with
    | None => None
    | Some r =>
        if String.eqb (r_path r) "" then None
        else match fs !! r_path r with Some f => dcontent f | None => None end
    end.

(** The module-level instances of lines 379-394, created in this order
    when [cache.py] is first imported. *)
Definition import_caches (fs : fsys) (now : Q) : list cache * fsys :=
  let '(c0, fs0) := Cache.init fromiso 100 ".cache/text_processing" 86400 fs now in
  let '(c1, fs1) := Cache.init fromiso 100 ".cache/text_analysis" 86400 fs0 now in
  let '(c2, fs2) := Cache.init fromiso 100 "data/output/datasets" 86400 fs1 now in
  let '(c3, fs3) := Cache.init fromiso 100 ".cache/style_transfer" 86400 fs2 now in
  let '(c4, fs4) := Cache.init fromiso 1000 ".cache/index" 86400 fs3 now in
  ([c0; c1; c2; c3; c4], fs4).
End Ops.

Section Props.
Context `{Render} (fromiso : string -> option Q) (isoformat : Q -> string)
        (strftime : Q -> string) (sha256 : string -> string) (dump_size : pyval -> Z).
Local Open Scope string_scope.

Lemma find_snoc_none {A} (f : A -> bool) l x :
  find f l = None -> find f (l ++ [x])%list = if f x then Some x else None.
Proof.
  induction l as [|y l IH]; simpl; [done|]. destruct (f y); [discriminate|done].
Qed.

Lemma find_none_existsb {A} (f : A -> bool) l : find f l = None -> existsb f l = false.
Proof. induction l as [|y l IH]; simpl; [done|]. by destruct (f y). Qed.

Lemma get_cache_dir_some module_type dir :
  get_cache_dir module_type = Some dir -> module_type <> "" /\ dir <> "".
Proof.
  unfold get_cache_dir.
  repeat match goal with |- context [String.eqb ?a ?b] => destruct (String.eqb_spec a b) end;
    intros; simplify_eq; split; discriminate.
Qed.

Lemma path_of_nonempty dir key : Cache.path_of dir key <> "".
Proof. unfold Cache.path_of. destruct dir; discriminate. Qed.

Lemma result_row_id m rid p d t : r_id (result_row strftime m rid p d t) = rid.
Proof. done. Qed.

Lemma result_row_path m rid p d t : r_path (result_row strftime m rid p d t) = p.
Proof. done. Qed.

Lemma save_rid_nonempty module_type data db fs now rid db' fs' :
  save_analysis_result fromiso isoformat strftime sha256 dump_size module_type data db fs now
    = (Some rid, db', fs') -> rid <> "".
Proof.
  unfold save_analysis_result. destruct data; try discriminate.
  destruct (String.eqb module_type ""); [discriminate|].
  destruct (String.eqb _ "") eqn:E; [discriminate|].
  destruct (get_cache_dir module_type); [|discriminate].
  intros [= <- _ _]. by apply String.eqb_neq.
Qed.

(** What a successful save with a new id does: the file under the module's
    directory and, when the timestamp parses, the row. *)
Lemma save_analysis_result_new module_type d db fs now rid db' fs' dir t :
  get_cache_dir module_type = Some dir -> fromiso (isoformat now) = Some t ->
  save_analysis_result fromiso isoformat strftime sha256 dump_size module_type (PDict d) db fs now
    = (Some rid, db', fs') ->
  Db.get_result_by_result_id db rid = None ->
  let d1 := dict_set "timestamp" (PStr (isoformat now)) d in
  fs' = <[Cache.path_of dir rid := mk_dfile (Some (PDict d1)) now (dump_size (PDict d1))]> fs /\
  db' = (db ++ [result_row strftime module_type rid (Cache.path_of dir rid) d1 t])%list.
Proof.
  intros Hdir Ht Hs Hnew d1. destruct (get_cache_dir_some _ _ Hdir) as [Hm Hd].
  unfold save_analysis_result in Hs. rewrite (proj2 (String.eqb_neq _ _) Hm) in Hs.
  destruct (String.eqb _ "") eqn:Hr in Hs; [discriminate|]. rewrite Hdir, Ht in Hs.
  injection Hs as <- <- <-. split; [done|].
  unfold Db.add_result_record. cbn [r_id r_type r_path result_row].
  rewrite Hr, (proj2 (String.eqb_neq _ _) Hm), (proj2 (String.eqb_neq _ _) (path_of_nonempty _ _)).
  by rewrite (find_none_existsb _ _ Hnew).
Qed.

(** A save writes at most one file: the one of its id, under the module's
    directory. *)
Lemma save_analysis_result_fs module_type data db fs now o db' fs' :
  save_analysis_result fromiso isoformat strftime sha256 dump_size module_type data db fs now
    = (o, db', fs') ->
  fs' = fs \/ exists dir rid f,
    get_cache_dir module_type = Some dir /\ fs' = <[Cache.path_of dir rid := f]> fs.
Proof.
  unfold save_analysis_result. destruct data; try (intros [= _ _ <-]; by left).
  destruct (String.eqb module_type ""); [intros [= _ _ <-]; by left|].
  destruct (String.eqb _ ""); [intros [= _ _ <-]; by left|].
  destruct (get_cache_dir module_type) as [dir|]; [|intros [= _ _ <-]; by left].
  intros [= _ _ <-]. right. eauto.
Qed.

(** Round trip: a result saved under a new id is read back, with the
    timestamp the save added. *)
Theorem save_get_roundtrip module_type d db fs now rid db' fs' dir t :
  get_cache_dir module_type = Some dir -> fromiso (isoformat now) = Some t ->
  save_analysis_result fromiso isoformat strftime sha256 dump_size module_type (PDict d) db fs now
    = (Some rid, db', fs') ->
  Db.get_result_by_result_id db rid = None ->
  get_analysis_result rid db' fs' = Some (PDict (dict_set "timestamp" (PStr (isoformat now)) d)).
Proof.
  intros Hdir Ht Hs Hnew.
  destruct (save_analysis_result_new _ _ _ _ _ _ _ _ _ _ Hdir Ht Hs Hnew) as [-> ->].
  pose proof (save_rid_nonempty _ _ _ _ _ _ _ _ Hs) as Hr.
  unfold get_analysis_result. rewrite (proj2 (String.eqb_neq _ _) Hr).
  unfold Db.get_result_by_result_id in *. rewrite find_snoc_none by done.
  rewrite result_row_id, String.eqb_refl, result_row_path.
  rewrite (proj2 (String.eqb_neq _ _) (path_of_nonempty _ _)). by rewrite lookup_insert_eq.
Qed.

(** C14: A result saved under a new id is lost when the program restarts more
    than a day later: the cache created at import over the same directory
    removes its file as expired (when it is among the hundred newest), and
    [get_analysis_result] finds the row but not the file. *)
Theorem saved_result_lost_on_restart module_type d db fs now now' rid db' fs' dir t f :
  get_cache_dir module_type = Some dir -> fromiso (isoformat now) = Some t ->
  py_replace (isoformat now) "Z" "+00:00" = isoformat now ->
  save_analysis_result fromiso isoformat strftime sha256 dump_size module_type (PDict d) db fs now
    = (Some rid, db', fs') ->
  Db.get_result_by_result_id db rid = None ->
  (inject_Z 86400 < now' - t)%Q ->
  (Cache.path_of dir rid, rid, f) ∈ take 100 (Cache.sort_desc (fun e => dmtime e.2) (Cache.glob fs' dir)) ->
  get_analysis_result rid db' (Cache.init fromiso 100 dir 86400 fs' now').2 = None.
Proof.
  intros Hdir Ht Hz Hs Hnew Hold Hin.
  assert ((Cache.path_of dir rid, rid, f) ∈ Cache.glob fs' dir) as Hg.
  { rewrite <-(Cache.sort_desc_perm (fun e => dmtime e.2)). by apply (subseteq_take 100). }
  pose proof (Cache.glob_lookup fs' dir _ Hg) as Hf. simpl in Hf.
  pose proof (save_analysis_result_new _ _ _ _ _ _ _ _ _ _ Hdir Ht Hs Hnew) as [Hfs ->].
  rewrite Hfs, lookup_insert_eq in Hf. injection Hf as <-.
  assert ((Cache.init fromiso 100 dir 86400 fs' now').2 !! Cache.path_of dir rid = None) as Hgone.
  { apply (Cache.load_from_disk_removes_expired fromiso
             {| mem := ∅; keys := []; maxsize := Z.max 10 100; ttl := 86400; cache_dir := dir |}
             fs' now' _ Hin).
    unfold Cache.disk_check, Cache.disk_timestamp. cbn [snd dcontent ttl]. rewrite dict_get_set_eq.
    cbv beta iota. rewrite Hz, Ht. cbn [fmap option_fmap option_map].
    by rewrite Cache.float_expired_old. }
  unfold get_analysis_result. destruct (String.eqb rid ""); [done|].
  unfold Db.get_result_by_result_id. rewrite find_snoc_none by done.
  rewrite result_row_id, String.eqb_refl, result_row_path.
  by rewrite (proj2 (String.eqb_neq _ _) (path_of_nonempty _ _)), Hgone.
Qed.
End Props.
Section ResultsWitnesses.
Local Open Scope string_scope.

Definition demo_now : Q := inject_Z 1735689600.
Definition demo_isoformat (t : Q) : string := "2025-01-01T00:00:00+00:00".
Definition demo_strftime (t : Q) : string := "20250101_000000".
Definition demo_sha (s : string) : string := "3f9a".

Definition demo_save : option string * table * fsys :=
  save_analysis_result Cache.demo_iso demo_isoformat demo_strftime demo_sha Cache.demo_size
    "text" (PDict [("text", PStr "hello")]) [] ∅ demo_now.

Definition demo_file : dfile :=
  mk_dfile (Some (PDict [("text", PStr "hello"); ("timestamp", PStr "2025-01-01T00:00:00+00:00")]))
           demo_now 64.

Lemma save_get_roundtrip_witness :
  get_analysis_result "3f9a" demo_save.1.2 demo_save.2 =
    Some (PDict (dict_set "timestamp" (PStr "2025-01-01T00:00:00+00:00") [("text", PStr "hello")])).
Proof.
  apply (save_get_roundtrip Cache.demo_iso demo_isoformat demo_strftime demo_sha Cache.demo_size
           "text" [("text", PStr "hello")] [] ∅ demo_now "3f9a" demo_save.1.2 demo_save.2
           ".cache/text_analysis" demo_now); vm_compute; reflexivity.
Defined.

Lemma saved_result_lost_on_restart_witness :
  get_analysis_result "3f9a" demo_save.1.2
    (Cache.init Cache.demo_iso 100 ".cache/text_analysis" 86400 demo_save.2 (inject_Z 1735779600)).2
  = None.
Proof.
  apply (saved_result_lost_on_restart Cache.demo_iso demo_isoformat demo_strftime demo_sha
           Cache.demo_size "text" [("text", PStr "hello")] [] ∅ demo_now (inject_Z 1735779600)
           "3f9a" demo_save.1.2 demo_save.2 ".cache/text_analysis" demo_now demo_file);
    vm_compute; first [reflexivity | apply list_elem_of_here].
Defined.
End ResultsWitnesses.
End Results.
