(* ===== verification/Tasks.v ===== *)
(** * Tasks: the task table of [src/src/core/tasks/manager.py] and the
    worker of [src/src/core/tasks/worker.py]

    [TaskManager] keeps the tasks in the SQLite table [tasks]; the model's
    table is the list of its rows in insertion order.  [create_task],
    [get_task], [update_task], [cancel_task] and [get_pending_tasks] are
    the methods of lines 121-302, [row_to_task] is [_row_to_task] (83-119).
    The [metadata] and [result] columns hold [json.dumps] of a value that
    the program always builds from JSON, so the model stores the value and
    [_serialize_json]/[_deserialize_json] are the identity on it.  [Task]
    (pydantic 2) types both as [Optional[Dict]]: [row_to_task] refuses a
    row whose [result] or [metadata] is another JSON value, and
    [create_task] raises on such a metadata ([dict_opt]).

    [TaskWorker] (79-506) polls the pending tasks and runs [_process_task]
    on each.  Every [await] of [_process_task] is a point where other
    coroutines (the API's [cancel_task], another update) run, so the model
    runs the worker's database calls as a list of steps between which an
    arbitrary environment action [env i] changes the table.  The work
    between the calls is computed from its inputs: the uploaded file
    ([is_file], [load_file]: [file_utils.load_file_content]), the prompt
    template ([load_template]: [_load_template_content]), the provider
    ([get_handler] and the handler's [generate_text]) and the clean-up of
    the completion (lines 359-470, the parameter [postprocess]).  The clock
    ([now i]: [datetime.now(timezone.utc).isoformat()] at the i-th call) is
    an input as well. *)

From stdpp Require Import gmap.
From S2P Require Import Prelude Errors Http Json Cache.
Import Exc.

(** [TaskStatus], models.py 9-14. *)
Inductive task_status : Type := PENDING | RUNNING | COMPLETED | FAILED | CANCELLED.

#[export] Instance task_status_eq_dec : EqDecision task_status.
Proof. solve_decision. Defined.

Definition status_value (s : task_status) : string :=
  match s with
  | PENDING => "pending" | RUNNING => "running" | COMPLETED => "completed"
  | FAILED => "failed" | CANCELLED => "cancelled"
  end%string.

(** [TaskStatus(v)]: [None] is the [ValueError] of an unknown value. *)
Definition status_of_value (v : string) : option task_status :=
  find (fun s => String.eqb (status_value s) v) [PENDING; RUNNING; COMPLETED; FAILED; CANCELLED].

(** A row of [tasks] (manager.py 42-51). *)
Record task_row : Type := mk_task_row {
  t_id : string;
  t_status : string;
  t_progress : Q;
  t_created : string;
  t_updated : string;
  t_metadata : option pyval;
  t_result : option pyval;
  t_error : option string
}.

Abbreviation task_table := (list task_row).

(** [Task], models.py 16-24; the fields are prefixed, as [result] and
    [id] name other things here. *)
Record task : Type := mk_task {
  tk_id : string;
  tk_status : task_status;
  tk_progress : Q;
  tk_result : option pyval;
  tk_error : option string;
  tk_created_at : Q;
  tk_updated_at : Q;
  tk_metadata : option pyval
}.

Module TaskManager.
Section Ops.
Context (fromiso : string -> option Q).
Local Open Scope string_scope.

(** [Task]'s fields [result] and [metadata] are [Optional[Dict[str, Any]]]
    (models.py 20, 24): pydantic accepts [None] and a dict and refuses
    every other JSON value with a [ValidationError], a [ValueError]. *)
Definition dict_opt (v : option pyval) : bool :=
  match v with None | Some PNone | Some (PDict _) => true | Some _ => false end.

(** [_row_to_task], lines 83-119: a status the enum does not know, a date
    that does not parse or a [result] or [metadata] that is not a dict
    gives [None] (the [except (KeyError, ValueError, TypeError)]). *)
Definition row_to_task (r : task_row) : option task :=
  s ← status_of_value (t_status r);
  c ← fromiso (t_created r);
  u ← fromiso (t_updated r);
  if dict_opt (t_metadata r) && dict_opt (t_result r) then
    Some {| tk_id := t_id r; tk_status := s; tk_progress := t_progress r; tk_created_at := c;
            tk_updated_at := u; tk_metadata := t_metadata r; tk_result := t_result r;
            tk_error := t_error r |}
  else None.

(** [create_task(metadata)], lines 121-157: the new id ([uuid4()]) and the
    time are inputs.  The [Task] of lines 127-134 is built before the
    [try]: a metadata that is not a dict raises pydantic's
    [ValidationError] there.  The primary key then refuses an existing
    id. *)
Definition create_task (uid now_iso : string) (md : option pyval) (db : task_table)
  : result exc (task * task_table) :=
  match fromiso now_iso with
  | None => Err value_error
  | Some t =>
      if negb (dict_opt md) then Err value_error
      else if existsb (fun r => String.eqb (t_id r) uid) db then Err (mk_exc CIntegrityError [])
      else
        Ok ({| tk_id := uid; tk_status := PENDING; tk_progress := 0; tk_created_at := t;
               tk_updated_at := t; tk_metadata := md; tk_result := None; tk_error := None |},
            db ++ [mk_task_row uid "pending" 0 now_iso now_iso md None None])%list
  end.

(** [get_task(task_id)], lines 159-188. *)
Definition get_task (db : task_table) (tid : string) : option task :=
  r ← find (fun r => String.eqb (t_id r) tid) db; row_to_task r.

(** The fields an update sets (lines 199-217). *)
Record task_update : Type := mk_update {
  u_status : option task_status;
  u_progress : option Q;
  u_result : option pyval;
  u_error : option string
}.

(** [len(updates) <= 1]: only [updated_at] would be set. *)
Definition is_no_update (u : task_update) : bool :=
  match u with mk_update None None None None => true | _ => false end.

Definition apply_update (now_iso : string) (u : task_update) (r : task_row) : task_row :=
  {| t_id := t_id r;
     t_status := default (t_status r) (status_value <$> u_status u);
     t_progress := default (t_progress r) (u_progress u);
     t_created := t_created r; t_updated := now_iso;
     t_metadata := t_metadata r;
     t_result := match u_result u with Some v => Some v | None => t_result r end;
     t_error := match u_error u with Some e => Some e | None => t_error r end |}.

(** [update_task(task_id, status, progress, result, error)], lines
    190-249: without a field to set nothing is written and [None] is
    returned; otherwise the matching rows are updated and the task read
    back. *)
Definition update_task (db : task_table) (tid : string) (u : task_update) (now_iso : string)
  : option task * task_table :=
  if is_no_update u then (None, db)
  else
    let hit := existsb (fun r => String.eqb (t_id r) tid) db in
    let db' := map (fun r => if String.eqb (t_id r) tid then apply_update now_iso u r else r) db in
    if hit then (get_task db' tid, db') else (None, db').

(** [cancel_task(task_id)], lines 251-261: no check of the current
    status. *)
Definition cancel_task (db : task_table) (tid : string) (now_iso : string) : bool * task_table :=
  let '(t, db') := update_task db tid (mk_update (Some CANCELLED) None None None) now_iso in
  (match t with Some t => bool_decide (tk_status t = CANCELLED) | None => false end, db').

(** [ORDER BY created_at ASC]: SQLite compares text bytewise. *)
Fixpoint str_leb (a b : string) : bool :=
  match a, b with
  | EmptyString, _ => true
  | String _ _, EmptyString => false
  | String x a', String y b' =>
      let nx := Ascii.nat_of_ascii x in let ny := Ascii.nat_of_ascii y in
      if Nat.ltb nx ny then true else if Nat.ltb ny nx then false else str_leb a' b'
  end.

Fixpoint insert_asc (r : task_row) (l : task_table) : task_table :=
  match l with
  | [] => [r]
  | y :: l' => if str_leb (t_created y) (t_created r) then y :: insert_asc r l' else r :: l
  end.

(** [get_pending_tasks(limit)], lines 263-302: the [limit] oldest pending
    rows that convert.  SQL leaves the order of equal times open; the
    model keeps insertion order. *)
Definition get_pending_tasks (db : task_table) (limit : nat) : list task :=
  let rows := filter (fun r => String.eqb (t_status r) "pending") db in
  omap row_to_task (take limit (fold_left (fun acc r => insert_asc r acc) rows [])).

(** [SELECT status FROM tasks WHERE id = ?] and the existence of a row. *)
Definition status_of (db : task_table) (tid : string) : option string :=
  t_status <$> find (fun r => String.eqb (t_id r) tid) db.

Definition has_id (db : task_table) (tid : string) : bool :=
  existsb (fun r => String.eqb (t_id r) tid) db.

(** The number of pending rows. *)
Definition pending_count (db : task_table) : nat :=
  length (filter (fun r => String.eqb (t_status r) "pending") db).

(** Every row converts to a [Task]. *)
Definition rows_ok (db : task_table) : Prop := Forall (fun r => is_Some (row_to_task r)) db.

#[export] Instance rows_ok_dec db : Decision (rows_ok db).
Proof. unfold rows_ok. apply _. Defined.

(** Every pending row converts: [get_pending_tasks] skips none. *)
Definition pending_ok (db : task_table) : Prop :=
  Forall (fun r => String.eqb (t_status r) "pending" = true -> is_Some (row_to_task r)) db.

#[export] Instance pending_ok_dec db : Decision (pending_ok db).
Proof. unfold pending_ok. apply _. Defined.

(** The row of task [tid], when there is one, converts. *)
Definition row_ok (db : task_table) (tid : string) : Prop :=
  match find (fun r => String.eqb (t_id r) tid) db with
  | Some r => is_Some (row_to_task r)
  | None => True
  end.

#[export] Instance row_ok_dec db tid : Decision (row_ok db tid).
Proof. unfold row_ok. case_match; apply _. Defined.
End Ops.

(** The updates the program makes ([worker.py] 155-491, [cancel_task]):
    none sets [PENDING], and one without a status sets no [result] that
    [Task] refuses. *)
Definition not_pending (u : task_update) : Prop := forall s, u_status u = Some s -> s <> PENDING.

Definition program_update (u : task_update) : Prop :=
  not_pending u /\ (u_status u = None -> dict_opt (u_result u) = true).

Section Props.
Context (fromiso : string -> option Q).
Local Open Scope string_scope.

Lemma status_of_value_inv s : status_of_value (status_value s) = Some s.
Proof. by destruct s. Qed.

Lemma find_map_same_id (g : task_row -> task_row) db tid :
  (forall r, t_id (g r) = t_id r) ->
  find (fun r => String.eqb (t_id r) tid) (map (fun r => if String.eqb (t_id r) tid then g r else r) db)
  = g <$> find (fun r => String.eqb (t_id r) tid) db.
Proof.
  intros Hg. induction db as [|r db IH]; simpl; [done|].
  destruct (String.eqb (t_id r) tid) eqn:E; simpl; [by rewrite Hg, E|by rewrite E].
Qed.

Lemma find_map_other_id (g : task_row -> task_row) db tid tid' :
  (forall r, t_id (g r) = t_id r) ->
  find (fun r => String.eqb (t_id r) tid) (map (fun r => if String.eqb (t_id r) tid' then g r else r) db)
  = (fun r => if String.eqb (t_id r) tid' then g r else r) <$> find (fun r => String.eqb (t_id r) tid) db.
Proof.
  intros Hg. induction db as [|r db IH]; simpl; [done|].
  destruct (String.eqb (t_id r) tid') eqn:E'; simpl; rewrite ?Hg;
    destruct (String.eqb (t_id r) tid) eqn:E; simpl; rewrite ?E'; done.
Qed.

Lemma has_id_map (g : task_row -> task_row) db tid tid' :
  (forall r, t_id (g r) = t_id r) ->
  has_id (map (fun r => if String.eqb (t_id r) tid then g r else r) db) tid' = has_id db tid'.
Proof.
  intros Hg. unfold has_id. induction db as [|r db IH]; simpl; [done|].
  rewrite IH. by destruct (String.eqb (t_id r) tid); rewrite ?Hg.
Qed.

Lemma has_id_find db tid : has_id db tid = true -> is_Some (find (fun r => String.eqb (t_id r) tid) db).
Proof.
  unfold has_id. induction db as [|r db IH]; simpl; [discriminate|].
  destruct (String.eqb (t_id r) tid); [by eexists|done].
Qed.

(** An update keeps the set of ids. *)
Lemma update_task_has_id db tid u now tid' :
  has_id (update_task fromiso db tid u now).2 tid' = has_id db tid'.
Proof. unfold update_task. destruct (is_no_update u); [done|]. by destruct (existsb _ db); apply has_id_map. Qed.

(** An update with a status sets the status of the task, when it exists. *)
Lemma update_task_status db tid u now s :
  u_status u = Some s -> has_id db tid = true ->
  status_of (update_task fromiso db tid u now).2 tid = Some (status_value s).
Proof.
  intros Hs Hid. unfold update_task.
  assert (is_no_update u = false) as -> by (destruct u as [[]]; simplify_eq/=; done).
  fold (has_id db tid). rewrite Hid. simpl. unfold status_of.
  rewrite find_map_same_id by done. destruct (has_id_find db tid Hid) as [r ->]. simpl.
  by rewrite Hs.
Qed.

Lemma row_to_task_Some r t :
  row_to_task fromiso r = Some t -> status_of_value (t_status r) = Some (tk_status t) /\ tk_id t = t_id r.
Proof.
  unfold row_to_task. destruct (status_of_value _); [|done]. simpl.
  destruct (fromiso (t_created r)), (fromiso (t_updated r)), (dict_opt _ && dict_opt _);
    simpl; intros; simplify_eq/=; done.
Qed.

Lemma apply_update_ok now u r :
  dict_opt (u_result u) = true -> is_Some (fromiso now) -> is_Some (row_to_task fromiso r) ->
  is_Some (row_to_task fromiso (apply_update now u r)).
Proof.
  intros Hu [t Ht] [x Hr]. unfold row_to_task in *.
  unfold apply_update; cbn [t_status t_created t_updated t_metadata t_result].
  destruct (status_of_value (t_status r)) as [s|] eqn:Es; [|done]. simpl in Hr.
  destruct (fromiso (t_created r)) as [c|]; [|done]. simpl in Hr |- *.
  destruct (fromiso (t_updated r)); [|done]. simpl in Hr.
  destruct (dict_opt (t_metadata r)) eqn:Em; [|done]. destruct (dict_opt (t_result r)) eqn:Er; [|done].
  assert (status_of_value (default (t_status r) (status_value <$> u_status u))
          = Some (default s (u_status u))) as ->.
  { destruct (u_status u); simpl; [apply status_of_value_inv|done]. }
  assert (dict_opt (match u_result u with Some v => Some v | None => t_result r end) = true) as ->
    by (by destruct (u_result u)).
  simpl. rewrite Ht. by eexists.
Qed.

Lemma update_task_rows_ok db tid u now :
  dict_opt (u_result u) = true -> is_Some (fromiso now) -> rows_ok fromiso db ->
  rows_ok fromiso (update_task fromiso db tid u now).2.
Proof.
  intros Hu Hn Hok. unfold update_task. destruct (is_no_update u); [done|].
  assert (rows_ok fromiso (map (fun r => if String.eqb (t_id r) tid then apply_update now u r else r) db)).
  { apply Forall_fmap, (Forall_impl _ _ _ Hok). intros r Hr. simpl.
    destruct (String.eqb _ _); [by apply apply_update_ok|done]. }
  by destruct (existsb _ _).
Qed.

(** An update keeps the row of every task convertible. *)
Lemma update_task_row_ok db tid' u now tid :
  dict_opt (u_result u) = true -> is_Some (fromiso now) -> row_ok fromiso db tid ->
  row_ok fromiso (update_task fromiso db tid' u now).2 tid.
Proof.
  intros Hu Hn. unfold update_task, row_ok. destruct (is_no_update u); [done|].
  assert (forall db', db' = map (fun r => if String.eqb (t_id r) tid' then apply_update now u r else r) db ->
            (match find (fun r => String.eqb (t_id r) tid) db with
             | Some r => is_Some (row_to_task fromiso r) | None => True end) ->
            match find (fun r => String.eqb (t_id r) tid) db' with
            | Some r => is_Some (row_to_task fromiso r) | None => True end) as Hmap.
  { intros db' ->. rewrite find_map_other_id by done.
    destruct (find _ db) as [r|]; simpl; [|done]. destruct (String.eqb _ _); [by apply apply_update_ok|done]. }
  by destruct (existsb _ _); apply Hmap.
Qed.

(** A successful update reads the task back, when the task's row
    converts. *)
Lemma update_task_found_row db tid u now :
  is_no_update u = false -> dict_opt (u_result u) = true -> has_id db tid = true ->
  is_Some (fromiso now) -> row_ok fromiso db tid -> is_Some (update_task fromiso db tid u now).1.
Proof.
  intros Hu Hres Hid Hn Hrow. unfold update_task. rewrite Hu.
  change (existsb (fun r => String.eqb (t_id r) tid) db) with (has_id db tid). rewrite Hid. simpl.
  unfold get_task. rewrite find_map_same_id by done. unfold row_ok in Hrow.
  destruct (has_id_find db tid Hid) as [r Hr]. rewrite Hr in Hrow |- *. simpl.
  by apply apply_update_ok.
Qed.

Lemma rows_ok_row_ok db tid : rows_ok fromiso db -> row_ok fromiso db tid.
Proof.
  intros Hok. unfold row_ok. destruct (find _ db) as [r|] eqn:Hr; [|done].
  apply find_some in Hr as [Hin%list_elem_of_In _]. unfold rows_ok in Hok.
  rewrite Forall_forall in Hok. by apply Hok.
Qed.

Lemma update_task_found db tid u now :
  is_no_update u = false -> dict_opt (u_result u) = true -> has_id db tid = true ->
  is_Some (fromiso now) -> rows_ok fromiso db -> is_Some (update_task fromiso db tid u now).1.
Proof. intros ? ? ? ? Hok. apply update_task_found_row; [done..|by apply rows_ok_row_ok]. Qed.

Lemma update_task_read_back db tid u now s t :
  u_status u = Some s -> (update_task fromiso db tid u now).1 = Some t -> tk_status t = s.
Proof.
  intros Hs. unfold update_task.
  assert (is_no_update u = false) as -> by (destruct u as [[]]; simplify_eq/=; done).
  destruct (existsb _ db); simpl; [|discriminate]. unfold get_task.
  rewrite find_map_same_id by done.
  destruct (find _ db) as [r|]; simpl; [|discriminate].
  intros [Hst _]%row_to_task_Some. revert Hst.
  cbn [apply_update t_status]. rewrite Hs. simpl. rewrite status_of_value_inv. congruence.
Qed.

(** [cancel_task] succeeds on every task of the table whatever its status:
    a completed or failed task becomes cancelled. *)
Theorem cancel_task_no_guard db tid now :
  has_id db tid = true -> rows_ok fromiso db -> is_Some (fromiso now) ->
  (cancel_task fromiso db tid now).1 = true /\
  status_of (cancel_task fromiso db tid now).2 tid = Some "cancelled".
Proof.
  intros Hid Hok Hn. unfold cancel_task.
  pose proof (update_task_found db tid (mk_update (Some CANCELLED) None None None) now
                eq_refl eq_refl Hid Hn Hok) as [t Ht].
  pose proof (update_task_read_back db tid (mk_update (Some CANCELLED) None None None) now
                CANCELLED t eq_refl Ht) as Hst.
  pose proof (update_task_status db tid (mk_update (Some CANCELLED) None None None) now
                CANCELLED eq_refl Hid) as Hs.
  destruct (update_task fromiso db tid _ now) as [t1 db']. simpl in *. subst t1.
  split; [by rewrite bool_decide_eq_true|done].
Qed.

Lemma length_omap_le {A B} (f : A -> option B) l : length (omap f l) <= length l.
Proof.
  induction l as [|x l IH]; [done|].
  change (omap f (x :: l)) with (match f x with Some y => y :: omap f l | None => omap f l end).
  destruct (f x); simpl; lia.
Qed.

Lemma insert_asc_perm r l : insert_asc r l ≡ₚ r :: l.
Proof.
  induction l as [|y l IH]; simpl; [done|].
  destruct (str_leb _ _); [|done]. rewrite IH. apply perm_swap.
Qed.

Lemma sort_asc_perm l : fold_left (fun acc r => insert_asc r acc) l [] ≡ₚ l.
Proof.
  rewrite <-(app_nil_r l) at 2. generalize (@nil task_row) as acc.
  induction l as [|x l IH]; intros acc; simpl; [done|].
  rewrite IH, insert_asc_perm. by rewrite <-Permutation_middle.
Qed.

(** [get_pending_tasks] returns pending tasks only, at most [limit] of them. *)
Theorem get_pending_tasks_spec db limit :
  Forall (fun t => tk_status t = PENDING) (get_pending_tasks fromiso db limit) /\
  length (get_pending_tasks fromiso db limit) <= limit.
Proof.
  unfold get_pending_tasks. set (rows := filter _ db).
  set (sorted := fold_left _ rows []).
  assert (Forall (fun r => String.eqb (t_status r) "pending" = true) sorted) as Hp.
  { unfold sorted. rewrite (sort_asc_perm rows). apply Forall_forall. intros r Hr.
    unfold rows in Hr. apply list_elem_of_filter in Hr as [HP _].
    by destruct (String.eqb (t_status r) "pending"). }
  split.
  - apply Forall_forall. intros t (r & Hr & Ht)%list_elem_of_omap.
    apply subseteq_take in Hr. rewrite Forall_forall in Hp. apply Hp, String.eqb_eq in Hr.
    apply row_to_task_Some in Ht as [Ht _]. rewrite Hr in Ht. by injection Ht.
  - etransitivity; [apply length_omap_le|]. rewrite length_take. lia.
Qed.

Lemma status_value_pending s : String.eqb (status_value s) "pending" = bool_decide (s = PENDING).
Proof. by destruct s. Qed.

Section FilterMap.
Context {A : Type} (p : A -> bool) (g : A -> A).
Hypothesis g_mono : forall x, p (g x) = true -> p x = true.

Lemma filter_map_le l : length (filter p (map g l)) <= length (filter p l).
Proof.
  induction l as [|x l IH]; simpl; [done|]. rewrite !filter_cons.
  pose proof (g_mono x). destruct (p (g x)) eqn:E1, (p x) eqn:E2; simpl; try lia; by specialize (H eq_refl).
Qed.
Lemma filter_map_lt l :
  Exists (fun x => p x = true /\ p (g x) = false) l ->
  length (filter p (map g l)) < length (filter p l).
Proof.
  induction 1 as [x l [Hx Hgx]|x l _ IH]; simpl; rewrite !filter_cons.
  - pose proof (filter_map_le l). rewrite Hx, Hgx. simpl. lia.
  - pose proof (g_mono x). destruct (p (g x)) eqn:E1, (p x) eqn:E2; simpl; try lia; by specialize (H eq_refl).
Qed.
End FilterMap.

Lemma update_task_table db tid u now :
  is_no_update u = false ->
  (update_task fromiso db tid u now).2 =
  map (fun r => if String.eqb (t_id r) tid then apply_update now u r else r) db.
Proof. intros Hno. unfold update_task. rewrite Hno. by destruct (existsb _ db). Qed.

(** What [update_task] answers is the task read back from the new table. *)
Lemma update_task_get_back db tid u now :
  is_no_update u = false -> has_id db tid = true ->
  (update_task fromiso db tid u now).1 = get_task fromiso (update_task fromiso db tid u now).2 tid.
Proof.
  intros Hno Hid. unfold update_task. rewrite Hno.
  change (existsb (fun r => String.eqb (t_id r) tid) db) with (has_id db tid). by rewrite Hid.
Qed.

Lemma apply_update_pending now u r :
  (forall s, u_status u = Some s -> s <> PENDING) ->
  String.eqb (t_status (apply_update now u r)) "pending" = true -> String.eqb (t_status r) "pending" = true.
Proof.
  intros Hs. unfold apply_update. cbn [t_status].
  destruct (u_status u) as [s|] eqn:E; simpl; [|done].
  rewrite status_value_pending, bool_decide_eq_true. intros ->. by destruct (Hs PENDING).
Qed.

(** An update that does not set [PENDING] never adds a pending row. *)
Lemma update_task_pending_le db tid u now :
  (forall s, u_status u = Some s -> s <> PENDING) ->
  pending_count (update_task fromiso db tid u now).2 <= pending_count db.
Proof.
  intros Hs. destruct (is_no_update u) eqn:Hno; [unfold update_task; rewrite Hno; done|].
  rewrite update_task_table by done. apply filter_map_le. intros r.
  destruct (String.eqb (t_id r) tid); [by apply apply_update_pending|done].
Qed.

(** An update setting a status other than [PENDING] removes the pending row
    of its task. *)
Lemma update_task_pending_lt db tid u now s :
  u_status u = Some s -> s <> PENDING ->
  Exists (fun r => t_id r = tid /\ t_status r = "pending") db ->
  pending_count (update_task fromiso db tid u now).2 < pending_count db.
Proof.
  intros Hus Hs Hex.
  assert (forall s', u_status u = Some s' -> s' <> PENDING) as Hs' by (intros s' E; congruence).
  rewrite update_task_table by (destruct u as [[] ? ? ?]; simplify_eq/=; done).
  apply filter_map_lt.
  - intros r. destruct (String.eqb (t_id r) tid); [by apply apply_update_pending|done].
  - eapply Exists_impl; [exact Hex|]. intros r [-> ->]. rewrite !String.eqb_refl. split; [done|].
    unfold apply_update. cbn [t_status]. rewrite Hus. simpl. rewrite status_value_pending.
    by apply bool_decide_eq_false_2.
Qed.

(** The program's updates keep every pending row convertible. *)
Lemma update_task_pending_ok db tid u now :
  program_update u -> is_Some (fromiso now) -> pending_ok fromiso db ->
  pending_ok fromiso (update_task fromiso db tid u now).2.
Proof.
  intros [Hnp Hres] Hn Hok. destruct (is_no_update u) eqn:Hno; [unfold update_task; by rewrite Hno|].
  rewrite update_task_table by done. apply Forall_fmap, (Forall_impl _ _ _ Hok). intros r Hr. simpl.
  destruct (String.eqb (t_id r) tid); [|done]. unfold apply_update at 1. cbn [t_status].
  destruct (u_status u) as [s|] eqn:Hs; simpl.
  - rewrite status_value_pending, bool_decide_eq_true. intros ->. by destruct (Hnp PENDING).
  - intros Hp. apply apply_update_ok; [by apply Hres|done|by apply Hr].
Qed.

Lemma get_pending_tasks_row d limit t ts :
  get_pending_tasks fromiso d limit = t :: ts ->
  Exists (fun r => t_id r = tk_id t /\ t_status r = "pending") d.
Proof.
  intros E. assert (t ∈ get_pending_tasks fromiso d limit) as Ht by (rewrite E; left).
  unfold get_pending_tasks in Ht. apply list_elem_of_omap in Ht as (r & Hr & Hrt).
  apply subseteq_take, (elem_of_Permutation_proper _ _ _ (sort_asc_perm _)),
    list_elem_of_filter in Hr as [Hp Hr].
  apply Exists_exists. exists r. split; [done|]. split.
  - symmetry. by apply row_to_task_Some in Hrt as [_ ?].
  - by destruct (String.eqb_spec (t_status r) "pending").
Qed.

Lemma get_pending_tasks_nonempty d limit :
  pending_ok fromiso d -> 0 < pending_count d -> 0 < limit -> get_pending_tasks fromiso d limit <> [].
Proof.
  intros Hok Hp Hl. unfold get_pending_tasks.
  pose proof (sort_asc_perm (filter (fun r => String.eqb (t_status r) "pending") d)) as Hperm.
  destruct (fold_left _ _ []) as [|r rest] eqn:E.
  { apply Permutation_length in Hperm. unfold pending_count in Hp. simpl in Hperm. lia. }
  destruct limit as [|limit]; [lia|]. simpl.
  assert (String.eqb (t_status r) "pending" = true /\ r ∈ d) as [Hp' Hr].
  { assert (r ∈ r :: rest) as Hr by left. rewrite Hperm in Hr. apply list_elem_of_filter in Hr as [? ?].
    split; [by destruct (String.eqb _ _)|done]. }
  unfold pending_ok in Hok. rewrite Forall_forall in Hok. destruct (Hok r Hr Hp') as [t Ht].
  change (omap (row_to_task fromiso) (r :: take limit rest)) with
    (match row_to_task fromiso r with Some y => y :: omap (row_to_task fromiso) (take limit rest)
     | None => omap (row_to_task fromiso) (take limit rest) end).
  by rewrite Ht.
Qed.
End Props.
End TaskManager.

Module Worker.
Import TaskManager.
Section Ops.
Context `{Render} (fromiso : string -> option Q) (now : nat -> string)
        (is_file : string -> bool) (load_file : string -> string)
        (load_template : string -> option (pydict string pyval))
        (get_handler : pyval -> result exc (pyval -> pyval -> result exc pyval))
        (postprocess : pyval -> pyval -> pyval -> pyval).
Local Open Scope string_scope.

(** [raise ValueError(msg)] *)
Definition value_err (msg : string) : exc := mk_exc CValueError [("message", PStr msg)].

(** [UPLOAD_DIR / file_path_relative], relative to the project root. *)
Definition upload_path (rel : string) : string := "data/uploads/" ++ rel.

Definition fail_update (e : exc) : task_update :=
  mk_update (Some FAILED) None None
    (Some (if isinstance e [CValueError] then exc_str e else "Unhandled exception: " ++ exc_str e)).

Definition progress_update (p : Q) : task_update := mk_update None (Some p) None None.

Definition complete_update (res : pyval) : task_update :=
  mk_update (Some COMPLETED) (Some (inject_Z 100)) (Some res) None.

(** Lines 203-268: the parameters and the text to analyse. *)
Definition prepare (md : pyval) : result exc (pyval * pyval * pyval * pyval * pyval) :=
  let? p := py_get md "params" PNone in
  let params := match p with PDict _ => p | _ => md end in
  let? text0 := py_get params "text" (PStr "") in
  let? file := py_get params "file_path" PNone in
  let? text :=
    if negb (py_truthy text0) && py_truthy file then
      match file with
      | PStr rel =>
          if is_file (upload_path rel) then Ok (PStr (load_file (upload_path rel)))
          else Err (value_err ("File not found at path: " ++ rel))
      | _ => Err (value_err "Invalid file_path type received in task parameters.")
      end
    else Ok text0 in
  if negb (py_truthy text) then Err (value_err "Text/File content is missing after attempting all sources.")
  else
    let? atype := py_get params "analysis_type" (PStr "simple") in
    let? options := py_get params "options" (PList []) in
    let? provider := py_get md "api_provider" PNone in
    let? model := py_get md "model" PNone in
    let? tid := py_get md "template" PNone in
    if negb (py_truthy atype) then Err (value_err "Analysis type is missing")
    else if negb (py_truthy options) then Err (value_err "Analysis options are missing")
    else Ok (text, atype, provider, model, tid).

(** Lines 293-344: the prompt, from the template when one is named. *)
Definition build_prompt (template_id text : pyval) : result exc pyval :=
  let? from_template :=
    if py_truthy template_id then
      match template_id with
      | PStr tid =>
          match load_template tid with
          | Some td =>
              let final := match dict_get "full_prompt_template" td with
                           | Some v => v
                           | None => default PNone (dict_get "prompt" td)
                           end in
              if py_truthy final then
                let? has_input := py_in "{input_text}" final in
                if has_input then
                  match final, text with
                  | PStr f, PStr t => Ok (PStr (py_replace f "{input_text}" t))
                  | _, _ => Err attribute_error
                  end
                else
                  let? has_text := py_in "{{text}}" final in
                  if has_text then
                    match final, text with
                    | PStr f, PStr t => Ok (PStr (py_replace f "{{text}}" t))
                    | _, _ => Err attribute_error
                    end
                  else Ok final
              else Ok PNone
          | None => Ok PNone
          end
      | _ => Err type_error
      end
    else Ok PNone in
  if py_truthy from_template then Ok from_template
  else if py_truthy template_id then
    Err (value_err ("Failed to load expected template '" ++ py_str template_id ++ "' for deep analysis."))
  else Ok text.

(** The updates [_process_task] makes after marking the task running
    (lines 203-491), in order; the last one completes or fails it. *)
Definition rest_updates (md : pyval) : list task_update :=
  match prepare md with
  | Err e => [fail_update e]
  | Ok (text, atype, provider, model, tid) =>
      progress_update (2 # 10)%Q ::
      if py_key_eqb atype (PStr "basic") then
        [progress_update (9 # 10)%Q;
         complete_update (PDict [("status", PStr "success");
                                 ("message", PStr "Basic analysis completed.")])]
      else if py_key_eqb atype (PStr "literature") || py_key_eqb atype (PStr "deep") then
        if negb (py_truthy provider) then
          [fail_update (value_err (py_str atype ++ " analysis requires an API provider"))]
        else
          progress_update (5 # 10)%Q ::
          match (let? gen := get_handler provider in
                 let? prompt := build_prompt tid text in
                 let? completion := gen prompt model in
                 Ok (postprocess tid atype completion)) with
          | Ok res => [complete_update res]
          | Err e => [fail_update e]
          end
      else [complete_update (PDict [])]
  end.

(** The first call (lines 180-199): [FAILED] without metadata, otherwise
    [RUNNING] at 10%. *)
Definition first_update (md : pyval) : task_update :=
  if py_truthy md then mk_update (Some RUNNING) (Some (1 # 10)%Q) None None
  else mk_update (Some FAILED) None None (Some "Task metadata is missing").

(** The worker's calls from the [i]-th on; [env j] is what the other
    coroutines do to the table while the worker waits before its [j]-th
    call. *)
Fixpoint run_calls (env : nat -> task_table -> task_table) (i : nat) (tid : string)
         (us : list task_update) (db : task_table) : nat * task_table :=
  match us with
  | [] => (i, db)
  | u :: r => run_calls env (S i) tid r (update_task fromiso (env i db) tid u (now i)).2
  end.

(** [_process_task(task_id, metadata)], lines 178-491: the returned flag
    of the first update ([if not success: return]) decides whether the
    rest runs. *)
Definition process_task (env : nat -> task_table -> task_table) (i : nat) (tid : string)
           (md : pyval) (db : task_table) : nat * task_table :=
  let '(t1, db1) := update_task fromiso (env i db) tid (first_update md) (now i) in
  if negb (py_truthy md) then (S i, db1)
  else match t1 with
       | None => (S i, db1)
       | Some _ => run_calls env (S i) tid (rest_updates md) db1
       end.

(** One task of a round of [_worker_loop] (lines 138-166): the no-op
    [update_task(task)] of line 155 (the task object is passed as the id
    and no field is set, so nothing is written) and [_process_task]. *)
Definition tick_step (env : nat -> task_table -> task_table) (jd : nat * task_table) (t : task)
  : nat * task_table :=
  let '(j, d) := jd in
  let d1 := (update_task fromiso (env j d) (tk_id t) (mk_update None None None None) (now j)).2 in
  process_task env (S j) (tk_id t) (default PNone (tk_metadata t)) d1.

(** One round of [_worker_loop] (lines 118-176): the pending tasks, then
    each in turn. *)
Definition tick (env : nat -> task_table -> task_table) (i : nat) (db : task_table)
  : nat * task_table :=
  let db0 := env i db in
  fold_left (tick_step env) (get_pending_tasks fromiso db0 10) (S i, db0).

(** [n] rounds of the [while self.is_running] loop. *)
Fixpoint ticks (env : nat -> task_table -> task_table) (n i : nat) (db : task_table) : task_table :=
  match n with
  | O => db
  | S n' => let '(j, db') := tick env i db in ticks env n' j db'
  end.
End Ops.

Section Props.
Context `{Render} (fromiso : string -> option Q) (now : nat -> string)
        (is_file : string -> bool) (load_file : string -> string)
        (load_template : string -> option (pydict string pyval))
        (get_handler : pyval -> result exc (pyval -> pyval -> result exc pyval))
        (postprocess : pyval -> pyval -> pyval -> pyval).
Context (env : nat -> task_table -> task_table).
Hypothesis env_has_id : forall j d tid, has_id (env j d) tid = has_id d tid.
Hypothesis env_row_ok : forall j d tid, row_ok fromiso d tid -> row_ok fromiso (env j d) tid.
Hypothesis now_ok : forall j, is_Some (fromiso (now j)).

Definition terminal (u : task_update) : Prop :=
  exists s, s ∈ [COMPLETED; FAILED] /\ u_status u = Some s.

Lemma rest_updates_last md :
  exists u, last (rest_updates is_file load_file load_template get_handler postprocess md) = Some u /\
            terminal u.
Proof.
  unfold rest_updates. repeat case_match; simpl; eexists; split; try done;
    eexists; split; [|done| |done| |done| |done| |done|..]; set_solver.
Qed.

(** The worker's calls end with the status of their last update, whatever
    happens to the table in between. *)
Lemma run_calls_status i tid us d u s :
  last us = Some u -> u_status u = Some s -> has_id d tid = true ->
  status_of (run_calls fromiso now env i tid us d).2 tid = Some (status_value s).
Proof.
  revert i d. induction us as [|u' us IH]; intros i d Hl Hs Hid; [discriminate|].
  destruct us as [|u'' us].
  - simpl in Hl. injection Hl as ->. simpl. apply update_task_status; [done|]. by rewrite env_has_id.
  - cbn [run_calls]. apply IH; [done|done|]. by rewrite update_task_has_id, env_has_id.
Qed.

(** C38: Whatever the other coroutines do to the table while [_process_task]
    waits (cancelling the task included), as long as the task's row stays
    and converts to a [Task] (its result and metadata dicts or null), the
    task ends completed or failed: every write of the worker is
    unconditional, so a cancellation made meanwhile is overwritten. *)
Theorem process_task_overrides_cancel i tid md d :
  has_id d tid = true -> row_ok fromiso d tid ->
  exists s, s ∈ [COMPLETED; FAILED] /\
    status_of (process_task fromiso now is_file load_file load_template get_handler postprocess
                 env i tid md d).2 tid = Some (status_value s).
Proof.
  intros Hid Hok. unfold process_task.
  pose proof (update_task_has_id fromiso (env i d) tid (first_update md) (now i) tid) as Hid1.
  rewrite env_has_id, Hid in Hid1.
  destruct (py_truthy md) eqn:Hmd.
  - assert (is_Some (update_task fromiso (env i d) tid (first_update md) (now i)).1) as Hfound.
    { apply update_task_found_row; [by unfold first_update; rewrite Hmd|by unfold first_update; rewrite Hmd
                                    |by rewrite env_has_id|done|by apply env_row_ok]. }
    destruct (update_task fromiso (env i d) tid (first_update md) (now i)) as [t1 d1] eqn:E.
    simpl in Hfound, Hid1 |- *. destruct Hfound as [t ->].
    destruct (rest_updates_last md) as (u & Hl & s & Hs & Hus).
    exists s. split; [done|]. by apply (run_calls_status _ _ _ _ _ _ Hl Hus).
  - pose proof (update_task_status fromiso (env i d) tid (first_update md) (now i) FAILED) as Hst.
    destruct (update_task fromiso (env i d) tid (first_update md) (now i)) as [t1 d1].
    exists FAILED. split; [set_solver|]. simpl. apply Hst; [by unfold first_update; rewrite Hmd|].
    by rewrite env_has_id.
Qed.
Lemma row_to_task_list_result r l : t_result r = Some (PList l) -> row_to_task fromiso r = None.
Proof.
  intros Hr. unfold row_to_task. rewrite Hr.
  destruct (status_of_value _), (fromiso (t_created r)), (fromiso (t_updated r)); simpl; try done.
  by rewrite andb_false_r.
Qed.

(** A JSON array as the result of the analysis (a [json.loads] of the
    completion that gives a list, or a list completion stored as it is,
    worker.py 396-410 and 449-451) is written by the completing update,
    but [Task] refuses it: [update_task] answers [None], and the task,
    whose row says completed, is never read again ([get_task] gives
    [None], so [GET /api/tasks/{id}] answers 404). *)
Theorem list_result_unreadable d tid iso l :
  has_id d tid = true ->
  (update_task fromiso d tid (complete_update (PList l)) iso).1 = None /\
  status_of (update_task fromiso d tid (complete_update (PList l)) iso).2 tid = Some "completed" /\
  get_task fromiso (update_task fromiso d tid (complete_update (PList l)) iso).2 tid = None.
Proof.
  intros Hid. split_and!.
  - rewrite (update_task_get_back fromiso d tid (complete_update (PList l)) iso eq_refl Hid).
    unfold get_task. rewrite update_task_table, find_map_same_id by done.
    destruct (has_id_find d tid Hid) as [r ->]. simpl. by apply (row_to_task_list_result _ l).
  - by apply (update_task_status fromiso d tid (complete_update (PList l)) iso COMPLETED).
  - unfold get_task. rewrite update_task_table, find_map_same_id by done.
    destruct (has_id_find d tid Hid) as [r ->]. simpl. by apply (row_to_task_list_result _ l).
Qed.
End Props.

Section Liveness.
Context `{Render} (fromiso : string -> option Q) (now : nat -> string)
        (is_file : string -> bool) (load_file : string -> string)
        (load_template : string -> option (pydict string pyval))
        (get_handler : pyval -> result exc (pyval -> pyval -> result exc pyval))
        (postprocess : pyval -> pyval -> pyval -> pyval).
Hypothesis now_ok : forall j, is_Some (fromiso (now j)).

(** No other coroutine touches the table. *)
Definition quiet : nat -> task_table -> task_table := fun _ d => d.

Lemma rest_updates_program md :
  Forall program_update (rest_updates is_file load_file load_template get_handler postprocess md).
Proof.
  unfold rest_updates, program_update, not_pending.
  repeat case_match; repeat constructor; try (intros s' Hs'; simplify_eq/=; discriminate); done.
Qed.

Lemma run_calls_quiet i tid us d :
  Forall program_update us -> pending_ok fromiso d ->
  pending_count (run_calls fromiso now quiet i tid us d).2 <= pending_count d /\
  pending_ok fromiso (run_calls fromiso now quiet i tid us d).2.
Proof.
  revert i d. induction us as [|u us IH]; intros i d Hus Hok; simpl; [done|].
  apply Forall_cons in Hus as [Hu Hus].
  destruct (IH (S i) (update_task fromiso d tid u (now i)).2 Hus) as [Hle Hok'];
    [by apply update_task_pending_ok|].
  split; [|done]. etransitivity; [exact Hle|]. by apply update_task_pending_le, Hu.
Qed.

Lemma process_task_quiet i tid md d :
  pending_ok fromiso d ->
  (Exists (fun r => t_id r = tid /\ t_status r = "pending") d ->
   pending_count (process_task fromiso now is_file load_file load_template get_handler postprocess
                    quiet i tid md d).2 < pending_count d) /\
  pending_count (process_task fromiso now is_file load_file load_template get_handler postprocess
                   quiet i tid md d).2 <= pending_count d /\
  pending_ok fromiso (process_task fromiso now is_file load_file load_template get_handler postprocess
                     quiet i tid md d).2.
Proof.
  intros Hok. unfold process_task. change (quiet i d) with d.
  assert (program_update (first_update md) /\ is_Some (u_status (first_update md))) as [Hf Hfs].
  { unfold first_update, program_update, not_pending.
    destruct (py_truthy md); split_and!; try (intros ? [= <-]; done); try by eexists; done. }
  pose proof (update_task_pending_le fromiso d tid (first_update md) (now i) (proj1 Hf)) as Hle.
  pose proof (update_task_pending_ok fromiso d tid (first_update md) (now i) Hf (now_ok i) Hok) as Hok1.
  assert (Exists (fun r => t_id r = tid /\ t_status r = "pending") d ->
          pending_count (update_task fromiso d tid (first_update md) (now i)).2 < pending_count d) as Hlt.
  { destruct Hfs as [s Hs]. intros Hex. eapply update_task_pending_lt; [exact Hs| |exact Hex].
    by apply (proj1 Hf). }
  destruct (update_task fromiso d tid (first_update md) (now i)) as [t1 d1]. simpl in *.
  destruct (negb (py_truthy md)); [done|]. destruct t1; [|done].
  destruct (run_calls_quiet (S i) tid (rest_updates is_file load_file load_template get_handler
                                         postprocess md) d1 (rest_updates_program md) Hok1)
    as [Hle' Hok'].
  split_and!; [intros Hex; specialize (Hlt Hex); lia|lia|done].
Qed.

Lemma tick_step_quiet j d t :
  tick_step fromiso now is_file load_file load_template get_handler postprocess quiet (j, d) t =
  process_task fromiso now is_file load_file load_template get_handler postprocess
    quiet (S j) (tk_id t) (default PNone (tk_metadata t)) d.
Proof. done. Qed.

Lemma tick_fold_quiet ts j d :
  pending_ok fromiso d ->
  let r := fold_left (tick_step fromiso now is_file load_file load_template get_handler postprocess
                        quiet) ts (j, d) in
  pending_count r.2 <= pending_count d /\ pending_ok fromiso r.2 /\
  (forall t ts', ts = t :: ts' ->
     Exists (fun r => t_id r = tk_id t /\ t_status r = "pending") d ->
     pending_count r.2 < pending_count d).
Proof.
  revert j d. induction ts as [|t ts IH]; intros j d Hok; cbn [fold_left];
    [split_and!; [done|done|by intros]|].
  rewrite tick_step_quiet.
  destruct (process_task_quiet (S j) (tk_id t) (default PNone (tk_metadata t)) d Hok)
    as (Hlt & Hle & Hok').
  destruct (process_task fromiso now is_file load_file load_template get_handler postprocess
              quiet (S j) (tk_id t) (default PNone (tk_metadata t)) d) as [j' d'].
  destruct (IH j' d' Hok') as (Hle' & Hok'' & _). simpl in *.
  split_and!; [lia|done|]. intros t' ts' [= <- <-] Hex. specialize (Hlt Hex). lia.
Qed.

Lemma tick_quiet_le i d :
  pending_ok fromiso d ->
  pending_count (tick fromiso now is_file load_file load_template get_handler postprocess quiet i d).2
    <= pending_count d /\
  pending_ok fromiso (tick fromiso now is_file load_file load_template get_handler postprocess quiet i d).2.
Proof. intros Hok. unfold tick. destruct (tick_fold_quiet (get_pending_tasks fromiso d 10) (S i) d Hok) as (? & ? & _). done. Qed.

(** Without other activity on the table, a round of the worker loop over a
    table with pending tasks leaves strictly fewer pending tasks. *)
Lemma tick_progress i d :
  pending_ok fromiso d -> 0 < pending_count d ->
  pending_count (tick fromiso now is_file load_file load_template get_handler postprocess quiet i d).2
    < pending_count d /\
  pending_ok fromiso (tick fromiso now is_file load_file load_template get_handler postprocess quiet i d).2.
Proof.
  intros Hok Hp. unfold tick. change (quiet i d) with d.
  destruct (get_pending_tasks fromiso d 10) as [|t ts] eqn:E.
  { by destruct (get_pending_tasks_nonempty fromiso d 10 Hok Hp ltac:(lia)). }
  destruct (tick_fold_quiet (t :: ts) (S i) d Hok) as (_ & Hok' & Hlt).
  split; [|done]. apply (Hlt t ts eq_refl). by apply (get_pending_tasks_row fromiso d 10 t ts).
Qed.

(** C39: Liveness of the worker: started on a table whose rows all convert, and
    left alone, the loop has processed every pending task after as many
    rounds as there are pending tasks. *)
Theorem worker_drains n i d :
  pending_ok fromiso d -> pending_count d <= n ->
  pending_count (ticks fromiso now is_file load_file load_template get_handler postprocess quiet n i d) = 0.
Proof.
  revert i d. induction n as [|n IH]; intros i d Hok Hn; simpl; [lia|].
  destruct (tick_quiet_le i d Hok) as [Hle Hok'].
  destruct (decide (pending_count d = 0)) as [H0|H0].
  - destruct (tick _ _ _ _ _ _ _ quiet i d) as [j d'] eqn:E. simpl in *. apply IH; [done|lia].
  - destruct (tick_progress i d Hok ltac:(lia)) as [Hlt _].
    destruct (tick _ _ _ _ _ _ _ quiet i d) as [j d'] eqn:E. simpl in *. apply IH; [done|lia].
Qed.
End Liveness.
End Worker.

(** ** The table under every action of the program *)

Section System.
Context `{Render} (fromiso : string -> option Q) (now : nat -> string)
        (is_file : string -> bool) (load_file : string -> string)
        (load_template : string -> option (pydict string pyval))
        (get_handler : pyval -> result exc (pyval -> pyval -> result exc pyval))
        (postprocess : pyval -> pyval -> pyval -> pyval).
Hypothesis now_ok : forall j, is_Some (fromiso (now j)).

(** One action on the table: a [TaskManager] method called with the
    current time ([datetime.now(timezone.utc).isoformat()]), or a round of
    the worker loop.  [update_task] is called by the worker (lines
    155-491) and by [cancel_task] only: its updates are the
    [program_update]s. *)
Inductive sys_step : task_table -> task_table -> Prop :=
  | sys_create uid j md d tk d' :
      TaskManager.create_task fromiso uid (now j) md d = Ok (tk, d') -> sys_step d d'
  | sys_update tid u j d :
      TaskManager.program_update u -> sys_step d (TaskManager.update_task fromiso d tid u (now j)).2
  | sys_cancel tid j d : sys_step d (TaskManager.cancel_task fromiso d tid (now j)).2
  | sys_tick i d :
      sys_step d (Worker.tick fromiso now is_file load_file load_template get_handler postprocess
                    Worker.quiet i d).2.

Lemma create_task_pending_ok uid t md d tk d' :
  TaskManager.create_task fromiso uid t md d = Ok (tk, d') ->
  TaskManager.pending_ok fromiso d -> TaskManager.pending_ok fromiso d'.
Proof.
  unfold TaskManager.create_task. destruct (fromiso t) as [q|] eqn:Ht; [|discriminate].
  destruct (TaskManager.dict_opt md) eqn:Hmd; [|discriminate]. destruct (existsb _ d); [discriminate|].
  intros [= _ <-] Hok. apply Forall_app; split; [done|]. repeat constructor. intros _.
  unfold TaskManager.row_to_task. simpl. rewrite Ht, Hmd. by eexists.
Qed.

Lemma sys_step_pending_ok d d' :
  sys_step d d' -> TaskManager.pending_ok fromiso d -> TaskManager.pending_ok fromiso d'.
Proof.
  intros [uid j md d0 tk d1 Hc|tid u j d0 Hu|tid j d0|i d0] Hok.
  - by eapply create_task_pending_ok.
  - by apply TaskManager.update_task_pending_ok.
  - unfold TaskManager.cancel_task.
    pose proof (TaskManager.update_task_pending_ok fromiso d0 tid
                  (TaskManager.mk_update (Some CANCELLED) None None None) (now j)) as Hp.
    destruct (TaskManager.update_task _ _ _ _ _). apply Hp; [|done|done].
    split; [by intros ? [= <-]|discriminate].
  - by apply (Worker.tick_quiet_le fromiso now is_file load_file load_template get_handler
                postprocess now_ok i d0 Hok).
Qed.

(** C40: From the empty table, whatever the API and the worker do, every
    pending row converts to a [Task] (its status is a [TaskStatus] value,
    its dates parse, its metadata is a dict or null), so
    [get_pending_tasks] skips no pending task and the hypothesis of
    [worker_drains] holds in every reachable state. *)
Theorem reachable_pending_ok d :
  rtc sys_step [] d -> TaskManager.pending_ok fromiso d.
Proof.
  intros Hr. assert (TaskManager.pending_ok fromiso []) as H0 by constructor.
  revert H0. induction Hr as [|x y z Hxy _ IH]; [done|].
  intros Hx. apply IH. by apply (sys_step_pending_ok x y).
Qed.
End System.

Section TaskWitnesses.
Local Open Scope string_scope.

Definition demo_now (j : nat) : string := "2025-01-01T00:00:00+00:00".
Definition demo_row (tid status : string) : task_row :=
  mk_task_row tid status 0 "2025-01-01T00:00:00+00:00" "2025-01-01T00:00:00+00:00"
    (Some (PDict [("params", PDict [("text", PStr "hello"); ("analysis_type", PStr "deep");
                                    ("options", PList [PStr "theme"])]);
                  ("api_provider", PStr "deepseek")]))
    None None.
Definition demo_handler (p : pyval) : result exc (pyval -> pyval -> result exc pyval) :=
  Ok (fun prompt model => Ok (PStr "done")).
Definition demo_post (tid atype c : pyval) : pyval := PDict [("content", c)].

(** The API cancels the task before each call of the worker. *)
Definition cancel_always (j : nat) (d : task_table) : task_table :=
  (TaskManager.update_task Cache.demo_iso d "t1" (TaskManager.mk_update (Some CANCELLED) None None None)
     (demo_now j)).2.

Lemma process_task_overrides_cancel_witness :
  exists s, s ∈ [COMPLETED; FAILED] /\
    TaskManager.status_of
      (Worker.process_task Cache.demo_iso demo_now (fun _ => false) (fun _ => "") (fun _ => None)
         demo_handler demo_post cancel_always 0 "t1" (default PNone (t_metadata (demo_row "t1" "pending")))
         [demo_row "t1" "pending"]).2 "t1" = Some (status_value s).
Proof.
  apply (Worker.process_task_overrides_cancel Cache.demo_iso demo_now (fun _ => false) (fun _ => "")
           (fun _ => None) demo_handler demo_post cancel_always).
  - intros. apply TaskManager.update_task_has_id.
  - intros j d tid Hrow. apply TaskManager.update_task_row_ok; [reflexivity|vm_compute; by eexists|done].
  - intros j. vm_compute. by eexists.
  - vm_compute. reflexivity.
  - apply (bool_decide_unpack _). vm_compute. reflexivity.
Defined.

Lemma cancel_task_no_guard_witness :
  (TaskManager.cancel_task Cache.demo_iso [demo_row "t1" "completed"] "t1" (demo_now 0)).1 = true /\
  TaskManager.status_of (TaskManager.cancel_task Cache.demo_iso [demo_row "t1" "completed"] "t1"
                           (demo_now 0)).2 "t1" = Some "cancelled".
Proof.
  apply TaskManager.cancel_task_no_guard;
    first [vm_compute; reflexivity | apply (bool_decide_unpack _); vm_compute; reflexivity
          | vm_compute; by eexists].
Defined.

Lemma worker_drains_witness :
  TaskManager.pending_count
    (Worker.ticks Cache.demo_iso demo_now (fun _ => false) (fun _ => "") (fun _ => None)
       demo_handler demo_post Worker.quiet 2 0 [demo_row "t1" "pending"; demo_row "t2" "pending"]) = 0.
Proof.
  apply (Worker.worker_drains Cache.demo_iso demo_now (fun _ => false) (fun _ => "") (fun _ => None)
           demo_handler demo_post).
  - intros j. vm_compute. by eexists.
  - apply (bool_decide_unpack _). vm_compute. reflexivity.
  - vm_compute. lia.
Defined.
Lemma list_result_unreadable_witness :
  let u := Worker.complete_update (PList [PStr "theme"]) in
  TaskManager.has_id [demo_row "t1" "running"] "t1" = true /\
  (TaskManager.update_task Cache.demo_iso [demo_row "t1" "running"] "t1" u (demo_now 0)).1 = None /\
  TaskManager.status_of (TaskManager.update_task Cache.demo_iso [demo_row "t1" "running"] "t1" u
                           (demo_now 0)).2 "t1" = Some "completed" /\
  TaskManager.get_task Cache.demo_iso
    (TaskManager.update_task Cache.demo_iso [demo_row "t1" "running"] "t1" u (demo_now 0)).2 "t1" = None.
Proof.
  split; [reflexivity|].
  apply (Worker.list_result_unreadable Cache.demo_iso [demo_row "t1" "running"] "t1" (demo_now 0)).
  reflexivity.
Defined.

Lemma reachable_pending_ok_witness :
  TaskManager.pending_ok Cache.demo_iso
    (TaskManager.cancel_task Cache.demo_iso
       [mk_task_row "t1" "pending" 0 (demo_now 0) (demo_now 0) None None None] "t1" (demo_now 1)).2.
Proof.
  apply (reachable_pending_ok Cache.demo_iso demo_now (fun _ => false) (fun _ => "") (fun _ => None)
           demo_handler demo_post).
  - intros j. vm_compute. by eexists.
  - eapply rtc_l; [eapply (sys_create _ _ _ _ _ _ _ "t1" 0 None []); reflexivity|].
    eapply rtc_l; [apply (sys_cancel _ _ _ _ _ _ _ "t1" 1)|]. apply rtc_refl.
Defined.
End TaskWitnesses.
