(* ===== verification/Routes.v ===== *)
(** * Routes: the HTTP routes of [api/routes/results.py]

    Each route of the router [/results] is a function of its request
    arguments and of the state it reads and writes: the [results] table
    [db] of [Results] and the file system [fs] of [Cache].  A route that
    answers returns [Ok] with its JSON body; one that raises returns [Err]
    with the [HTTPException] FastAPI turns into the error response.  The
    routes call [save_analysis_result], [get_analysis_result] and
    [get_cache_dir] of [utils/cache.py] and the row operations of
    [database/manager.py], modelled in [Results].

    The module-level [STYLE_ANALYSIS_CACHE_DIR] (lines 20-38) is the
    legacy directory of literature results.  [Path(__file__)] three levels
    up from [src/api/routes/results.py] is the [src] directory, not the
    project root [cache.py] computes from [src/utils/cache.py], so relative
    to that root it is [src/data/style_analysis_cache]; the import creates
    it, and [legacy_exists] says whether it exists when a request runs.

    Request validation by FastAPI and pydantic happens before a handler
    runs: the save payload of [/save-literature] is the record
    [save_payload], and [/save-text-analysis] and [/save-style] receive a
    JSON object (their [isinstance(payload, dict)] check is kept, it never
    fails behind the validation).  The conversion of a return value to
    its [response_model] happens after the handler and is not modelled. *)

From stdpp Require Import gmap.
From S2P Require Import Prelude Errors Http Json Cache Results.
Import Exc.

Module ResultsApi.
Local Open Scope string_scope.

(** [HTTPException(status_code=..., detail=...)] of FastAPI. *)
Definition http_exception (status_code : Z) (detail : pyval) : exc :=
  mk_exc CHTTPException [("status_code", PInt status_code); ("detail", detail)].

(** [raise_http_error(status_code, message)], utils/error_handler.py
    100-109: the detail is [ErrorResponse(...).dict()]. *)
Definition raise_http_error (status_code : Z) (message : string) : exc :=
  http_exception status_code
    (PDict [("error", PStr message); ("detail", PNone); ("code", PInt status_code)]).

(** [STYLE_ANALYSIS_CACHE_DIR], lines 22-30, relative to the project root. *)
Definition STYLE_ANALYSIS_CACHE_DIR : string := "src/data/style_analysis_cache".

(** [SaveAnalysisPayload], lines 41-48, after validation; its field [result] is [result_]. *)
Record save_payload : Type := mk_save_payload {
  text_summary : string;
  result_ : pyval;
  provider : option string;
  model : option string;
  timestamp : string;
  analysis_type : string;
  original_text : option string
}.

Definition opt_str (o : option string) : pyval :=
  match o with Some s => PStr s | None => PNone end.

(** [payload.dict()]: the fields in declaration order. *)
Definition payload_dict (p : save_payload) : pydict string pyval :=
  [("text_summary", PStr (text_summary p)); ("result", result_ p);
   ("provider", opt_str (provider p)); ("model", opt_str (model p));
   ("timestamp", PStr (timestamp p)); ("analysis_type", PStr (analysis_type p));
   ("original_text", opt_str (original_text p))].

(** The success bodies of the save routes. *)
Definition saved_response (message rid : string) : pyval :=
  PDict [("status", PStr "success"); ("message", PStr message); ("id", PStr rid)].

(** [ping_results_router], lines 84-86. *)
Definition ping_results_router : pyval := PDict [("message", PStr "pong from results router")].

Section Ops.
Context `{Render} `{Json} (fromiso : string -> option Q) (isoformat : Q -> string)
        (strftime : Q -> string) (sha256 : string -> string) (dump_size : pyval -> Z)
        (legacy_exists : bool).

(** [get_results_list(limit, offset)], lines 69-81: the rows newest first;
    the model's table never raises, so the 500 branch is not taken. *)
Definition get_results_list (limit offset : nat) (db : table) : result exc (list row) :=
  Ok (Db.list_results db limit offset).

(** The legacy file read of lines 103-112: [json.load], then
    [result['id'] = result_id], which raises [TypeError] on anything but a
    dict; the error is logged and [result] keeps the loaded value.  An
    undecodable file leaves [result] as it was. *)
Definition legacy_result (rid : string) (v : pyval) : pyval :=
  match v with PDict d => PDict (dict_set "id" (PStr rid) d) | _ => v end.

Definition legacy_lookup (rid : string) (fs : fsys) (r0 : pyval) : pyval :=
  match fs !! Cache.path_of STYLE_ANALYSIS_CACHE_DIR rid with
  | Some f => match dcontent f with Some v => legacy_result rid v | None => r0 end
  | None => r0
  end.

(** [get_literature_analysis_result_endpoint], lines 90-123.  [result is
    None] holds for a missing result and for a file holding [null]. *)
Definition get_literature_analysis_result_endpoint (rid : string) (db : table) (fs : fsys)
  : result exc pyval :=
  let r0 := default PNone (Results.get_analysis_result rid db fs) in
  let r := if is_none r0 && legacy_exists then legacy_lookup rid fs r0 else r0 in
  if is_none r
  then Err (raise_http_error 404 ("Analysis result with ID " ++ rid ++ " not found"))
  else Ok r.

(** The body shared by [get_text_analysis_result_endpoint] (lines 125-145)
    and [get_style_transfer_result_endpoint] (147-167), which differ only
    in their message. *)
Definition get_unified (what rid : string) (db : table) (fs : fsys) : result exc pyval :=
  let r := default PNone (Results.get_analysis_result rid db fs) in
  if is_none r then Err (raise_http_error 404 (what ++ " with ID " ++ rid ++ " not found"))
  else Ok r.

Definition get_text_analysis_result_endpoint (rid : string) (db : table) (fs : fsys)
  : result exc pyval := get_unified "Text analysis result" rid db fs.

Definition get_style_transfer_result_endpoint (rid : string) (db : table) (fs : fsys)
  : result exc pyval := get_unified "Style transfer result" rid db fs.
(** The save of lines 179-196: [payload.dict()], the [result] string
    replaced by its decoding when it decodes, [save_analysis_result]. *)
Definition literature_data (p : save_payload) : pydict string pyval :=
  match result_ p with
  | PStr s => match json_loads s with
              | Some v => dict_set "result" v (payload_dict p)
              | None => payload_dict p
              end
  | _ => payload_dict p
  end.

(** [safe_provider] and [safe_model], lines 202-203. *)
Definition safe_name (o : option string) (dflt : string) : string :=
  match o with
  | Some s => if String.eqb s "" then dflt else py_replace (py_replace s "/" "_") "\" "_"
  | None => dflt
  end.

(** The legacy file name, lines 206-208. *)
Definition legacy_filename (p : save_payload) : string :=
  py_replace (py_replace (timestamp p) ":" "-") "." "-" ++ "_" ++
  safe_name (provider p) "unknown_provider" ++ "_" ++
  safe_name (model p) "unknown_model" ++ ".json".

(** [save_literature_analysis], lines 169-233.  [save_analysis_result]
    assigns the dict's [timestamp] in place, so the legacy copy of lines
    198-223 dumps the dict with the server's timestamp; a failed write is
    only logged. *)
Definition save_literature_analysis (p : save_payload) (db : table) (fs : fsys) (now : Q)
  : result exc pyval * table * fsys :=
  let data := literature_data p in
  match Results.save_analysis_result fromiso isoformat strftime sha256 dump_size
          "literature" (PDict data) db fs now with
  | (Some rid, db', fs') =>
      if String.eqb rid ""
      then (Err (http_exception 500 (PStr "Failed to save literature analysis result")), db', fs')
      else
        let data' := PDict (dict_set "timestamp" (PStr (isoformat now)) data) in
        let fs'' := if legacy_exists
                    then <[STYLE_ANALYSIS_CACHE_DIR ++ "/" ++ legacy_filename p :=
                            mk_dfile (Some data') now (dump_size data')]> fs'
                    else fs' in
        (Ok (saved_response "Analysis result saved." rid), db', fs'')
  | (None, db', fs') =>
      (Err (http_exception 500 (PStr "Failed to save literature analysis result")), db', fs')
  end.

(** The body shared by [save_text_analysis] (lines 235-271) and
    [save_style_transfer] (273-308): the dict check, the copy with a
    [timestamp] when it has none, the save. *)
Definition save_dict_route (module_type fail_msg ok_msg : string) (payload : pyval) (db : table) (fs : fsys)
           (now : Q) : result exc pyval * table * fsys :=
  match payload with
  | PDict d =>
      let payload_copy := if dict_mem "timestamp" d then d
                          else dict_set "timestamp" (PStr (isoformat now)) d in
      match Results.save_analysis_result fromiso isoformat strftime sha256 dump_size
              module_type (PDict payload_copy) db fs now with
      | (Some rid, db', fs') =>
          if String.eqb rid ""
          then (Err (http_exception 500 (PStr fail_msg)), db', fs')
          else (Ok (saved_response ok_msg rid), db', fs')
      | (None, db', fs') =>
          (Err (http_exception 500 (PStr fail_msg)), db', fs')
      end
  | _ => (Err (http_exception 400 (PStr "Payload must be a JSON object")), db, fs)
  end.

Definition save_text_analysis (payload : pyval) (db : table) (fs : fsys) (now : Q)
  : result exc pyval * table * fsys :=
  save_dict_route "text" "Failed to save analysis result" "Text analysis result saved." payload db fs now.

Definition save_style_transfer (payload : pyval) (db : table) (fs : fsys) (now : Q)
  : result exc pyval * table * fsys :=
  save_dict_route "style" "Failed to save style transfer result" "Style transfer result saved." payload db fs now.

(** [delete_analysis_result], lines 311-375: the row, the file
    [<cache dir>/<id>.json] when the row's type has a directory (removing
    an absent file is skipped), then the row. *)
Definition delete_analysis_result (rid : string) (db : table) (fs : fsys)
  : result exc unit * table * fsys :=
  match Db.get_result_by_result_id db rid with
  | None => (Err (http_exception 404 (PStr "Result not found")), db, fs)
  | Some record =>
      let fs' := match Results.get_cache_dir (r_type record) with
                 | Some dir => delete (Cache.path_of dir rid) fs
                 | None => fs
                 end in
      match Db.delete_result_record db rid with
      | (true, db') => (Ok tt, db', fs')
      | (false, db') =>
          (Err (http_exception 500
                  (PStr "Failed to delete database record after potentially deleting file.")),
           db', fs')
      end
  end.

(** [rename_analysis_result], lines 384-413: the 404 raised in the [try]
    is re-raised unchanged by its [except]. *)
Definition rename_analysis_result (rid new_name : string) (db : table) : result exc pyval * table :=
  match Db.update_result_name db rid new_name with
  | (true, db') =>
      (Ok (PDict [("status", PStr "success"); ("message", PStr "Result renamed successfully.")]), db')
  | (false, db') =>
      (Err (raise_http_error 404 ("Result record with ID " ++ rid ++ " not found.")), db')
  end.
End Ops.

Section Props.
Context `{Render} `{Json} (fromiso : string -> option Q) (isoformat : Q -> string)
        (strftime : Q -> string) (sha256 : string -> string) (dump_size : pyval -> Z)
        (legacy_exists : bool).

Lemma filter_find_none (l : table) rid :
  find (fun x => String.eqb (r_id x) rid) l = None ->
  filter (fun x => negb (String.eqb (r_id x) rid)) l = l.
Proof.
  induction l as [|x l IH]; [done|]. cbn [find].
  destruct (String.eqb (r_id x) rid) eqn:E; [discriminate|].
  intros Hf. rewrite filter_cons, E. cbn. by rewrite IH.
Qed.

Lemma find_filter_self (l : table) rid :
  find (fun x => String.eqb (r_id x) rid) (filter (fun x => negb (String.eqb (r_id x) rid)) l)
  = None.
Proof.
  induction l as [|x l IH]; [done|]. rewrite filter_cons.
  destruct (String.eqb (r_id x) rid) eqn:E; cbn; case_decide; try tauto; cbn; by rewrite ?E.
Qed.

Lemma get_result_snoc_new db r :
  Db.get_result_by_result_id db (r_id r) = None ->
  Db.get_result_by_result_id (db ++ [r])%list (r_id r) = Some r.
Proof.
  unfold Db.get_result_by_result_id. intros Hn. rewrite Results.find_snoc_none by done.
  by rewrite String.eqb_refl.
Qed.

(** What [get_analysis_result] reads for a row it finds. *)
Lemma get_analysis_result_row rid db fs r :
  Db.get_result_by_result_id db rid = Some r -> rid <> "" -> r_path r <> "" ->
  Results.get_analysis_result rid db fs = fs !! r_path r ≫= dcontent.
Proof.
  intros Hr Hid Hp. unfold Results.get_analysis_result.
  rewrite (proj2 (String.eqb_neq _ _) Hid), Hr, (proj2 (String.eqb_neq _ _) Hp).
  by destruct (fs !! r_path r).
Qed.

(** A save route that answers has saved the copy of its payload. *)
Lemma save_dict_route_ok module_type fail_msg ok_msg payload db fs now v db' fs' :
  save_dict_route fromiso isoformat strftime sha256 dump_size module_type fail_msg ok_msg
    payload db fs now = (Ok v, db', fs') ->
  exists d rid, payload = PDict d /\ rid <> "" /\ v = saved_response ok_msg rid /\
    Results.save_analysis_result fromiso isoformat strftime sha256 dump_size module_type
      (PDict (if dict_mem "timestamp" d then d else dict_set "timestamp" (PStr (isoformat now)) d))
      db fs now = (Some rid, db', fs').
Proof.
  unfold save_dict_route. destruct payload as [| | | | |l|d]; try discriminate.
  destruct (Results.save_analysis_result _ _ _ _ _ _ _ _ _ _) as [[[rid|] db1] fs1] eqn:E;
    [|discriminate].
  destruct (String.eqb_spec rid ""); [discriminate|]. intros [= <- <- <-]. eauto 8.
Qed.

(** The legacy file name always holds an underscore. *)
Lemma legacy_filename_underscore p : py_str_contains "_" (legacy_filename p) = true.
Proof. unfold legacy_filename. rewrite str_contains_char_app. apply orb_true_intro. right.
  rewrite str_app_cons. cbn [py_str_contains prefix]. by rewrite prefix_nil.
Qed.

Lemma legacy_path_ne p rid :
  py_str_contains "_" rid = false ->
  STYLE_ANALYSIS_CACHE_DIR ++ "/" ++ legacy_filename p <> Cache.path_of STYLE_ANALYSIS_CACHE_DIR rid.
Proof.
  unfold Cache.path_of. intros Hr Heq. apply str_app_inj_l in Heq. injection Heq as Heq.
  change ("" ++ ?a = "" ++ ?b) with (a = b) in Heq.
  pose proof (legacy_filename_underscore p) as Hu. rewrite Heq, str_contains_char_app, Hr in Hu.
  discriminate.
Qed.

Lemma legacy_dir_ne_datasets x y :
  STYLE_ANALYSIS_CACHE_DIR ++ x <> Cache.path_of "data/output/datasets" y.
Proof. unfold Cache.path_of. cbn. intros [=]. Qed.
(** Deleting the row a save route has just appended gives the table back. *)
Lemma delete_result_record_snoc db r :
  Db.get_result_by_result_id db (r_id r) = None ->
  Db.delete_result_record (db ++ [r])%list (r_id r) = (true, db).
Proof.
  intros Hn. unfold Db.delete_result_record. rewrite get_result_snoc_new by done.
  rewrite filter_app, filter_find_none by done. cbn. case_decide as Hd.
  - by rewrite String.eqb_refl in Hd.
  - by rewrite app_nil_r.
Qed.

(** C18: Save then delete: a text analysis saved under a new id and deleted
    through the routes leaves the table as it was and the file system as
    it was without the file of the id: the delete route removes exactly
    the file and the row the save route wrote. *)
Theorem save_text_then_delete_restores d db fs now t rid db1 fs1 :
  fromiso (isoformat now) = Some t ->
  save_text_analysis fromiso isoformat strftime sha256 dump_size (PDict d) db fs now
    = (Ok (saved_response "Text analysis result saved." rid), db1, fs1) ->
  Db.get_result_by_result_id db rid = None ->
  delete_analysis_result rid db1 fs1
    = (Ok tt, db, delete (Cache.path_of ".cache/text_analysis" rid) fs).
Proof.
  intros Ht Hs Hnew.
  destruct (save_dict_route_ok _ _ _ _ _ _ _ _ _ _ Hs) as (d' & rid' & [= <-] & _ & [= <-] & Hsave).
  destruct (Results.save_analysis_result_new _ _ _ _ _ "text" _ _ _ _ _ _ _ ".cache/text_analysis" _
              eq_refl Ht Hsave Hnew) as [-> ->].
  unfold delete_analysis_result.
  rewrite (get_result_snoc_new db (Results.result_row strftime "text" rid _ _ t)) by done.
  cbn [r_type Results.result_row].
  change (Results.get_cache_dir "text") with (Some ".cache/text_analysis"); cbv iota.
  rewrite (delete_result_record_snoc db (Results.result_row strftime "text" rid _ _ t)) by done.
  by rewrite delete_insert_eq.
Qed.
(** The backward-compatible copy of [/save-literature] is written where
    the legacy read of [/literature/{result_id}] never looks: for an id
    without an underscore (every hex digest [generate_result_id] makes),
    the file [<legacy dir>/<id>.json] is the same after the save as
    before, whatever the save answers. *)
Theorem save_literature_legacy_unreachable p db fs now r db' fs' rid :
  save_literature_analysis fromiso isoformat strftime sha256 dump_size legacy_exists p db fs now
    = (r, db', fs') ->
  py_str_contains "_" rid = false ->
  fs' !! Cache.path_of STYLE_ANALYSIS_CACHE_DIR rid = fs !! Cache.path_of STYLE_ANALYSIS_CACHE_DIR rid.
Proof.
  unfold save_literature_analysis. intros Hs Hr.
  destruct (Results.save_analysis_result _ _ _ _ _ _ _ _ _ _) as [[o db1] fs1] eqn:E.
  assert (fs1 !! Cache.path_of STYLE_ANALYSIS_CACHE_DIR rid
          = fs !! Cache.path_of STYLE_ANALYSIS_CACHE_DIR rid) as Hfs1.
  { destruct (Results.save_analysis_result_fs _ _ _ _ _ _ _ _ _ _ _ _ _ E)
      as [->|(dir & rid0 & f & Hdir & ->)]; [done|].
    change (Results.get_cache_dir "literature") with (Some "data/output/datasets") in Hdir.
    injection Hdir as <-. apply lookup_insert_ne. intros Heq.
    exact (legacy_dir_ne_datasets _ _ (eq_sym Heq)). }
  destruct o as [rid0|]; [destruct (String.eqb rid0 "")|]; injection Hs as _ _ <-; try done.
  destruct legacy_exists; [|done]. by rewrite lookup_insert_ne by exact (legacy_path_ne p rid Hr).
Qed.

(** C17: Save then read a literature result: the read route returns the
    payload as saved, its [result] string decoded, with the [timestamp]
    the client sent replaced by the server's time of the save. *)
Theorem save_literature_get_roundtrip p db fs now t rid db' fs' :
  fromiso (isoformat now) = Some t ->
  save_literature_analysis fromiso isoformat strftime sha256 dump_size legacy_exists p db fs now
    = (Ok (saved_response "Analysis result saved." rid), db', fs') ->
  Db.get_result_by_result_id db rid = None ->
  get_literature_analysis_result_endpoint legacy_exists rid db' fs'
    = Ok (PDict (dict_set "timestamp" (PStr (isoformat now)) (literature_data p))).
Proof.
  intros Ht Hs Hnew. unfold save_literature_analysis in Hs.
  destruct (Results.save_analysis_result _ _ _ _ _ _ _ _ _ _) as [[[rid0|] db1] fs1] eqn:E;
    [|discriminate].
  destruct (String.eqb_spec rid0 "") as [|Hr]; [discriminate|].
  injection Hs as -> <- <-.
  destruct (Results.save_analysis_result_new _ _ _ _ _ "literature" _ _ _ _ _ _ _
              "data/output/datasets" _ eq_refl Ht E Hnew) as [-> ->].
  unfold get_literature_analysis_result_endpoint.
  rewrite (get_analysis_result_row rid _ _
             (Results.result_row strftime "literature" rid (Cache.path_of "data/output/datasets" rid)
                (dict_set "timestamp" (PStr (isoformat now)) (literature_data p)) t));
    [| by apply get_result_snoc_new | done | apply Results.path_of_nonempty].
  cbn [r_path Results.result_row].
  destruct legacy_exists; [rewrite lookup_insert_ne by apply legacy_dir_ne_datasets|];
    by rewrite lookup_insert_eq.
Qed.
End Props.

Section RoutesWitnesses.

Definition demo_payload : save_payload :=
  mk_save_payload "A story" (PStr "{}") (Some "deepseek") (Some "deepseek-chat")
    "2025-01-01T00:00:00.000Z" "literature_v2" None.

Definition demo_literature_save : result exc pyval * table * fsys :=
  save_literature_analysis Cache.demo_iso Results.demo_isoformat Results.demo_strftime
    Results.demo_sha Cache.demo_size true demo_payload [] ∅ Results.demo_now.

Definition demo_text_save : result exc pyval * table * fsys :=
  save_text_analysis Cache.demo_iso Results.demo_isoformat Results.demo_strftime
    Results.demo_sha Cache.demo_size (PDict [("text", PStr "hello")]) [] ∅ Results.demo_now.

Lemma save_text_then_delete_restores_witness :
  delete_analysis_result "3f9a" demo_text_save.1.2 demo_text_save.2
  = (Ok tt, [], delete (Cache.path_of ".cache/text_analysis" "3f9a") ∅).
Proof.
  apply (save_text_then_delete_restores Cache.demo_iso Results.demo_isoformat
           Results.demo_strftime Results.demo_sha Cache.demo_size [("text", PStr "hello")] [] ∅
           Results.demo_now Results.demo_now "3f9a" demo_text_save.1.2 demo_text_save.2);
    vm_compute; reflexivity.
Defined.

Lemma save_literature_legacy_unreachable_witness :
  demo_literature_save.2 !! Cache.path_of STYLE_ANALYSIS_CACHE_DIR "3f9a"
  = (∅ : fsys) !! Cache.path_of STYLE_ANALYSIS_CACHE_DIR "3f9a".
Proof.
  apply (save_literature_legacy_unreachable Cache.demo_iso Results.demo_isoformat
           Results.demo_strftime Results.demo_sha Cache.demo_size true demo_payload [] ∅
           Results.demo_now demo_literature_save.1.1 demo_literature_save.1.2
           demo_literature_save.2 "3f9a"); vm_compute; reflexivity.
Defined.

Lemma save_literature_get_roundtrip_witness :
  get_literature_analysis_result_endpoint true "3f9a" demo_literature_save.1.2
    demo_literature_save.2
  = Ok (PDict (dict_set "timestamp" (PStr "2025-01-01T00:00:00+00:00")
                 (literature_data demo_payload))).
Proof.
  apply (save_literature_get_roundtrip Cache.demo_iso Results.demo_isoformat
           Results.demo_strftime Results.demo_sha Cache.demo_size true demo_payload [] ∅
           Results.demo_now Results.demo_now "3f9a" demo_literature_save.1.2
           demo_literature_save.2); vm_compute; reflexivity.
Defined.
End RoutesWitnesses.
End ResultsApi.
