(* ===== verification/TaskRoutes.v ===== *)
(** * TaskRoutes: the task routes of [api/routes/tasks.py] and
    [api/routes/async_tasks.py]

    Both routers read and cancel tasks of the table of [Tasks] through the
    module-level [task_manager]; a route is a function of its path
    parameter and the table.  Each strips what follows the first ['_'] of
    the id it receives (a timestamp the front end may append) before it
    asks the manager.

    [async_tasks.get_task_status] calls the coroutine function
    [task_manager.get_task] without [await]: [task] is the coroutine
    object, which is truthy and has no [status], so the route raises
    [AttributeError] (a 500 response) before it can return anything.  The
    objects the routes hold are the values of [task_obj]. *)

From S2P Require Import Prelude Errors Http Json Cache Tasks Routes.
Import Exc.

Module TaskApi.
Local Open Scope string_scope.

(** [s.split(c)[0]]: the text before the first [c]. *)
Fixpoint before_char (c : ascii) (s : string) : string :=
  match s with
  | EmptyString => EmptyString
  | String x r => if Ascii.eqb x c then EmptyString else String x (before_char c r)
  end.

(** [task_id.split('_')[0]], tasks.py 22 and 63, async_tasks.py 25 and 54. *)
Definition clean_task_id (tid : string) : string := before_char "_" tid.

(** What [task] holds in a route: a [Task], [None], or the coroutine an
    [async def] returns when it is called without [await]. *)
Inductive task_obj : Type :=
  | OTask (t : task)
  | ONone
  | OCoroutine (r : option task).

(** [not task] *)
Definition task_obj_falsy (o : task_obj) : bool := match o with ONone => true | _ => false end.

(** [task.status]: a coroutine has no such attribute. *)
Definition task_obj_status (o : task_obj) : result exc task_status :=
  match o with
  | OTask t => Ok (tk_status t)
  | ONone | OCoroutine _ => Err attribute_error
  end.

Definition not_found : exc := ResultsApi.http_exception 404 (PStr "Task not found").

Definition cancel_not_found : exc :=
  ResultsApi.http_exception 404 (PStr "Task not found or cannot be cancelled").

Section Ops.
Context (fromiso : string -> option Q).

(** [await task_manager.get_task(id)] as an object. *)
Definition awaited (db : task_table) (tid : string) : task_obj :=
  match TaskManager.get_task fromiso db tid with Some t => OTask t | None => ONone end.

(** [get_task_status(task_id)], tasks.py 12-50 (and the compatible path,
    52-55): the task, or 404. *)
Definition get_task_status (db : task_table) (tid : string) : result exc task :=
  match awaited db (clean_task_id tid) with
  | OTask t => Ok t
  | _ => Err not_found
  end.

(** [cancel_task(task_id)], tasks.py 57-72 and async_tasks.py 41-63. *)
Definition cancel_task_route (db : task_table) (tid : string) (now_iso : string)
  : result exc pyval * task_table :=
  let '(ok, db') := TaskManager.cancel_task fromiso db (clean_task_id tid) now_iso in
  if ok then (Ok (PDict [("status", PStr "success")]), db') else (Err cancel_not_found, db').

(** [get_task_status_compat(task_id)], tasks.py 52-55: the same route
    under [/{task_id}/status]. *)
Definition get_task_status_compat (db : task_table) (tid : string) : result exc task :=
  get_task_status db tid.

(** [cancel_task(task_id)] of async_tasks.py 41-63: the body of
    tasks.py 57-72, line for line. *)
Definition async_cancel_task (db : task_table) (tid : string) (now_iso : string)
  : result exc pyval * task_table :=
  cancel_task_route db tid now_iso.

(** [get_task_status(task_id)], async_tasks.py 12-34 (and 36-39): the
    coroutine is never awaited; the f-string of line 33 reads its
    [status]. *)
Definition async_get_task_status (db : task_table) (tid : string) : result exc task :=
  let task := OCoroutine (TaskManager.get_task fromiso db (clean_task_id tid)) in
  if task_obj_falsy task then Err not_found
  else
    let? _ := task_obj_status task in
    match task with OTask t => Ok t | _ => Err not_found end.

(** [get_task_status_compat(task_id)], async_tasks.py 36-39. *)
Definition async_get_task_status_compat (db : task_table) (tid : string) : result exc task :=
  async_get_task_status db tid.
End Ops.

Section Props.
Context (fromiso : string -> option Q).

Lemma before_char_none c s :
  py_str_contains (String c EmptyString) s = false -> before_char c s = s.
Proof.
  induction s as [|x r IH]; [done|]. cbn [py_str_contains prefix].
  destruct (ascii_dec c x) as [->|Hne]; [by rewrite prefix_nil|].
  cbn [orb]. intros Hr. cbn [before_char].
  rewrite (proj2 (Ascii.eqb_neq x c)) by congruence. by rewrite IH.
Qed.

Lemma before_char_app c a s :
  py_str_contains (String c EmptyString) a = false -> before_char c (a ++ String c s) = a.
Proof.
  induction a as [|x r IH]; [intros _; simpl; by rewrite Ascii.eqb_refl|].
  cbn [py_str_contains prefix].
  destruct (ascii_dec c x) as [->|Hne]; [by rewrite prefix_nil|].
  cbn [orb]. intros Hr. rewrite str_app_cons. cbn [before_char].
  rewrite (proj2 (Ascii.eqb_neq x c)) by congruence. by rewrite IH.
Qed.

(** An id without ['_'] survives the clean-up, with or without a suffix. *)
Lemma clean_task_id_suffix uid s :
  py_str_contains "_" uid = false -> clean_task_id (uid ++ "_" ++ s) = uid.
Proof. intros H. apply (before_char_app "_" uid s H). Qed.

Lemma clean_task_id_plain uid : py_str_contains "_" uid = false -> clean_task_id uid = uid.
Proof. apply before_char_none. Qed.

Lemma find_none_of_existsb {A} (f : A -> bool) l : existsb f l = false -> find f l = None.
Proof. induction l as [|x l IH]; simpl; [done|]. destruct (f x); [discriminate|done]. Qed.

(** The task [update_task] returns is the one read back from the new
    table. *)
Lemma update_task_get db tid u now :
  TaskManager.has_id db tid = true -> TaskManager.is_no_update u = false ->
  (TaskManager.update_task fromiso db tid u now).1 =
    TaskManager.get_task fromiso (TaskManager.update_task fromiso db tid u now).2 tid.
Proof.
  unfold TaskManager.update_task, TaskManager.has_id. intros Hid Hu. rewrite Hu.
  by rewrite Hid.
Qed.

(** C19: Create then read through the route: a task [create_task] adds under
    an id without ['_'] is returned by [GET /api/tasks/{id}], also when
    the path carries a ['_'] suffix. *)
Theorem create_then_get_status uid now md db t db' s :
  py_str_contains "_" uid = false ->
  TaskManager.create_task fromiso uid now md db = Ok (t, db') ->
  get_task_status fromiso db' uid = Ok t /\ get_task_status fromiso db' (uid ++ "_" ++ s) = Ok t.
Proof.
  intros Hu Hc. unfold get_task_status.
  rewrite (clean_task_id_suffix uid s Hu), (clean_task_id_plain uid Hu).
  assert (awaited fromiso db' uid = OTask t) as Ha.
  { unfold TaskManager.create_task in Hc.
    destruct (fromiso now) as [tm|] eqn:Hn; [|discriminate].
    destruct (TaskManager.dict_opt md) eqn:Hmd; [|discriminate].
    destruct (existsb _ db) eqn:He; [discriminate|]. injection Hc as <- <-.
    unfold awaited, TaskManager.get_task.
    rewrite Results.Results.find_snoc_none by (by apply find_none_of_existsb).
    cbn [t_id]. rewrite String.eqb_refl. cbn. rewrite Hn. cbn. by rewrite Hmd. }
  by rewrite Ha.
Qed.

(** Cancel then read through the routes: on a table whose rows convert,
    [POST /api/tasks/{id}_{suffix}/cancel] of an existing task answers
    success, and [GET /api/tasks/{id}] then returns the task cancelled. *)
Theorem cancel_then_get_status db uid now s :
  py_str_contains "_" uid = false -> TaskManager.has_id db uid = true ->
  TaskManager.rows_ok fromiso db -> is_Some (fromiso now) ->
  (cancel_task_route fromiso db (uid ++ "_" ++ s) now).1 = Ok (PDict [("status", PStr "success")]) /\
  exists t, get_task_status fromiso (cancel_task_route fromiso db (uid ++ "_" ++ s) now).2 uid = Ok t /\
            tk_status t = CANCELLED.
Proof.
  intros Hu Hid Hok Hn. unfold cancel_task_route, TaskManager.cancel_task.
  rewrite (clean_task_id_suffix uid s Hu).
  set (u := TaskManager.mk_update (Some CANCELLED) None None None).
  destruct (TaskManager.update_task_found fromiso db uid u now eq_refl eq_refl Hid Hn Hok) as [t Ht].
  pose proof (TaskManager.update_task_read_back fromiso db uid u now CANCELLED t eq_refl Ht) as Hs.
  pose proof (update_task_get db uid u now Hid eq_refl) as Hg. rewrite Ht in Hg.
  destruct (TaskManager.update_task fromiso db uid u now) as [t1 db'] eqn:E. cbn [fst snd] in Ht, Hg |- *.
  subst t1. rewrite bool_decide_eq_true_2 by done. split; [done|].
  exists t. split; [|done]. unfold get_task_status, awaited. rewrite (clean_task_id_plain uid Hu).
  cbn [snd]. by rewrite <-Hg.
Qed.

(** [GET /api/async/tasks/{id}] and its [/status] path fail on every
    table and id, with [AttributeError] (a 500 response): the route reads
    [status] of the coroutine it never awaited. *)
Lemma async_get_task_status_fails db tid :
  async_get_task_status fromiso db tid = Err attribute_error /\
  async_get_task_status_compat fromiso db tid = Err attribute_error.
Proof. split; reflexivity. Qed.
End Props.

Section TaskRouteWitnesses.
Local Open Scope string_scope.

Definition demo_t0 : string := "2025-01-01T00:00:00+00:00".
Definition demo_row : task_row := mk_task_row "t1" "pending" 0 demo_t0 demo_t0 None None None.

Lemma create_then_get_status_witness :
  exists t db', TaskManager.create_task Cache.demo_iso "t1" demo_t0 None [] = Ok (t, db') /\
    get_task_status Cache.demo_iso db' "t1" = Ok t /\
    get_task_status Cache.demo_iso db' ("t1" ++ "_" ++ "1735689600") = Ok t.
Proof.
  eexists _, _. split; [reflexivity|].
  apply (create_then_get_status Cache.demo_iso "t1" demo_t0 None []); reflexivity.
Defined.

Lemma cancel_then_get_status_witness :
  py_str_contains "_" "t1" = false /\ TaskManager.has_id [demo_row] "t1" = true /\
  TaskManager.rows_ok Cache.demo_iso [demo_row] /\ is_Some (Cache.demo_iso demo_t0) /\
  (cancel_task_route Cache.demo_iso [demo_row] ("t1" ++ "_" ++ "9") demo_t0).1 =
    Ok (PDict [("status", PStr "success")]) /\
  exists t, get_task_status Cache.demo_iso
              (cancel_task_route Cache.demo_iso [demo_row] ("t1" ++ "_" ++ "9") demo_t0).2 "t1" = Ok t /\
            tk_status t = CANCELLED.
Proof.
  assert (TaskManager.rows_ok Cache.demo_iso [demo_row]) as Hok by (vm_compute; repeat constructor; eexists; reflexivity).
  assert (is_Some (Cache.demo_iso demo_t0)) as Hn by (eexists; reflexivity).
  do 4 (split; [first [reflexivity | exact Hok | exact Hn]|]).
  apply (cancel_then_get_status Cache.demo_iso [demo_row] "t1" demo_t0 "9"); first [reflexivity | exact Hok | exact Hn].
Defined.
End TaskRouteWitnesses.
End TaskApi.
