(* ===== verification/Processing.v ===== *)
(** * Processing: the text processing classes of [src/src/core/processing]

    [ChunkSplitter.split_text] (chunk_splitter.py) cuts a text into
    windows of [max_chunk_size] characters, ending each window after the
    last ['.'] it contains, and starts the next one [overlap] characters
    before the end of the previous one.  Its [while] loop is a function
    with fuel ([split_loop]): [None] is a loop that has not finished.
    Indices are Python's: [text[a:b]] ([py_slice]) and
    [text.rfind(c, a, b)] ([py_rfind]) read a negative index from the end
    of the text.

    [FormatEnforcer.enforce_format] (format_enforcer.py) extracts three
    sections with the regular expressions [1\..*?(?=2\.|$)],
    [2\..*?(?=3\.|$)] and [3\..*?$] (flag [DOTALL]); each is written as
    the scan [re.search] performs for it.  [PostProcessor.process]
    (post_processor.py) and [StyleValidator.validate_response]
    (style_validator.py) read the dictionary [enforce_format] returns. *)

From S2P Require Import Prelude Errors.
Import Exc.

Module Processing.
Local Open Scope string_scope.

(** ** Python indices *)

(** The index [i] of [s[i:]] or [s[:i]] as CPython normalises it: a
    negative index counts from the end, and the result is clamped to
    [0, len(s)]. *)
Definition py_index_norm (n i : Z) : Z :=
  if (i <? 0)%Z then Z.max 0 (i + n) else Z.min i n.

Definition py_len (s : string) : Z := Z.of_nat (String.length s).

(** [s[a:b]] *)
Definition py_slice (s : string) (a b : Z) : string :=
  let a' := py_index_norm (py_len s) a in
  let b' := py_index_norm (py_len s) b in
  substring (Z.to_nat a') (Z.to_nat (b' - a')) s.

(** The last index [i] with [a <= i < b] and [s[i] = c], or [-1]. *)
Fixpoint rfind_from (c : ascii) (s : string) (i : nat) (a b : Z) (acc : Z) : Z :=
  match s with
  | EmptyString => acc
  | String x r =>
      rfind_from c r (S i) a b
        (if Ascii.eqb x c && (a <=? Z.of_nat i)%Z && (Z.of_nat i <? b)%Z then Z.of_nat i else acc)
  end.

(** [s.rfind(c, a, b)] for a one-character [c]: [a] and [b] are
    normalised as in a slice (ADJUST_INDICES). *)
Definition py_rfind (s : string) (c : ascii) (a b : Z) : Z :=
  rfind_from c s 0 (py_index_norm (py_len s) a) (py_index_norm (py_len s) b) (-1).

(** ** ChunkSplitter *)

Record chunk_splitter : Type := {
  max_chunk_size : Z;
  overlap : Z
}.

(** [ChunkSplitter()] *)
Definition default_splitter : chunk_splitter := {| max_chunk_size := 2000; overlap := 200 |}.

(** One iteration of the [while start < len(text)] loop (lines 21-39):
    [None] when the condition fails; otherwise the chunk it appends and
    the next [start], or [None] for the [break] of line 28. *)
Definition split_step (cs : chunk_splitter) (text : string) (start : Z)
  : option (string * option Z) :=
  if (start <? py_len text)%Z then
    let end_ := (start + max_chunk_size cs)%Z in
    if (py_len text <=? end_)%Z then Some (py_slice text start (py_len text), None)
    else
      let sentence_end := py_rfind text "." start end_ in
      let end_ := if (sentence_end =? -1)%Z then end_ else (sentence_end + 1)%Z in
      Some (py_slice text start end_, Some (end_ - overlap cs)%Z)
  else None.

Fixpoint split_loop (fuel : nat) (cs : chunk_splitter) (text : string) (start : Z)
  (chunks : list string) : option (list string) :=
  match fuel with
  | O => None
  | S f =>
      match split_step cs text start with
      | None => Some chunks
      | Some (c, None) => Some (chunks ++ [c])%list
      | Some (c, Some start') => split_loop f cs text start' (chunks ++ [c])%list
      end
  end.

(** [split_text(text)], lines 12-41; [None] when the loop runs longer
    than [fuel] iterations. *)
Definition split_text (fuel : nat) (cs : chunk_splitter) (text : string) : option (list string) :=
  if (py_len text <=? max_chunk_size cs)%Z then Some [text]
  else split_loop fuel cs text 0 [].

(** ** FormatEnforcer *)

(** The first index of [p] in [s]: where [re.search] of a literal
    matches. *)
Fixpoint find_sub (p s : string) : option nat :=
  if prefix p s then Some 0%nat
  else match s with
       | EmptyString => None
       | String _ r => option_map S (find_sub p r)
       end.

(** The length of [.*?] (with [DOTALL]) in front of the rest [t] of the
    text: the first position where the lookahead [(?=stop|$)] holds.
    Without [MULTILINE], [$] matches at the end and before a newline
    that ends the text. *)
Fixpoint lazy_scan (stop : option string) (t : string) : nat :=
  match t with
  | EmptyString => 0
  | String c r =>
      if match stop with Some p => prefix p t | None => false end then 0
      else if Ascii.eqb c "010"%char && String.eqb r "" then 0
      else S (lazy_scan stop r)
  end.

(** [pattern.search(text).group(0)] for [head.*?(?=stop|$)], or [None]
    when [head] does not occur: the match always completes, since [$]
    holds at the end. *)
Definition section_search (head : string) (stop : option string) (text : string) : option string :=
  match find_sub head text with
  | None => None
  | Some i =>
      let j := (String.length head + lazy_scan stop (str_drop (i + String.length head) text))%nat in
      Some (substring i j text)
  end.

Definition is_digit (c : ascii) : bool := match digit_val c with Some _ => true | None => false end.

Fixpoint take_digits (s : string) : string :=
  match s with
  | String c r => if is_digit c then String c (take_digits r) else EmptyString
  | EmptyString => EmptyString
  end.

(** [re.search(r"\d+", s).group()]: the first run of digits, or [None]
    (then [.group()] raises [AttributeError]). *)
Fixpoint first_digits (s : string) : option string :=
  match s with
  | EmptyString => None
  | String c r => if is_digit c then Some (String c (take_digits r)) else first_digits r
  end.

(** [s.split(c)] *)
Fixpoint py_split_char (c : ascii) (s : string) : list string :=
  match s with
  | EmptyString => [EmptyString]
  | String x r =>
      if Ascii.eqb x c then EmptyString :: py_split_char c r
      else match py_split_char c r with
           | w :: ws => String x w :: ws
           | [] => [String x EmptyString]
           end
  end.

(** The dictionary [enforce_format] returns. *)
Record formatted : Type := {
  f_analysis : string;
  f_score : pyval;
  f_suggestions : list string
}.

Definition nl : ascii := "010"%char.

(** [enforce_format(text)], format_enforcer.py 14-38, with the patterns
    of lines 10-12. *)
Definition enforce_format (text : string) : formatted :=
  let analysis := match section_search "1." (Some "2.") text with
                  | Some m => py_strip m | None => "" end in
  let score_text := match section_search "2." (Some "3.") text with
                    | Some m => py_strip m | None => "" end in
  let score := match first_digits score_text with
               | Some d => match py_float d with Some f => f | None => FFin 0 end
               | None => FFin 0
               end in
  let suggestions_text := match section_search "3." None text with
                          | Some m => py_strip m | None => "" end in
  let suggestions := filter (fun x => negb (String.eqb x "")) (map py_strip (py_split_char nl suggestions_text)) in
  {| f_analysis := analysis; f_score := PFloat score; f_suggestions := suggestions |}.

(** ** PostProcessor *)

(** [re.sub(pattern, r, s)] for a pattern [[...]+] of one character
    class [p]: each maximal run of characters of [p] becomes [r]; [prev]
    says whether the previous character was in the run. *)
Fixpoint sub_runs (p : ascii -> bool) (r : ascii) (prev : bool) (s : string) : string :=
  match s with
  | EmptyString => EmptyString
  | String c t =>
      if p c then (if prev then sub_runs p r true t else String r (sub_runs p r true t))
      else String c (sub_runs p r false t)
  end.

Definition is_nl (c : ascii) : bool := Ascii.eqb c nl.

(** Whether every character is whitespace ([\s] on [str] patterns is
    [str.isspace]). *)
Fixpoint all_space (s : string) : bool :=
  match s with
  | EmptyString => true
  | String c r => py_isspace c && all_space r
  end.

(** The leading run of whitespace, the match of [^\s+]. *)
Fixpoint ws_run (s : string) : nat :=
  match s with
  | String c r => if py_isspace c then S (ws_run r) else 0
  | EmptyString => 0
  end.

(** The scan of [\s+$] after position 0: a whitespace character starts a
    match only if the run reaches the end (a newline before the end is
    itself whitespace, so [$] before it adds no other match). *)
Fixpoint sub_tail (s : string) : string :=
  match s with
  | EmptyString => EmptyString
  | String c r => if py_isspace c && all_space r then EmptyString else String c (sub_tail r)
  end.

(** [re.sub(r"^\s+|\s+$", "", s)] *)
Definition sub_trim (s : string) : string := sub_tail (str_drop (ws_run s) s).

(** The three [cleanup_patterns] of lines 10-14, applied in order. *)
Definition cleanup (s : string) : string :=
  sub_trim (sub_runs py_isspace " " false (sub_runs is_nl nl false s)).

(** Numbers as Python compares them: [bool] and [int] are rationals,
    [float] adds the infinities and NaN. *)
Inductive num : Type := NQ (q : Q) | NInf (neg : bool) | NNan.

Definition to_num (v : pyval) : option num :=
  match v with
  | PBool b => Some (NQ (if b then 1 else 0)%Q)
  | PInt z => Some (NQ (inject_Z z))
  | PFloat (FFin q) => Some (NQ q)
  | PFloat (FInf neg) => Some (NInf neg)
  | PFloat FNan => Some NNan
  | _ => None
  end.

(** [a < b] and [a <= b]; every comparison with NaN is false. *)
Definition num_lt (a b : num) : bool :=
  match a, b with
  | NQ x, NQ y => negb (Qle_bool y x)
  | NInf true, NQ _ | NQ _, NInf false | NInf true, NInf false => true
  | _, _ => false
  end.

Definition num_le (a b : num) : bool :=
  match a, b with
  | NQ x, NQ y => Qle_bool x y
  | NInf true, NQ _ | NQ _, NInf false | NInf true, NInf _ | NInf false, NInf false => true
  | _, _ => false
  end.

(** Lines 34-38: [if not 0 <= score <= 100: score = max(0, min(100, score))].
    [min(100, score)] keeps [100] unless [score < 100]; [max(0, m)] keeps
    [0] unless [m > 0]; comparing a non-number raises [TypeError]. *)
Definition clamp_score (v : pyval) : result exc pyval :=
  match to_num v with
  | None => Err type_error
  | Some n =>
      if num_le (NQ 0) n && num_le n (NQ 100) then Ok v
      else
        let '(m, mn) := if num_lt n (NQ 100) then (v, n) else (PInt 100, NQ 100) in
        if num_lt (NQ 0) mn then Ok m else Ok (PInt 0)
  end.

(** [process(result)], post_processor.py 16-40, on the dictionary
    [enforce_format] builds.  The dictionary is the caller's and is
    updated in place: when the score raises, its analysis and suggestions
    are already rewritten; the model returns the exception. *)
Definition process (r : formatted) : result exc formatted :=
  let analysis := py_strip (cleanup (f_analysis r)) in
  let cleaned := map (fun x => py_strip (cleanup x)) (f_suggestions r) in
  let suggestions := filter (fun x => negb (String.eqb x "")) cleaned in
  let? score := clamp_score (f_score r) in
  Ok {| f_analysis := analysis; f_score := score; f_suggestions := suggestions |}.

(** ** StyleValidator *)

(** [len(s)] of a text held as its UTF-8 bytes: the bytes that do not
    continue a multi-byte character. *)
Fixpoint len_cp (s : string) : nat :=
  match s with
  | EmptyString => 0
  | String c r =>
      let n := nat_of_ascii c in
      if (128 <=? n)%nat && (n <=? 191)%nat then len_cp r else S (len_cp r)
  end.

(** [ValueError(msg)]: a built-in exception keeps its message in [args]. *)
Definition value_error_msg (msg : string) : exc := mk_exc CValueError [("args", PList [PStr msg])].

(** [$] without [MULTILINE]: the end, or a newline that ends the text. *)
Definition at_end (r : string) : bool := String.eqb r "" || String.eqb r (String nl "").

(** [re.match(r"^\d+(\.\d+)?$", s)] *)
Definition score_format_ok (s : string) : bool :=
  let d := take_digits s in
  let r := str_drop (String.length d) s in
  negb (String.eqb d "") &&
  (at_end r ||
   match r with
   | String c r' =>
       let d2 := take_digits r' in
       Ascii.eqb c "." && negb (String.eqb d2 "") && at_end (str_drop (String.length d2) r')
   | EmptyString => false
   end).

(** The rules of [StyleValidator.__init__], lines 11-29. *)
Definition analysis_min_length : nat := 100.
Definition analysis_max_length : nat := 2000.
Definition required_keywords : list string := ["分析"; "特点"; "风格"].
Definition suggestions_min_count : nat := 1.
Definition suggestions_max_count : nat := 10.
Definition suggestion_min_length : nat := 10.
Definition suggestion_max_length : nat := 200.

Fixpoint check_keywords (analysis : string) (ks : list string) : result exc unit :=
  match ks with
  | [] => Ok tt
  | k :: ks' =>
      if py_str_contains k analysis then check_keywords analysis ks'
      else Err (value_error_msg ("Analysis section missing required keyword: " ++ k))
  end.

Fixpoint check_suggestions (ss : list string) : result exc unit :=
  match ss with
  | [] => Ok tt
  | x :: ss' =>
      if (len_cp x <? suggestion_min_length)%nat then Err (value_error_msg "Suggestion is too short")
      else if (suggestion_max_length <? len_cp x)%nat then Err (value_error_msg "Suggestion is too long")
      else check_suggestions ss'
  end.

Section Validator.
(** [str(score)]: the repr of a Python number, an input of the model. *)
Context (py_str_of : pyval -> string).

(** [validate_response(response)], style_validator.py 31-67: the checks
    of the analysis, the score and the suggestions in order, each failure
    a [ValueError] that the [except] clause logs and re-raises. *)
Definition validate_response (response : string) : result exc formatted :=
  let f := enforce_format response in
  let analysis := f_analysis f in
  if (len_cp analysis <? analysis_min_length)%nat then Err (value_error_msg "Analysis section is too short")
  else if (analysis_max_length <? len_cp analysis)%nat then Err (value_error_msg "Analysis section is too long")
  else
    let? _ := check_keywords analysis required_keywords in
    let score := f_score f in
    match to_num score with
    | None => Err type_error
    | Some n =>
        if negb (num_le (NQ 0) n && num_le n (NQ 100)) then Err (value_error_msg "Score is out of valid range")
        else if negb (score_format_ok (py_str_of score)) then Err (value_error_msg "Invalid score format")
        else
          let suggestions := f_suggestions f in
          if (List.length suggestions <? suggestions_min_count)%nat then Err (value_error_msg "Too few suggestions")
          else if (suggestions_max_count <? List.length suggestions)%nat then Err (value_error_msg "Too many suggestions")
          else let? _ := check_suggestions suggestions in Ok f
    end.
End Validator.

Section SplitProps.

Lemma substring_app_adj (s : string) a b :
  (a <= b <= String.length s)%nat -> substring 0 a s ++ substring a (b - a) s = substring 0 b s.
Proof.
  revert a b. induction s as [|x r IH]; intros a b Hab; cbn [String.length] in Hab.
  - assert (a = 0 /\ b = 0)%nat as [-> ->] by lia. done.
  - destruct a as [|a].
    + by rewrite Nat.sub_0_r.
    + destruct b as [|b]; [lia|]. cbn. f_equal. rewrite <-(IH a b) by lia.
      by replace (substring 0 a r) with (substring 0 a r).
Qed.

Lemma substring_full (s : string) : substring 0 (String.length s) s = s.
Proof. induction s as [|x r IH]; [done|]. cbn. by rewrite IH. Qed.

Lemma substring_length_le (s : string) a n : (String.length (substring a n s) <= n)%nat.
Proof.
  revert a n. induction s as [|x r IH]; intros [|a] [|n]; cbn; try lia; try apply IH.
  specialize (IH 0 n). lia.
Qed.

Lemma py_index_norm_id n i : (0 <= i <= n)%Z -> py_index_norm n i = i.
Proof. intros H. unfold py_index_norm. destruct (Z.ltb_spec i 0); lia. Qed.

Lemma py_slice_in s a b :
  (0 <= a <= b)%Z -> (b <= py_len s)%Z -> py_slice s a b = substring (Z.to_nat a) (Z.to_nat (b - a)) s.
Proof. intros Ha Hb. unfold py_slice. by rewrite !py_index_norm_id by lia. Qed.

(** The scan returns its accumulator or an index of the window at or
    after its start. *)
Lemma rfind_from_cases c s i a b acc :
  rfind_from c s i a b acc = acc \/
  (a <= rfind_from c s i a b acc < b /\ Z.of_nat i <= rfind_from c s i a b acc)%Z.
Proof.
  revert i acc. induction s as [|x r IH]; intros i acc; cbn [rfind_from]; [by left|].
  set (acc' := if Ascii.eqb x c && (a <=? Z.of_nat i)%Z && (Z.of_nat i <? b)%Z
               then Z.of_nat i else acc).
  destruct (IH (S i) acc') as [->|H]; [|right; lia].
  subst acc'. destruct (Ascii.eqb x c && _ && _) eqn:E; [|by left].
  right. apply andb_true_iff in E as [[_ E1]%andb_true_iff E2]. lia.
Qed.

Lemma rfind_from_absent c s i a b acc :
  py_str_contains (String c EmptyString) s = false -> rfind_from c s i a b acc = acc.
Proof.
  revert i. induction s as [|x r IH]; intros i; [done|]. cbn [py_str_contains prefix].
  destruct (ascii_dec c x) as [->|Hne]; [by rewrite prefix_nil|].
  cbn [orb]. intros Hr. cbn [rfind_from]. rewrite (proj2 (Ascii.eqb_neq x c)) by congruence.
  by apply IH.
Qed.

(** In a window inside the text, [rfind] finds nothing or an index of
    the window. *)
Lemma py_rfind_window s c a b :
  (0 <= a <= b)%Z -> (b <= py_len s)%Z ->
  py_rfind s c a b = (-1)%Z \/ (a <= py_rfind s c a b < b)%Z.
Proof.
  intros Ha Hb. unfold py_rfind. rewrite !py_index_norm_id by lia.
  destruct (rfind_from_cases c s 0 a b (-1)) as [->|H]; [by left|right; lia].
Qed.

Lemma split_step_some_lt cs text start r :
  split_step cs text start = Some r -> (start < py_len text)%Z.
Proof. unfold split_step. destruct (Z.ltb_spec start (py_len text)); [lia|discriminate]. Qed.

(** The loop as an invariant argument: a property of [start] and of the
    chunks so far that every iteration keeps while [start] grows, and
    that each way out of the loop turns into the property of the
    result, holds of what the loop returns when its fuel exceeds
    [len(text) - start]. *)
Section LoopInvariant.
Context (cs : chunk_splitter) (text : string).
Context (I : Z -> list string -> Prop) (Post : list string -> Prop).
Hypothesis I_stop : forall s chs, I s chs -> split_step cs text s = None -> Post chs.
Hypothesis I_last : forall s chs c,
  I s chs -> split_step cs text s = Some (c, None) -> Post (chs ++ [c])%list.
Hypothesis I_next : forall s chs c s',
  I s chs -> split_step cs text s = Some (c, Some s') -> I s' (chs ++ [c])%list /\ (s < s')%Z.

Lemma split_loop_invariant fuel s chs :
  I s chs -> (Z.to_nat (py_len text - s) < fuel)%nat ->
  exists out, split_loop fuel cs text s chs = Some out /\ Post out.
Proof.
  revert s chs. induction fuel as [|f IH]; intros s chs Hi Hf; [lia|]. cbn [split_loop].
  destruct (split_step cs text s) as [[c [s'|]]|] eqn:E; [| by eauto | by eauto].
  destruct (I_next s chs c s' Hi E) as [Hi' Hlt]. apply split_step_some_lt in E.
  apply IH; [done|lia].
Qed.
End LoopInvariant.

(** ["".join(chunks)] *)
Definition join_chunks (l : list string) : string := foldr String.append "" l.

Lemma join_chunks_snoc l c : join_chunks (l ++ [c])%list = join_chunks l ++ c.
Proof.
  unfold join_chunks. rewrite foldr_app. cbn. rewrite str_app_nil_r.
  induction l as [|x l IH]; [done|]. cbn. by rewrite IH, str_app_assoc.
Qed.

Lemma split_step_none cs text s : split_step cs text s = None -> (py_len text <= s)%Z.
Proof.
  unfold split_step. destruct (Z.ltb_spec s (py_len text)); [|lia].
  by destruct (Z.leb _ _).
Qed.

Lemma split_step_last cs text s c :
  (0 <= s)%Z -> split_step cs text s = Some (c, None) ->
  (s < py_len text <= s + max_chunk_size cs)%Z /\
  c = substring (Z.to_nat s) (Z.to_nat (py_len text - s)) text.
Proof.
  intros Hs. unfold split_step. destruct (Z.ltb_spec s (py_len text)); [|discriminate].
  destruct (Z.leb_spec (py_len text) (s + max_chunk_size cs)); [|by destruct (_ =? _)%Z].
  intros [= <-]. split; [lia|]. apply py_slice_in; lia.
Qed.

(** An iteration that continues ends its chunk after the last ['.'] of
    the window, or at the window's end when there is none. *)
Lemma split_step_next cs text s c s' :
  (0 <= s)%Z -> (0 < max_chunk_size cs)%Z -> split_step cs text s = Some (c, Some s') ->
  exists e, (s < e <= s + max_chunk_size cs)%Z /\ (e < py_len text)%Z /\
    (py_rfind text "." s (s + max_chunk_size cs) = (-1)%Z -> e = (s + max_chunk_size cs)%Z) /\
    c = substring (Z.to_nat s) (Z.to_nat (e - s)) text /\ s' = (e - overlap cs)%Z.
Proof.
  intros Hs Hm. unfold split_step. destruct (Z.ltb_spec s (py_len text)); [|discriminate].
  destruct (Z.leb_spec (py_len text) (s + max_chunk_size cs)); [discriminate|].
  destruct (py_rfind_window text "." s (s + max_chunk_size cs)) as [Hr|Hr]; [lia|lia|..];
    intros [= <- <-].
  - rewrite Hr. cbn. exists (s + max_chunk_size cs)%Z. rewrite py_slice_in by lia.
    repeat split; lia.
  - destruct (Z.eqb_spec (py_rfind text "." s (s + max_chunk_size cs)) (-1)) as [He|He]; [lia|].
    exists (py_rfind text "." s (s + max_chunk_size cs) + 1)%Z. rewrite py_slice_in by lia.
    repeat split; lia.
Qed.

Lemma substring_full_Z text : substring 0 (Z.to_nat (py_len text)) text = text.
Proof. unfold py_len. rewrite Nat2Z.id. apply substring_full. Qed.

Lemma substring_app_Z text a b :
  (0 <= a <= b)%Z -> (b <= py_len text)%Z ->
  substring 0 (Z.to_nat a) text ++ substring (Z.to_nat a) (Z.to_nat (b - a)) text =
  substring 0 (Z.to_nat b) text.
Proof.
  intros Hab Hb. rewrite Z2Nat.inj_sub by lia. apply substring_app_adj.
  unfold py_len in Hb. lia.
Qed.

(** C33: Without overlap, [split_text] returns within [len(text) + 1]
    iterations, and its chunks joined give the text back. *)
Theorem split_text_no_overlap_roundtrip cs text :
  overlap cs = 0%Z -> (0 < max_chunk_size cs)%Z ->
  exists out, split_text (S (String.length text)) cs text = Some out /\ join_chunks out = text.
Proof.
  intros Ho Hm. unfold split_text.
  destruct (Z.leb _ _); [exists [text]; split; [done|apply str_app_nil_r]|].
  apply (split_loop_invariant cs text
           (fun s chs => 0 <= s <= py_len text /\ join_chunks chs = substring 0 (Z.to_nat s) text)%Z).
  - intros st chs [Hs Hj] Hn%split_step_none. rewrite Hj.
    replace st with (py_len text) by lia. apply substring_full_Z.
  - intros st chs c [Hs Hj] [Hlt ->]%split_step_last; [|lia].
    rewrite join_chunks_snoc, Hj, substring_app_Z by lia. apply substring_full_Z.
  - intros st chs c s' [Hs Hj] Hst.
    destruct (split_step_next cs text st c s' (proj1 Hs) Hm Hst) as (e & He & Hen & _ & -> & ->).
    rewrite Ho, Z.sub_0_r, join_chunks_snoc, Hj, substring_app_Z by lia. split; [split|]; [lia|done|lia].
  - split; [unfold py_len; lia|by destruct text].
  - unfold py_len. lia.
Qed.

(** On a text without ['.'], and an overlap smaller than the chunk
    size, [split_text] returns within [len(text) + 1] iterations and no
    chunk is longer than [max_chunk_size]. *)
Theorem split_text_terminates_no_period cs text :
  (0 <= overlap cs < max_chunk_size cs)%Z -> py_str_contains "." text = false ->
  exists out, split_text (S (String.length text)) cs text = Some out /\
              Forall (fun c => py_len c <= max_chunk_size cs)%Z out.
Proof.
  intros Ho Hp. unfold split_text.
  destruct (Z.leb_spec (py_len text) (max_chunk_size cs)); [exists [text]; by repeat constructor|].
  assert (forall a b, py_rfind text "." a b = (-1)%Z) as Hr
    by (intros a b; apply rfind_from_absent, Hp).
  apply (split_loop_invariant cs text
           (fun s chs => 0 <= s /\ Forall (fun c => py_len c <= max_chunk_size cs) chs)%Z).
  - by intros st chs [_ Hf].
  - intros st chs c [Hs Hf] [Hlt ->]%split_step_last; [|done].
    apply Forall_app; split; [done|]. constructor; [|done].
    pose proof (substring_length_le text (Z.to_nat st) (Z.to_nat (py_len text - st))).
    unfold py_len at 1. lia.
  - intros st chs c s' [Hs Hf] Hst.
    destruct (split_step_next cs text st c s' Hs ltac:(lia) Hst) as (e & He & Hen & Hnp & -> & ->).
    rewrite (Hnp (Hr _ _)). split; [split; [lia|]|lia].
    apply Forall_app; split; [done|]. constructor; [|done].
    pose proof (substring_length_le text (Z.to_nat st) (Z.to_nat (st + max_chunk_size cs - st))).
    unfold py_len at 1. lia.
  - split; [lia|constructor].
  - unfold py_len. lia.
Qed.

(** A window whose last ['.'] lies [overlap] characters after its start
    brings the loop back to the same [start]: from there it never
    returns, whatever the fuel, and appends the same chunk forever. *)
Theorem split_loop_stalls cs text start chunks fuel :
  (0 < overlap cs)%Z -> (0 <= start < py_len text)%Z ->
  (start + max_chunk_size cs < py_len text)%Z ->
  py_rfind text "." start (start + max_chunk_size cs) = (start + overlap cs - 1)%Z ->
  split_loop fuel cs text start chunks = None.
Proof.
  intros Ho Hs Hm Hr. revert chunks. induction fuel as [|f IH]; intros chunks; [done|].
  cbn [split_loop]. unfold split_step.
  rewrite (proj2 (Z.ltb_lt _ _) (proj2 Hs)), (proj2 (Z.leb_gt _ _) Hm), Hr.
  rewrite (proj2 (Z.eqb_neq _ _)) by lia.
  replace (start + overlap cs - 1 + 1 - overlap cs)%Z with start by lia. apply IH.
Qed.

(** C32: [ChunkSplitter()] never returns on a text longer than 2000
    characters whose last ['.'] among the first 2000 is at index 199:
    [start] stays 0 and [chunks] grows without end. *)
Corollary split_text_default_stalls text fuel :
  (2000 < py_len text)%Z -> py_rfind text "." 0 2000 = 199%Z ->
  split_text fuel default_splitter text = None.
Proof.
  intros Hl Hr. unfold split_text. cbn [max_chunk_size default_splitter].
  rewrite (proj2 (Z.leb_gt _ _) Hl). apply split_loop_stalls; cbn [max_chunk_size overlap default_splitter]; first [lia | by rewrite Z.add_0_l, Hr].
Qed.

End SplitProps.

Section FormatProps.
Local Open Scope string_scope.

Lemma los_app a b : list_ascii_of_string (a ++ b) = (list_ascii_of_string a ++ list_ascii_of_string b)%list.
Proof. induction a as [|c a IH]; [done|]. rewrite str_app_cons. cbn. f_equal. exact IH. Qed.

Lemma sol_app l1 l2 : string_of_list_ascii (l1 ++ l2) = string_of_list_ascii l1 ++ string_of_list_ascii l2.
Proof. induction l1 as [|c l IH]; [done|]. cbn. rewrite str_app_cons. f_equal. exact IH. Qed.

Lemma py_lstrip_keep x c y :
  py_isspace c = false -> exists x', py_lstrip (x ++ String c y) = x' ++ String c y.
Proof.
  intros Hc. induction x as [|d x IH].
  - exists "". change ("" ++ String c y) with (String c y). cbn. by rewrite Hc.
  - rewrite str_app_cons. cbn [py_lstrip]. destruct (py_isspace d); [done|].
    exists (String d x). by rewrite str_app_cons.
Qed.

(** [rstrip] keeps a prefix that ends with a non-space character. *)
Lemma py_rstrip_keep a c b :
  py_isspace c = false -> exists b', py_rstrip ((a ++ String c "") ++ b) = (a ++ String c "") ++ b'.
Proof.
  intros Hc. unfold py_rstrip.
  rewrite !los_app, rev_app_distr. cbn [list_ascii_of_string]. rewrite rev_app_distr. cbn [rev app].
  rewrite sol_app. cbn [string_of_list_ascii].
  destruct (py_lstrip_keep (string_of_list_ascii (rev (list_ascii_of_string b))) c
              (string_of_list_ascii (rev (list_ascii_of_string a))) Hc) as [x' ->].
  exists (string_of_list_ascii (rev (list_ascii_of_string x'))).
  rewrite los_app. cbn [list_ascii_of_string]. rewrite list_ascii_of_string_of_list_ascii.
  rewrite rev_app_distr. cbn [rev app]. rewrite rev_involutive, <-app_assoc. cbn [app].
  rewrite sol_app, string_of_list_ascii_of_string. cbn. by rewrite str_app_assoc.
Qed.

Lemma find_sub_some p s : py_str_contains p s = true -> exists i, find_sub p s = Some i.
Proof.
  induction s as [|c r IH]; cbn [py_str_contains find_sub].
  - destruct (prefix p ""); [by eexists|done].
  - destruct (prefix p (String c r)); [by eexists|]. cbn. intros [i ->]%IH. by eexists.
Qed.

Lemma find_sub_prefix p s i : find_sub p s = Some i -> prefix p (str_drop i s) = true.
Proof.
  revert i. induction s as [|c r IH]; intros i; cbn [find_sub].
  - destruct (prefix p "") eqn:E; intros [= <-]. done.
  - destruct (prefix p (String c r)) eqn:E; [by intros [= <-]|].
    destruct (find_sub p r) as [j|] eqn:Ej; [|done]. intros [= <-]. by apply IH.
Qed.

Lemma substring_prefix p s i k :
  prefix p (str_drop i s) = true ->
  substring i (String.length p + k) s = p ++ substring (i + String.length p) k s.
Proof.
  revert s. induction i as [|i IH]; intros s Hp.
  - cbn [str_drop] in Hp. cbn [Nat.add]. revert s Hp. induction p as [|c p IHp]; intros s Hp.
    + by destruct s.
    + destruct s as [|d s]; [done|]. cbn in Hp |- *.
      destruct (ascii_dec c d) as [->|]; [|done]. by rewrite IHp.
  - destruct s as [|d s]; [destruct p; done|]. cbn. by apply IH.
Qed.

(** A section whose header occurs is the header followed by the rest of
    the match. *)
Lemma section_search_found head stop text :
  py_str_contains head text = true -> exists m, section_search head stop text = Some (head ++ m).
Proof.
  intros [i Hi]%find_sub_some. unfold section_search. rewrite Hi.
  eexists. f_equal. apply substring_prefix, (find_sub_prefix _ _ _ Hi).
Qed.

Lemma enforce_format_score_section text :
  py_str_contains "2." text = true -> f_score (enforce_format text) = PFloat (FFin 2).
Proof.
  intros H. destruct (section_search_found "2." (Some "3.") text H) as [m Hm].
  unfold enforce_format. cbn [f_score]. rewrite Hm.
  destruct (py_rstrip_keep "2" "." m eq_refl) as [m' Hr].
  unfold py_strip. change (py_lstrip ("2." ++ m)) with ("2." ++ m).
  change ("2." ++ m) with (("2" ++ String "." "") ++ m). rewrite Hr. reflexivity.
Qed.

Lemma find_sub_none p s : py_str_contains p s = false -> find_sub p s = None.
Proof.
  induction s as [|c r IH]; cbn [py_str_contains find_sub].
  - by destruct (prefix p "").
  - destruct (prefix p (String c r)); [done|]. cbn. intros ->%IH. done.
Qed.

Lemma enforce_format_score_absent text :
  py_str_contains "2." text = false -> f_score (enforce_format text) = PFloat (FFin 0).
Proof. intros H. unfold enforce_format, section_search. by rewrite (find_sub_none _ _ H). Qed.

(** C34: The score [enforce_format] returns depends on nothing but whether
    the text contains ["2."]: it is [2.0] when it does, since the
    section it searches for digits starts with the header ["2."] whose
    ["2"] is the first run of digits, and [0.0] otherwise. *)
Theorem enforce_format_score_constant text :
  f_score (enforce_format text) = PFloat (FFin (if py_str_contains "2." text then 2 else 0)).
Proof.
  destruct (py_str_contains "2." text) eqn:H;
    [by apply enforce_format_score_section | by apply enforce_format_score_absent].
Qed.

Lemma check_keywords_err a ks e :
  check_keywords a ks = Err e ->
  exists k, e = value_error_msg ("Analysis section missing required keyword: " ++ k).
Proof.
  induction ks as [|k ks IH]; cbn [check_keywords]; [done|]. destruct (py_str_contains k a); [done|].
  intros [= <-]. by eexists.
Qed.

Lemma check_suggestions_err ss e :
  check_suggestions ss = Err e ->
  e = value_error_msg "Suggestion is too short" \/ e = value_error_msg "Suggestion is too long".
Proof.
  induction ss as [|x ss IH]; cbn [check_suggestions]; [done|].
  destruct (len_cp x <? suggestion_min_length)%nat; [intros [= <-]; by left|].
  destruct (suggestion_max_length <? len_cp x)%nat; [intros [= <-]; by right|]. done.
Qed.

(** C35: The score rules of [StyleValidator] never reject a response: the
    score [enforce_format] returns is [2.0] or [0.0], inside the range,
    and [str] of either matches the score format.  Whatever
    [validate_response] raises, it is not one of the two score errors. *)
Theorem validate_score_checks_dead py_str_of response e :
  py_str_of (PFloat (FFin 2)) = "2.0" -> py_str_of (PFloat (FFin 0)) = "0.0" ->
  validate_response py_str_of response = Err e ->
  e <> value_error_msg "Score is out of valid range" /\ e <> value_error_msg "Invalid score format".
Proof.
  intros H2 H0. unfold validate_response.
  assert (exists q, f_score (enforce_format response) = PFloat (FFin q) /\
                    ((q = 2)%Q /\ py_str_of (PFloat (FFin q)) = "2.0" \/
                     (q = 0)%Q /\ py_str_of (PFloat (FFin q)) = "0.0")) as (q & -> & Hq).
  { destruct (py_str_contains "2." response) eqn:E.
    - exists 2%Q. split; [by apply enforce_format_score_section|]. by left.
    - exists 0%Q. split; [by apply enforce_format_score_absent|]. by right. }
  set (f := enforce_format response).
  destruct (len_cp (f_analysis f) <? analysis_min_length)%nat; [intros [= <-]; split; intros [=]|].
  destruct (analysis_max_length <? len_cp (f_analysis f))%nat; [intros [= <-]; split; intros [=]|].
  destruct (check_keywords _ _) as [[]|e'] eqn:Ek; cbn [rbind];
    [|intros [= <-]; destruct (check_keywords_err _ _ _ Ek) as [k ->]; split; intros [=]].
  destruct Hq as [[-> ->]|[-> ->]]; cbn [to_num num_le].
  1: replace (negb (Qle_bool 0 2 && Qle_bool 2 100)) with false by reflexivity;
     replace (negb (score_format_ok "2.0")) with false by reflexivity.
  2: replace (negb (Qle_bool 0 0 && Qle_bool 0 100)) with false by reflexivity;
     replace (negb (score_format_ok "0.0")) with false by reflexivity.
  all: cbv beta iota.
  all: destruct (List.length (f_suggestions f) <? suggestions_min_count)%nat;
    [intros [= <-]; split; intros [=]|].
  all: destruct (suggestions_max_count <? List.length (f_suggestions f))%nat;
    [intros [= <-]; split; intros [=]|].
  all: destruct (check_suggestions _) as [[]|e'] eqn:Es; cbn [rbind]; [done|].
  all: intros [= <-]; destruct (check_suggestions_err _ _ Es) as [->| ->]; split; intros [=].
Qed.

End FormatProps.

Section CleanupProps.
Local Open Scope string_scope.

(** [re.sub(r"\n+", "\n", s)] is subsumed by the [\s+] pass after it:
    a newline is whitespace. *)
Lemma sub_runs_nl_subsumed s a b :
  (a = true -> b = true) ->
  sub_runs py_isspace " " b (sub_runs is_nl nl a s) = sub_runs py_isspace " " b s.
Proof.
  revert a b. induction s as [|c t IH]; intros a b Hab; [done|]. cbn [sub_runs].
  destruct (is_nl c) eqn:Hn.
  - assert (py_isspace c = true) as Hs by (apply Ascii.eqb_eq in Hn as ->; done).
    destruct a; cbn [sub_runs]; rewrite ?Hs; [rewrite Hab by done; by apply IH|].
    assert (py_isspace nl = true) as -> by done.
    destruct b; [|f_equal]; by apply IH.
  - cbn [sub_runs]. destruct (py_isspace c); [destruct b; [|f_equal]|f_equal]; by apply IH.
Qed.

Lemma all_space_app x y : all_space (x ++ y) = all_space x && all_space y.
Proof. induction x as [|c x IH]; [done|]. rewrite str_app_cons. cbn. by rewrite IH, andb_assoc. Qed.

Lemma all_space_forallb s : all_space s = forallb py_isspace (list_ascii_of_string s).
Proof. induction s as [|c s IH]; [done|]. cbn. by rewrite IH. Qed.

Lemma all_space_rev r : all_space (string_of_list_ascii (rev (list_ascii_of_string r))) = all_space r.
Proof.
  rewrite !all_space_forallb, list_ascii_of_string_of_list_ascii.
  induction (list_ascii_of_string r) as [|c l IH]; [done|].
  cbn [rev forallb]. rewrite forallb_app, IH. cbn. by rewrite andb_true_r, andb_comm.
Qed.

Lemma py_lstrip_all_space x : all_space x = true -> py_lstrip x = "".
Proof.
  induction x as [|c x IH]; [done|]. cbn. intros [-> H]%andb_true_iff. by apply IH.
Qed.

Lemma py_lstrip_app x y :
  py_lstrip (x ++ y) = if all_space x then py_lstrip y else py_lstrip x ++ y.
Proof.
  induction x as [|c x IH]; [done|]. rewrite str_app_cons. cbn. by destruct (py_isspace c).
Qed.

(** [rstrip] one character at a time. *)
Lemma py_rstrip_cons c r :
  py_rstrip (String c r) = if py_isspace c && all_space r then "" else String c (py_rstrip r).
Proof.
  unfold py_rstrip at 1. cbn [list_ascii_of_string rev]. rewrite sol_app, py_lstrip_app, all_space_rev.
  destruct (all_space r) eqn:Ha.
  - cbn. unfold py_rstrip. rewrite py_lstrip_all_space by (by rewrite all_space_rev).
    destruct (py_isspace c); done.
  - rewrite andb_false_r, los_app, rev_app_distr. cbn. reflexivity.
Qed.

Lemma sub_tail_rstrip s : sub_tail s = py_rstrip s.
Proof. induction s as [|c r IH]; [done|]. rewrite py_rstrip_cons. cbn. by rewrite IH. Qed.

Lemma py_lstrip_drop s : py_lstrip s = str_drop (ws_run s) s.
Proof. induction s as [|c r IH]; [done|]. cbn. by destruct (py_isspace c). Qed.

(** [re.sub(r"^\s+|\s+$", "", s)] is [s.strip()]. *)
Lemma sub_trim_strip s : sub_trim s = py_strip s.
Proof. unfold sub_trim, py_strip. by rewrite sub_tail_rstrip, <-py_lstrip_drop. Qed.

Lemma all_space_rstrip r : all_space (py_rstrip r) = all_space r.
Proof.
  induction r as [|c r IH]; [done|]. rewrite py_rstrip_cons.
  destruct (py_isspace c && all_space r) eqn:E; [done|]. cbn. by rewrite IH.
Qed.

Lemma py_rstrip_idem r : py_rstrip (py_rstrip r) = py_rstrip r.
Proof.
  induction r as [|c r IH]; [done|]. rewrite (py_rstrip_cons c r).
  destruct (py_isspace c && all_space r) eqn:E; [done|].
  by rewrite py_rstrip_cons, all_space_rstrip, E, IH.
Qed.

Lemma py_lstrip_head s :
  py_lstrip s = "" \/ exists c r, py_lstrip s = String c r /\ py_isspace c = false.
Proof.
  induction s as [|c r IH]; [by left|]. cbn. destruct (py_isspace c) eqn:E; [done|]. right; eauto.
Qed.

Lemma py_strip_idem s : py_strip (py_strip s) = py_strip s.
Proof.
  unfold py_strip. destruct (py_lstrip_head s) as [->|(c & r & -> & Hc)]; [done|].
  rewrite (py_rstrip_cons c r), Hc. cbn [andb py_lstrip]. rewrite Hc.
  rewrite py_rstrip_cons, Hc. cbn [andb]. by rewrite py_rstrip_idem.
Qed.

(** [cleanup] is [re.sub(r"\s+", " ", s).strip()]. *)
Lemma cleanup_single_pass s : cleanup s = py_strip (sub_runs py_isspace " " false s).
Proof. unfold cleanup. by rewrite sub_runs_nl_subsumed, sub_trim_strip. Qed.

Lemma clamp_score_range v w :
  clamp_score v = Ok w -> exists n, to_num w = Some n /\ num_le (NQ 0) n && num_le n (NQ 100) = true.
Proof.
  unfold clamp_score. destruct (to_num v) as [n|] eqn:Hv; [|discriminate].
  destruct (num_le (NQ 0) n && num_le n (NQ 100)) eqn:Hr; [intros [= <-]; eauto|].
  destruct (num_lt n (NQ 100)) eqn:Hl.
  - destruct (num_lt (NQ 0) n) eqn:H0; intros [= <-]; [|by eexists].
    exfalso. destruct n as [q|[]|]; cbn in Hr, Hl, H0; try discriminate.
    apply negb_true_iff in Hl, H0. apply andb_false_iff in Hr as [Hr|Hr]; apply Bool.not_true_iff_false in Hr;
      apply Hr, Qle_bool_iff; [apply Qlt_le_weak|apply Qlt_le_weak];
      apply Qnot_le_lt; intros Hq%Qle_bool_iff; congruence.
  - intros [= <-]. by eexists.
Qed.

(** C36: Of [process]'s three patterns and final [strip], only [\s+] acts:
    the analysis and every suggestion come out as
    [re.sub(r"\s+", " ", s).strip()], empty suggestions dropped, and
    the score is clamped. *)
Theorem process_single_pass r :
  process r =
    (let? score := clamp_score (f_score r) in
     Ok {| f_analysis := py_strip (sub_runs py_isspace " " false (f_analysis r));
           f_score := score;
           f_suggestions := filter (fun x => negb (String.eqb x ""))
                              (map (fun x => py_strip (sub_runs py_isspace " " false x)) (f_suggestions r)) |}).
Proof.
  unfold process. rewrite cleanup_single_pass, py_strip_idem.
  assert (forall l, map (fun x => py_strip (cleanup x)) l =
                    map (fun x => py_strip (sub_runs py_isspace " " false x)) l) as ->; [|done].
  intros l. apply map_ext. intros x. by rewrite cleanup_single_pass, py_strip_idem.
Qed.

(** C37: [process] returns a score between 0 and 100 for every number it is
    given, NaN and the infinities included (NaN becomes [100]); a score
    that is not a number raises [TypeError]. *)
Theorem process_score_in_range r r' :
  process r = Ok r' ->
  exists n, to_num (f_score r') = Some n /\ num_le (NQ 0) n = true /\ num_le n (NQ 100) = true.
Proof.
  unfold process. destruct (clamp_score (f_score r)) as [w|e] eqn:Hc; cbn [rbind]; [|done].
  intros [= <-]. cbn [f_score]. destruct (clamp_score_range _ _ Hc) as (n & Hn & Hr).
  apply andb_true_iff in Hr. eauto.
Qed.

Lemma process_type_error r : to_num (f_score r) = None -> process r = Err type_error.
Proof. intros H. unfold process, clamp_score. by rewrite H. Qed.

End CleanupProps.

Section ProcessingWitnesses.

Definition rep_char (n : nat) (c : ascii) : string := string_of_list_ascii (repeat c n).

Definition stall_text : string := rep_char 199 "a" ++ "." ++ rep_char 1900 "a".

Lemma split_text_default_stalls_witness :
  (2000 < py_len stall_text)%Z /\ py_rfind stall_text "." 0 2000 = 199%Z /\
  split_text 1000 default_splitter stall_text = None.
Proof.
  assert (2000 < py_len stall_text)%Z as Hl by (vm_compute; reflexivity).
  assert (py_rfind stall_text "." 0 2000 = 199%Z) as Hr by (vm_compute; reflexivity).
  split; [exact Hl|split; [exact Hr|]]. apply (split_text_default_stalls stall_text 1000 Hl Hr).
Defined.

(** A ['.'] at index 0 sends [start] to [-199], which reads from the
    end of the text: the 1600 characters after the ['.'] are in no
    chunk. *)
Example split_text_skips_text :
  split_text 10 default_splitter ("." ++ rep_char 3000 "a") =
    Some ["."; ""; rep_char 1400 "a"].
Proof. vm_compute. reflexivity. Qed.

Lemma split_text_no_overlap_roundtrip_witness :
  exists out, split_text 11 {| max_chunk_size := 4; overlap := 0 |} "Ab. cd. efgh" = Some out /\
              join_chunks out = "Ab. cd. efgh".
Proof. apply (split_text_no_overlap_roundtrip {| max_chunk_size := 4; overlap := 0 |}); cbn; lia. Defined.

Lemma split_text_terminates_no_period_witness :
  exists out, split_text 11 default_splitter (rep_char 10 "a") = Some out /\
              Forall (fun c => py_len c <= 2000)%Z out.
Proof.
  apply (split_text_terminates_no_period default_splitter (rep_char 10 "a")); [cbn; lia|reflexivity].
Defined.

Definition demo_formatted : formatted :=
  {| f_analysis := "  1.  The   text
 of the analysis  "; f_score := PFloat FNan;
     f_suggestions := ["3. Use   shorter  sentences"; "   "] |}.

Lemma process_score_in_range_witness :
  exists r', process demo_formatted = Ok r' /\
    exists n, to_num (f_score r') = Some n /\ num_le (NQ 0) n = true /\ num_le n (NQ 100) = true.
Proof.
  eexists. split; [reflexivity|]. apply (process_score_in_range demo_formatted). reflexivity.
Defined.

Definition demo_str_of (v : pyval) : string :=
  match v with
  | PFloat (FFin q) => if Qeq_bool q 2 then "2.0" else "0.0"
  | _ => "0"
  end.

Definition demo_response : string := "1. A short analysis.
2. Score: 85
3. Keep going".

Lemma validate_score_checks_dead_witness :
  demo_str_of (PFloat (FFin 2)) = "2.0" /\ demo_str_of (PFloat (FFin 0)) = "0.0" /\
  validate_response demo_str_of demo_response = Err (value_error_msg "Analysis section is too short") /\
  value_error_msg "Analysis section is too short" <> value_error_msg "Score is out of valid range" /\
  value_error_msg "Analysis section is too short" <> value_error_msg "Invalid score format".
Proof.
  assert (demo_str_of (PFloat (FFin 2)) = "2.0") as H2 by reflexivity.
  assert (demo_str_of (PFloat (FFin 0)) = "0.0") as H0 by reflexivity.
  assert (validate_response demo_str_of demo_response = Err (value_error_msg "Analysis section is too short"))
    as Hv by (vm_compute; reflexivity).
  do 3 (split; [assumption|]).
  exact (validate_score_checks_dead demo_str_of demo_response _ H2 H0 Hv).
Defined.

End ProcessingWitnesses.

End Processing.
