(* ===== verification/ChatLogs.v ===== *)
(** * ChatLogs: the chat history routes of [api/routes/chat_history.py]

    The router keeps chat logs as JSON files of [LOGS_DIR]
    ([DATA_DIR/output/logs]), over the file system of [Cache].  The save
    route writes a new file named after the time, the model and the
    first eight characters of a fresh uuid, and answers with the uuid as
    the log's id; the detail route reads the file [{chat_id}.json]; the
    list route reads every file of the directory, newest first, and names
    each log by its file name.

    The functions of the standard library the routes call are inputs:
    [datetime.fromisoformat] ([fromiso]), [datetime.fromtimestamp]
    ([fromtimestamp], which raises [ValueError], [OSError] or
    [OverflowError] out of range), [str] of a value ([Render]), and the
    validation pydantic performs for an [Optional[str]] field
    ([validate_opt_str]), which depends on its version. *)

From stdpp Require Import gmap.
From S2P Require Import Prelude Errors Http Cache Routes Processing.
Import Exc.

Module ChatLogApi.
Local Open Scope string_scope.

(** [ChatMessage]: the role, the content and the parsed timestamp. *)
Record chat_message : Type := {
  cm_role : string;
  cm_content : string;
  cm_timestamp : option Q
}.

(** [ChatLogDetail] *)
Record chat_log_detail : Type := {
  cd_id : string;
  cd_provider : pyval;
  cd_model : pyval;
  cd_timestamp : Q;
  cd_messages : list chat_message
}.

(** [SaveChatLogRequest] *)
Record save_request : Type := {
  sr_provider : string;
  sr_model : string;
  sr_messages : list (pydict string pyval);
  sr_timestamp : option string
}.

(** [str(v)]: a string is itself. *)
Definition str_of `{Render} (v : pyval) : string :=
  match v with PStr s => s | _ => py_str v end.

(** The characters [re.sub] replaces by an underscore in the model
    name (line 231): backslash, slash, star, question mark, colon, double
    quote, less-than, greater-than and bar. *)
Definition unsafe_char (c : ascii) : bool :=
  existsb (Ascii.eqb c) ["\"; "/"; "*"; "?"; ":"; ascii_of_nat 34; "<"; ">"; "|"]%char.

Fixpoint safe_model_name (s : string) : string :=
  match s with
  | EmptyString => EmptyString
  | String c r => String (if unsafe_char c then "_"%char else c) (safe_model_name r)
  end.

(** The stem of the file [save_chat_log] writes (lines 233-234). *)
Definition log_stem (time_prefix model chat_id : string) : string :=
  time_prefix ++ "_" ++ safe_model_name model ++ "_" ++ str_take 8 chat_id.

(** [chat_log.timestamp or current_time] *)
Definition request_timestamp (current_time : string) (r : save_request) : string :=
  match sr_timestamp r with
  | Some t => if String.eqb t "" then current_time else t
  | None => current_time
  end.

(** [save_data], lines 221-227. *)
Definition save_data (chat_id current_time : string) (r : save_request) : pyval :=
  PDict [("id", PStr chat_id); ("provider", PStr (sr_provider r)); ("model", PStr (sr_model r));
         ("timestamp", PStr (request_timestamp current_time r));
         ("messages", PList (map PDict (sr_messages r)))].

(** [".." in chat_id or "/" in chat_id or "\\" in chat_id] *)
Definition invalid_chat_id (chat_id : string) : bool :=
  py_str_contains ".." chat_id || py_str_contains "/" chat_id || py_str_contains "\" chat_id.

Definition http_error (code : Z) (detail : string) : exc := ResultsApi.http_exception code (PStr detail).

(** [ChatLogSummary] *)
Record chat_log_summary : Type := {
  cs_id : string;
  cs_timestamp : Q;
  cs_provider : pyval;
  cs_model : pyval;
  cs_messages_count : nat;
  cs_first_user_message : pyval
}.

(** A byte that continues a UTF-8 character. *)
Definition utf8_cont (c : ascii) : bool :=
  let n := nat_of_ascii c in (128 <=? n)%nat && (n <=? 191)%nat.

(** [s[:n]] on a text held as UTF-8 bytes: its first [n] characters. *)
Fixpoint take_cp (n : nat) (s : string) : string :=
  match s with
  | EmptyString => EmptyString
  | String c r =>
      if utf8_cont c then String c (take_cp n r)
      else match n with O => EmptyString | S n' => String c (take_cp n' r) end
  end.

(** [len(messages)] *)
Definition len_val (v : pyval) : result exc nat :=
  match v with
  | PList l => Ok (List.length l)
  | PDict d => Ok (List.length d)
  | PStr s => Ok (Processing.len_cp s)
  | _ => Err type_error
  end.

(** [next((msg.get("content") for msg in messages if msg.get("role") ==
    "user"), None)], line 87: the generator stops at the first user
    message; an entry before it that is not a dict has no [get]. *)
Fixpoint first_user_content (ms : list pyval) : result exc pyval :=
  match ms with
  | [] => Ok PNone
  | m :: ms' =>
      match m with
      | PDict d =>
          match dict_get "role" d with
          | Some (PStr "user") => Ok (dict_get_default "content" PNone d)
          | _ => first_user_content ms'
          end
      | _ => Err attribute_error
      end
  end.

(** [first_user_msg_content[:100] if first_user_msg_content else None] *)
Definition preview (v : pyval) : result exc pyval :=
  if py_truthy v then
    match v with
    | PStr s => Ok (PStr (take_cp 100 s))
    | PList l => Ok (PList (take 100 l))
    | _ => Err type_error
    end
  else Ok PNone.

Section Ops.
Context `{Render} (logs_dir : string) (fromiso : string -> option Q)
        (fromtimestamp : Processing.num -> result exc Q) (validate_opt_str : pyval -> result exc pyval)
        (dump_size : pyval -> Z).

(** [save_chat_log(chat_log)], lines 209-253: [chat_id] is
    [str(uuid.uuid4())], [current_time] the UTC time in ISO format,
    [time_prefix] the local time as [%Y%m%d_%H%M%S] and [now] the file's
    modification time. *)
Definition save_chat_log (chat_id current_time time_prefix : string) (now : Q) (r : save_request)
  (fs : fsys) : result exc pyval * fsys :=
  let v := save_data chat_id current_time r in
  let fs' := <[Cache.path_of logs_dir (log_stem time_prefix (sr_model r) chat_id)
               := mk_dfile (Some v) now (dump_size v)]> fs in
  (Ok (PDict [("id", PStr chat_id); ("status", PStr "success");
              ("message", PStr ("Chat log saved successfully with ID: " ++ chat_id))]), fs').

(** The log's timestamp, lines 139-147 (and 90-97): an ISO string with
    its [Z] suffix replaced, else the file's modification time; a truthy
    value that is not a string has no [replace]. *)
Definition log_timestamp (d : pydict string pyval) (f : dfile) : result exc Q :=
  match dict_get "timestamp" d with
  | Some t =>
      if py_truthy t then
        match t with
        | PStr s => Ok (default (dmtime f) (fromiso (py_replace s "Z" "+00:00")))
        | _ => Err attribute_error
        end
      else Ok (dmtime f)
  | None => Ok (dmtime f)
  end.

(** [datetime.fromtimestamp] of a number, lines 156-166: a value above
    [10**12] is taken as milliseconds; [ValueError] and [OSError] give
    [None], anything else propagates. *)
Definition numeric_timestamp (n : Processing.num) : result exc (option Q) :=
  let secs := if Processing.num_lt (Processing.NQ (inject_Z (10 ^ 12))) n
              then match n with Processing.NQ q => Processing.NQ (q / 1000) | _ => n end else n in
  match fromtimestamp secs with
  | Ok q => Ok (Some q)
  | Err e => if isinstance e [CValueError; COSError] then Ok None else Err e
  end.

(** One message, lines 152-186: [None] for an entry that is skipped. *)
Definition parse_message (m : pyval) : result exc (option chat_message) :=
  match m with
  | PDict d =>
      match dict_get "role" d, dict_get "content" d with
      | Some role, Some content =>
          let? ts := match dict_get "timestamp" d with
                     | None | Some PNone => Ok None
                     | Some (PStr s) => Ok (fromiso (py_replace s "Z" "+00:00"))
                     | Some t => match t with
                                 | PInt _ | PFloat _ | PBool _ =>
                                     match Processing.to_num t with
                                     | Some n => numeric_timestamp n
                                     | None => Ok None
                                     end
                                 | _ => Ok None
                                 end
                     end in
          Ok (Some {| cm_role := str_of role; cm_content := str_of content; cm_timestamp := ts |})
      | _, _ => Ok None
      end
  | _ => Ok None
  end.

Fixpoint parse_messages (ms : list pyval) : result exc (list chat_message) :=
  match ms with
  | [] => Ok []
  | m :: ms' =>
      let? o := parse_message m in
      let? rest := parse_messages ms' in
      Ok (match o with Some cm => cm :: rest | None => rest end)
  end.

(** The body of the [try] of lines 133-202 once the file is decoded. *)
Definition detail_body (chat_id : string) (v : pyval) (f : dfile) : result exc chat_log_detail :=
  match v with
  | PDict d =>
      if negb (dict_mem "messages" d)
      then Err (http_error 500 ("Invalid format in chat log file: " ++ chat_id ++ ".json"))
      else
        let? ts := log_timestamp d f in
        let? ms := py_iter (dict_get_default "messages" (PList []) d) in
        let? msgs := parse_messages ms in
        let? provider := validate_opt_str (dict_get_default "provider" (PStr "Unknown") d) in
        let? model := validate_opt_str (dict_get_default "model" (PStr "Unknown") d) in
        Ok {| cd_id := chat_id; cd_provider := provider; cd_model := model;
              cd_timestamp := ts; cd_messages := msgs |}
  | _ => Err (http_error 500 ("Invalid format in chat log file: " ++ chat_id ++ ".json"))
  end.

(** The body of the [try] of lines 79-112 for one file. *)
Definition summary_of (stem : string) (f : dfile) : result exc chat_log_summary :=
  match dcontent f with
  | None => Err json_decode_error
  | Some (PDict d) =>
      let messages := dict_get_default "messages" (PList []) d in
      let? ms := py_iter messages in
      let? fu := first_user_content ms in
      let? ts := log_timestamp d f in
      let? n := len_val messages in
      let? pv := preview fu in
      let? provider := validate_opt_str (dict_get_default "provider" (PStr "Unknown") d) in
      let? model := validate_opt_str (dict_get_default "model" (PStr "Unknown") d) in
      let? fum := validate_opt_str pv in
      Ok {| cs_id := stem; cs_timestamp := ts; cs_provider := provider; cs_model := model;
            cs_messages_count := n; cs_first_user_message := fum |}
  | Some _ => Err attribute_error
  end.

(** [get_chat_logs_list()], lines 66-116: the files of the directory
    newest first (a stable sort), each summarised or, on any exception,
    skipped.  The directory exists: the module creates it on import. *)
Definition get_chat_logs_list (fs : fsys) : list chat_log_summary :=
  omap (fun e => match summary_of e.1.2 e.2 with Ok s => Some s | Err _ => None end)
       (Cache.sort_desc (fun e => dmtime e.2) (Cache.glob fs logs_dir)).

(** [get_chat_log_detail(chat_id)], lines 118-206: every exception of
    the body, the [HTTPException] of line 138 included, is caught by the
    last [except] and raised again as a 500 with its text. *)
Definition get_chat_log_detail (chat_id : string) (fs : fsys) : result exc chat_log_detail :=
  if invalid_chat_id chat_id then Err (http_error 400 "Invalid chat ID format.")
  else
    match fs !! Cache.path_of logs_dir chat_id with
    | None => Err (http_error 404 ("Chat log with ID '" ++ chat_id ++ "' not found."))
    | Some f =>
        match dcontent f with
        | None => Err (http_error 500 ("Error decoding JSON from chat log file: " ++ chat_id ++ ".json"))
        | Some v =>
            match detail_body chat_id v f with
            | Ok r => Ok r
            | Err e => Err (http_error 500 ("Failed to read chat log details: " ++ exc_str e))
            end
        end
    end.
End Ops.

Section Props.
Context `{Render} (logs_dir : string) (fromiso : string -> option Q)
        (fromtimestamp : Processing.num -> result exc Q) (validate_opt_str : pyval -> result exc pyval)
        (dump_size : pyval -> Z).

Lemma log_stem_underscore time_prefix model chat_id :
  py_str_contains "_" (log_stem time_prefix model chat_id) = true.
Proof.
  unfold log_stem. rewrite str_contains_char_app. apply orb_true_intro. right.
  rewrite str_app_cons. cbn [py_str_contains prefix]. by rewrite prefix_nil.
Qed.

(** The file of an id without an underscore is not the file a save
    writes. *)
Lemma log_path_ne logs time_prefix model chat_id rid :
  py_str_contains "_" rid = false ->
  Cache.path_of logs (log_stem time_prefix model chat_id) <> Cache.path_of logs rid.
Proof.
  unfold Cache.path_of. intros Hr Heq. apply str_app_inj_l in Heq. injection Heq as Heq.
  change ("" ++ ?a = "" ++ ?b) with (a = b) in Heq.
  pose proof (log_stem_underscore time_prefix model chat_id) as Hu.
  apply (f_equal (py_str_contains "_")) in Heq.
  rewrite !str_contains_char_app, Hu, Hr in Heq. discriminate.
Qed.

(** C30: The id [save_chat_log] answers with is the uuid, but the file it
    writes is named after the time, the model and eight characters of the
    uuid: [GET /chat-logs/{id}] of that id answers 404, on every file
    system where no [{id}.json] was there before. *)
Theorem save_returned_id_not_found chat_id current_time time_prefix now r fs :
  py_str_contains "_" chat_id = false -> invalid_chat_id chat_id = false ->
  fs !! Cache.path_of logs_dir chat_id = None ->
  (save_chat_log logs_dir dump_size chat_id current_time time_prefix now r fs).1 =
    Ok (PDict [("id", PStr chat_id); ("status", PStr "success");
               ("message", PStr ("Chat log saved successfully with ID: " ++ chat_id))]) /\
  get_chat_log_detail logs_dir fromiso fromtimestamp validate_opt_str chat_id
    (save_chat_log logs_dir dump_size chat_id current_time time_prefix now r fs).2 =
    Err (http_error 404 ("Chat log with ID '" ++ chat_id ++ "' not found.")).
Proof.
  intros Hu Hv Hn. split; [done|]. unfold get_chat_log_detail. rewrite Hv. cbn [snd save_chat_log].
  rewrite lookup_insert_ne by (by apply log_path_ne). by rewrite Hn.
Qed.

Definition msg_dict (rc : string * string) : pydict string pyval :=
  [("role", PStr rc.1); ("content", PStr rc.2)].

Definition msg_read (rc : string * string) : chat_message :=
  {| cm_role := rc.1; cm_content := rc.2; cm_timestamp := None |}.

Lemma parse_messages_plain rcs :
  parse_messages fromiso fromtimestamp (map PDict (map msg_dict rcs)) = Ok (map msg_read rcs).
Proof. induction rcs as [|rc rcs IH]; [done|]. cbn. by rewrite IH. Qed.

Lemma request_timestamp_nonempty current_time r :
  current_time <> "" -> request_timestamp current_time r <> "".
Proof.
  unfold request_timestamp. intros Hc. destruct (sr_timestamp r) as [t|]; [|done].
  by destruct (String.eqb_spec t "").
Qed.

(** C31: Save then read through the file's stem, the id the list route
    gives: a log whose messages are role and content strings is read
    back with its provider, model, timestamp and messages, when pydantic
    accepts strings as they are. *)
Theorem save_then_detail_by_stem chat_id current_time time_prefix now r fs q rcs :
  invalid_chat_id (log_stem time_prefix (sr_model r) chat_id) = false -> current_time <> "" ->
  fromiso (py_replace (request_timestamp current_time r) "Z" "+00:00") = Some q ->
  (forall s, validate_opt_str (PStr s) = Ok (PStr s)) ->
  sr_messages r = map msg_dict rcs ->
  get_chat_log_detail logs_dir fromiso fromtimestamp validate_opt_str
    (log_stem time_prefix (sr_model r) chat_id)
    (save_chat_log logs_dir dump_size chat_id current_time time_prefix now r fs).2 =
  Ok {| cd_id := log_stem time_prefix (sr_model r) chat_id; cd_provider := PStr (sr_provider r);
        cd_model := PStr (sr_model r); cd_timestamp := q; cd_messages := map msg_read rcs |}.
Proof.
  intros Hinv Hc Hq Hval Hm. unfold get_chat_log_detail. rewrite Hinv.
  cbn [snd save_chat_log]. rewrite lookup_insert, decide_True by done. cbn [dcontent].
  unfold detail_body, save_data.
  set (d := [("id", PStr chat_id); ("provider", PStr (sr_provider r)); ("model", PStr (sr_model r));
             ("timestamp", PStr (request_timestamp current_time r));
             ("messages", PList (map PDict (sr_messages r)))]).
  assert (dict_mem "messages" d = true) as -> by reflexivity.
  assert (dict_get "timestamp" d = Some (PStr (request_timestamp current_time r))) as Ht by reflexivity.
  assert (dict_get_default "messages" (PList []) d = PList (map PDict (sr_messages r))) as -> by reflexivity.
  assert (dict_get_default "provider" (PStr "Unknown") d = PStr (sr_provider r)) as -> by reflexivity.
  assert (dict_get_default "model" (PStr "Unknown") d = PStr (sr_model r)) as -> by reflexivity.
  unfold log_timestamp. rewrite Ht. cbn [negb py_truthy].
  rewrite (proj2 (String.eqb_neq _ _) (request_timestamp_nonempty _ r Hc)). cbn [negb].
  rewrite Hq. cbn [default rbind py_iter]. rewrite Hm, parse_messages_plain.
  cbn [rbind]. by rewrite !Hval.
Qed.

Lemma prefix_drop p s : prefix p s = true -> s = p ++ str_drop (String.length p) s.
Proof.
  revert s. induction p as [|c p IH]; intros s; [done|].
  destruct s as [|d s]; [done|]. cbn. destruct (ascii_dec c d) as [->|]; [|done].
  intros Hp. rewrite str_app_cons. f_equal. by apply IH.
Qed.

Lemma length_app_str a b : String.length (a ++ b) = (String.length a + String.length b)%nat.
Proof. induction a as [|c a IH]; [done|]. rewrite str_app_cons. cbn. by rewrite IH. Qed.

Lemma endswith_split s p :
  py_endswith s p = true -> s = str_take (String.length s - String.length p) s ++ p.
Proof.
  unfold py_endswith, str_take. intros [Hl He]%andb_true_iff.
  apply Nat.leb_le in Hl. apply String.eqb_eq in He.
  set (n := String.length s) in *. set (m := String.length p) in *.
  transitivity (substring 0 (n - m) s ++ substring (n - m) m s); [|by rewrite He].
  pose proof (Processing.substring_app_adj s (n - m) n ltac:(lia)) as Hadj.
  replace (n - (n - m))%nat with m in Hadj by lia. rewrite Hadj. symmetry.
  apply Processing.substring_full.
Qed.

(** A path [glob] gives under its stem is the path of the stem. *)
Lemma json_stem_path dir p stem : Cache.json_stem dir p = Some stem -> p = Cache.path_of dir stem.
Proof.
  unfold Cache.json_stem. destruct (py_startswith p (dir ++ "/")) eqn:Hs; [|done].
  destruct (py_endswith _ ".json" && _) eqn:He; [|done]. intros [= <-].
  apply andb_true_iff in He as [He _].
  set (name := str_drop (String.length dir + 1) p) in *.
  apply endswith_split in He. cbn [String.length] in He.
  apply prefix_drop in Hs. rewrite length_app_str in Hs. cbn [String.length] in Hs.
  change (str_drop (String.length dir + 1) p) with name in Hs.
  rewrite Hs at 1. rewrite He at 1. unfold Cache.path_of. by rewrite str_app_assoc.
Qed.

Lemma glob_stem fs dir e : e ∈ Cache.glob fs dir -> Cache.json_stem dir e.1.1 = Some e.1.2.
Proof.
  unfold Cache.glob. intros (pf & Hin & Hs)%list_elem_of_omap.
  destruct (Cache.json_stem dir pf.1) eqn:E; simplify_eq/=. done.
Qed.

Lemma summary_of_id stem f s :
  summary_of fromiso validate_opt_str stem f = Ok s -> cs_id s = stem.
Proof.
  unfold summary_of. destruct (dcontent f) as [[]|]; try done.
  repeat (match goal with |- context [rbind ?c _] => destruct c; cbn [rbind]; [|done] end).
  by intros [= <-].
Qed.

(** Every log the list route returns is found by the detail route under
    the id the list gives it: [GET /chat-logs/{id}] of a listed id does
    not answer 404. *)
Theorem listed_ids_found fs s :
  s ∈ get_chat_logs_list logs_dir fromiso validate_opt_str fs ->
  get_chat_log_detail logs_dir fromiso fromtimestamp validate_opt_str (cs_id s) fs <>
    Err (http_error 404 ("Chat log with ID '" ++ cs_id s ++ "' not found.")).
Proof.
  unfold get_chat_logs_list. intros (e & Hin & Hs)%list_elem_of_omap.
  destruct (summary_of _ _ e.1.2 e.2) as [s'|] eqn:Es; [|done]. injection Hs as <-.
  apply summary_of_id in Es as ->.
  rewrite (Cache.sort_desc_perm (fun e => dmtime e.2) (Cache.glob fs logs_dir)) in Hin.
  pose proof (Cache.glob_lookup _ _ _ Hin) as Hl. apply glob_stem, json_stem_path in Hin.
  unfold get_chat_log_detail. destruct (invalid_chat_id _); [intros [=]|].
  rewrite <-Hin, Hl. destruct (dcontent e.2); [|intros [=]].
  match goal with |- context [match ?x with Ok _ => _ | Err _ => _ end] => destruct x end; intros [=].
Qed.

End Props.

Section ChatLogWitnesses.

#[local] Instance demo_render : Render := {| py_str := fun _ => "value"; exc_str := fun _ => "error" |}.

Definition demo_logs : string := "data/output/logs".
Definition demo_fromtimestamp (n : Processing.num) : result exc Q := Err (mk_exc COSError []).
Definition demo_validate (v : pyval) : result exc pyval := Ok v.
Definition demo_id : string := "3f2a9c1e-7b4d-4e8f-9a6b-1c2d3e4f5a6b".
Definition demo_request : save_request :=
  {| sr_provider := "deepseek"; sr_model := "deepseek-chat";
     sr_messages := map msg_dict [("user", "Hello")]; sr_timestamp := Some "2025-01-01T00:00:00Z" |}.
Definition demo_stem : string := log_stem "20250101_000000" "deepseek-chat" demo_id.

Definition demo_saved : result exc pyval * fsys :=
  save_chat_log demo_logs Cache.demo_size demo_id "2025-01-01T00:00:00Z" "20250101_000000" 0
    demo_request ∅.

Lemma save_returned_id_not_found_witness :
  py_str_contains "_" demo_id = false /\ invalid_chat_id demo_id = false /\
  (∅ : fsys) !! Cache.path_of demo_logs demo_id = None /\
  get_chat_log_detail demo_logs Cache.demo_iso demo_fromtimestamp demo_validate demo_id demo_saved.2 =
    Err (http_error 404 ("Chat log with ID '" ++ demo_id ++ "' not found.")).
Proof.
  assert (py_str_contains "_" demo_id = false) as Hu by reflexivity.
  assert (invalid_chat_id demo_id = false) as Hv by reflexivity.
  assert ((∅ : fsys) !! Cache.path_of demo_logs demo_id = None) as Hn by reflexivity.
  do 3 (split; [assumption|]).
  exact (proj2 (save_returned_id_not_found demo_logs Cache.demo_iso demo_fromtimestamp demo_validate
                  Cache.demo_size demo_id "2025-01-01T00:00:00Z" "20250101_000000" 0 demo_request ∅
                  Hu Hv Hn)).
Defined.

Lemma save_then_detail_by_stem_witness :
  invalid_chat_id demo_stem = false /\
  Cache.demo_iso (py_replace (request_timestamp "2025-01-01T00:00:00Z" demo_request) "Z" "+00:00") =
    Some (inject_Z 1735689600) /\
  get_chat_log_detail demo_logs Cache.demo_iso demo_fromtimestamp demo_validate demo_stem demo_saved.2 =
  Ok {| cd_id := demo_stem; cd_provider := PStr "deepseek"; cd_model := PStr "deepseek-chat";
        cd_timestamp := inject_Z 1735689600; cd_messages := map msg_read [("user", "Hello")] |}.
Proof.
  assert (invalid_chat_id demo_stem = false) as Hv by (vm_compute; reflexivity).
  assert (Cache.demo_iso (py_replace (request_timestamp "2025-01-01T00:00:00Z" demo_request) "Z" "+00:00") =
            Some (inject_Z 1735689600)) as Hq by (vm_compute; reflexivity).
  do 2 (split; [assumption|]).
  apply (save_then_detail_by_stem demo_logs Cache.demo_iso demo_fromtimestamp demo_validate
           Cache.demo_size demo_id "2025-01-01T00:00:00Z" "20250101_000000" 0 demo_request ∅
           (inject_Z 1735689600) [("user", "Hello")] Hv); [discriminate|exact Hq|reflexivity|reflexivity].
Defined.

Definition demo_summary : chat_log_summary :=
  {| cs_id := demo_stem; cs_timestamp := inject_Z 1735689600; cs_provider := PStr "deepseek";
     cs_model := PStr "deepseek-chat"; cs_messages_count := 1; cs_first_user_message := PStr "Hello" |}.

Lemma listed_ids_found_witness :
  demo_summary ∈ get_chat_logs_list demo_logs Cache.demo_iso demo_validate demo_saved.2 /\
  get_chat_log_detail demo_logs Cache.demo_iso demo_fromtimestamp demo_validate (cs_id demo_summary)
    demo_saved.2 <> Err (http_error 404 ("Chat log with ID '" ++ cs_id demo_summary ++ "' not found.")).
Proof.
  assert (demo_summary ∈ get_chat_logs_list demo_logs Cache.demo_iso demo_validate demo_saved.2) as Hin.
  { assert (get_chat_logs_list demo_logs Cache.demo_iso demo_validate demo_saved.2 = [demo_summary]) as ->
      by (vm_compute; reflexivity).
    constructor. }
  split; [exact Hin|].
  exact (listed_ids_found demo_logs Cache.demo_iso demo_fromtimestamp demo_validate demo_saved.2
           demo_summary Hin).
Defined.

End ChatLogWitnesses.

End ChatLogApi.
