(* ===== verification/ApiManager.v ===== *)
(** * ApiManager: [src/src/config/api_manager.py] and the style transfer of
    [src/src/core/processing/style_transfer.py]

    [APIManager] edits the [.env] file and answers whether a provider is
    configured in it, resolving the provider's name and environment prefix
    through the factory of [Registry].  The file is modelled by the
    dictionary [dotenv_values] reads from it ([env_file]); [set_key] with
    [quote_mode="always"] and [unset_key] update that dictionary, which
    is what [python-dotenv] reads back for a plain key ([plain_key]) and a
    plain value ([plain_value]: no backslash, no ['$']).  A plain key
    followed by a newline, which the key check of [_save_env_file]
    accepts, is read back as the key without a value; what the parser
    makes of the line written for any other key is an input
    ([DotenvOther]).

    [StyleTransfer.transfer_style] asks [api_manager.is_provider_configured]
    before it gets a handler from the factory and calls its
    [generate_text] (or [chat]); a handler's methods are inputs
    ([handler_ops]). *)

From S2P Require Import Prelude Errors Http EnvConfig Registry.
Import Exc.

Module ApiManager.
Local Open Scope string_scope.

(** The [.env] file: whether it exists, and what [dotenv_values] reads
    from it ([{}] when it is missing). *)
Record env_file : Type := {
  env_exists : bool;
  env_values : dotenv_dict
}.

Definition is_alpha (c : ascii) : bool :=
  let n := nat_of_ascii c in ((65 <=? n)%nat && (n <=? 90)%nat) || ((97 <=? n)%nat && (n <=? 122)%nat).

Definition is_digit (c : ascii) : bool :=
  let n := nat_of_ascii c in (48 <=? n)%nat && (n <=? 57)%nat.

Definition is_ident_start (c : ascii) : bool := is_alpha c || Ascii.eqb c "_".

Fixpoint ident_rest (s : string) : bool :=
  match s with
  | EmptyString => true
  | String c r =>
      (Ascii.eqb c "010" && String.eqb r "") || ((is_ident_start c || is_digit c) && ident_rest r)
  end.

(** [re.match(r"^[a-zA-Z_][a-zA-Z0-9_]*$", key)]: [$] also matches before
    a newline that ends the key. *)
Definition valid_env_key (key : string) : bool :=
  match key with
  | EmptyString => false
  | String c r => is_ident_start c && ident_rest r
  end.

(** [unset_key(path, key)]: every line of the key goes. *)
Definition unset_key (key : string) (d : dotenv_dict) : dotenv_dict :=
  List.filter (fun kv => negb (String.eqb kv.1 key)) d.

(** A character of python-dotenv's unquoted key, [[^=\#\s]+]. *)
Definition key_char (c : ascii) : bool := negb (py_isspace c || Ascii.eqb c "=" || Ascii.eqb c "#").

Fixpoint key_chars (s : string) : bool :=
  match s with EmptyString => true | String c r => key_char c && key_chars r end.

(** A key that the line [key='value'] gives back as it is: a non-empty
    unquoted key that does not start with a quote (which would open a
    quoted key). *)
Definition plain_key (key : string) : bool :=
  match key with EmptyString => false | String c _ => negb (Ascii.eqb c "'") && key_chars key end.

Definition plain_keys {V} (d : pydict string V) : bool := forallb (fun kv => plain_key kv.1) d.

(** A value the line [key='value'] gives back as it is: without a
    backslash (python-dotenv's escapes, and a final one that swallows
    the closing quote) and without a ['$'] (its [${NAME}] expansion). *)
Definition plain_value (v : string) : bool :=
  negb (py_str_contains "\" v) && negb (py_str_contains "$" v).

(** [key] without the newline that ends it, if it ends with one. *)
Fixpoint strip_final_nl (key : string) : option string :=
  match key with
  | EmptyString => None
  | String c EmptyString => if Ascii.eqb c "010" then Some EmptyString else None
  | String c r => String c <$> strip_final_nl r
  end.

(** What [dotenv_values] reads back after [set_key] wrote the line
    [key='value'] for any other key: python-dotenv checks no key, and its
    parser reads that text across lines and quotes (a newline in the key
    starts a new binding, a ['=] or a [#] ends the key), which the
    dictionary model does not follow.  It is an input of the model, given
    as an instance like [World] and [Render]. *)
Class DotenvOther : Type := set_other : string -> string -> dotenv_dict -> dotenv_dict.

Section Dotenv.
Context {dotenv_other : DotenvOther}.

(** [set_key(path, key, value, quote_mode="always")]: it replaces the
    lines whose key is [key] and appends [key='value'] when there is none.
    For a plain key [dotenv_values] reads the value back under the key.
    For a plain key [k] followed by a newline (which [valid_env_key]
    accepts) the line [k] is read as [k] without a value and the line
    [='value'] does not parse. *)
Definition set_key (key value : string) (d : dotenv_dict) : dotenv_dict :=
  if plain_key key then dict_set key (Some value) d
  else match strip_final_nl key with
       | Some k => if plain_key k then dict_set k None d else set_other key value d
       | None => set_other key value d
       end.

(** The loop of [_save_env_file], lines 97-121: an invalid key is
    skipped, [None] unsets the key, a string sets it. *)
Definition save_one (d : dotenv_dict) (kv : string * option string) : dotenv_dict :=
  let '(key, value) := kv in
  if negb (valid_env_key key) then d
  else match value with None => unset_key key d | Some v => set_key key v d end.

Definition save_env_file (upd : pydict string (option string)) (d : dotenv_dict) : dotenv_dict :=
  fold_left save_one upd d.
End Dotenv.

Section Ops.
Context `{World} `{Render} {dotenv_other : DotenvOther} (file : meta_file).

(** [save_settings_to_env(env_vars_to_update)], lines 52-84: a missing
    file is created first ([touch_error] is the [OSError] of [touch], if
    it fails).  [self.env_file_path] is never empty, so the [ValueError]
    of line 95 is not raised. *)
Definition save_settings_to_env (touch_error : option exc) (upd : pydict string (option string))
  (f : env_file) : (bool * string) * env_file :=
  match env_exists f, touch_error with
  | false, Some e => ((false, "无法创建 .env 文件: " ++ exc_str e), f)
  | _, _ =>
      ((true, ".env 文件已成功更新。"),
       {| env_exists := true; env_values := save_env_file upd (env_values f) |})
  end.

(** The variable whose value marks a provider configured, lines 277-282. *)
Definition required_var (standard_name prefix : string) : string :=
  if String.eqb standard_name "ollama_local" then prefix ++ "ENDPOINT" else prefix ++ "API_KEY".

(** [not env_values[var]]: missing a value ([None]) or empty. *)
Definition falsy_value (o : option string) : bool :=
  match o with None => true | Some v => String.eqb v "" end.

(** [is_provider_configured(provider_name)], lines 253-330: the factory
    resolves the name and its metadata (initialising itself if needed);
    a [ValueError] of the resolution is answered with its text. *)
Definition is_provider_configured (r : registry) (f : env_file) (provider_name : string)
  : registry * (bool * string) :=
  let '(r1, res) := standardize_provider_name file r provider_name in
  match res with
  | Err e => (r1, (false, "检查提供商 '" ++ provider_name ++ "' 配置时出错: " ++ exc_str e))
  | Ok std =>
      let '(r2, meta) := get_provider_metadata file r1 std in
      match meta with
      | None => (r2, (false, "找不到提供商 '" ++ provider_name ++ "' 的元数据。"))
      | Some m =>
          match env_prefix m with
          | None | Some "" => (r2, (false, "提供商 '" ++ provider_name ++ "' 的元数据中缺少 env_prefix。"))
          | Some prefix =>
              let var := required_var std prefix in
              let vals := env_values f in
              if bool_decide (vals = []) then (r2, (false, "未找到或无法读取 .env 文件。"))
              else
                match dict_get var vals with
                | None => (r2, (false, "提供商 '" ++ std ++ "' 未配置，缺少环境变量: " ++ var ++ "。"))
                | Some v =>
                    if falsy_value v
                    then (r2, (false, "提供商 '" ++ std ++ "' 配置不完整，环境变量值为空: " ++ var ++ "。"))
                    else (r2, (true, "提供商 '" ++ std ++ "' 已配置。"))
                end
          end
      end
  end.

(** The credential suffixes of lines 216-219. *)
Definition credential_keys : list string :=
  ["API_KEY"; "API_SECRET"; "ACCESS_KEY"; "SECRET_KEY"; "APP_ID"; "APP_SECRET"; "AUTH_TOKEN"].

(** Lines 220-227: the credentials set in the file, under the suffix in
    lower case, or [None] when there is none. *)
Definition credentials (prefix : string) (vals : dotenv_dict) : pyval :=
  let creds := omap (fun key => match dict_get (prefix ++ key) vals with
                                | Some (Some v) => if String.eqb v "" then None else Some (py_lower key, PStr v)
                                | _ => None
                                end) credential_keys in
  match creds with [] => PNone | _ => PDict creds end.

(** Lines 229-245. *)
Definition requires_keys (standard_name : string) : list pyval :=
  if existsb (String.eqb standard_name) ["openai"; "azure_openai"; "open_router"; "gemini"; "anthropic"]
  then [PStr "api_key"] else [].

(** [env_values.get(key)] *)
Definition env_get (vals : dotenv_dict) (key : string) : pyval :=
  match dict_get key vals with Some (Some v) => PStr v | _ => PNone end.

(** [get_config(provider_name)], lines 172-251.  The metadata record
    does not tell a missing [display_name] from a [null] one; both give
    the standard name. *)
Definition get_config (r : registry) (f : env_file) (provider_name : string)
  : registry * option (pydict string pyval) :=
  let '(r1, res) := standardize_provider_name file r provider_name in
  match res with
  | Err _ => (r1, None)
  | Ok std =>
      let '(r2, meta) := get_provider_metadata file r1 std in
      match meta with
      | None => (r2, None)
      | Some m =>
          match env_prefix m with
          | None | Some "" => (r2, None)
          | Some prefix =>
              let vals := env_values f in
              if bool_decide (vals = []) then (r2, None)
              else
                (r2, Some [("standard_name", PStr std);
                           ("display_name", PStr (default std (display_name m)));
                           ("enabled", PBool true);
                           ("credentials", credentials prefix vals);
                           ("env_prefix", PStr prefix);
                           ("endpoint", env_get vals (prefix ++ "ENDPOINT"));
                           ("default_model", env_get vals (prefix ++ "DEFAULT_MODEL"));
                           ("requires_keys", PList (requires_keys std))])
          end
      end
  end.
End Ops.

(** ** StyleTransfer *)

(** The methods of a handler the style transfer calls: its model list,
    and [generate_text] and [chat] when it has them ([hasattr]). *)
Record handler_ops : Type := {
  ho_get_available_models : result exc (list string);
  ho_generate_text : option (string -> string -> result exc pyval);
  ho_chat : option (list (pydict string pyval) -> string -> result exc pyval)
}.

Definition not_implemented_error : exc := mk_exc CNotImplementedError [].

(** [s.removeprefix(p)] and [s.removesuffix(p)] *)
Definition py_removeprefix (s p : string) : string :=
  if prefix p s then str_drop (String.length p) s else s.

Definition py_removesuffix (s p : string) : string :=
  if negb (String.eqb p "") && py_endswith s p then str_take (String.length s - String.length p) s else s.

(** Line 96: [response_content.strip().removeprefix('```').removesuffix('```').strip()] *)
Definition clean_output (s : string) : string :=
  py_strip (py_removesuffix (py_removeprefix (py_strip s) "```") "```").

(** The prompt of lines 44-57. *)
Definition style_prompt (style_guidance new_content_prompt : string) : string :=
  let nl := String "010" EmptyString in
  nl ++ "请严格根据以下【写作风格指南】中描述的风格特点，创作一段关于【新内容主题】的文本。" ++ nl ++ nl ++
  "【写作风格指南】:" ++ nl ++ style_guidance ++ nl ++ nl ++
  "【新内容主题】:" ++ nl ++ new_content_prompt ++ nl ++ nl ++
  "重要要求：" ++ nl ++
  "1.  **遵循指南**: 输出的文本必须严格遵循【写作风格指南】中描述的风格。" ++ nl ++
  "2.  **内容相关**: 输出的文本必须紧密围绕【新内容主题】展开。" ++ nl ++
  "3.  **输出纯粹**: 请直接输出新创作的文本内容，不要包含任何解释、引言、总结或与新创作内容无关的文字。" ++ nl.

(** The messages of the [chat] branch, lines 70-73. *)
Definition chat_messages (prompt : string) : list (pydict string pyval) :=
  [[("role", PStr "system");
    ("content", PStr "You are a helpful assistant that generates text following specific style instructions.")];
   [("role", PStr "user"); ("content", PStr prompt)]].

(** Lines 78-86: the content of a [chat] response.  A value of the model
    has no attributes, so the [hasattr(chat_response, 'content')] branch
    is never taken. *)
Definition chat_content `{Render} (v : pyval) : pyval :=
  match v with
  | PDict d => match dict_get "content" d with Some c => c | None => PStr (py_str v) end
  | PStr _ => v
  | _ => PStr (py_str v)
  end.

(** The [.env] file as the factory reads it. *)
Definition dotenv_of (f : env_file) : option dotenv_dict :=
  if env_exists f then Some (env_values f) else None.

Section Transfer.
Context `{World} `{Render} (file : meta_file) (osenv : environ) (ops : handler -> handler_ops).

(** The call of the handler, lines 62-92, and the cleaning of line 96. *)
Definition generate_with (h : option handler) (prompt model : string) : result exc string :=
  match h with
  | None => Err not_implemented_error
  | Some hd =>
      let? content :=
        match ho_generate_text (ops hd) with
        | Some g => g prompt model
        | None =>
            match ho_chat (ops hd) with
            | Some c => let? resp := c (chat_messages prompt) model in Ok (chat_content resp)
            | None => Err not_implemented_error
            end
        end in
      match content with
      | PNone => Err value_error
      | PStr s => Ok (clean_output s)
      | _ => Err attribute_error
      end
  end.

(** [transfer_style(new_content_prompt, api_provider, model,
    style_guidance)], lines 13-101.  Line 29 negates the tuple
    [is_provider_configured] returns; the model-list check of lines 35-40
    swallows every exception (on a [None] handler too) and changes
    nothing; the [except] of line 99 re-raises. *)
Definition transfer_style (r : registry) (f : env_file)
  (new_content_prompt api_provider model style_guidance : string) : registry * result exc string :=
  if String.eqb style_guidance "" then (r, Err value_error)
  else
    let '(r1, conf) := ApiManager.is_provider_configured file r f api_provider in
    if negb (py_truthy (PList [PBool conf.1; PStr conf.2])) then (r1, Err value_error)
    else
      let '(r2, h) := get_handler file (dotenv_of f) osenv r1 api_provider in
      (r2, generate_with h (style_prompt style_guidance new_content_prompt) model).
End Transfer.

Section Props.
Context `{World} `{Render} (file : meta_file) (osenv : environ) (ops : handler -> handler_ops).
Context {dotenv_other : DotenvOther}.








Lemma is_provider_configured_vals r f f' provider :
  env_values f' = env_values f ->
  is_provider_configured file r f' provider = is_provider_configured file r f provider.
Proof. intros E. unfold is_provider_configured. by rewrite E. Qed.



(** The key check of [_save_env_file] lets a key through with a final
    newline: saving ["DEEPSEEK_API_KEY\n"] leaves [DEEPSEEK_API_KEY]
    without a value in [.env], which then reads as unconfigured. *)
Lemma save_key_with_newline :
  env_values (save_settings_to_env None [("DEEPSEEK_API_KEY" ++ String "010" "", Some "sk-1")]
                {| env_exists := true; env_values := [("DEEPSEEK_API_KEY", Some "sk-0")] |}).2 =
  [("DEEPSEEK_API_KEY", None)].
Proof. reflexivity. Qed.

(** C20: The configuration check of [transfer_style] is dead: line 29 negates
    a two-element tuple, which is always true.  Even when
    [is_provider_configured] answers that the provider is not configured,
    the style transfer calls the handler the factory builds and returns
    its cleaned output. *)
Theorem transfer_style_ignores_configuration r f prompt provider model guidance r1 msg r2 hd g out :
  guidance <> "" ->
  is_provider_configured file r f provider = (r1, (false, msg)) ->
  get_handler file (dotenv_of f) osenv r1 provider = (r2, Some hd) ->
  ho_generate_text (ops hd) = Some g ->
  g (style_prompt guidance prompt) model = Ok (PStr out) ->
  transfer_style file osenv ops r f prompt provider model guidance = (r2, Ok (clean_output out)).
Proof.
  intros Hg Hc Hh Hgen Hout. unfold transfer_style.
  rewrite (proj2 (String.eqb_neq _ _) Hg), Hc. cbn [fst snd py_truthy negb].
  rewrite Hh. unfold generate_with. by rewrite Hgen, Hout.
Qed.

End Props.

Section ApiManagerWitnesses.
#[local] Existing Instance demo_world.
#[local] Instance demo_render : Render := {| py_str := fun _ => "value"; exc_str := fun _ => "error" |}.
(** Any reading of a line the model does not parse. *)
#[local] Instance demo_other : DotenvOther := fun _ _ d => d.

Definition demo_file : meta_file := MetaList demo_entries.

(** A [.env] file with the model but no API key for DeepSeek. *)
Definition demo_env : env_file :=
  {| env_exists := true; env_values := [("DEEPSEEK_DEFAULT_MODEL", Some "deepseek-chat")] |}.

Definition demo_ops (h : handler) : handler_ops :=
  {| ho_get_available_models := Ok ["deepseek-chat"];
     ho_generate_text := Some (fun _ _ => Ok (PStr "```A text in the style.```"));
     ho_chat := None |}.



Definition demo_conf : registry * (bool * string) :=
  is_provider_configured demo_file init_registry demo_env "deepseek".
Definition demo_gh : registry * option handler :=
  get_handler demo_file (dotenv_of demo_env) [] demo_conf.1 "deepseek".
Definition demo_hd : handler := default (mk_handler ("", "") []) demo_gh.2.

Lemma transfer_style_ignores_configuration_witness :
  is_provider_configured demo_file init_registry demo_env "deepseek" = (demo_conf.1, (false, demo_conf.2.2)) /\
  get_handler demo_file (dotenv_of demo_env) [] demo_conf.1 "deepseek" = (demo_gh.1, Some demo_hd) /\
  transfer_style demo_file [] demo_ops init_registry demo_env "A walk by the sea" "deepseek"
    "deepseek-chat" "Short sentences." = (demo_gh.1, Ok (clean_output "```A text in the style.```")).
Proof.
  assert (is_provider_configured demo_file init_registry demo_env "deepseek" =
            (demo_conf.1, (false, demo_conf.2.2))) as Hc by (vm_compute; reflexivity).
  assert (get_handler demo_file (dotenv_of demo_env) [] demo_conf.1 "deepseek" = (demo_gh.1, Some demo_hd))
    as Hh by (vm_compute; reflexivity).
  split; [exact Hc|split; [exact Hh|]].
  exact (transfer_style_ignores_configuration demo_file [] demo_ops init_registry demo_env
           "A walk by the sea" "deepseek" "deepseek-chat" "Short sentences." _ _ _ _
           (fun _ _ => Ok (PStr "```A text in the style.```")) "```A text in the style.```"
           ltac:(discriminate) Hc Hh eq_refl eq_refl).
Defined.

End ApiManagerWitnesses.

End ApiManager.
