(* ===== verification/Settings.v ===== *)
(** * Settings: the settings routes of [src/src/api/routes/settings.py]
    and [update_dotenv_vars] of [src/src/utils/config.py]

    [POST /api/settings/save-all] writes a dictionary of settings to the
    [.env] file through [update_dotenv_vars].  [POST
    /api/settings/add-provider] registers a new provider: it asks the
    factory of [Registry] for the metadata it has (initialising it if
    needed), writes the provider's [PREFIX_] keys to [.env], renders a
    handler file from a template, upserts the provider's entry in the
    metadata file the factory reads at start-up, writes the provider's
    configuration file and tries four reload commands.

    The state of these routes is [settings_state]: the [.env] file (the
    [env_file] of [ApiManager]), the metadata file (the [meta_file] of
    [Registry], an entry being what the factory reads of a JSON object),
    the files under [src/providers/handlers] and [config/providers] by
    path, and the factory's state.  The environment of the routes is a
    section context: [io_error p] is the [OSError] that writing (or
    creating) the path [p] raises, if any; [run cmd] the return code of
    [subprocess.run(cmd)] ([None] when it raises); [dumps] the
    [json.dumps] of the schema fields.  [find_dotenv] and
    [dotenv_values(".env")] are taken to name the same file, the one of
    the working directory the server runs in.  [update_dotenv_vars] hands
    the request's keys to [set_key] unchecked; the theorems on [.env]
    hold for plain keys and values ([plain_env], [plain_dotenv],
    [plain_settings]), where the dictionary model is exact. *)

From S2P Require Import Prelude Errors Http EnvConfig Registry Routes ApiManager ChatLogs.
Import Exc.

Module Settings.
Local Open Scope string_scope.

(** ** [update_dotenv_vars], config.py 103-147 *)

Section Env.
Context {dotenv_other : ApiManager.DotenvOther}.

(** Each pair is written by [set_key(path, key, value, quote_mode='always')],
    [None] as the empty string (line 131), whatever the key; [current_values]
    and [updated] only feed the log.  A missing file is created first; an
    [OSError] of [touch] is caught and answered [False]. *)
Definition update_dotenv_vars (touch_error : option exc) (vars : pydict string (option string))
  (f : ApiManager.env_file) : bool * ApiManager.env_file :=
  match ApiManager.env_exists f, touch_error with
  | false, Some _ => (false, f)
  | _, _ =>
      (true, {| ApiManager.env_exists := true;
                ApiManager.env_values :=
                  fold_left (fun d kv => ApiManager.set_key kv.1 (default "" kv.2) d)
                            vars (ApiManager.env_values f) |})
  end.
End Env.

(** The requests and files on which the dictionary model of [.env] is
    exact: plain keys and values ([ApiManager.plain_key],
    [ApiManager.plain_value]). *)
Definition plain_env (env : pydict string string) : bool :=
  ApiManager.plain_keys env && forallb (fun kv => ApiManager.plain_value kv.2) env.

Definition plain_dotenv (d : dotenv_dict) : bool :=
  ApiManager.plain_keys d && forallb (fun kv => default true (ApiManager.plain_value <$> kv.2)) d.

(** ** [save_all_settings], settings.py 66-92 *)

Definition is_none (v : pyval) : bool := match v with PNone => true | _ => false end.

(** [except Exception as e: raise HTTPException(status_code=500, detail=...)]:
    every exception of the model derives from [Exception], the
    [HTTPException] raised inside the [try] included. *)
Definition reraise_500 {A} (detail : string) (r : result exc A) : result exc A :=
  match r with
  | Err e => if isinstance e [CException] then Err (ResultsApi.http_exception 500 (PStr detail)) else Err e
  | Ok v => Ok v
  end.

Section SaveAll.
Context `{Render} {dotenv_other : ApiManager.DotenvOther}.

(** Lines 74-78: the values that are not [None] as [str(v)], then the
    [None] values as [''], each key inserted in that order. *)
Definition settings_to_save (data : pydict string pyval) : pydict string (option string) :=
  let d0 := fold_left (fun acc kv => if negb (is_none kv.2)
                                     then dict_set kv.1 (Some (ChatLogApi.str_of kv.2)) acc else acc) data [] in
  fold_left (fun acc kv => if is_none kv.2 then dict_set kv.1 (Some "") acc else acc) data d0.


(** [save_all_settings(settings_data)]: the [500] of line 89 is raised
    inside the [try] and replaced by the handler of line 90. *)
Definition save_all_settings (touch_error : option exc) (data : pydict string pyval)
  (f : ApiManager.env_file) : result exc pyval * ApiManager.env_file :=
  let '(success, f') := update_dotenv_vars touch_error (settings_to_save data) f in
  (reraise_500 "Internal server error while saving settings."
     (if success then Ok (PDict [("message", PStr "Settings saved successfully.")])
      else Err (ResultsApi.http_exception 500 (PStr "Failed to save settings to .env file."))), f').
End SaveAll.

(** ** [add_provider] and its helpers, settings.py 95-332 *)

Record add_provider_request : Type := {
  req_env : pydict string string;          (** [env: Dict[str, str]]: validated strings *)
  req_config : pydict string pyval;        (** [config: Dict[str, Any]] *)
  req_is_openai_compatible : bool
}.

Record settings_state : Type := {
  st_env : ApiManager.env_file;            (** [.env] *)
  st_meta : meta_file;                     (** [config/providers_meta.json] *)
  st_handlers : pydict string string;      (** the files of [src/providers/handlers] *)
  st_configs : pydict string pyval;        (** the files of [config/providers] *)
  st_registry : registry                   (** the factory's module state *)
}.

(** [str.title()]: a cased character is upper-cased after an uncased one
    and lower-cased after a cased one (ASCII letters are the cased
    characters of the model). *)
Fixpoint title_from (prev_cased : bool) (s : string) : string :=
  match s with
  | EmptyString => EmptyString
  | String c r =>
      let cased := ApiManager.is_alpha c in
      String (if cased then (if prev_cased then ascii_lower c else ascii_upper c) else c)
             (title_from cased r)
  end.

Definition py_title (s : string) : string := title_from false s.

(** [f"{provider_name.title().replace('_', '')}Handler"], lines 238 and 310. *)
Definition class_name (provider_name : string) : string :=
  py_replace (py_title provider_name) "_" "" ++ "Handler".

Definition handler_path (provider_name : string) : string :=
  "src/providers/handlers/" ++ provider_name ++ ".py".

Definition template_path (template_type : string) : string :=
  "src/providers/handlers/" ++ template_type ++ "_template.py".

Definition config_path (provider_name : string) : string :=
  "config/providers/" ++ provider_name ++ ".json".

Definition meta_tmp_path : string := "config/providers_meta.json.tmp".

Definition lf : string := String "010" EmptyString.

(** Lines 239-251: the four fixed placeholders. *)
Definition fill_placeholders (n display content : string) : string :=
  let c1 := py_replace content "TemplateOpenAIHandler" (class_name n) in
  let c2 := py_replace c1 "Template for creating OpenAI-compatible API handlers."
                        (display ++ " API handler (auto-generated).") in
  let c3 := py_replace c2 "self.provider_name = config.get('provider_name', 'template_openai')"
                        ("self.provider_name = config.get('provider_name', '" ++ n ++ "')") in
  py_replace c3 "Note: This is a template file and should not be used directly."
             ("Note: This is an auto-generated handler for " ++ display ++ ".").

Section Files.
Context `{Render} (io_error : string -> option exc) (dumps : pyval -> string).

Definition io_fails (p : string) : bool := match io_error p with Some _ => true | None => false end.

(** [if path.exists(): shutil.copy2(path, path.with_suffix(...))]: [None]
    when the copy raises. *)
Definition backup {V} (store : pydict string V) (p bak : string) : option (pydict string V) :=
  match dict_get p store with
  | Some old => if io_fails bak then None else Some (dict_set bak old store)
  | None => Some store
  end.

(** Lines 253-255: [None] when [template_params] is truthy but has no
    [items] (a list, a string, a number). *)
Definition apply_params (params : pyval) (content : string) : option string :=
  if negb (py_truthy params) then Some content
  else match params with
       | PDict d => Some (fold_left (fun c kv => py_replace c ("{{" ++ kv.1 ++ "}}") (ChatLogApi.str_of kv.2))
                                    d content)
       | _ => None
       end.

(** Lines 257-260: [None] when [schema['fields']] or the [in] test raises. *)
Definition schema_comment (schema : pyval) : option string :=
  if negb (py_truthy schema) then Some ""
  else match schema with
       | PDict d =>
           match dict_get "fields" d with
           | Some fl => Some (lf ++ "# === Provider Schema Fields (auto-generated) ===" ++ lf ++ "# "
                              ++ dumps fl ++ lf ++ "# =============================================" ++ lf)
           | None => Some ""
           end
       | PStr s => if py_str_contains "fields" s then None else Some ""
       | PList l => if existsb (fun v => match v with PStr x => String.eqb x "fields" | _ => false end) l
                    then None else Some ""
       | _ => None
       end.

(** [create_handler_file(...)], lines 220-268: the path written, or
    [None] (every exception is caught). *)
Definition create_handler_file (files : pydict string string) (n display template_type : string)
  (params schema : pyval) : option string * pydict string string :=
  if negb (dict_mem (template_path template_type) files) then (None, files)
  else
    let out := handler_path n in
    match backup files out ("src/providers/handlers/" ++ n ++ ".py.bak") with
    | None => (None, files)
    | Some files1 =>
        let tpl := dict_get_default (template_path template_type) "" files1 in
        match apply_params params (fill_placeholders n display tpl) with
        | None => (None, files1)
        | Some c =>
            match schema_comment schema with
            | None => (None, files1)
            | Some sc => if io_fails out then (None, files1) else (Some out, dict_set out (sc ++ c) files1)
            end
        end
    end.
End Files.

(** The entry of lines 305-313, as the factory reads it: [display_name]
    is kept when it is a string. *)
Definition new_provider_entry (n : string) (display : pyval) (compat : bool) : provider_meta :=
  {| standard_name := Some n;
     display_name := match display with PStr d => Some d | _ => None end;
     handler_module_path := Some ((if compat then "src.providers.handlers." else "src.providers.handlers.custom.") ++ n);
     handler_class_name := Some (class_name n);
     aliases := AliasesList [AliasStr n];
     env_prefix := Some (py_upper n ++ "_") |}.

(** [isinstance(provider, dict) and provider.get("standard_name") == provider_name] *)
Definition names_provider (n : string) (e : meta_entry) : bool :=
  match e with
  | EntryDict m => bool_decide (standard_name m = Some n)
  | EntryNotDict => false
  end.

(** Lines 298-319: the first entry of the provider is updated with every
    field of the new entry, or the new entry is appended. *)
Fixpoint upsert_entry (n : string) (new : provider_meta) (es : list meta_entry) : list meta_entry :=
  match es with
  | [] => [EntryDict new]
  | e :: rest => if names_provider n e then EntryDict new :: rest else e :: upsert_entry n new rest
  end.

Definition os_error (msg : string) : exc := mk_exc COSError [("args", PList [PStr msg])].

(** Lines 284-297: what the route reads of the file. *)
Definition load_metadata (file : meta_file) : result exc (list meta_entry) :=
  match file with
  | MetaMissing | MetaBadJson | MetaNotList => Ok []
  | MetaUnreadable => Err (os_error "metadata file unreadable")
  | MetaList es => Ok es
  end.

Section Metadata.
Context `{Render} (io_error : string -> option exc).

(** [update_provider_metadata(...)], lines 270-332: the new file, or the
    exception re-raised. *)
Definition update_provider_metadata (file : meta_file) (n : string) (display : pyval) (compat : bool)
  : result exc meta_file :=
  match io_error "config" with
  | Some e => Err (os_error ("无法创建元数据目录: " ++ exc_str e))
  | None =>
      let? es := load_metadata file in
      let es' := upsert_entry n (new_provider_entry n display compat) es in
      match io_error meta_tmp_path with
      | Some e => Err e
      | None => Ok (MetaList es')
      end
  end.

(** Lines 173-186: the configuration file and its backup; every error
    is logged and ignored. *)
Definition write_provider_config (cfgs : pydict string pyval) (n : string) (config : pydict string pyval)
  : pydict string pyval :=
  if io_fails io_error "config/providers" then cfgs
  else match backup io_error cfgs (config_path n) ("config/providers/" ++ n ++ ".json.bak") with
       | None => cfgs
       | Some c1 => if io_fails io_error (config_path n) then c1 else dict_set (config_path n) (PDict config) c1
       end.
End Metadata.

Definition reload_cmds : list (list string) :=
  [["supervisorctl"; "restart"; "all"]; ["pm2"; "restart"; "all"];
   ["docker"; "restart"; "aigc"]; ["pkill"; "-HUP"; "uvicorn"]].

Fixpoint join_space (l : list string) : string :=
  match l with
  | [] => ""
  | [x] => x
  | x :: r => x ++ " " ++ join_space r
  end.

(** Lines 189-203: the first command that returns [0] names the status. *)
Fixpoint reload_status (run : list string -> option Z) (cmds : list (list string)) (status : string) : string :=
  match cmds with
  | [] => status
  | c :: rest => if bool_decide (run c = Some 0%Z) then "reloaded by: " ++ join_space c
                 else reload_status run rest status
  end.

(** Lines 142-149: the request's keys of the provider's prefix over the
    file's, and only the keys of that prefix written back. *)
Definition provider_env_vars (prefix : string) (env : pydict string string) (current : dotenv_dict)
  : pydict string (option string) :=
  let merged := fold_left (fun m kv => if py_startswith kv.1 prefix then dict_set kv.1 (Some kv.2) m else m)
                          env current in
  List.filter (fun kv => py_startswith kv.1 prefix) merged.

Definition with_env (s : settings_state) (f : ApiManager.env_file) : settings_state :=
  {| st_env := f; st_meta := st_meta s; st_handlers := st_handlers s; st_configs := st_configs s;
     st_registry := st_registry s |}.
Definition with_registry (s : settings_state) (r : registry) : settings_state :=
  {| st_env := st_env s; st_meta := st_meta s; st_handlers := st_handlers s; st_configs := st_configs s;
     st_registry := r |}.
Definition with_files (s : settings_state) (mf : meta_file) (hs : pydict string string)
  (cs : pydict string pyval) : settings_state :=
  {| st_env := st_env s; st_meta := mf; st_handlers := hs; st_configs := cs; st_registry := st_registry s |}.

Section AddProvider.
Context `{World} `{Render} (io_error : string -> option exc) (dumps : pyval -> string)
        (run : list string -> option Z) {dotenv_other : ApiManager.DotenvOther}.

(** The [try] block of [add_provider], lines 108-203, from the point where
    the name is known to be a string. *)
Definition add_provider_named (req : add_provider_request) (n : string) (display : pyval)
  (s : settings_state) : result exc pyval * settings_state :=
  let config := req_config req in
  let prefix := py_upper n ++ "_" in
  let '(ok, env') := update_dotenv_vars (io_error ".env")
                       (provider_env_vars prefix (req_env req) (ApiManager.env_values (st_env s))) (st_env s) in
  let s1 := with_env s env' in
  if negb ok then (Err (ResultsApi.http_exception 500 (PStr "更新环境变量配置失败")), s1)
  else
    let template_type := ChatLogApi.str_of (dict_get_default "template_type" (PStr "openai_compatible") config) in
    let '(hp, files) := create_handler_file io_error dumps (st_handlers s1) n (ChatLogApi.str_of display)
                          template_type (dict_get_default "template_params" (PDict []) config)
                          (dict_get_default "schema" (PDict []) config) in
    match update_provider_metadata io_error (st_meta s1) n display (req_is_openai_compatible req) with
    | Err e => (Err (ResultsApi.http_exception 500 (PStr ("更新提供商元数据文件失败: " ++ exc_str e))),
                with_files s1 (st_meta s1) files (st_configs s1))
    | Ok mf =>
        let cfgs := write_provider_config io_error (st_configs s1) n config in
        (Ok (PDict [("status", PStr "success");
                    ("message", PStr ("成功添加API提供商 " ++ ChatLogApi.str_of display));
                    ("provider", PStr n);
                    ("auto_generated", PBool (match hp with Some _ => true | None => false end));
                    ("reload_status", PStr (reload_status run reload_cmds "not triggered"))]),
         with_files s1 mf files cfgs)
    end.

(** Lines 204-210: an [HTTPException] passes, any other exception becomes
    a [500]. *)
Definition add_provider_except {A} (r : result exc A) : result exc A :=
  match r with
  | Err e => if isinstance e [CHTTPException] then Err e
             else Err (ResultsApi.http_exception 500 (PStr ("添加API提供商时发生内部错误: " ++ exc_str e)))
  | Ok v => Ok v
  end.

(** [add_provider(request)], lines 95-218: the factory is asked for its
    metadata (line 116) before anything is written; [provider_name.upper()]
    raises [AttributeError] when the name is not a string. *)
Definition add_provider (req : add_provider_request) (s : settings_state) : result exc pyval * settings_state :=
  let config := req_config req in
  let provider_name := dict_get_default "name" PNone config in
  let display := dict_get_default "display_name" provider_name config in
  if negb (py_truthy provider_name) then (Err (ResultsApi.http_exception 400 (PStr "提供商名称不能为空")), s)
  else
    let s1 := with_registry s (get_all_provider_metadata (st_meta s) (st_registry s)).1 in
    let '(r, s2) := match provider_name with
                    | PStr n => add_provider_named req n display s1
                    | _ => (Err attribute_error, s1)
                    end in
    (add_provider_except r, s2).
End AddProvider.

(** ** The read-only routes, settings.py 334-363 *)

Definition schema_field (name label type_ : string) (extra : pydict string pyval) : pyval :=
  PDict ([("name", PStr name); ("label", PStr label); ("type", PStr type_)] ++ extra)%list.

(** The fallback of lines 348-355. *)
Definition fallback_schema : pyval :=
  PDict [("fields", PList
    [schema_field "api_key" "API密钥" "password" [("required", PBool true)];
     schema_field "endpoint" "API服务地址" "text" [("required", PBool true)];
     schema_field "default_model" "默认模型" "text" [("required", PBool false)];
     schema_field "temperature" "Temperature" "number" [("default", PFloat (FFin (7 # 10)))];
     schema_field "max_tokens" "Max Tokens" "number" [("default", PInt 2048)];
     schema_field "top_p" "Top P" "number" [("default", PFloat (FFin 1))]])].

(** [get_provider_schema(type)], lines 334-355: [template] is what
    [json.load] returns for [config/provider_config_template.json], [None]
    when opening or parsing it raises; [type] is not used. *)
Definition get_provider_schema (template : option pyval) (type_ : string) : pyval :=
  match template with Some t => t | None => fallback_schema end.

(** [get_providers_meta()], lines 357-363. *)
Definition get_providers_meta `{World} (file : meta_file) (r : registry) : registry * list provider_meta :=
  get_all_provider_metadata file r.

(** ** Dictionaries written key by key *)

Section DictFolds.
Context {V W : Type}.

Lemma dict_set_same (k : string) (x : W) d : dict_get k d = Some x -> dict_set k x d = d.
Proof.
  induction d as [|[k' v'] r IH]; simpl; [done|].
  case_decide; [by intros [= ->]; subst|]. intros Hg. by rewrite IH.
Qed.

(** Setting pairs the dictionary already holds changes nothing. *)
Lemma fold_set_fixed (g : V -> W) (l : pydict string V) d :
  (forall k v, In (k, v) l -> dict_get k d = Some (g v)) ->
  fold_left (fun d kv => dict_set kv.1 (g kv.2) d) l d = d.
Proof.
  revert d. induction l as [|[k v] l IH]; intros d Hl; simpl; [done|].
  rewrite dict_set_same by (apply Hl; by left). apply IH. intros; apply Hl; by right.
Qed.

Lemma fold_set_if_get (P : string * V -> bool) (g : V -> W) (l : pydict string V) d k :
  dict_wf l ->
  dict_get k (fold_left (fun acc kv => if P kv then dict_set kv.1 (g kv.2) acc else acc) l d) =
    match dict_get k l with
    | Some v => if P (k, v) then Some (g v) else dict_get k d
    | None => dict_get k d
    end.
Proof.
  revert d. induction l as [|[k0 v0] l IH]; intros d Hwf; cbn [fold_left]; [done|].
  apply NoDup_cons in Hwf as [Hk0 Hwf]. rewrite IH by done. cbn [dict_get].
  destruct (decide (k = k0)) as [->|Hk]; cbn iota.
  - rewrite dict_get_notin by exact Hk0. destruct (P (k0, v0)); [apply dict_get_set_eq|done].
  - destruct (dict_get k l); [destruct (P (k, _)); [done|]|];
      (destruct (P (k0, v0)); [apply dict_get_set_ne; cbn; congruence|done]).
Qed.

Lemma fold_set_get (g : V -> W) (l : pydict string V) d k :
  dict_wf l ->
  dict_get k (fold_left (fun d kv => dict_set kv.1 (g kv.2) d) l d) =
    match dict_get k l with Some v => Some (g v) | None => dict_get k d end.
Proof.
  intros Hwf. rewrite <-(fold_set_if_get (fun _ => true) g l d k Hwf). done.
Qed.

Lemma fold_set_if_wf (P : string * V -> bool) (g : V -> W) (l : pydict string V) d :
  dict_wf d -> dict_wf (fold_left (fun acc kv => if P kv then dict_set kv.1 (g kv.2) acc else acc) l d).
Proof.
  revert d. induction l as [|kv l IH]; intros d Hd; simpl; [done|].
  apply IH. destruct (P kv); [by apply dict_set_wf|done].
Qed.

Lemma fold_set_wf (g : V -> W) (l : pydict string V) d :
  dict_wf d -> dict_wf (fold_left (fun d kv => dict_set kv.1 (g kv.2) d) l d).
Proof.
  revert d. induction l as [|kv l IH]; intros d Hd; simpl; [done|]. by apply IH, dict_set_wf.
Qed.


Lemma dict_wf_filter (P : string * W -> bool) (d : pydict string W) :
  dict_wf d -> dict_wf (List.filter P d).
Proof.
  unfold dict_wf, dict_keys. induction d as [|[k v] d IH]; simpl; [done|].
  intros [Hk Hd]%NoDup_cons. destruct (P (k, v)); simpl; [|auto].
  constructor; [|auto]. intros Hin. apply Hk.
  apply list_elem_of_In in Hin. apply in_map_iff in Hin as ([k' v'] & <- & Hin).
  apply filter_In in Hin as [Hin _]. apply list_elem_of_In, in_map_iff. by exists (k', v').
Qed.

Lemma dict_get_filter_key (P : string -> bool) (d : pydict string W) k :
  P k = true -> dict_get k (List.filter (fun kv => P kv.1) d) = dict_get k d.
Proof.
  intros Hk. induction d as [|[k' v'] d IH]; simpl; [done|].
  destruct (P k') eqn:E; simpl; case_decide; subst; congruence.
Qed.

Lemma dict_get_In_wf (d : pydict string W) k v : dict_wf d -> In (k, v) d -> dict_get k d = Some v.
Proof.
  unfold dict_wf, dict_keys. induction d as [|[k' v'] d IH]; simpl; [done|].
  intros [Hk Hd]%NoDup_cons [[= -> ->]|Hin]; [by rewrite decide_True|].
  rewrite decide_False; [by apply IH|]. intros <-. apply Hk.
  apply list_elem_of_In, in_map_iff. by exists (k, v).
Qed.
Lemma dict_set_plain (k : string) (x : W) d :
  ApiManager.plain_key k = true -> ApiManager.plain_keys d = true ->
  ApiManager.plain_keys (dict_set k x d) = true.
Proof.
  intros Hk. unfold ApiManager.plain_keys in *.
  induction d as [|[k' v'] r IH]; [cbn; by rewrite Hk|]. cbn [dict_set forallb fst].
  intros [Hk' Hr]%andb_prop. case_decide; cbn [forallb fst]; rewrite ?Hk, ?Hk', ?Hr; [done|].
  by rewrite IH.
Qed.

(** A fold that only adds plain keys keeps the keys plain. *)
Lemma fold_plain (f : pydict string W -> string * V -> pydict string W) (l : pydict string V) d :
  (forall acc kv, ApiManager.plain_key kv.1 = true -> ApiManager.plain_keys acc = true ->
                  ApiManager.plain_keys (f acc kv) = true) ->
  ApiManager.plain_keys l = true -> ApiManager.plain_keys d = true ->
  ApiManager.plain_keys (fold_left f l d) = true.
Proof.
  intros Hf. revert d. induction l as [|kv l IH]; intros d; cbn; [done|].
  intros [Hk Hl]%andb_prop Hd. by apply IH, Hf.
Qed.

Lemma filter_plain (P : string * W -> bool) d :
  ApiManager.plain_keys d = true -> ApiManager.plain_keys (List.filter P d) = true.
Proof.
  induction d as [|kv d IH]; cbn; [done|]. intros [Hk Hd]%andb_prop.
  destruct (P kv); cbn; rewrite ?Hk; auto.
Qed.
End DictFolds.

Section SetKey.
Context {dotenv_other : ApiManager.DotenvOther}.

(** On plain keys [set_key] is the dictionary update. *)
Lemma fold_set_key_plain (vars : pydict string (option string)) d :
  ApiManager.plain_keys vars = true ->
  fold_left (fun d kv => ApiManager.set_key kv.1 (default "" kv.2) d) vars d =
  fold_left (fun d kv => dict_set kv.1 (Some (default "" kv.2)) d) vars d.
Proof.
  revert d. induction vars as [|[k v] vars IH]; intros d; cbn; [done|].
  intros [Hk Hv]%andb_prop. unfold ApiManager.set_key at 2. rewrite Hk. by apply IH.
Qed.

Lemma update_dotenv_vars_plain touch vars f :
  ApiManager.plain_keys vars = true -> ApiManager.plain_keys (ApiManager.env_values f) = true ->
  ApiManager.plain_keys (ApiManager.env_values (update_dotenv_vars touch vars f).2) = true.
Proof.
  intros Hv Hf. unfold update_dotenv_vars.
  destruct (ApiManager.env_exists f), touch; cbn [snd ApiManager.env_values]; try done;
    rewrite fold_set_key_plain by done;
    (apply fold_plain; [intros; by apply dict_set_plain|done|done]).
Qed.
End SetKey.

Section SaveAllProps.
Context `{Render} {dotenv_other : ApiManager.DotenvOther}.






(** The detail of line 89 never reaches the client: a failed write is
    answered with the [500] of the [except Exception] handler, which
    catches the [HTTPException] raised inside the [try]; with the file
    missing and [touch] failing, that is the answer, and the file is
    left as it was. *)
Theorem save_all_settings_detail_lost touch data f :
  (save_all_settings touch data f).1 <>
    Err (ResultsApi.http_exception 500 (PStr "Failed to save settings to .env file.")) /\
  (ApiManager.env_exists f = false -> is_Some touch ->
   save_all_settings touch data f =
     (Err (ResultsApi.http_exception 500 (PStr "Internal server error while saving settings.")), f)).
Proof.
  assert (is_subclass CHTTPException CException = true) as Hs by reflexivity.
  unfold save_all_settings, update_dotenv_vars, ResultsApi.http_exception.
  destruct (ApiManager.env_exists f), touch as [e|]; cbn; rewrite ?Hs; cbn;
    (split; [intros [=] | intros Hf [x Hx]; first [discriminate | reflexivity]]).
Qed.
End SaveAllProps.

(** ** The [.env] keys of [add_provider] *)

Section EnvProps.
Variables (prefix : string) (env : pydict string string).
Hypothesis Henv : dict_wf env.

Lemma provider_env_vars_prefixed c k v :
  In (k, v) (provider_env_vars prefix env c) -> py_startswith k prefix = true.
Proof. unfold provider_env_vars. by intros [_ Hk]%filter_In. Qed.

Lemma provider_env_vars_wf c : dict_wf c -> dict_wf (provider_env_vars prefix env c).
Proof. intros Hc. apply dict_wf_filter, (fold_set_if_wf (fun kv => py_startswith kv.1 prefix) Some), Hc. Qed.

Lemma provider_env_vars_get c k :
  py_startswith k prefix = true ->
  dict_get k (provider_env_vars prefix env c) =
    match dict_get k env with Some e => Some (Some e) | None => dict_get k c end.
Proof.
  intros Hk. unfold provider_env_vars.
  rewrite (dict_get_filter_key (fun k => py_startswith k prefix)) by done.
  rewrite (fold_set_if_get (fun kv => py_startswith kv.1 prefix) Some) by done.
  destruct (dict_get k env); [cbn [fst]; by rewrite Hk|done].
Qed.

Lemma provider_env_vars_plain c :
  ApiManager.plain_keys env = true -> ApiManager.plain_keys c = true ->
  ApiManager.plain_keys (provider_env_vars prefix env c) = true.
Proof.
  intros He Hc. unfold provider_env_vars. apply filter_plain, fold_plain; [|done|done].
  intros acc kv Hk Hacc. destruct (py_startswith _ _); [by apply dict_set_plain|done].
Qed.

(** One write of the provider's keys, as [set_key] makes it on plain
    keys. *)
Definition env_write (c : dotenv_dict) : dotenv_dict :=
  fold_left (fun d kv => dict_set kv.1 (Some (default "" kv.2)) d) (provider_env_vars prefix env c) c.

Lemma env_write_get c k :
  dict_wf c -> py_startswith k prefix = true ->
  dict_get k (env_write c) =
    match dict_get k env with
    | Some e => Some (Some e)
    | None => match dict_get k c with Some v => Some (Some (default "" v)) | None => None end
    end.
Proof.
  intros Hc Hk. unfold env_write.
  rewrite (fold_set_get (fun v => Some (default "" v))) by (by apply provider_env_vars_wf).
  rewrite provider_env_vars_get by done. by destruct (dict_get k env), (dict_get k c).
Qed.

(** The second write of the same keys changes nothing. *)
Lemma env_write_idem c : dict_wf c -> env_write (env_write c) = env_write c.
Proof.
  intros Hc. assert (dict_wf (env_write c)) as Hc'
    by (apply (fold_set_wf (fun v => Some (default "" v))), Hc).
  unfold env_write at 1. apply (fold_set_fixed (fun v => Some (default "" v))).
  intros k v Hin. pose proof (provider_env_vars_prefixed _ _ _ Hin) as Hk.
  apply dict_get_In_wf in Hin; [|by apply provider_env_vars_wf].
  rewrite provider_env_vars_get, (env_write_get c k Hc Hk) in Hin by done.
  rewrite (env_write_get c k Hc Hk).
  destruct (dict_get k env); [by injection Hin as <-|]. by destruct (dict_get k c); [injection Hin as <-|].
Qed.
End EnvProps.

Section AddProviderProps.
Context `{World} `{Render} (io_error : string -> option exc) (dumps : pyval -> string)
        (run : list string -> option Z) {dotenv_other : ApiManager.DotenvOther}.

Lemma add_provider_named_env req n display s :
  st_env (add_provider_named io_error dumps run req n display s).2 =
    (update_dotenv_vars (io_error ".env")
       (provider_env_vars (py_upper n ++ "_") (req_env req) (ApiManager.env_values (st_env s)))
       (st_env s)).2.
Proof.
  unfold add_provider_named.
  destruct (update_dotenv_vars _ _ _) as [[] f']; cbn; [|done].
  destruct (create_handler_file _ _ _ _ _ _ _ _) as [hp files].
  by destruct (update_provider_metadata _ _ _ _ _).
Qed.

(** What [add_provider] does to [.env]: nothing unless the name is a
    non-empty string, the write of the provider's keys otherwise. *)
Lemma add_provider_env req s :
  st_env (add_provider io_error dumps run req s).2 =
    match dict_get_default "name" PNone (req_config req) with
    | PStr n =>
        if String.eqb n "" then st_env s
        else (update_dotenv_vars (io_error ".env")
                (provider_env_vars (py_upper n ++ "_") (req_env req) (ApiManager.env_values (st_env s)))
                (st_env s)).2
    | _ => st_env s
    end.
Proof.
  unfold add_provider.
  destruct (dict_get_default "name" PNone (req_config req)) as [| | | |n| |]; cbn;
    try reflexivity; try (destruct (negb _); reflexivity).
  rewrite negb_involutive. destruct (String.eqb n ""); [done|].
  destruct (add_provider_named _ _ _ _ _ _ _) as [r s2] eqn:E. cbn [snd]. change s2 with (r, s2).2.
  by rewrite <-E, add_provider_named_env.
Qed.


Lemma update_dotenv_vars_env_write touch prefix env f :
  ApiManager.plain_keys env = true -> ApiManager.plain_keys (ApiManager.env_values f) = true ->
  (update_dotenv_vars touch (provider_env_vars prefix env (ApiManager.env_values f)) f).2 =
    match ApiManager.env_exists f, touch with
    | false, Some _ => f
    | _, _ => {| ApiManager.env_exists := true;
                 ApiManager.env_values := env_write prefix env (ApiManager.env_values f) |}
    end.
Proof.
  intros He Hf. unfold update_dotenv_vars, env_write.
  destruct (ApiManager.env_exists f), touch; cbn; try done;
    by rewrite fold_set_key_plain by (by apply provider_env_vars_plain).
Qed.

Lemma update_dotenv_vars_write touch prefix env f :
  dict_wf env -> dict_wf (ApiManager.env_values f) ->
  ApiManager.plain_keys env = true -> ApiManager.plain_keys (ApiManager.env_values f) = true ->
  let f1 := (update_dotenv_vars touch (provider_env_vars prefix env (ApiManager.env_values f)) f).2 in
  (update_dotenv_vars touch (provider_env_vars prefix env (ApiManager.env_values f1)) f1).2 = f1.
Proof.
  intros He Hf Hpe Hpf. cbv zeta.
  assert (ApiManager.plain_keys (ApiManager.env_values
            (update_dotenv_vars touch (provider_env_vars prefix env (ApiManager.env_values f)) f).2) = true)
    as Hp1 by (apply update_dotenv_vars_plain; [by apply provider_env_vars_plain|done]).
  rewrite (update_dotenv_vars_env_write _ _ _ _ Hpe Hp1). rewrite update_dotenv_vars_env_write in Hp1 |- * by done.
  destruct (ApiManager.env_exists f) eqn:Hx, touch as [e|]; cbn; rewrite ?Hx; try done;
    f_equal; exact (env_write_idem prefix env He _ Hf).
Qed.


(** C23: [add_provider] is idempotent on [.env], as the comment of line 123
    says: the same request sent twice leaves the file as the first one
    left it (the request's keys and the dictionary read from the file
    having no duplicate keys, and their keys and values being plain). *)
Theorem add_provider_env_idempotent req s :
  dict_wf (req_env req) -> dict_wf (ApiManager.env_values (st_env s)) ->
  plain_env (req_env req) = true -> plain_dotenv (ApiManager.env_values (st_env s)) = true ->
  st_env (add_provider io_error dumps run req (add_provider io_error dumps run req s).2).2 =
    st_env (add_provider io_error dumps run req s).2.
Proof.
  intros He Hf [Hpe _]%andb_prop [Hpf _]%andb_prop. rewrite !add_provider_env.
  destruct (dict_get_default "name" PNone (req_config req)) as [| | | |n| |]; try done.
  destruct (String.eqb n ""); [done|]. by apply update_dotenv_vars_write.
Qed.
End AddProviderProps.

(** ** The metadata entry and the factory *)

Lemma names_provider_new n new : standard_name new = Some n -> names_provider n (EntryDict new) = true.
Proof. intros Hn. cbn. by rewrite Hn, bool_decide_eq_true_2. Qed.

Lemma upsert_entry_idem n new es :
  standard_name new = Some n -> upsert_entry n new (upsert_entry n new es) = upsert_entry n new es.
Proof.
  intros Hn. induction es as [|e es IH]; cbn [upsert_entry].
  - by rewrite names_provider_new.
  - destruct (names_provider n e) eqn:He; cbn [upsert_entry]; [by rewrite names_provider_new|].
    by rewrite He, IH.
Qed.

Lemma upsert_entry_find n new es :
  standard_name new = Some n -> find (names_provider n) (upsert_entry n new es) = Some (EntryDict new).
Proof.
  intros Hn. induction es as [|e es IH]; cbn [upsert_entry find].
  - by rewrite names_provider_new.
  - destruct (names_provider n e) eqn:He; cbn [find]; [by rewrite names_provider_new|by rewrite He].
Qed.

(** A provider the file does not name is appended. *)
Lemma upsert_entry_absent n new es :
  existsb (names_provider n) es = false -> upsert_entry n new es = (es ++ [EntryDict new])%list.
Proof.
  induction es as [|e es IH]; cbn; [done|].
  intros [He Hes]%orb_false_iff. by rewrite He, IH.
Qed.

Section MetaProps.
Context `{Render} (io_error : string -> option exc).

Lemma update_provider_metadata_ok file n display compat mf :
  update_provider_metadata io_error file n display compat = Ok mf ->
  io_error "config" = None /\ io_error meta_tmp_path = None /\
  exists es, load_metadata file = Ok es /\ mf = MetaList (upsert_entry n (new_provider_entry n display compat) es).
Proof.
  unfold update_provider_metadata.
  destruct (io_error "config") eqn:Hc; [discriminate|].
  destruct (load_metadata file) as [es|e]; cbn; [|discriminate].
  destruct (io_error meta_tmp_path) eqn:Ht; [discriminate|]. intros [= <-]. eauto.
Qed.

(** C25: [update_provider_metadata] upserts: when it succeeds, the first
    entry of the new file that names the provider is the new entry, and
    a second call with the same arguments writes the same file again. *)
Theorem update_provider_metadata_upsert file n display compat mf :
  update_provider_metadata io_error file n display compat = Ok mf ->
  exists es, mf = MetaList es /\
    find (names_provider n) es = Some (EntryDict (new_provider_entry n display compat)) /\
    update_provider_metadata io_error mf n display compat = Ok mf.
Proof.
  intros (Hc & Ht & es & Hl & ->)%update_provider_metadata_ok.
  eexists. split_and!; [done|by apply upsert_entry_find|].
  unfold update_provider_metadata. rewrite Hc, Ht. cbn. by rewrite upsert_entry_idem.
Qed.
End MetaProps.

Lemma append_nonempty_r (x y : string) : y <> "" -> String.eqb (x ++ y) "" = false.
Proof. intros Hy. destruct x; cbn; [by apply String.eqb_neq|done]. Qed.

Section RestartProps.
Context `{World}.

(** Start-up of a fresh process on a metadata list. *)
Lemma startup_view es :
  let r := initialize_handlers (MetaList es) init_registry in
  view r = abs_init es /\ initialized r = true /\ coherent r.
Proof.
  cbn zeta. unfold initialize_handlers. cbn [initialized init_registry].
  set (r0 := set_flags (set_meta _ _) false true).
  destruct (fold_init_entry_view es r0) as (Hv & _ & _ & Hc').
  split_and!; [|done|].
  - by rewrite view_set_flags, Hv.
  - apply coherent_set_flags, Hc'. subst r0.
    apply coherent_set_flags, coherent_set_meta, coherent_set_aliases, coherent_set_handlers.
    by repeat split.
Qed.

(** The new entry registers under its name when its class imports. *)
Lemma entry_reg_new n display compat c :
  n <> "" ->
  import_handler (default "" (handler_module_path (new_provider_entry n display compat))) (class_name n)
    = Imported c true ->
  entry_reg (EntryDict (new_provider_entry n display compat)) =
    Some (n, c, new_provider_entry n display compat, [AliasStr n]).
Proof.
  intros Hn Hi. unfold entry_reg. cbn [standard_name handler_module_path handler_class_name env_prefix
    new_provider_entry falsy_str default]. unfold class_name in Hi |- *.
  rewrite (proj2 (String.eqb_neq n "") Hn), (append_nonempty_r _ "Handler"), (append_nonempty_r _ "_")
    by discriminate.
  destruct compat; cbn in Hi |- *; rewrite Hi; done.
Qed.
End RestartProps.

Section AddProviderRestart.
Context `{World} `{Render} (io_error : string -> option exc) (dumps : pyval -> string)
        (run : list string -> option Z) {dotenv_other : ApiManager.DotenvOther}.

(** A successful [add_provider]: the name is a non-empty string, the
    metadata file is the one [update_provider_metadata] wrote, and the
    factory is the one line 116 left. *)
Lemma add_provider_ok req s v s' :
  add_provider io_error dumps run req s = (Ok v, s') ->
  exists n, dict_get_default "name" PNone (req_config req) = PStr n /\ n <> "" /\
    update_provider_metadata io_error (st_meta s) n
      (dict_get_default "display_name" (PStr n) (req_config req)) (req_is_openai_compatible req)
      = Ok (st_meta s') /\
    st_registry s' = (get_all_provider_metadata (st_meta s) (st_registry s)).1.
Proof.
  unfold add_provider.
  destruct (dict_get_default "name" PNone (req_config req)) as [| | | |n| |]; cbn;
    try (intros E; repeat case_match; discriminate).
  rewrite negb_involutive. destruct (String.eqb n "") eqn:Hn; [discriminate|].
  unfold add_provider_named.
  destruct (update_dotenv_vars _ _ _) as [[] env']; cbn;
    [|unfold add_provider_except; case_match; discriminate].
  destruct (create_handler_file _ _ _ _ _ _ _ _) as [hp files].
  destruct (update_provider_metadata _ _ _ _ _) as [mf|e] eqn:Hm; cbn;
    [intros [= _ <-]|unfold add_provider_except; case_match; discriminate].
  exists n. split_and!; [done|by apply String.eqb_neq|exact Hm|done].
Qed.

(** C22: A provider added by [POST /api/settings/add-provider] is found by
    the factory only after a restart.  When the route succeeds for a
    name [n] that no entry of the metadata file had, and the handler
    class the new entry names imports, the factory of a fresh process
    resolves [n] to itself and holds the new entry as the provider's
    metadata; the running factory, already initialised, is left as it
    was and resolves [n] as it did before the request. *)
Theorem add_provider_needs_restart req s v s' n es c :
  dict_get_default "name" PNone (req_config req) = PStr n ->
  load_metadata (st_meta s) = Ok es -> existsb (names_provider n) es = false ->
  import_handler (default "" (handler_module_path
      (new_provider_entry n (dict_get_default "display_name" (PStr n) (req_config req))
                          (req_is_openai_compatible req)))) (class_name n) = Imported c true ->
  add_provider io_error dumps run req s = (Ok v, s') ->
  let r' := initialize_handlers (st_meta s') init_registry in
  standardize_provider_name (st_meta s') r' n = (r', Ok n) /\
  dict_get n (meta_map r') =
    Some (new_provider_entry n (dict_get_default "display_name" (PStr n) (req_config req))
                             (req_is_openai_compatible req)) /\
  (initialized (st_registry s) = true ->
   standardize_provider_name (st_meta s') (st_registry s') n =
     standardize_provider_name (st_meta s) (st_registry s) n).
Proof.
  intros Hn Hl Habs Hi (n' & Hn' & Hne & Hm & Hr)%add_provider_ok.
  rewrite Hn in Hn'. injection Hn' as <-.
  apply update_provider_metadata_ok in Hm as (_ & _ & es' & Hl' & Hmf).
  rewrite Hl in Hl'. injection Hl' as <-. rewrite upsert_entry_absent in Hmf by done.
  set (e := new_provider_entry _ _ _) in *. cbn zeta. rewrite Hmf.
  destruct (startup_view (es ++ [EntryDict e])) as (Hv & Hinit & Hc).
  set (r' := initialize_handlers _ init_registry) in *.
  assert (view r' = abs_step (abs_init es) (EntryDict e)) as Hv'
    by (rewrite Hv; unfold abs_init; by rewrite fold_left_app).
  unfold abs_step at 1 in Hv'. unfold e in Hv'. rewrite (entry_reg_new n _ _ c Hne Hi) in Hv'.
  split_and!.
  - rewrite standardize_coherent by done. rewrite Hv'. unfold abs_standardize. cbn [a_aliases].
    rewrite (proj2 (String.eqb_neq n "") Hne), register_aliases_last_get.
    by rewrite bool_decide_eq_true_2 by (cbn; set_solver).
  - change (meta_map r') with (a_meta (view r')). rewrite Hv'. apply dict_get_set_eq.
  - intros Hi0. assert (st_registry s' = st_registry s) as ->
      by (rewrite Hr; unfold get_all_provider_metadata; by rewrite Hi0).
    unfold standardize_provider_name. by rewrite Hi0.
Qed.
End AddProviderRestart.

Section SettingsWitnesses.
#[local] Existing Instance demo_world.
#[local] Instance demo_render : Render := {| py_str := fun _ => "value"; exc_str := fun _ => "error" |}.
(** Any reading of a line the model does not parse. *)
#[local] Instance demo_other : ApiManager.DotenvOther := fun _ _ d => d.

Definition demo_envf : ApiManager.env_file :=
  {| ApiManager.env_exists := true;
     ApiManager.env_values := [("DEEPSEEK_API_KEY", Some "sk-old"); ("MYAI_BASE_URL", None)] |}.
Definition demo_data : pydict string pyval := [("THEME", PStr "dark"); ("DEBUG", PNone)].


Definition demo_missing : ApiManager.env_file := {| ApiManager.env_exists := false; ApiManager.env_values := [] |}.

Lemma save_all_settings_detail_lost_witness :
  save_all_settings (Some (os_error "permission denied")) demo_data demo_missing =
    (Err (ResultsApi.http_exception 500 (PStr "Internal server error while saving settings.")), demo_missing).
Proof.
  apply (proj2 (save_all_settings_detail_lost (Some (os_error "permission denied")) demo_data demo_missing));
    [reflexivity | eexists; reflexivity].
Defined.

Definition demo_req : add_provider_request :=
  {| req_env := [("MYAI_API_KEY", "sk-new"); ("OTHER_TOKEN", "t")];
     req_config := [("name", PStr "myai"); ("display_name", PStr "My AI")];
     req_is_openai_compatible := true |}.

Definition demo_state : settings_state :=
  {| st_env := demo_envf; st_meta := MetaList demo_entries;
     st_handlers := [(template_path "openai_compatible", "class TemplateOpenAIHandler: pass")];
     st_configs := [];
     st_registry := initialize_handlers (MetaList demo_entries) init_registry |}.

Definition demo_io (p : string) : option exc := None.
Definition demo_dumps (v : pyval) : string := "[]".
Definition demo_run (cmd : list string) : option Z :=
  match cmd with "pm2" :: _ => Some 0%Z | _ => None end.

Definition demo_added : result exc pyval * settings_state :=
  add_provider demo_io demo_dumps demo_run demo_req demo_state.
Definition demo_added_v : pyval := match demo_added.1 with Ok v => v | Err _ => PNone end.


Lemma add_provider_env_idempotent_witness :
  st_env (add_provider demo_io demo_dumps demo_run demo_req demo_added.2).2 = st_env demo_added.2.
Proof.
  apply add_provider_env_idempotent; [repeat constructor; set_solver..|reflexivity|reflexivity].
Defined.

Definition demo_written : result exc meta_file :=
  update_provider_metadata demo_io (MetaList demo_entries) "myai" (PStr "My AI") true.
Definition demo_mf : meta_file := match demo_written with Ok m => m | Err _ => MetaMissing end.

Lemma update_provider_metadata_upsert_witness :
  demo_written = Ok demo_mf /\
  exists es, demo_mf = MetaList es /\
    find (names_provider "myai") es = Some (EntryDict (new_provider_entry "myai" (PStr "My AI") true)) /\
    update_provider_metadata demo_io demo_mf "myai" (PStr "My AI") true = Ok demo_mf.
Proof.
  assert (demo_written = Ok demo_mf) as Hw by (vm_compute; reflexivity).
  split; [exact Hw|]. exact (update_provider_metadata_upsert demo_io _ _ _ _ _ Hw).
Defined.

Lemma add_provider_needs_restart_witness :
  let r' := initialize_handlers (st_meta demo_added.2) init_registry in
  standardize_provider_name (st_meta demo_added.2) r' "myai" = (r', Ok "myai") /\
  dict_get "myai" (meta_map r') = Some (new_provider_entry "myai" (PStr "My AI") true) /\
  (initialized (st_registry demo_state) = true ->
   standardize_provider_name (st_meta demo_added.2) (st_registry demo_added.2) "myai" =
     standardize_provider_name (st_meta demo_state) (st_registry demo_state) "myai").
Proof.
  assert (demo_added = (Ok demo_added_v, demo_added.2)) as Ha by (vm_compute; reflexivity).
  exact (add_provider_needs_restart demo_io demo_dumps demo_run demo_req demo_state demo_added_v
           demo_added.2 "myai" demo_entries ("src.providers.handlers.myai", "MyaiHandler")
           eq_refl eq_refl eq_refl eq_refl Ha).
Defined.
End SettingsWitnesses.
End Settings.
