(* ===== verification/Routing.v ===== *)
(** * Routing: the route table of [create_app] ([src/backend_main.py]) and
    Starlette's dispatch over it

    Each module of [src/src/api/routes] declares an [APIRouter] with a
    prefix and decorates its functions with a method and a path;
    [create_app] includes the routers one after the other (lines 61-75),
    each under a prefix of its own, adds [POST /api/upload] and mounts the
    front end's static files at ["/"] when the directory exists.  A request
    is served by the first route whose path and method both match; a
    route whose path matches under another method only makes the answer
    [405] if nothing else matches; without the mount, a path that matches
    nothing is redirected when its variant with or without a final ['/']
    matches a route.

    [backend_main.py] imports two route modules, [analysis] and
    [transfer], that the repository does not contain; their routers are
    section variables, so every theorem holds whatever routes they
    declare.  A path parameter ["{name}"] matches one non-empty segment,
    which is what Starlette's [[^/]+] matches when the parameter is a
    whole segment, as it is in every route of the program. *)

From S2P Require Import Prelude.

Module AppRoutes.
Local Open Scope string_scope.

Record route : Type := mk_route {
  r_method : string;
  r_path : string;
  r_endpoint : string          (** ["module.function"] *)
}.

(** An [APIRouter(prefix=...)] with its decorated functions, in the order
    of the module: method, path, function. *)
Record router : Type := mk_router {
  rt_prefix : string;
  rt_module : string;
  rt_routes : list (string * string * string)
}.

(** [app.include_router(r, prefix=p)]: a route's path is the include
    prefix, the router's prefix and the decorator's path, in that order. *)
Definition router_routes (include_prefix : string) (r : router) : list route :=
  map (fun '(m, p, f) => mk_route m (include_prefix ++ rt_prefix r ++ p) (rt_module r ++ "." ++ f))
      (rt_routes r).

Definition include_router (app : list route) (prefix : string) (r : router) : list route :=
  (app ++ router_routes prefix r)%list.

(** ** The routers of [src/src/api/routes] *)

Definition tasks_router : router :=
  mk_router "/api/tasks" "tasks"
    [("GET", "/{task_id}", "get_task_status"); ("GET", "/{task_id}/status", "get_task_status_compat");
     ("POST", "/{task_id}/cancel", "cancel_task")].

(** [async_tasks.py]: declared, never included. *)
Definition async_tasks_router : router :=
  mk_router "/api/async/tasks" "async_tasks"
    [("GET", "/{task_id}", "get_task_status"); ("GET", "/{task_id}/status", "get_task_status_compat");
     ("POST", "/{task_id}/cancel", "cancel_task")].

Definition literature_analysis_router : router :=
  mk_router "/literature-analysis" "literature_analysis"
    [("GET", "/template-structure", "get_detailed_literature_structure_v2");
     ("POST", "/analyze", "perform_detailed_literature_analysis_v2")].

Definition settings_router : router :=
  mk_router "" "settings"
    [("POST", "/settings/save-all", "save_all_settings"); ("POST", "/settings/add-provider", "add_provider");
     ("GET", "/settings/provider-schema/{type}", "get_provider_schema");
     ("GET", "/settings/providers-meta", "get_providers_meta")].

(** [files.py] binds [router] twice: the routes of lines 26 and 48 are on
    the object of line 22, and [files.router] is the object of line 138. *)
Definition files_router_22 : router :=
  mk_router "" "files" [("GET", "/test-files", "test_files_router"); ("GET", "/file-content", "get_file_content")].

Definition files_router_138 : router :=
  mk_router "/files" "files" [("POST", "/upload", "upload_file"); ("POST", "/upload-and-extract", "upload_and_extract")].

Definition providers_router : router :=
  mk_router "" "providers"
    [("GET", "/settings/schema", "get_settings_schema"); ("POST", "/settings/save-all", "保存所有设置");
     ("GET", "/providers", "获取提供商列表"); ("GET", "/settings/global", "获取全局设置");
     ("GET", "/settings/providers", "获取提供商设置"); ("GET", "/models/{provider_name}", "获取模型列表");
     ("GET", "/provider-status/{provider_name}", "获取提供商状态"); ("GET", "/debug-env", "调试环境变量");
     ("POST", "/provider/test-model", "测试模型连接")].

Definition chat_router : router := mk_router "/chat" "chat" [("POST", "/", "handle_chat")].

Definition chat_history_router : router :=
  mk_router "/chat-logs" "chat_history"
    [("GET", "", "get_chat_logs_list"); ("GET", "/{chat_id}", "get_chat_log_detail"); ("POST", "", "save_chat_log")].

Definition templates_router : router := mk_router "/api/templates" "templates" [("GET", "", "list_templates")].

Definition results_router : router :=
  mk_router "/results" "results"
    [("GET", "", "get_results_list"); ("GET", "/ping", "ping_results_router");
     ("GET", "/literature/{result_id}", "get_literature_analysis_result_endpoint");
     ("GET", "/text-analysis/{result_id}", "get_text_analysis_result_endpoint");
     ("GET", "/style/{result_id}", "get_style_transfer_result_endpoint");
     ("POST", "/save-literature", "save_literature_analysis"); ("POST", "/save-text-analysis", "save_text_analysis");
     ("POST", "/save-style", "save_style_transfer"); ("DELETE", "/{result_id}", "delete_analysis_result");
     ("PATCH", "/{result_id}/rename", "rename_analysis_result")].

Definition data_terminal_router : router :=
  mk_router "/results" "data_terminal"
    [("GET", "/", "get_all_results"); ("GET", "/{result_id}", "get_result_detail");
     ("PUT", "/{result_id}/rename", "rename_result"); ("DELETE", "/{result_id}", "delete_result");
     ("PUT", "/{result_id}/content", "update_result_content")].

Definition ui_state_router : router :=
  mk_router "/ui-state" "ui_state" [("GET", "/{page_key}", "get_page_ui_state"); ("POST", "/{page_key}", "save_page_ui_state")].

Definition report_generator_router : router :=
  mk_router "" "report_generator_api"
    [("POST", "/generate-report", "create_report"); ("POST", "/generate/cloud", "generate_report_cloud_endpoint");
     ("POST", "/generate-from-hot-topics", "generate_report_from_hot_topics")].

Definition hot_topics_router : router := mk_router "" "hot_topics_routes" [("POST", "/hot-topics/", "get_hot_topics_endpoint")].

(** The routes [FastAPI()] registers before any router: the schema and
    the two documentation pages.  They are Starlette [Route]s, which
    answer [HEAD] as well as [GET]; one such route is modelled as a [GET]
    entry followed by a [HEAD] entry. *)
Definition docs_routes : list route :=
  flat_map (fun pe => [mk_route "GET" pe.1 pe.2; mk_route "HEAD" pe.1 pe.2])
    [("/openapi.json", "fastapi.openapi"); ("/docs", "fastapi.swagger_ui_html");
     ("/docs/oauth2-redirect", "fastapi.swagger_ui_redirect"); ("/redoc", "fastapi.redoc_html")].

Definition upload_route : route := mk_route "POST" "/api/upload" "backend_main.upload_file_main_app".

(** ** Matching and dispatch *)

(** [s.split(c)] *)
Fixpoint split_on (c : ascii) (s : string) : list string :=
  match s with
  | EmptyString => [EmptyString]
  | String x r =>
      let rest := split_on c r in
      if Ascii.eqb x c then EmptyString :: rest
      else match rest with [] => [String x EmptyString] | h :: t => String x h :: t end
  end.

Definition is_param (seg : string) : bool :=
  py_startswith seg "{" && py_endswith seg "}" && (2 <=? String.length seg)%nat.

Fixpoint segs_match (tpl path : list string) : bool :=
  match tpl, path with
  | [], [] => true
  | t :: tr, p :: pr => (if is_param t then negb (String.eqb p "") else String.eqb t p) && segs_match tr pr
  | _, _ => false
  end.

(** The compiled path regex of a route, on [scope["path"]]. *)
Definition path_matches (template path : string) : bool :=
  segs_match (split_on "/" template) (split_on "/" path).

(** [APIRoute] answers only the methods it declares. *)
Definition method_ok (route_method method : string) : bool := String.eqb method route_method.

Definition full_match (m p : string) (r : route) : bool := method_ok (r_method r) m && path_matches (r_path r) p.

Inductive outcome : Type :=
  | Handled (endpoint : string)
  | StaticFiles                  (** the mount of the front end *)
  | MethodNotAllowed             (** [405] of the first partial match *)
  | Redirect (location : string) (** [307] to the other slash variant *)
  | NotFound.

(** [request.url.path] with its final ['/'] removed or added. *)
Definition toggle_slash (p : string) : string :=
  if py_endswith p "/" then substring 0 (String.length p - 1) p else p ++ "/".

(** [Router.app] of Starlette, for an HTTP request. *)
Fixpoint dispatch_routes (all rs : list route) (frontend partial : bool) (m p : string) : outcome :=
  match rs with
  | r :: rest =>
      if path_matches (r_path r) p then
        if method_ok (r_method r) m then Handled (r_endpoint r)
        else dispatch_routes all rest frontend true m p
      else dispatch_routes all rest frontend partial m p
  | [] =>
      if frontend then StaticFiles
      else if partial then MethodNotAllowed
      else if negb (String.eqb p "/") && existsb (fun r => path_matches (r_path r) (toggle_slash p)) all
      then Redirect (toggle_slash p)
      else NotFound
  end.

Definition dispatch (rs : list route) (frontend : bool) (m p : string) : outcome :=
  dispatch_routes rs rs frontend false m p.

Section App.
(** The routers of the modules [analysis] and [transfer], which the
    repository does not contain. *)
Variables (analysis_prefix transfer_prefix : string)
          (analysis_routes transfer_routes : list (string * string * string)).

Definition analysis_router : router := mk_router analysis_prefix "analysis" analysis_routes.
Definition transfer_router : router := mk_router transfer_prefix "transfer" transfer_routes.

(** Lines 61-75 of [create_app], in order. *)
Definition included_routers : list (string * router) :=
  [("", tasks_router); ("/api", analysis_router); ("/api", literature_analysis_router);
   ("/api", settings_router); ("/api", files_router_138); ("/api", providers_router); ("/api", chat_router);
   ("/api", chat_history_router); ("/api", templates_router); ("/api", results_router);
   ("/api", transfer_router); ("/api", data_terminal_router); ("/api", ui_state_router);
   ("/api/v1/reports", report_generator_router); ("/api/v1", hot_topics_router)].

(** [create_app()], lines 42-76 and 78: the routes of the application in
    the order Starlette tries them. *)
Definition app_routes : list route :=
  (fold_left (fun app pr => include_router app pr.1 pr.2) included_routers docs_routes ++ [upload_route])%list.
End App.

(** The routes of [create_app] around those of the two missing routers. *)
Definition routes_head : list route := (docs_routes ++ router_routes "" tasks_router)%list.
Definition routes_mid : list route :=
  flat_map (fun pr => router_routes pr.1 pr.2)
    [("/api", literature_analysis_router); ("/api", settings_router); ("/api", files_router_138);
     ("/api", providers_router); ("/api", chat_router); ("/api", chat_history_router);
     ("/api", templates_router); ("/api", results_router)].
Definition routes_tail : list route :=
  (flat_map (fun pr => router_routes pr.1 pr.2)
    [("/api", data_terminal_router); ("/api", ui_state_router);
     ("/api/v1/reports", report_generator_router); ("/api/v1", hot_topics_router)] ++ [upload_route])%list.

(** Every route, among the earlier ones, has a twin with the same method
    and path: [seen] holds the method and path of the earlier routes. *)
Fixpoint shadowed_from (seen : list (string * string)) (rs : list route) (e : string) : bool :=
  match rs with
  | [] => true
  | r :: rest =>
      (negb (String.eqb (r_endpoint r) e) || bool_decide ((r_method r, r_path r) ∈ seen))
      && shadowed_from ((r_method r, r_path r) :: seen) rest e
  end.

(** The endpoints no request can reach: a route registered after a twin,
    the routes left on the first router of [files.py], the routes of the
    router [create_app] never includes. *)
Definition unreachable_endpoints : list string :=
  ["providers.保存所有设置"; "data_terminal.delete_result"; "files.test_files_router";
   "files.get_file_content"; "async_tasks.get_task_status"; "async_tasks.get_task_status_compat";
   "async_tasks.cancel_task"].

(** ** Dispatch lemmas *)

Lemma find_app {A} (f : A -> bool) l1 l2 :
  find f (l1 ++ l2) = match find f l1 with Some x => Some x | None => find f l2 end.
Proof. induction l1 as [|x l1 IH]; cbn; [done|]. by destruct (f x). Qed.

Lemma find_none_forall {A} (f : A -> bool) l : Forall (fun x => f x = false) l -> find f l = None.
Proof. induction 1 as [|x l Hx _ IH]; cbn; [done|]. by rewrite Hx. Qed.

(** The route [find] returns is the one that serves the request. *)
Lemma dispatch_find_some all rs frontend partial m p r :
  find (full_match m p) rs = Some r -> dispatch_routes all rs frontend partial m p = Handled (r_endpoint r).
Proof.
  revert partial. induction rs as [|r0 rs IH]; intros partial; cbn; [done|].
  unfold full_match at 1. rewrite andb_comm.
  destruct (path_matches _ p), (method_ok _ m); cbn; try (intros [= ->]; done); apply IH.
Qed.

Lemma dispatch_handled all rs frontend partial m p e :
  dispatch_routes all rs frontend partial m p = Handled e ->
  exists r, find (full_match m p) rs = Some r /\ r_endpoint r = e.
Proof.
  revert partial. induction rs as [|r0 rs IH]; intros partial; cbn.
  - by repeat case_match.
  - unfold full_match at 1. rewrite andb_comm.
    destruct (path_matches _ p), (method_ok _ m); cbn; try (intros [= <-]; by eexists); apply IH.
Qed.

Lemma shadowed_mono seen seen' rs e :
  (forall x, x ∈ seen -> x ∈ seen') -> shadowed_from seen rs e = true -> shadowed_from seen' rs e = true.
Proof.
  revert seen seen'. induction rs as [|r rs IH]; intros seen seen' Hs; cbn; [done|].
  intros [Hr Hrest]%andb_prop. apply andb_true_intro. split.
  - apply orb_true_iff in Hr as [Hr|Hr]; apply orb_true_iff; [by left|right].
    apply bool_decide_eq_true in Hr. apply bool_decide_eq_true. auto.
  - revert Hrest. apply IH. intros x. rewrite !elem_of_cons. intuition.
Qed.

(** Routes of another module in between change nothing. *)
Lemma shadowed_insert seen l1 x l2 e :
  Forall (fun r => r_endpoint r <> e) x ->
  shadowed_from seen (l1 ++ l2) e = true -> shadowed_from seen (l1 ++ x ++ l2) e = true.
Proof.
  revert seen. induction l1 as [|r l1 IH]; intros seen Hx; cbn.
  - revert seen. induction Hx as [|r x Hr Hx IHx]; intros seen Hl2; cbn; [done|].
    rewrite (proj2 (String.eqb_neq _ _) Hr). cbn. apply IHx.
    revert Hl2. apply shadowed_mono. intros y. rewrite elem_of_cons. auto.
  - intros [Hr Hrest]%andb_prop. rewrite Hr. cbn. by apply IH.
Qed.

Lemma shadowed_find seen rs e m p r :
  (forall mt pt, (mt, pt) ∈ seen -> method_ok mt m && path_matches pt p = false) ->
  shadowed_from seen rs e = true -> find (full_match m p) rs = Some r -> r_endpoint r <> e.
Proof.
  revert seen. induction rs as [|r0 rs IH]; intros seen Hseen; cbn; [done|].
  intros [Hr Hrest]%andb_prop. destruct (full_match m p r0) eqn:Hf.
  - intros [= <-] He. rewrite He, String.eqb_refl in Hr. cbn in Hr.
    apply bool_decide_eq_true in Hr. specialize (Hseen _ _ Hr). unfold full_match in Hf. congruence.
  - apply (IH ((r_method r0, r_path r0) :: seen)); [|done]. intros mt pt [[= -> ->]|Hin]%elem_of_cons; [done|auto].
Qed.

Lemma router_routes_module pfx r :
  Forall (fun x => exists f, r_endpoint x = rt_module r ++ "." ++ f) (router_routes pfx r).
Proof.
  unfold router_routes. apply Forall_forall. intros x Hx.
  apply list_elem_of_In, in_map_iff in Hx as (([m p] & f) & <- & _). by exists f.
Qed.

Lemma split_on_nonempty c s : split_on c s <> [].
Proof. destruct s as [|x r]; cbn; [done|]. destruct (Ascii.eqb x c); [done|]. by destruct (split_on c r). Qed.

Lemma split_on_nosep c b : py_str_contains (String c EmptyString) b = false -> split_on c b = [b].
Proof.
  induction b as [|x r IH]; [done|]. cbn [py_str_contains prefix].
  destruct (ascii_dec c x) as [->|Hne]; [by rewrite prefix_nil|]. cbn [orb]. intros Hr.
  cbn [split_on]. rewrite (proj2 (Ascii.eqb_neq x c)) by congruence. by rewrite IH.
Qed.

(** Splitting a path whose last segment is appended. *)
Lemma split_on_app_nosep c a b :
  py_str_contains (String c EmptyString) b = false ->
  split_on c (a ++ b) = (removelast (split_on c a) ++ [(List.last (split_on c a) "" ++ b)%string])%list.
Proof.
  intros Hb. induction a as [|x r IH]; [by rewrite split_on_nosep|].
  rewrite str_app_cons. cbn [split_on]. rewrite IH. pose proof (split_on_nonempty c r) as Hne.
  destruct (split_on c r) as [|h t] eqn:E; [done|]. destruct (Ascii.eqb x c).
  - by destruct t.
  - by destruct t.
Qed.

(** The routes of the repository, checked once. *)
Lemma known_shadowed :
  forallb (fun e => shadowed_from [] (routes_head ++ routes_mid ++ routes_tail) e) unreachable_endpoints = true.
Proof. vm_compute. reflexivity. Qed.

Section AppProps.
Variables (ap tp : string) (ar tr : list (string * string * string)).

Definition missing_routes : list route :=
  (router_routes "/api" (analysis_router ap ar) ++ router_routes "/api" (transfer_router tp tr))%list.

Lemma app_routes_split :
  app_routes ap tp ar tr =
    (routes_head ++ router_routes "/api" (analysis_router ap ar) ++ routes_mid
     ++ router_routes "/api" (transfer_router tp tr) ++ routes_tail)%list.
Proof.
  unfold app_routes, routes_head, routes_mid, routes_tail.
  cbn [fold_left included_routers fst snd flat_map]. unfold include_router.
  rewrite <-!app_assoc, ?app_nil_r. reflexivity.
Qed.

(** A request none of the missing routes serves is dispatched over the
    routes of the repository. *)
Lemma dispatch_app frontend m p r :
  Forall (fun x => full_match m p x = false) missing_routes ->
  find (full_match m p) (routes_head ++ routes_mid ++ routes_tail) = Some r ->
  dispatch (app_routes ap tp ar tr) frontend m p = Handled (r_endpoint r).
Proof.
  intros [HA HT]%Forall_app Hf. apply dispatch_find_some.
  rewrite app_routes_split, !find_app, (find_none_forall _ _ HA), (find_none_forall _ _ HT).
  rewrite !find_app in Hf. by destruct (find (full_match m p) routes_head), (find (full_match m p) routes_mid).
Qed.

(** The routes of the missing modules are named after them. *)
Lemma missing_routes_endpoint e :
  In e (unreachable_endpoints ++ ["templates.list_templates"]) ->
  Forall (fun r => r_endpoint r <> e) missing_routes.
Proof.
  intros He. apply Forall_app. split; (eapply Forall_impl; [apply router_routes_module|]);
    intros x [f ->] Heq; apply (f_equal (substring 0 2)) in Heq; revert Heq;
    repeat (destruct He as [<-|He]; [cbn; discriminate|]); destruct He.
Qed.

(** An endpoint none of whose routes of the repository matches [p]. *)
Lemma dispatch_not_at frontend m p e :
  Forall (fun r => r_endpoint r <> e) missing_routes ->
  forallb (fun r => negb (String.eqb (r_endpoint r) e) || negb (path_matches (r_path r) p))
          (routes_head ++ routes_mid ++ routes_tail) = true ->
  dispatch (app_routes ap tp ar tr) frontend m p <> Handled e.
Proof.
  intros Hm Hk Hd. apply dispatch_handled in Hd as (r & Hf & <-).
  apply find_some in Hf as [Hin Hf]. unfold full_match in Hf. apply andb_prop in Hf as [_ Hp].
  rewrite app_routes_split in Hin. unfold missing_routes in Hm. apply Forall_app in Hm as [HA HT].
  rewrite !in_app_iff in Hin.
  destruct Hin as [Hin|[Hin|[Hin|[Hin|Hin]]]];
    try (by eapply Forall_forall in HA; [apply HA|apply list_elem_of_In]);
    try (by eapply Forall_forall in HT; [apply HT|apply list_elem_of_In]);
    (eapply forallb_forall in Hk; [|rewrite !in_app_iff; eauto]);
    rewrite String.eqb_refl, Hp in Hk; discriminate.
Qed.

(** C27: C: No request reaches the endpoints of [unreachable_endpoints]: the
    [save-all] of the providers router and the [DELETE] of the data
    terminal come after a route with the same method and path (of the
    settings and results routers), the two routes of [files.py] lines 26
    and 48 are on a router [create_app] never sees, and the async task
    router is never included; whatever the two missing routers declare. *)
Theorem routes_unreachable frontend m p e :
  In e unreachable_endpoints -> dispatch (app_routes ap tp ar tr) frontend m p <> Handled e.
Proof.
  intros He Hd. apply dispatch_handled in Hd as (r & Hf & Hr). revert Hr.
  apply (shadowed_find [] (app_routes ap tp ar tr) e m p r); [by intros ?? ?%elem_of_nil| |done].
  assert (In e (unreachable_endpoints ++ ["templates.list_templates"])) as He'
    by (apply in_app_iff; by left).
  apply missing_routes_endpoint, Forall_app in He' as [HA HT].
  rewrite app_routes_split. apply shadowed_insert; [done|].
  rewrite app_assoc. apply shadowed_insert; [done|]. rewrite <-app_assoc.
  exact (proj1 (forallb_forall _ _) known_shadowed e He).
Qed.

(** C28: C: [templates.router] carries the prefix ["/api/templates"] and is
    included under ["/api"] too: no request to [/api/templates] reaches
    [list_templates], which answers [GET /api/api/templates] whenever the
    missing routers do not claim that request. *)
Theorem templates_route_misplaced frontend m :
  dispatch (app_routes ap tp ar tr) frontend m "/api/templates" <> Handled "templates.list_templates" /\
  (Forall (fun r => full_match "GET" "/api/api/templates" r = false) missing_routes ->
   dispatch (app_routes ap tp ar tr) frontend "GET" "/api/api/templates" = Handled "templates.list_templates").
Proof.
  split.
  - apply dispatch_not_at; [|vm_compute; reflexivity].
    apply missing_routes_endpoint, in_app_iff. right. by left.
  - intros Hm. exact (dispatch_app frontend _ _ (mk_route "GET" "/api/api/templates"
                        "templates.list_templates") Hm ltac:(vm_compute; reflexivity)).
Qed.

(** The segments of a path made of a prefix and a last segment. *)
Lemma split_prefixed (pre id : string) :
  py_str_contains "/" id = false ->
  split_on "/" (pre ++ id) = (removelast (split_on "/" pre) ++ [(List.last (split_on "/" pre) "" ++ id)%string])%list.
Proof. apply split_on_app_nosep. Qed.

(** C29: C: The requests the modelled routes answer reach them: [POST
    /api/settings/save-all] is served by [settings.save_all_settings] (not
    by the providers router's, which saves through [APIManager]),
    [DELETE /api/results/{id}] by [results.delete_analysis_result] and
    [GET /api/tasks/{id}] by [tasks.get_task_status], for every id that is
    one non-empty segment, whenever the missing routers do not claim
    these requests. *)
Theorem served_routes frontend id :
  id <> "" -> py_str_contains "/" id = false ->
  Forall (fun mp => Forall (fun r => full_match mp.1 mp.2 r = false) missing_routes)
    [("POST", "/api/settings/save-all"); ("DELETE", "/api/results/" ++ id); ("GET", "/api/tasks/" ++ id)] ->
  dispatch (app_routes ap tp ar tr) frontend "POST" "/api/settings/save-all" = Handled "settings.save_all_settings" /\
  dispatch (app_routes ap tp ar tr) frontend "DELETE" ("/api/results/" ++ id) =
    Handled "results.delete_analysis_result" /\
  dispatch (app_routes ap tp ar tr) frontend "GET" ("/api/tasks/" ++ id) = Handled "tasks.get_task_status".
Proof.
  intros Hid Hsep Hm. apply Forall_cons in Hm as [H1 Hm]. apply Forall_cons in Hm as [H2 Hm].
  apply Forall_cons in Hm as [H3 _]. cbn [fst snd] in H1, H2, H3.
  assert (String.eqb id "" = false) as Hid' by (by apply String.eqb_neq).
  split_and!.
  - exact (dispatch_app frontend _ _ (mk_route "POST" "/api/settings/save-all" "settings.save_all_settings")
             H1 ltac:(vm_compute; reflexivity)).
  - apply (dispatch_app frontend _ _ (mk_route "DELETE" "/api/results/{result_id}"
             "results.delete_analysis_result") H2).
    unfold full_match, path_matches. rewrite split_prefixed by done. cbn.
    assert (segs_match (split_on "/" ("/api" ++ "/results" ++ "/{result_id}")) [""; "api"; "results"; "" ++ id]
            = negb (String.eqb id "") && true) as -> by reflexivity.
    by rewrite Hid'.
  - apply (dispatch_app frontend _ _ (mk_route "GET" "/api/tasks/{task_id}" "tasks.get_task_status") H3).
    unfold full_match, path_matches. rewrite split_prefixed by done. cbn.
    assert (segs_match (split_on "/" ("" ++ "/api/tasks" ++ "/{task_id}")) [""; "api"; "tasks"; "" ++ id]
            = negb (String.eqb id "") && true) as -> by reflexivity.
    by rewrite Hid'.
Qed.
End AppProps.

Section RoutingWitnesses.
Local Open Scope string_scope.

Lemma routes_unreachable_witness :
  In "providers.保存所有设置" unreachable_endpoints /\
  dispatch (app_routes "" "" [] []) false "POST" "/api/settings/save-all" <> Handled "providers.保存所有设置".
Proof. split; [by left|]. apply routes_unreachable. by left. Defined.

Lemma templates_route_misplaced_witness :
  Forall (fun r => full_match "GET" "/api/api/templates" r = false) (missing_routes "" "" [] []) /\
  dispatch (app_routes "" "" [] []) true "GET" "/api/api/templates" = Handled "templates.list_templates".
Proof.
  split; [constructor|]. apply (templates_route_misplaced "" "" [] [] true "GET"). constructor.
Defined.

Lemma served_routes_witness :
  dispatch (app_routes "" "" [] []) false "DELETE" ("/api/results/" ++ "r42") =
    Handled "results.delete_analysis_result".
Proof.
  refine (proj1 (proj2 (served_routes "" "" [] [] false "r42" _ _ _))); [discriminate|reflexivity|].
  repeat constructor.
Defined.
End RoutingWitnesses.
End AppRoutes.
